(** * School Management System: the data management layer

    A shallow embedding of [src/sms/models], [src/sms/utils/validator.py],
    [src/sms/data/dm/{memory,file,database}.py] and [src/sms/data/db/manager.py],
    and the properties of the specification that concern them.

    Python objects are compared by identity ([list.remove], aliasing of an
    [Instructor] between a [Course] and the datastore), so entities live in a
    heap and are referred to by location; the datastore dictionaries map
    identifiers to locations.  Exceptions leave the mutations made before them
    in place, so every operation is a state transformer returning either a
    value or the exception raised, together with the state reached. *)

From Stdlib Require Import ZArith Ascii DecimalString DecimalZ.
From stdpp Require Import base option list gmap strings.

Open Scope Z_scope.

(** ** Python strings *)

Module PyStr.

(** [str.isspace] on the ASCII range. *)
Definition is_space (a : ascii) : bool :=
  let n := Ascii.nat_of_ascii a in
  (Nat.leb 9 n && Nat.leb n 13) || (Nat.leb 28 n && Nat.leb n 32).

Fixpoint lstrip (s : string) : string :=
  match s with
  | EmptyString => EmptyString
  | String a s' => if is_space a then lstrip s' else s
  end.

Definition rstrip (s : string) : string := String.rev (lstrip (String.rev s)).

(** [str.strip()] *)
Definition strip (s : string) : string := rstrip (lstrip s).

Definition upper_ascii (a : ascii) : ascii :=
  let n := Ascii.nat_of_ascii a in
  if Nat.leb 97 n && Nat.leb n 122 then Ascii.ascii_of_nat (n - 32) else a.

(** [str.upper()] on ASCII text. *)
Fixpoint upper (s : string) : string :=
  match s with
  | EmptyString => EmptyString
  | String a s' => String (upper_ascii a) (upper s')
  end.

Fixpoint all_chars (p : ascii → bool) (s : string) : bool :=
  match s with
  | EmptyString => true
  | String a s' => p a && all_chars p s'
  end.

Definition is_digit (a : ascii) : bool :=
  let n := Ascii.nat_of_ascii a in Nat.leb 48 n && Nat.leb n 57.

Definition is_alpha (a : ascii) : bool :=
  let n := Ascii.nat_of_ascii a in
  (Nat.leb 65 n && Nat.leb n 90) || (Nat.leb 97 n && Nat.leb n 122).

Definition is_alnum (a : ascii) : bool := is_alpha a || is_digit a.

Definition one_of (set : string) (a : ascii) : bool :=
  bool_decide (a ∈ String.list_ascii_of_string set).

Definition truthy (s : string) : bool :=
  match s with EmptyString => false | _ => true end.

(** [str(n)] for an [int]. *)
Definition str (z : Z) : string := NilZero.string_of_int (Z.to_int z).

(** [int(s)] for a [str] of ASCII text: surrounding white space, an optional
    sign and decimal digits ([None] stands for [ValueError]).  The
    underscores that [int] allows between digits are not read: a cell that
    holds one is taken as rejected. *)
Definition int (s : string) : option Z :=
  let digits d :=
    match d with
    | EmptyString => None
    | _ => Z.of_uint <$> NilEmpty.uint_of_string d
    end in
  match strip s with
  | String "-"%char d => Z.opp <$> digits d
  | String "+"%char d => digits d
  | d => digits d
  end.

End PyStr.

(** ** Validators ([utils/validator.py]) *)

(** [check_name] and [check_email_r] choose their implementation at import
    time (the [regex] and [email_validator] packages when installed), so they
    are an interface; the other validators are fixed. *)
Class Validator := {
  check_name : string → bool;
  check_email_r : string → bool * string;
}.

Definition check_age (age : Z) : bool := (0 <=? age) && (age <=? 120).

(** [re.fullmatch(r"^\d{9}$", p_id.strip())] *)
Definition check_id (p_id : string) : bool :=
  let s := PyStr.strip p_id in
  Nat.eqb (String.length s) 9 && PyStr.all_chars PyStr.is_digit s.

(** [re.fullmatch(r"^[a-zA-Z]{4}\d{3}[a-zA-Z]?$", c_id.strip())] *)
Definition check_course_id (c_id : string) : bool :=
  match PyStr.strip c_id with
  | String a (String b (String c (String d (String x (String y (String z tl)))))) =>
      PyStr.is_alpha a && PyStr.is_alpha b && PyStr.is_alpha c && PyStr.is_alpha d
      && PyStr.is_digit x && PyStr.is_digit y && PyStr.is_digit z
      && match tl with
         | EmptyString => true
         | String l EmptyString => PyStr.is_alpha l
         | _ => false
         end
  | _ => false
  end.

(** [3 < len(name.strip()) <= 100] and
    [re.fullmatch(r"^[a-zA-Z0-9 '.,:&()/-]+$", name.strip())] *)
Definition check_course_name (name : string) : bool :=
  let s := PyStr.strip name in
  Nat.ltb 3 (String.length s) && Nat.leb (String.length s) 100
  && PyStr.all_chars (λ a, PyStr.is_alnum a || PyStr.one_of " '.,:&()/-" a) s.

(** The fall-backs used when neither optional package is installed. *)
Module Fallback.

(** [re.fullmatch(r"^[a-zA-Z' .-]+$", name.strip())] *)
Definition check_name (name : string) : bool :=
  let s := PyStr.strip name in
  PyStr.truthy s && PyStr.all_chars (λ a, PyStr.is_alpha a || PyStr.one_of "' .-" a) s.

Fixpoint split_at (c : ascii) (s : string) : option (string * string) :=
  match s with
  | EmptyString => None
  | String a s' =>
      if Ascii.eqb a c then Some (EmptyString, s')
      else '(l, r) ← split_at c s'; Some (String a l, r)
  end.

(** [re.fullmatch(r"(^[a-zA-Z0-9_.+-]+@[a-zA-Z0-9-]+\.[a-zA-Z0-9-.]+$)", email.strip())] *)
Definition check_email_r (email : string) : bool * string :=
  let ok :=
    match split_at "@"%char (PyStr.strip email) with
    | Some (loc, dom) =>
        PyStr.truthy loc
        && PyStr.all_chars (λ a, PyStr.is_alnum a || PyStr.one_of "_.+-" a) loc
        && match split_at "."%char dom with
           | Some (host, tld) =>
               PyStr.truthy host
               && PyStr.all_chars (λ a, PyStr.is_alnum a || PyStr.one_of "-" a) host
               && PyStr.truthy tld
               && PyStr.all_chars (λ a, PyStr.is_alnum a || PyStr.one_of "-." a) tld
           | None => false
           end
    | None => false
    end in
  (ok, EmptyString).

Definition validator : Validator :=
  Build_Validator check_name check_email_r.

End Fallback.

(** ** Exceptions and the state-and-exception monad *)

Inductive entity := EStudent | EInstructor | ECourse.

(** The cause carried by a [DataError]: the message of the [raise] site. *)
Inductive cause :=
| AlreadyExists (kind : entity) (id : string)  (* "... with ID '...' already exists." *)
| NotFound (kind : entity) (id : string)       (* "... with ID '...' not found." *)
| DoesNotExist (kind : entity) (id : string)   (* "... with ID '...' does not exist." *)
| IdRequired (kind : entity)                   (* "... ID is required." *)
| FromValueError (msg : string)                (* [DataError(e)] for a [ValueError] *)
| FromSqlite (msg : string).                   (* [DataError(e)] for a [sqlite3.Error] *)

Inductive exn :=
| ValueError (msg : string)
| KeyError (key : string)
| AttributeError
| FileNotFoundError
| OverflowError                                (* an [int] that SQLite cannot hold *)
| IntegrityError (msg : string)                (* [sqlite3.IntegrityError] *)
| DataError (c : cause).

Inductive result (A : Type) :=
| Ok (a : A)
| Raise (e : exn).
Arguments Ok {A} a.
Arguments Raise {A} e.

Definition M (S A : Type) : Type := S → result A * S.

Definition ret {S A} (a : A) : M S A := λ s, (Ok a, s).
Definition raise {S A} (e : exn) : M S A := λ s, (Raise e, s).
Definition bind {S A B} (m : M S A) (k : A → M S B) : M S B :=
  λ s, match m s with
       | (Ok a, s') => k a s'
       | (Raise e, s') => (Raise e, s')
       end.
Definition gets {S A} (f : S → A) : M S A := λ s, (Ok (f s), s).
Definition modify {S} (f : S → S) : M S unit := λ s, (Ok tt, f s).

(** [try: m except ...: h e]; [h] answers [None] for an exception that the
    handler's clauses do not match. *)
Definition try_except {S A} (m : M S A) (h : exn → option (M S A)) : M S A :=
  λ s, match m s with
       | (Ok a, s') => (Ok a, s')
       | (Raise e, s') =>
           match h e with
           | Some k => k s'
           | None => (Raise e, s')
           end
       end.

Notation "'let!' x ':=' m 'in' k" := (bind m (λ x, k))
  (at level 10, x pattern, m at level 100, k at level 200).
Notation "m '>>' k" := (bind m (λ _, k))
  (at level 100, k at level 200, right associativity).

(** [for x in xs: body x] *)
Fixpoint for_each {S A} (xs : list A) (body : A → M S unit) : M S unit :=
  match xs with
  | [] => ret tt
  | x :: xs' => body x >> for_each xs' body
  end.

Definition when {S} (b : bool) (m : M S unit) : M S unit :=
  if b then m else ret tt.

(** Run a computation on a component of the state. *)
Definition zoom {S T A} (get : S → T) (set : T → S → S) (m : M T A) : M S A :=
  λ s, let '(r, t) := m (get s) in (r, set t s).

(** ** The object heap and the entity models ([models/]) *)

(** Locations are indices into the heap's object lists. *)
Abbreviation loc := nat (only parsing).

Record Person := mkPerson { name : string; age : Z; _email : string }.

Record Student := mkStudent {
  student_person : Person;
  student_id : string;
  registered_courses : list loc;        (* locations of [Course] objects *)
}.

Record Instructor := mkInstructor {
  instructor_person : Person;
  instructor_id : string;
  assigned_courses : list loc;          (* locations of [Course] objects *)
}.

Record Course := mkCourse {
  course_id : string;
  course_name : string;
  instructor : loc;                     (* location of an [Instructor] object *)
  enrolled_students : list loc;         (* locations of [Student] objects *)
}.

Record Heap := mkHeap {
  student_objs : list Student;
  instructor_objs : list Instructor;
  course_objs : list Course;
}.

Definition empty_heap : Heap := mkHeap [] [] [].

Definition set_student_objs (f : list Student → list Student) (h : Heap) : Heap :=
  mkHeap (f (student_objs h)) (instructor_objs h) (course_objs h).
Definition set_instructor_objs (f : list Instructor → list Instructor) (h : Heap) : Heap :=
  mkHeap (student_objs h) (f (instructor_objs h)) (course_objs h).
Definition set_course_objs (f : list Course → list Course) (h : Heap) : Heap :=
  mkHeap (student_objs h) (instructor_objs h) (f (course_objs h)).

(** Reading through a reference.  A Python reference always denotes an
    object; a location outside the heap has no counterpart in the source and
    is answered with [AttributeError]. *)
Definition deref {A} (objs : Heap → list A) (l : loc) : M Heap A :=
  λ h, match objs h !! l with
       | Some o => (Ok o, h)
       | None => (Raise AttributeError, h)
       end.

Definition new_student (s : Student) : M Heap loc :=
  λ h, (Ok (length (student_objs h)), set_student_objs (λ os, os ++ [s]) h).
Definition new_instructor (i : Instructor) : M Heap loc :=
  λ h, (Ok (length (instructor_objs h)), set_instructor_objs (λ os, os ++ [i]) h).
Definition new_course (c : Course) : M Heap loc :=
  λ h, (Ok (length (course_objs h)), set_course_objs (λ os, os ++ [c]) h).

Definition store_student (l : loc) (s : Student) : M Heap unit :=
  modify (set_student_objs (λ os, <[l:=s]> os)).
Definition store_instructor (l : loc) (i : Instructor) : M Heap unit :=
  modify (set_instructor_objs (λ os, <[l:=i]> os)).
Definition store_course (l : loc) (c : Course) : M Heap unit :=
  modify (set_course_objs (λ os, <[l:=c]> os)).

(** [{c.course_id for c in courses}] and [{s.student_id for s in students}] *)
Definition course_ids (h : Heap) (ls : list loc) : list string :=
  omap (λ l, course_id <$> course_objs h !! l) ls.
Definition student_ids (h : Heap) (ls : list loc) : list string :=
  omap (λ l, student_id <$> student_objs h !! l) ls.

(** [list.remove(x)]: drops the first occurrence, [ValueError] when absent. *)
Fixpoint list_remove (x : loc) (l : list loc) : option (list loc) :=
  match l with
  | [] => None
  | y :: l' => if decide (y = x) then Some l' else (y ::.) <$> list_remove x l'
  end.

(** Keyword arguments of [Person.update]; an absent key reads as [None]. *)
Record PersonKwargs := mkPersonKwargs {
  kw_name : option string;
  kw_age : option Z;
  kw_email : option string;
}.

Definition truthy_str (o : option string) : option string :=
  match o with
  | Some s => if PyStr.truthy s then Some s else None
  | None => None
  end.

Definition truthy_int (o : option Z) : option Z :=
  match o with
  | Some z => if Z.eqb z 0 then None else Some z
  | None => None
  end.

Section Models.
Context `{Validator}.

Definition invalid_email (reason : string) : exn :=
  ValueError ("Invalid Email Address" +:+
              (if PyStr.truthy reason then ": " +:+ reason else ".")).

(** [Person.__init__] *)
Definition Person_init (name : string) (age : Z) (email : string) : result Person :=
  if negb (check_name (PyStr.strip name)) then Raise (ValueError "Invalid Name.")
  else if negb (check_age age) then Raise (ValueError "Invalid Age.")
  else
    let em := check_email_r (PyStr.strip email) in
    if negb em.1 then Raise (invalid_email em.2)
    else Ok (mkPerson (PyStr.strip name) age (PyStr.strip email)).

(** [Person.update], on the fields of the object it is called on. *)
Definition Person_update (kw : PersonKwargs) : M Person unit :=
  (match truthy_str (kw_name kw) with
   | Some name =>
       if negb (check_name (PyStr.strip name)) then raise (ValueError "Invalid Name.")
       else modify (λ p, mkPerson (PyStr.strip name) (age p) (_email p))
   | None => ret tt
   end) >>
  (match truthy_int (kw_age kw) with
   | Some age =>
       if negb (check_age age) then raise (ValueError "Invalid Age.")
       else modify (λ p, mkPerson (name p) age (_email p))
   | None => ret tt
   end) >>
  (match truthy_str (kw_email kw) with
   | Some email =>
       let em := check_email_r (PyStr.strip email) in
       if negb em.1 then raise (invalid_email em.2)
       else modify (λ p, mkPerson (name p) (age p) (PyStr.strip email))
   | None => ret tt
   end).

(** [Student.__init__]; the object gets its location when it is first
    stored, as nothing can refer to it before. *)
Definition Student_init (name : string) (age : Z) (email sid : string) : result Student :=
  match Person_init name age email with
  | Raise e => Raise e
  | Ok p =>
      if negb (check_id (PyStr.strip sid)) then Raise (ValueError "Invalid Student ID.")
      else Ok (mkStudent p (PyStr.strip sid) [])
  end.

(** [Instructor.__init__]; the identifier is stored as given. *)
Definition Instructor_init (name : string) (age : Z) (email iid : string)
  : result Instructor :=
  match Person_init name age email with
  | Raise e => Raise e
  | Ok p =>
      if negb (check_id (PyStr.strip iid)) then Raise (ValueError "Invalid Instructor ID.")
      else Ok (mkInstructor p iid [])
  end.

Definition lift_result {S A} (r : result A) : M S A := λ s, (r, s).

(** [Student.update] and [Instructor.update] are [Person.update]. *)
Definition Student_update (l : loc) (kw : PersonKwargs) : M Heap unit :=
  let! s := deref student_objs l in
  λ h, let '(r, p) := Person_update kw (student_person s) in
       (r, set_student_objs
             (λ os, <[l:=mkStudent p (student_id s) (registered_courses s)]> os) h).

Definition Instructor_update (l : loc) (kw : PersonKwargs) : M Heap unit :=
  let! i := deref instructor_objs l in
  λ h, let '(r, p) := Person_update kw (instructor_person i) in
       (r, set_instructor_objs
             (λ os, <[l:=mkInstructor p (instructor_id i) (assigned_courses i)]> os) h).

(** [Instructor.assign_course] *)
Definition assign_course (self course : loc) : M Heap unit :=
  let! i := deref instructor_objs self in
  let! c := deref course_objs course in
  let! ids := gets (λ h, course_ids h (assigned_courses i)) in
  when (bool_decide (course_id c ∉ ids))
    (store_instructor self
       (mkInstructor (instructor_person i) (instructor_id i)
                     (assigned_courses i ++ [course]))).

(** [Course.add_student] *)
Definition add_student (self student : loc) : M Heap unit :=
  let! c := deref course_objs self in
  let! s := deref student_objs student in
  let! ids := gets (λ h, student_ids h (enrolled_students c)) in
  when (bool_decide (student_id s ∉ ids))
    (store_course self
       (mkCourse (course_id c) (course_name c) (instructor c)
                 (enrolled_students c ++ [student]))).

(** [Student.register_course] *)
Definition register_course (self course : loc) : M Heap unit :=
  let! s := deref student_objs self in
  let! c := deref course_objs course in
  let! ids := gets (λ h, course_ids h (registered_courses s)) in
  when (bool_decide (course_id c ∉ ids))
    (store_student self
       (mkStudent (student_person s) (student_id s)
                  (registered_courses s ++ [course])) >>
     add_student course self).

(** [Course.__init__]: validates, then registers the new object with its
    instructor. *)
Definition Course_init (cid cname : string) (instr : loc) : M Heap loc :=
  if negb (check_course_id (PyStr.strip cid)) then raise (ValueError "Invalid Course ID.")
  else if negb (check_course_name (PyStr.strip cname))
  then raise (ValueError "Invalid Course Name.")
  else
    let! self := new_course (mkCourse (PyStr.upper (PyStr.strip cid)) cname instr []) in
    assign_course instr self >>
    ret self.

(** Keyword arguments of [Course.update]. *)
Record CourseKwargs := mkCourseKwargs {
  kw_course_id : option string;
  kw_course_name : option string;
  kw_instructor : option loc;
}.

(** [Course.update] *)
Definition Course_update (self : loc) (kw : CourseKwargs) : M Heap unit :=
  (match truthy_str (kw_course_name kw) with
   | Some cname =>
       if negb (check_course_name (PyStr.strip cname))
       then raise (ValueError "Invalid Course Name.")
       else
         let! c := deref course_objs self in
         store_course self
           (mkCourse (course_id c) (PyStr.strip cname) (instructor c) (enrolled_students c))
   | None => ret tt
   end) >>
  (match kw_instructor kw with
   | Some instr =>
       let! c := deref course_objs self in
       store_course self
         (mkCourse (course_id c) (course_name c) instr (enrolled_students c))
   | None => ret tt
   end).

End Models.

(** ** The datastore ([data/dm/file.py]) *)

(** The three dictionaries of a [FileManager]. *)
Record FileManager := mkFileManager {
  students : gmap string loc;
  instructors : gmap string loc;
  courses : gmap string loc;
}.

Definition empty_file_manager : FileManager := mkFileManager ∅ ∅ ∅.

(** The process state seen by the in-memory manager: the heap and the
    module-level [datastore]. *)
Record Mem := mkMem { heap : Heap; datastore : FileManager }.

Definition in_heap {A} (m : M Heap A) : M Mem A :=
  zoom heap (λ h s, mkMem h (datastore s)) m.

Definition set_students (f : gmap string loc → gmap string loc) (s : Mem) : Mem :=
  mkMem (heap s) (mkFileManager (f (students (datastore s)))
                                (instructors (datastore s)) (courses (datastore s))).
Definition set_instructors (f : gmap string loc → gmap string loc) (s : Mem) : Mem :=
  mkMem (heap s) (mkFileManager (students (datastore s))
                                (f (instructors (datastore s))) (courses (datastore s))).
Definition set_courses (f : gmap string loc → gmap string loc) (s : Mem) : Mem :=
  mkMem (heap s) (mkFileManager (students (datastore s))
                                (instructors (datastore s)) (f (courses (datastore s)))).

(** [except ValueError as e: raise DataError(e)]; [DataError] is itself a
    subclass of [ValueError]. *)
Definition value_error_to_data_error {S A} (e : exn) : option (M S A) :=
  match e with
  | ValueError msg => Some (raise (DataError (FromValueError msg)))
  | DataError c => Some (raise (DataError c))
  | _ => None
  end.

Definition list_remove_error : exn := ValueError "list.remove(x): x not in list".


(** ** Serialization ([data/dm/file.py]) *)

(** A parsed JSON document with the shape written by [save_to_json].  A key
    that is absent from an object reads as [None]; values have the types the
    exporter writes. *)
Record StudentJson := mkStudentJson {
  sj_name : option string;
  sj_age : option Z;
  sj_email : option string;
  sj_student_id : option string;
  sj_registered_courses : option (list string);
}.

Record InstructorJson := mkInstructorJson {
  ij_name : option string;
  ij_age : option Z;
  ij_email : option string;
  ij_instructor_id : option string;
  ij_assigned_courses : option (list string);
}.

Record CourseJson := mkCourseJson {
  cj_course_id : option string;
  cj_course_name : option string;
  cj_instructor_id : option string;
  cj_enrolled_students : option (list string);
}.

Record JsonDoc := mkJsonDoc {
  doc_students : option (list StudentJson);
  doc_instructors : option (list InstructorJson);
  doc_courses : option (list CourseJson);
}.

(** What [open] followed by [json.load] finds at a path: no file, a text
    that [json.load] rejects, or a document.  (A file that cannot be opened
    or decoded for another reason raises an exception that [load_from_json]
    does not handle; such files are not among the cases.) *)
Inductive JsonFile :=
| JsonMissing                 (* [FileNotFoundError] *)
| JsonInvalid                 (* [json.JSONDecodeError] *)
| JsonData (d : JsonDoc).

(** The rows of the four CSV files under their header, as lists of cells:
    what [csv.DictReader] yields when a file is read, and what [csv.writer] is
    handed when it is written; [None] is a file that does not exist.  The
    two differ for a file that [save_to_csv] wrote and [load_from_csv] reads
    ([read_back] below). *)
Record PersonRow := mkPersonRow {
  row_name : string; row_age : string; row_email : string; row_id : string;
}.

Record CourseRow := mkCourseRow {
  row_course_id : string; row_course_name : string; row_instructor_id : string;
}.

Record CsvDir := mkCsvDir {
  instructors_csv : option (list PersonRow);
  students_csv : option (list PersonRow);
  courses_csv : option (list CourseRow);
  enrollments_csv : option (list (string * string));   (* student_id, course_id *)
}.

(** [save_to_csv] opens its files with [newline=''], so the text of a cell
    reaches the file as it is (quoted when it holds a line break);
    [load_from_csv] opens them with [open(path, 'r')], the text mode that
    translates newlines: every carriage return followed by a line feed, and
    every other carriage return, is read as one line feed, inside quoted
    cells too. *)
Fixpoint universal_newlines (s : string) : string :=
  match s with
  | EmptyString => EmptyString
  | String a s' =>
      if Ascii.eqb a "013"
      then String "010"
             match s' with
             | String b s'' => if Ascii.eqb b "010" then universal_newlines s''
                               else universal_newlines s'
             | EmptyString => EmptyString
             end
      else String a (universal_newlines s')
  end.

Definition read_back_person (r : PersonRow) : PersonRow :=
  mkPersonRow (universal_newlines (row_name r)) (universal_newlines (row_age r))
              (universal_newlines (row_email r)) (universal_newlines (row_id r)).

Definition read_back_course (r : CourseRow) : CourseRow :=
  mkCourseRow (universal_newlines (row_course_id r)) (universal_newlines (row_course_name r))
              (universal_newlines (row_instructor_id r)).

(** The rows that [csv.DictReader] yields in [load_from_csv] for the files
    in which [save_to_csv] wrote the rows [dir]. *)
Definition read_back (dir : CsvDir) : CsvDir :=
  let cells {A} (f : A → A) (file : option (list A)) : option (list A) :=
    match file with
    | Some rows => Some (f <$> rows)
    | None => None
    end in
  mkCsvDir (cells read_back_person (instructors_csv dir))
           (cells read_back_person (students_csv dir))
           (cells read_back_course (courses_csv dir))
           (cells (λ e, (universal_newlines e.1, universal_newlines e.2))
                  (enrollments_csv dir)).






(** [d[key]] on a JSON object. *)
Definition item {S A} (key : string) (o : option A) : M S A :=
  match o with
  | Some a => ret a
  | None => raise (KeyError key)
  end.

(** [open(path, 'r')] *)
Definition open_file {S A} (f : option A) : M S A :=
  match f with
  | Some rows => ret rows
  | None => raise FileNotFoundError
  end.

(** [[f(x) for x in xs]] *)
Fixpoint list_comp {S A B} (xs : list A) (f : A → M S B) : M S (list B) :=
  match xs with
  | [] => ret []
  | x :: xs' => let! y := f x in let! ys := list_comp xs' f in ret (y :: ys)
  end.

(** [Student.to_dict], [Instructor.to_dict], [Course.to_dict] *)
Definition Student_to_dict (s : Student) : M Heap StudentJson :=
  let! ids := list_comp (registered_courses s)
                        (λ l, let! c := deref course_objs l in ret (course_id c)) in
  ret (mkStudentJson (Some (name (student_person s))) (Some (age (student_person s)))
                     (Some (_email (student_person s))) (Some (student_id s)) (Some ids)).

Definition Instructor_to_dict (i : Instructor) : M Heap InstructorJson :=
  let! ids := list_comp (assigned_courses i)
                        (λ l, let! c := deref course_objs l in ret (course_id c)) in
  ret (mkInstructorJson (Some (name (instructor_person i))) (Some (age (instructor_person i)))
                        (Some (_email (instructor_person i))) (Some (instructor_id i))
                        (Some ids)).

Definition Course_to_dict (c : Course) : M Heap CourseJson :=
  let! i := deref instructor_objs (instructor c) in
  let! ids := list_comp (enrolled_students c)
                        (λ l, let! s := deref student_objs l in ret (student_id s)) in
  ret (mkCourseJson (Some (course_id c)) (Some (course_name c)) (Some (instructor_id i))
                    (Some ids)).

(** [to_row] of the three models. *)
Definition Student_to_row (s : Student) : PersonRow :=
  mkPersonRow (name (student_person s)) (PyStr.str (age (student_person s)))
              (_email (student_person s)) (student_id s).

Definition Instructor_to_row (i : Instructor) : PersonRow :=
  mkPersonRow (name (instructor_person i)) (PyStr.str (age (instructor_person i)))
              (_email (instructor_person i)) (instructor_id i).

Definition Course_to_row (c : Course) : M Heap CourseRow :=
  let! i := deref instructor_objs (instructor c) in
  ret (mkCourseRow (course_id c) (course_name c) (instructor_id i)).

Definition clear_all : M Mem unit :=
  modify (λ m, mkMem (heap m) empty_file_manager).

Definition int_of_cell {S} (cell : string) : M S Z :=
  match PyStr.int cell with
  | Some z => ret z
  | None => raise (ValueError ("invalid literal for int() with base 10: " +:+ cell))
  end.

Module FileManager.
Section FileManager.
Context `{Validator}.

(** [dict.values()] of the three dictionaries. *)
Definition student_values (m : Mem) : list loc := (map_to_list (students (datastore m))).*2.
Definition instructor_values (m : Mem) : list loc :=
  (map_to_list (instructors (datastore m))).*2.
Definition course_values (m : Mem) : list loc := (map_to_list (courses (datastore m))).*2.

(** [save_to_json]: the document handed to [json.dump]. *)
Definition save_to_json : M Mem JsonDoc :=
  let! svals := gets student_values in
  let! sdicts := list_comp svals (λ l, in_heap (let! s := deref student_objs l in
                                               Student_to_dict s)) in
  let! ivals := gets instructor_values in
  let! idicts := list_comp ivals (λ l, in_heap (let! i := deref instructor_objs l in
                                               Instructor_to_dict i)) in
  let! cvals := gets course_values in
  let! cdicts := list_comp cvals (λ l, in_heap (let! c := deref course_objs l in
                                               Course_to_dict c)) in
  ret (mkJsonDoc (Some sdicts) (Some idicts) (Some cdicts)).

(** [load_from_json] *)
Definition load_from_json (file : JsonFile) : M Mem unit :=
  clear_all >>
  match file with
  | JsonMissing => ret tt        (* logged, then [return] *)
  | JsonInvalid => ret tt        (* logged, then [return] *)
  | JsonData data =>
      (let! entries := item "instructors" (doc_instructors data) in
       for_each entries (λ i_data,
         let! iid := item "instructor_id" (ij_instructor_id i_data) in
         let! name := item "name" (ij_name i_data) in
         let! age := item "age" (ij_age i_data) in
         let! email := item "email" (ij_email i_data) in
         let! i := lift_result (Instructor_init name age email iid) in
         let! l := in_heap (new_instructor i) in
         modify (set_instructors <[iid := l]>))) >>
      (let! entries := item "students" (doc_students data) in
       for_each entries (λ s_data,
         let! sid := item "student_id" (sj_student_id s_data) in
         let! name := item "name" (sj_name s_data) in
         let! age := item "age" (sj_age s_data) in
         let! email := item "email" (sj_email s_data) in
         let! s := lift_result (Student_init name age email sid) in
         let! l := in_heap (new_student s) in
         modify (set_students <[sid := l]>))) >>
      (let! entries := item "courses" (doc_courses data) in
       for_each entries (λ c_data,
         let! cid := item "course_id" (cj_course_id c_data) in
         let! iid := item "instructor_id" (cj_instructor_id c_data) in
         let! instr := gets (λ m, instructors (datastore m) !! iid) in
         match instr with
         | Some li =>
             let! cname := item "course_name" (cj_course_name c_data) in
             let! l := in_heap (Course_init cid cname li) in
             modify (set_courses <[cid := l]>)
         | None => ret tt
         end)) >>
      (* link courses to students *)
      (let! entries := item "students" (doc_students data) in
       for_each entries (λ s_data,
         let! sid := item "student_id" (sj_student_id s_data) in
         let! student := gets (λ m, students (datastore m) !! sid) in
         let! ls := item sid student in
         let! regs := item "registered_courses" (sj_registered_courses s_data) in
         for_each regs (λ cid,
           let! course := gets (λ m, courses (datastore m) !! cid) in
           match course with
           | Some lc => in_heap (register_course ls lc)
           | None => ret tt
           end)))
  end.

(** [save_to_csv]: the rows handed to the four [csv.writer]s. *)
Definition save_to_csv : M Mem CsvDir :=
  let! ivals := gets instructor_values in
  let! irows := list_comp ivals (λ l, in_heap (let! i := deref instructor_objs l in
                                              ret (Instructor_to_row i))) in
  let! svals := gets student_values in
  let! srows := list_comp svals (λ l, in_heap (let! s := deref student_objs l in
                                              ret (Student_to_row s))) in
  let! cvals := gets course_values in
  let! crows := list_comp cvals (λ l, in_heap (let! c := deref course_objs l in
                                              Course_to_row c)) in
  let! erows := list_comp svals (λ l, in_heap (
                  let! s := deref student_objs l in
                  list_comp (registered_courses s) (λ lc,
                    let! c := deref course_objs lc in ret (student_id s, course_id c)))) in
  ret (mkCsvDir (Some irows) (Some srows) (Some crows) (Some (concat erows))).

(** [load_from_csv] *)
Definition load_from_csv (dir : CsvDir) : M Mem unit :=
  clear_all >>
  try_except
    ((let! rows := open_file (instructors_csv dir) in
      for_each rows (λ row,
        let! age := int_of_cell (row_age row) in
        let! i := lift_result (Instructor_init (row_name row) age (row_email row)
                                               (row_id row)) in
        let! l := in_heap (new_instructor i) in
        modify (set_instructors <[row_id row := l]>))) >>
     (let! rows := open_file (students_csv dir) in
      for_each rows (λ row,
        let! age := int_of_cell (row_age row) in
        let! s := lift_result (Student_init (row_name row) age (row_email row)
                                            (row_id row)) in
        let! l := in_heap (new_student s) in
        modify (set_students <[row_id row := l]>))) >>
     (let! rows := open_file (courses_csv dir) in
      for_each rows (λ row,
        let! instr := gets (λ m, instructors (datastore m) !! row_instructor_id row) in
        match instr with
        | Some li =>
            let! l := in_heap (Course_init (row_course_id row) (row_course_name row) li) in
            modify (set_courses <[row_course_id row := l]>)
        | None => ret tt
        end)) >>
     (let! rows := open_file (enrollments_csv dir) in
      for_each rows (λ '(sid, cid),
        let! student := gets (λ m, students (datastore m) !! sid) in
        let! course := gets (λ m, courses (datastore m) !! cid) in
        match student, course with
        | Some ls, Some lc => in_heap (register_course ls lc)
        | _, _ => ret tt
        end)))
    (λ e, match e with
          | FileNotFoundError => Some clear_all     (* logged, cleared, then [return] *)
          | _ => None
          end).

End FileManager.
End FileManager.

(** ** The in-memory manager ([data/dm/memory.py]) *)

Module MemoryDataManager.
Section MemoryDataManager.
Context `{Validator}.

Definition add_student (name : string) (age : Z) (email sid : string)
  : M Mem unit :=
  let! s := try_except (lift_result (Student_init name age email sid))
                       value_error_to_data_error in
  let! present := gets (λ m, bool_decide (is_Some (students (datastore m) !! student_id s))) in
  if present : bool then raise (DataError (AlreadyExists EStudent (student_id s)))
  else
    let! l := in_heap (new_student s) in
    modify (set_students <[student_id s := l]>).

Definition edit_student (sid : option string) (kw : PersonKwargs) : M Mem unit :=
  match truthy_str sid with
  | None => raise (DataError (IdRequired EStudent))
  | Some sid =>
      let! entry := gets (λ m, students (datastore m) !! sid) in
      match entry with
      | None => raise (DataError (NotFound EStudent sid))
      | Some l => try_except (in_heap (Student_update l kw)) value_error_to_data_error
      end
  end.

Definition remove_student (sid : string) : M Mem unit :=
  let! entry := gets (λ m, students (datastore m) !! sid) in
  match entry with
  | None => raise (DataError (DoesNotExist EStudent sid))
  | Some _ => modify (set_students (delete sid))
  end.

Definition get_student (sid : string) : M Mem loc :=
  let! entry := gets (λ m, students (datastore m) !! sid) in
  match entry with
  | None => raise (DataError (NotFound EStudent sid))
  | Some l => ret l
  end.

Definition get_students : M Mem (list loc) :=
  gets (λ m, (map_to_list (students (datastore m))).*2).

Definition add_instructor (name : string) (age : Z) (email iid : string)
  : M Mem unit :=
  let! i := try_except (lift_result (Instructor_init name age email iid))
                       value_error_to_data_error in
  let! present :=
    gets (λ m, bool_decide (is_Some (instructors (datastore m) !! instructor_id i))) in
  if present : bool then raise (DataError (AlreadyExists EInstructor (instructor_id i)))
  else
    let! l := in_heap (new_instructor i) in
    modify (set_instructors <[instructor_id i := l]>).

Definition edit_instructor (iid : option string) (kw : PersonKwargs)
  : M Mem unit :=
  match truthy_str iid with
  | None => raise (DataError (IdRequired EInstructor))
  | Some iid =>
      let! entry := gets (λ m, instructors (datastore m) !! iid) in
      match entry with
      | None => raise (DataError (NotFound EInstructor iid))
      | Some l => try_except (in_heap (Instructor_update l kw)) value_error_to_data_error
      end
  end.

Definition remove_instructor (iid : string) : M Mem unit :=
  let! entry := gets (λ m, instructors (datastore m) !! iid) in
  match entry with
  | None => raise (DataError (DoesNotExist EInstructor iid))
  | Some _ => modify (set_instructors (delete iid))
  end.

Definition get_instructor (iid : string) : M Mem loc :=
  let! entry := gets (λ m, instructors (datastore m) !! iid) in
  match entry with
  | None => raise (DataError (NotFound EInstructor iid))
  | Some l => ret l
  end.

Definition get_instructors : M Mem (list loc) :=
  gets (λ m, (map_to_list (instructors (datastore m))).*2).

(** The [Course] is constructed, and so assigned to its instructor, before
    the identifier is looked up. *)
Definition add_course (cid cname : string) (instr : loc) : M Mem unit :=
  let! l := try_except (in_heap (Course_init cid cname instr))
                       value_error_to_data_error in
  let! c := in_heap (deref course_objs l) in
  let! present :=
    gets (λ m, bool_decide (is_Some (courses (datastore m) !! course_id c))) in
  if present : bool then raise (DataError (AlreadyExists ECourse (course_id c)))
  else modify (set_courses <[course_id c := l]>).

Definition edit_course (kw : CourseKwargs) : M Mem unit :=
  match truthy_str (kw_course_id kw) with
  | None => raise (DataError (IdRequired ECourse))
  | Some cid =>
      let! entry := gets (λ m, courses (datastore m) !! cid) in
      match entry with
      | None => raise (DataError (NotFound ECourse cid))
      | Some l => try_except (in_heap (Course_update l kw)) value_error_to_data_error
      end
  end.

Definition remove_course (cid : string) : M Mem unit :=
  let! entry := gets (λ m, courses (datastore m) !! cid) in
  match entry with
  | None => raise (DataError (DoesNotExist ECourse cid))
  | Some lc =>
      let! c := in_heap (deref course_objs lc) in
      (* c.instructor.assigned_courses.remove(c) *)
      (let! i := in_heap (deref instructor_objs (instructor c)) in
       match list_remove lc (assigned_courses i) with
       | None => raise list_remove_error
       | Some rest =>
           in_heap (store_instructor (instructor c)
                      (mkInstructor (instructor_person i) (instructor_id i) rest))
       end) >>
      (* for student in c.enrolled_students: student.registered_courses.remove(c) *)
      for_each (enrolled_students c) (λ ls,
        let! s := in_heap (deref student_objs ls) in
        match list_remove lc (registered_courses s) with
        | None => raise list_remove_error
        | Some rest =>
            in_heap (store_student ls
                       (mkStudent (student_person s) (student_id s) rest))
        end) >>
      modify (set_courses (delete cid))
  end.

Definition get_course (cid : string) : M Mem loc :=
  let! entry := gets (λ m, courses (datastore m) !! cid) in
  match entry with
  | None => raise (DataError (NotFound ECourse cid))
  | Some l => ret l
  end.

Definition get_courses : M Mem (list loc) :=
  gets (λ m, (map_to_list (courses (datastore m))).*2).

Definition enroll_student (sid cid : string) : M Mem unit :=
  let! s := gets (λ m, students (datastore m) !! sid) in
  match s with
  | None => raise (DataError (NotFound EStudent sid))
  | Some ls =>
      let! c := gets (λ m, courses (datastore m) !! cid) in
      match c with
      | None => raise (DataError (NotFound ECourse cid))
      | Some lc => in_heap (register_course ls lc)
      end
  end.

(** The four bulk operations delegate to the [datastore]. *)
Definition data_to_json : M Mem JsonDoc := FileManager.save_to_json.
Definition data_from_json (file : JsonFile) : M Mem unit := FileManager.load_from_json file.
Definition data_to_csv : M Mem CsvDir := FileManager.save_to_csv.
Definition data_from_csv (dir : CsvDir) : M Mem unit := FileManager.load_from_csv dir.

End MemoryDataManager.
End MemoryDataManager.

(** ** The relational store ([data/db/contract.py], [data/db/manager.py]) *)

(** Rows in column order: [students] and [instructors] are
    [(name, age, email, id)], [courses] is
    [(course_id, course_name, instructor_id)], [enrollments] is
    [(student_id, course_id)].  Tables keep their rows in insertion order. *)
Definition person_row : Type := string * Z * string * string.
Definition course_row : Type := string * string * string.
Definition joined_course_row : Type := string * string * string * string * Z * string.

Record Tables := mkTables {
  students_t : list person_row;
  instructors_t : list person_row;
  courses_t : list course_row;
  enrollments_t : list (string * string);
}.

Definition empty_tables : Tables := mkTables [] [] [] [].

Definition person_row_id (r : person_row) : string := r.2.
Definition course_row_id (r : course_row) : string := r.1.1.
Definition course_row_instructor (r : course_row) : string := r.2.

Definition unique_failed (column : string) : exn :=
  IntegrityError ("UNIQUE constraint failed: " +:+ column).
Definition foreign_key_failed : exn := IntegrityError "FOREIGN KEY constraint failed".

(** SQLite stores integers in 64 bits: [execute] refuses to bind a Python
    [int] outside that range, with [OverflowError] ("Python int too large to
    convert to SQLite INTEGER"), before the statement runs.  The exception is
    not a [sqlite3.Error]. *)
Definition sqlite_integer (z : Z) : bool :=
  (-9223372036854775808 <=? z) && (z <=? 9223372036854775807).

Module DatabaseManager.

Definition find_person (id : string) (rows : list person_row) : option person_row :=
  list_find (λ r, person_row_id r = id) rows ≫= λ x, Some x.2.

Definition find_course (id : string) (rows : list course_row) : option course_row :=
  list_find (λ r, course_row_id r = id) rows ≫= λ x, Some x.2.

(** [INSERT INTO students ...]; the primary key must be new. *)
Definition add_student (student_id name : string) (age : Z) (email : string)
  : M Tables bool :=
  if negb (sqlite_integer age) then raise OverflowError
  else
    λ t, match find_person student_id (students_t t) with
         | Some _ => (Raise (unique_failed "students.student_id"), t)
         | None =>
             (Ok true, mkTables (students_t t ++ [(name, age, email, student_id)])
                                (instructors_t t) (courses_t t) (enrollments_t t))
         end.

(** [SELECT * FROM students WHERE student_id = ?] *)
Definition get_student (student_id : string) : M Tables (option person_row) :=
  gets (λ t, find_person student_id (students_t t)).

Definition get_all_students : M Tables (list person_row) := gets students_t.

(** The [SET] clause built from the allowed keyword arguments. *)
Definition set_person_fields (kw : PersonKwargs) (r : person_row) : person_row :=
  let '(name, age, email, id) := r in
  (default name (kw_name kw), default age (kw_age kw), default email (kw_email kw), id).

Definition no_person_fields (kw : PersonKwargs) : bool :=
  match kw_name kw, kw_age kw, kw_email kw with
  | None, None, None => true
  | _, _, _ => false
  end.

(** The values of the [SET] clause can be bound. *)
Definition binds_age (kw : PersonKwargs) : bool :=
  match kw_age kw with
  | Some age => sqlite_integer age
  | None => true
  end.

Definition update_person (id : string) (kw : PersonKwargs) (rows : list person_row)
  : list person_row :=
  (λ r, if decide (person_row_id r = id) then set_person_fields kw r else r) <$> rows.

Definition update_student (student_id : string) (kw : PersonKwargs) : M Tables bool :=
  if no_person_fields kw then ret false
  else if negb (binds_age kw) then raise OverflowError
  else λ t,
    (Ok (bool_decide (is_Some (find_person student_id (students_t t)))),
     mkTables (update_person student_id kw (students_t t))
              (instructors_t t) (courses_t t) (enrollments_t t)).

(** [DELETE FROM students ...]; the enrollments of the student go with it
    ([ON DELETE CASCADE]). *)
Definition delete_student (student_id : string) : M Tables bool :=
  λ t,
    (Ok (bool_decide (is_Some (find_person student_id (students_t t)))),
     mkTables (filter (λ r, person_row_id r ≠ student_id) (students_t t))
              (instructors_t t) (courses_t t)
              (filter (λ e, e.1 ≠ student_id) (enrollments_t t))).

Definition add_instructor (instructor_id name : string) (age : Z) (email : string)
  : M Tables bool :=
  if negb (sqlite_integer age) then raise OverflowError
  else
    λ t, match find_person instructor_id (instructors_t t) with
         | Some _ => (Raise (unique_failed "instructors.instructor_id"), t)
         | None =>
             (Ok true, mkTables (students_t t)
                                (instructors_t t ++ [(name, age, email, instructor_id)])
                                (courses_t t) (enrollments_t t))
         end.

Definition get_instructor (instructor_id : string) : M Tables (option person_row) :=
  gets (λ t, find_person instructor_id (instructors_t t)).

Definition get_all_instructors : M Tables (list person_row) := gets instructors_t.

Definition update_instructor (instructor_id : string) (kw : PersonKwargs) : M Tables bool :=
  if no_person_fields kw then ret false
  else if negb (binds_age kw) then raise OverflowError
  else λ t,
    (Ok (bool_decide (is_Some (find_person instructor_id (instructors_t t)))),
     mkTables (students_t t) (update_person instructor_id kw (instructors_t t))
              (courses_t t) (enrollments_t t)).

(** [DELETE FROM instructors ...]; refused while a course refers to the
    instructor (foreign key without [ON DELETE] action). *)
Definition delete_instructor (instructor_id : string) : M Tables bool :=
  λ t,
    if bool_decide (Exists (λ c, course_row_instructor c = instructor_id) (courses_t t))
    then (Raise foreign_key_failed, t)
    else
      (Ok (bool_decide (is_Some (find_person instructor_id (instructors_t t)))),
       mkTables (students_t t)
                (filter (λ r, person_row_id r ≠ instructor_id) (instructors_t t))
                (courses_t t) (enrollments_t t)).

Definition add_course (course_id course_name instructor_id : string) : M Tables bool :=
  λ t, match find_course course_id (courses_t t) with
       | Some _ => (Raise (unique_failed "courses.course_id"), t)
       | None =>
           match find_person instructor_id (instructors_t t) with
           | None => (Raise foreign_key_failed, t)
           | Some _ =>
               (Ok true, mkTables (students_t t) (instructors_t t)
                                  (courses_t t ++ [(course_id, course_name, instructor_id)])
                                  (enrollments_t t))
           end
       end.

(** [courses c JOIN instructors i ON c.instructor_id = i.instructor_id] *)
Definition join_instructor (t : Tables) (c : course_row) : option joined_course_row :=
  let '(cid, cname, iid) := c in
  '(name, age, email, _) ← find_person iid (instructors_t t);
  Some (cid, cname, iid, name, age, email).

Definition get_course (course_id : string) : M Tables (option joined_course_row) :=
  gets (λ t, find_course course_id (courses_t t) ≫= join_instructor t).

Definition get_all_courses : M Tables (list joined_course_row) :=
  gets (λ t, omap (join_instructor t) (courses_t t)).

(** Keyword arguments of [update_course]. *)
Record CourseFields := mkCourseFields {
  f_course_name : option string;
  f_instructor_id : option string;
}.

Definition update_course (course_id : string) (kw : CourseFields) : M Tables bool :=
  match f_course_name kw, f_instructor_id kw with
  | None, None => ret false
  | _, _ =>
      λ t,
        let found := bool_decide (is_Some (find_course course_id (courses_t t))) in
        let fk_ok :=
          match f_instructor_id kw with
          | Some iid => bool_decide (is_Some (find_person iid (instructors_t t)))
          | None => true
          end in
        if found && negb fk_ok then (Raise foreign_key_failed, t)
        else
          (Ok found,
           mkTables (students_t t) (instructors_t t)
                    ((λ r : course_row,
                        if decide (course_row_id r = course_id)
                        then (r.1.1, default r.1.2 (f_course_name kw),
                              default r.2 (f_instructor_id kw))
                        else r) <$> courses_t t)
                    (enrollments_t t))
  end.

(** [DELETE FROM courses ...]; its enrollments go with it. *)
Definition delete_course (course_id : string) : M Tables bool :=
  λ t,
    (Ok (bool_decide (is_Some (find_course course_id (courses_t t)))),
     mkTables (students_t t) (instructors_t t)
              (filter (λ r, course_row_id r ≠ course_id) (courses_t t))
              (filter (λ e, e.2 ≠ course_id) (enrollments_t t))).

(** [INSERT INTO enrollments ...]; the pair is the primary key and both
    columns are foreign keys. *)
Definition enroll_student (student_id course_id : string) : M Tables bool :=
  λ t,
    if bool_decide ((student_id, course_id) ∈ enrollments_t t)
    then (Raise (unique_failed "enrollments.student_id, enrollments.course_id"), t)
    else if bool_decide (is_Some (find_person student_id (students_t t))
                         ∧ is_Some (find_course course_id (courses_t t)))
    then (Ok true, mkTables (students_t t) (instructors_t t) (courses_t t)
                            (enrollments_t t ++ [(student_id, course_id)]))
    else (Raise foreign_key_failed, t).

Definition get_all_enrollments : M Tables (list (string * string)) := gets enrollments_t.

Definition clear_all_tables : M Tables unit := modify (λ _, empty_tables).

End DatabaseManager.

(** ** The persistent manager ([data/dm/database.py]) *)

(** The dictionary stored in [DatabaseDataManager._cache] by a hydration. *)
Record Hydrated := mkHydrated {
  hy_students : list loc;
  hy_instructors : list loc;
  hy_courses : list loc;
  students_map : gmap string loc;
  instructors_map : gmap string loc;
  courses_map : gmap string loc;
}.

(** The process state seen by the persistent manager: the heap, the
    module-level [dbm] and the class attribute [_cache] ([None] is the empty
    dictionary). *)
Record Db := mkDb { db_heap : Heap; dbm : Tables; _cache : option Hydrated }.

Definition in_db_heap {A} (m : M Heap A) : M Db A :=
  zoom db_heap (λ h d, mkDb h (dbm d) (_cache d)) m.
Definition in_dbm {A} (m : M Tables A) : M Db A :=
  zoom dbm (λ t d, mkDb (db_heap d) t (_cache d)) m.
Definition set_cache (c : option Hydrated) (d : Db) : Db :=
  mkDb (db_heap d) (dbm d) c.

(** [except sqlite3.Error as e: raise DataError(e)] *)
Definition sqlite_error_to_data_error {S A} (e : exn) : option (M S A) :=
  match e with
  | IntegrityError msg => Some (raise (DataError (FromSqlite msg)))
  | _ => None
  end.

(** [{key(o): o for o in objs}] *)
Definition dict_of {A} (key : A → string) (ls : list loc) (from : list A)
  : gmap string loc :=
  foldl (λ m l, match from !! l with
                | Some o => <[key o := l]> m
                | None => m
                end) ∅ ls.

(** A method of a local [FileManager] object, run on the heap of the
    process: the object's dictionaries are handed back with the result. *)
Definition on_file_manager {A} (fm : FileManager) (m : M Mem A) : M Db (A * FileManager) :=
  λ d, let '(r, m') := m (mkMem (db_heap d) fm) in
       (match r with
        | Ok a => Ok (a, datastore m')
        | Raise e => Raise e
        end,
        mkDb (heap m') (dbm d) (_cache d)).

(** How an import of the persistent manager ends: normally, with
    [DataError(f"Failed to load data from ...: {e}")] for an exception [e]
    of its [except] clause, or with an exception that the clause lets
    through. *)
Inductive import_outcome :=
| Imported
| FailedToLoad (e : exn)
| Uncaught (e : exn).

Module DatabaseDataManager.
Section DatabaseDataManager.
Context `{Validator}.

Definition _clear_cache : M Db unit := modify (set_cache None).

Definition _get_hydrated_data : M Db Hydrated :=
  let! cached := gets _cache in
  match cached with
  | Some data => ret data
  | None =>
      try_except
        (let! all_student_tuples := in_dbm DatabaseManager.get_all_students in
         let! all_instructor_tuples := in_dbm DatabaseManager.get_all_instructors in
         let! all_course_tuples := in_dbm DatabaseManager.get_all_courses in
         let! all_enrollments := in_dbm DatabaseManager.get_all_enrollments in
         let! all_students :=
           list_comp all_student_tuples (λ '(name, age, email, sid),
             let! s := lift_result (Student_init name age email sid) in
             in_db_heap (new_student s)) in
         let! all_instructors :=
           list_comp all_instructor_tuples (λ '(name, age, email, iid),
             let! i := lift_result (Instructor_init name age email iid) in
             in_db_heap (new_instructor i)) in
         let! instructors_map_temp :=
           gets (λ d, dict_of instructor_id all_instructors
                              (instructor_objs (db_heap d))) in
         let! all_courses :=
           list_comp all_course_tuples (λ '(cid, cname, iid, _, _, _),
             match instructors_map_temp !! iid with
             | Some li => let! l := in_db_heap (Course_init cid cname li) in ret [l]
             | None => ret []
             end) in
         let all_courses := concat all_courses in
         let! students_map :=
           gets (λ d, dict_of student_id all_students
                              (student_objs (db_heap d))) in
         let! instructors_map :=
           gets (λ d, dict_of instructor_id all_instructors
                              (instructor_objs (db_heap d))) in
         let! courses_map :=
           gets (λ d, dict_of course_id all_courses
                              (course_objs (db_heap d))) in
         for_each all_enrollments (λ '(sid, cid),
           match students_map !! sid, courses_map !! cid with
           | Some ls, Some lc =>
               in_db_heap (
                 let! s := deref student_objs ls in
                 store_student ls (mkStudent (student_person s) (student_id s)
                                             (registered_courses s ++ [lc])) >>
                 let! c := deref course_objs lc in
                 store_course lc (mkCourse (course_id c) (course_name c) (instructor c)
                                           (enrolled_students c ++ [ls])))
           | _, _ => ret tt
           end) >>
         let hydrated_data :=
           mkHydrated all_students all_instructors all_courses
                      students_map instructors_map courses_map in
         modify (set_cache (Some hydrated_data)) >>
         ret hydrated_data)
        sqlite_error_to_data_error
  end.

Definition get_students : M Db (list loc) :=
  _clear_cache >>
  let! data := _get_hydrated_data in
  ret (hy_students data).

Definition get_student (sid : string) : M Db loc :=
  _clear_cache >>
  let! data := _get_hydrated_data in
  match students_map data !! sid with
  | None => raise (DataError (NotFound EStudent sid))
  | Some l => ret l
  end.

Definition get_instructors : M Db (list loc) :=
  _clear_cache >>
  let! data := _get_hydrated_data in
  ret (hy_instructors data).

Definition get_instructor (iid : string) : M Db loc :=
  _clear_cache >>
  let! data := _get_hydrated_data in
  match instructors_map data !! iid with
  | None => raise (DataError (NotFound EInstructor iid))
  | Some l => ret l
  end.

Definition get_courses : M Db (list loc) :=
  _clear_cache >>
  let! data := _get_hydrated_data in
  ret (hy_courses data).

Definition get_course (cid : string) : M Db loc :=
  _clear_cache >>
  let! data := _get_hydrated_data in
  match courses_map data !! cid with
  | None => raise (DataError (NotFound ECourse cid))
  | Some l => ret l
  end.

Definition add_student (name : string) (age : Z) (email sid : string) : M Db unit :=
  let! s := try_except (lift_result (Student_init name age email sid))
                       value_error_to_data_error in
  try_except
    (let! row := in_dbm (DatabaseManager.get_student (student_id s)) in
     match row with
     | Some _ => raise (DataError (AlreadyExists EStudent (student_id s)))
     | None => in_dbm (DatabaseManager.add_student sid name age email) >> ret tt
     end)
    sqlite_error_to_data_error.

Definition edit_student (sid : option string) (kw : PersonKwargs) : M Db unit :=
  match truthy_str sid with
  | None => raise (DataError (IdRequired EStudent))
  | Some sid =>
      try_except
        (let! row := in_dbm (DatabaseManager.get_student sid) in
         match row with
         | None => raise (DataError (NotFound EStudent sid))
         | Some _ => in_dbm (DatabaseManager.update_student sid kw) >> ret tt
         end)
        sqlite_error_to_data_error
  end.

Definition remove_student (sid : string) : M Db unit :=
  try_except
    (let! row := in_dbm (DatabaseManager.get_student sid) in
     match row with
     | None => raise (DataError (DoesNotExist EStudent sid))
     | Some _ => in_dbm (DatabaseManager.delete_student sid) >> ret tt
     end)
    sqlite_error_to_data_error.

Definition add_instructor (name : string) (age : Z) (email iid : string) : M Db unit :=
  let! i := try_except (lift_result (Instructor_init name age email iid))
                       value_error_to_data_error in
  try_except
    (let! row := in_dbm (DatabaseManager.get_instructor (instructor_id i)) in
     match row with
     | Some _ => raise (DataError (AlreadyExists EInstructor (instructor_id i)))
     | None => in_dbm (DatabaseManager.add_instructor iid name age email) >> ret tt
     end)
    sqlite_error_to_data_error.

Definition edit_instructor (iid : option string) (kw : PersonKwargs) : M Db unit :=
  match truthy_str iid with
  | None => raise (DataError (IdRequired EInstructor))
  | Some iid =>
      try_except
        (let! row := in_dbm (DatabaseManager.get_instructor iid) in
         match row with
         | None => raise (DataError (NotFound EInstructor iid))
         | Some _ => in_dbm (DatabaseManager.update_instructor iid kw) >> ret tt
         end)
        sqlite_error_to_data_error
  end.

Definition remove_instructor (iid : string) : M Db unit :=
  try_except
    (let! row := in_dbm (DatabaseManager.get_instructor iid) in
     match row with
     | None => raise (DataError (DoesNotExist EInstructor iid))
     | Some _ => in_dbm (DatabaseManager.delete_instructor iid) >> ret tt
     end)
    sqlite_error_to_data_error.

Definition add_course (cid cname : string) (instr : loc) : M Db unit :=
  let! l := try_except (in_db_heap (Course_init cid cname instr))
                       value_error_to_data_error in
  try_except
    (let! c := in_db_heap (deref course_objs l) in
     let! row := in_dbm (DatabaseManager.get_course (course_id c)) in
     match row with
     | Some _ => raise (DataError (AlreadyExists ECourse (course_id c)))
     | None =>
         let! i := in_db_heap (deref instructor_objs (instructor c)) in
         in_dbm (DatabaseManager.add_course (course_id c) (course_name c) (instructor_id i))
         >> ret tt
     end)
    sqlite_error_to_data_error.

Definition edit_course (kw : CourseKwargs) : M Db unit :=
  match truthy_str (kw_course_id kw) with
  | None => raise (DataError (IdRequired ECourse))
  | Some cid =>
      try_except
        (let! row := in_dbm (DatabaseManager.get_course cid) in
         match row with
         | None => raise (DataError (NotFound ECourse cid))
         | Some _ =>
             let! iid :=
               match kw_instructor kw with
               | Some li => let! i := in_db_heap (deref instructor_objs li) in
                            ret (Some (instructor_id i))
               | None => ret None
               end in
             in_dbm (DatabaseManager.update_course cid
                       (DatabaseManager.mkCourseFields (kw_course_name kw) iid))
             >> ret tt
         end)
        sqlite_error_to_data_error
  end.

Definition remove_course (cid : string) : M Db unit :=
  try_except
    (let! row := in_dbm (DatabaseManager.get_course cid) in
     match row with
     | None => raise (DataError (DoesNotExist ECourse cid))
     | Some _ => in_dbm (DatabaseManager.delete_course cid) >> ret tt
     end)
    sqlite_error_to_data_error.

Definition enroll_student (sid cid : string) : M Db unit :=
  try_except
    (let! srow := in_dbm (DatabaseManager.get_student sid) in
     match srow with
     | None => raise (DataError (NotFound EStudent sid))
     | Some _ =>
         let! crow := in_dbm (DatabaseManager.get_course cid) in
         match crow with
         | None => raise (DataError (NotFound ECourse cid))
         | Some _ => in_dbm (DatabaseManager.enroll_student sid cid) >> ret tt
         end
     end)
    sqlite_error_to_data_error.

(** [_populate_db_from_file_manager] *)
Definition _populate_db_from_file_manager (file_manager : FileManager) : M Db unit :=
  for_each (map_to_list (instructors file_manager)).*2 (λ l,
    let! i := in_db_heap (deref instructor_objs l) in
    in_dbm (DatabaseManager.add_instructor (instructor_id i) (name (instructor_person i))
              (age (instructor_person i)) (_email (instructor_person i))) >> ret tt) >>
  for_each (map_to_list (students file_manager)).*2 (λ l,
    let! s := in_db_heap (deref student_objs l) in
    in_dbm (DatabaseManager.add_student (student_id s) (name (student_person s))
              (age (student_person s)) (_email (student_person s))) >> ret tt) >>
  for_each (map_to_list (courses file_manager)).*2 (λ l,
    let! c := in_db_heap (deref course_objs l) in
    let! i := in_db_heap (deref instructor_objs (instructor c)) in
    in_dbm (DatabaseManager.add_course (course_id c) (course_name c) (instructor_id i))
    >> ret tt) >>
  for_each (map_to_list (students file_manager)).*2 (λ l,
    let! s := in_db_heap (deref student_objs l) in
    for_each (registered_courses s) (λ lc,
      let! c := in_db_heap (deref course_objs lc) in
      in_dbm (DatabaseManager.enroll_student (student_id s) (course_id c)) >> ret tt)).

(** The statements under the [try] of the two imports: the tables are
    cleared, a new [FileManager] loads the file, the tables are filled from
    it. *)
Definition import_with (load : M Mem unit) : M Db unit :=
  in_dbm DatabaseManager.clear_all_tables >>
  let! loaded := on_file_manager empty_file_manager load in
  _populate_db_from_file_manager loaded.2.

(** [except (FileNotFoundError, json.JSONDecodeError, sqlite3.Error)]; the
    loader handles a [JSONDecodeError] itself. *)
Definition data_from_json (file : JsonFile) (d : Db) : import_outcome * Db :=
  match import_with (FileManager.load_from_json file) d with
  | (Ok _, d') => (Imported, d')
  | (Raise FileNotFoundError, d') => (FailedToLoad FileNotFoundError, d')
  | (Raise (IntegrityError msg), d') => (FailedToLoad (IntegrityError msg), d')
  | (Raise e, d') => (Uncaught e, d')
  end.

(** [except (FileNotFoundError, sqlite3.Error)] *)
Definition data_from_csv (dir : CsvDir) (d : Db) : import_outcome * Db :=
  match import_with (FileManager.load_from_csv dir) d with
  | (Ok _, d') => (Imported, d')
  | (Raise FileNotFoundError, d') => (FailedToLoad FileNotFoundError, d')
  | (Raise (IntegrityError msg), d') => (FailedToLoad (IntegrityError msg), d')
  | (Raise e, d') => (Uncaught e, d')
  end.

(** [data_to_json]: a new hydration, whose three look-up dictionaries
    become the dictionaries of a local [FileManager]; the result is the
    document that its [save_to_json] hands to [json.dump]. *)
Definition data_to_json : M Db JsonDoc :=
  _clear_cache >>
  let! data := _get_hydrated_data in
  let! saved := on_file_manager
                  (mkFileManager (students_map data) (instructors_map data)
                                 (courses_map data))
                  FileManager.save_to_json in
  ret saved.1.

(** [data_to_csv]: the three dictionaries of the local [FileManager] are
    built from three reads, each with a hydration of its own. *)
Definition data_to_csv : M Db CsvDir :=
  let! all_students := get_students in
  let! students_dict :=
    gets (λ d, dict_of student_id all_students (student_objs (db_heap d))) in
  let! all_instructors := get_instructors in
  let! instructors_dict :=
    gets (λ d, dict_of instructor_id all_instructors (instructor_objs (db_heap d))) in
  let! all_courses := get_courses in
  let! courses_dict :=
    gets (λ d, dict_of course_id all_courses (course_objs (db_heap d))) in
  let! saved := on_file_manager
                  (mkFileManager students_dict instructors_dict courses_dict)
                  FileManager.save_to_csv in
  ret saved.1.

End DatabaseDataManager.
End DatabaseDataManager.

(** * Specification-level notions *)

(** The entities of the graph: what the datastore dictionaries reach. *)
Definition student_at (m : Mem) (sid : string) : option Student :=
  students (datastore m) !! sid ≫= λ l, student_objs (heap m) !! l.
Definition instructor_at (m : Mem) (iid : string) : option Instructor :=
  instructors (datastore m) !! iid ≫= λ l, instructor_objs (heap m) !! l.
Definition course_at (m : Mem) (cid : string) : option Course :=
  courses (datastore m) !! cid ≫= λ l, course_objs (heap m) !! l.

(** A keyword argument that Python's truth test rejects: absent, [None],
    the empty string or the integer zero. *)
Definition falsy_str (o : option string) : Prop := truthy_str o = None.
Definition falsy_int (o : option Z) : Prop := truthy_int o = None.

(** The keyword arguments of an edit without the falsy ones. *)
Definition truthy_fields (kw : PersonKwargs) : PersonKwargs :=
  mkPersonKwargs (truthy_str (kw_name kw)) (truthy_int (kw_age kw))
                 (truthy_str (kw_email kw)).

(** The scenario of the specification's example, built through the
    in-memory manager with the fall-back validators: instructors
    ["199801234"] and ["199505678"], student ["202401111"], course
    ["EECE230"] taught by the first instructor, the student enrolled in it. *)
Module Scenario.

#[local] Existing Instance Fallback.validator.

Definition fresh : Mem := mkMem empty_heap empty_file_manager.

Definition build : M Mem unit :=
  MemoryDataManager.add_instructor "Dr. Emily Smith" 45 "e.smith@university.edu" "199801234" >>
  MemoryDataManager.add_instructor "Dr. Alan Jones" 52 "a.jones@university.edu" "199505678" >>
  MemoryDataManager.add_student "John Doe" 20 "john.doe@lau.edu" "202401111" >>
  (let! i := MemoryDataManager.get_instructor "199801234" in
   MemoryDataManager.add_course "EECE230" "Software Engineering" i) >>
  MemoryDataManager.enroll_student "202401111" "EECE230".

Definition campus : Mem := (build fresh).2.

(** Locations of the objects of [campus]. *)
Definition smith : loc := 0%nat.
Definition jones : loc := 1%nat.
Definition john : loc := 0%nat.
Definition eece230 : loc := 0%nat.

Definition smith_obj : Instructor :=
  mkInstructor (mkPerson "Dr. Emily Smith" 45 "e.smith@university.edu") "199801234" [eece230].
Definition john_obj : Student :=
  mkStudent (mkPerson "John Doe" 20 "john.doe@lau.edu") "202401111" [eece230].
Definition jones_obj : Instructor :=
  mkInstructor (mkPerson "Dr. Alan Jones" 52 "a.jones@university.edu") "199505678" [].
Definition eece230_obj : Course :=
  mkCourse "EECE230" "Software Engineering" smith [john].

Definition remove_student : M Mem unit := MemoryDataManager.remove_student "202401111".
Definition remove_instructor : M Mem unit := MemoryDataManager.remove_instructor "199801234".
Definition reassign : M Mem unit :=
  MemoryDataManager.edit_course (mkCourseKwargs (Some "EECE230") None (Some jones)).
Definition add_again : M Mem unit :=
  MemoryDataManager.add_course "EECE230" "Software Engineering" jones.
Definition age_zero : PersonKwargs := mkPersonKwargs None (Some 0) None.

(** The graph once the course has been handed to the second instructor. *)
Definition reassigned : Mem := (reassign campus).2.
Definition remove_course : M Mem unit := MemoryDataManager.remove_course "EECE230".

(** The graph with a second student, enrolled nowhere. *)
Definition with_jane : Mem :=
  (MemoryDataManager.add_student "Jane Dane" 21 "jane.dane@lau.edu" "202302222" campus).2.
Definition jane : loc := 1%nat.
Definition jane_obj : Student :=
  mkStudent (mkPerson "Jane Dane" 21 "jane.dane@lau.edu") "202302222" [].

End Scenario.

(** The student object once the course at [lc] is taken off its list. *)
Definition detach_course (lc : loc) (s : Student) : Student :=
  mkStudent (student_person s) (student_id s) (filter (λ y, y ≠ lc) (registered_courses s)).

(** The loop [for student in c.enrolled_students:
    student.registered_courses.remove(c)] of [remove_course]. *)
Definition detach_body (lc : loc) (ls : loc) : M Mem unit :=
  let! s := in_heap (deref student_objs ls) in
  match list_remove lc (registered_courses s) with
  | None => raise list_remove_error
  | Some rest => in_heap (store_student ls (mkStudent (student_person s) (student_id s) rest))
  end.

(** The heap after [course.add_student(student)]. *)
Definition heap_add_student (lc ls : loc) (c : Course) (s : Student) (h : Heap) : Heap :=
  if bool_decide (student_id s ∉ student_ids h (enrolled_students c))
  then set_course_objs
         (λ os, <[lc := mkCourse (course_id c) (course_name c) (instructor c)
                                  (enrolled_students c ++ [ls])]> os) h
  else h.

(** The heap after [student.register_course(course)]. *)
Definition heap_register (ls lc : loc) (s : Student) (c : Course) (h : Heap) : Heap :=
  if bool_decide (course_id c ∉ course_ids h (registered_courses s))
  then
    let s' := mkStudent (student_person s) (student_id s) (registered_courses s ++ [lc]) in
    heap_add_student lc ls c s' (set_student_objs (λ os, <[ls := s']> os) h)
  else h.

(** An operation of the persistent manager neither reads nor writes the
    hydration cache: run with any other cache, it answers the same, makes the
    same changes to the rest of the state, and hands that cache back. *)
Definition cache_blind {A} (op : M Db A) : Prop :=
  ∀ (c : option Hydrated) (d : Db),
    op (set_cache c d) = (let '(r, d') := op d in (r, set_cache c d')).

(** The persistent scenario: the same entities, stored through the
    persistent manager, then read once so that the cache holds a graph. *)
Module StoreScenario.

#[local] Existing Instance Fallback.validator.

Definition fresh : Db := mkDb empty_heap empty_tables None.

Definition build : M Db unit :=
  DatabaseDataManager.add_instructor "Dr. Emily Smith" 45 "e.smith@university.edu"
                                     "199801234" >>
  DatabaseDataManager.add_student "John Doe" 20 "john.doe@lau.edu" "202401111" >>
  (let! i := DatabaseDataManager.get_instructor "199801234" in
   DatabaseDataManager.add_course "EECE230" "Software Engineering" i) >>
  DatabaseDataManager.enroll_student "202401111" "EECE230" >>
  (DatabaseDataManager.get_students >> ret tt).

Definition campus : Db := (build fresh).2.

Definition enroll_again : M Db unit :=
  DatabaseDataManager.enroll_student "202401111" "EECE230".
Definition add_jane : M Db unit :=
  DatabaseDataManager.add_student "Jane Dane" 21 "jane.dane@lau.edu" "202302222".

End StoreScenario.

(** What the persistent manager raises for an enrollment that is already stored. *)
Definition duplicate_enrollment : exn :=
  DataError (FromSqlite "UNIQUE constraint failed: enrollments.student_id, enrollments.course_id").

(** Rows that [load_from_csv] accepts: the age parses and the constructor
    validates. *)
Definition is_ok {A} (r : result A) : bool :=
  match r with Ok _ => true | Raise _ => false end.

Definition person_row_loads `{Validator} (r : PersonRow) : bool :=
  match PyStr.int (row_age r) with
  | Some age => is_ok (Person_init (row_name r) age (row_email r))
                && check_id (PyStr.strip (row_id r))
  | None => false
  end.

Definition course_row_loads (r : CourseRow) : bool :=
  check_course_id (PyStr.strip (row_course_id r))
  && check_course_name (PyStr.strip (row_course_name r)).

(** One of the four files is missing, and every row of the files opened
    before it is accepted. *)
Definition loads_until_missing_file `{Validator} (dir : CsvDir) : Prop :=
  match instructors_csv dir with
  | None => True
  | Some irows =>
      Forall (λ r, person_row_loads r = true) irows ∧
      match students_csv dir with
      | None => True
      | Some srows =>
          Forall (λ r, person_row_loads r = true) srows ∧
          match courses_csv dir with
          | None => True
          | Some crows =>
              Forall (λ r, course_row_loads r = true) crows ∧ enrollments_csv dir = None
          end
      end
  end.

(** Every instructor bound in the datastore is an object of the heap. *)
Definition instructors_allocated (m : Mem) : Prop :=
  ∀ k l, instructors (datastore m) !! k = Some l →
         (l < length (instructor_objs (heap m)))%nat.

(** Inputs of the import scenarios: a document whose first instructor is
    valid and whose student has an age out of range, and a directory whose
    [instructors.csv] has a valid row followed by one with an unreadable age
    and whose [students.csv] is missing. *)
Module ImportScenario.

#[local] Existing Instance Fallback.validator.

Definition smith_json : InstructorJson :=
  mkInstructorJson (Some "Dr. Emily Smith") (Some 45) (Some "e.smith@university.edu")
                   (Some "199801234") (Some []).
Definition john_json : StudentJson :=
  mkStudentJson (Some "John Doe") (Some 200) (Some "john.doe@lau.edu")
                (Some "202401111") (Some []).
Definition half_valid : JsonDoc :=
  mkJsonDoc (Some [john_json]) (Some [smith_json]) (Some []).

Definition from_missing : M Mem unit := MemoryDataManager.data_from_json JsonMissing.
Definition from_invalid : M Mem unit := MemoryDataManager.data_from_json JsonInvalid.
Definition from_half_valid : M Mem unit :=
  MemoryDataManager.data_from_json (JsonData half_valid).

Definition smith_row : PersonRow :=
  mkPersonRow "Dr. Emily Smith" "45" "e.smith@university.edu" "199801234".
Definition jones_row : PersonRow :=
  mkPersonRow "Dr. Alan Jones" "fifty-two" "a.jones@university.edu" "199505678".
Definition bad_row_then_missing : CsvDir :=
  mkCsvDir (Some [smith_row; jones_row]) None (Some []) (Some []).
Definition students_missing : CsvDir :=
  mkCsvDir (Some [smith_row]) None (Some []) (Some []).

Definition from_bad_row_then_missing : M Mem unit :=
  MemoryDataManager.data_from_csv bad_row_then_missing.
Definition from_students_missing : M Mem unit :=
  MemoryDataManager.data_from_csv students_missing.

(** A directory whose course row has a lower-case identifier; the graph it
    is loaded into. *)
Definition lower_case_course : CsvDir :=
  mkCsvDir (Some [smith_row]) (Some [])
           (Some [mkCourseRow "phys210" "Physics" "199801234"]) (Some []).
Definition imported : Mem :=
  (MemoryDataManager.data_from_csv lower_case_course Scenario.fresh).2.

End ImportScenario.

(** An instructor whose identifier ends in a carriage return, which
    [Instructor] keeps as given: the graph built through the manager, the
    rows that [save_to_csv] writes for it, and their import into a fresh
    manager. *)
Module NewlineScenario.

#[local] Existing Instance Fallback.validator.

Definition cr_id : string := "199801234" +:+ String "013" EmptyString.
Definition lf_id : string := "199801234" +:+ String "010" EmptyString.

Definition build : M Mem unit :=
  MemoryDataManager.add_instructor "Dr. Emily Smith" 45 "e.smith@university.edu" cr_id.
Definition graph : Mem := (build Scenario.fresh).2.

Definition written : CsvDir :=
  mkCsvDir (Some [mkPersonRow "Dr. Emily Smith" "45" "e.smith@university.edu" cr_id])
           (Some []) (Some []) (Some []).
Definition reimport : M Mem unit := MemoryDataManager.data_from_csv (read_back written).
Definition reimported : Mem := (reimport Scenario.fresh).2.

End NewlineScenario.

(** ** The graph as data: entities by identifier, edges as identifier sets *)

Record GraphView := mkView {
  v_students : gmap string (Person * gset string);      (* fields, registered course ids *)
  v_instructors : gmap string (Person * gset string);   (* fields, assigned course ids *)
  v_courses : gmap string (string * string * gset string);
                                       (* course name, instructor id, enrolled student ids *)
}.

Definition student_view (h : Heap) (l : loc) : option (Person * gset string) :=
  s ← student_objs h !! l;
  Some (student_person s, list_to_set (course_ids h (registered_courses s))).

Definition instructor_view (h : Heap) (l : loc) : option (Person * gset string) :=
  i ← instructor_objs h !! l;
  Some (instructor_person i, list_to_set (course_ids h (assigned_courses i))).

Definition course_view (h : Heap) (l : loc) : option (string * string * gset string) :=
  c ← course_objs h !! l;
  i ← instructor_objs h !! instructor c;
  Some (course_name c, instructor_id i, list_to_set (student_ids h (enrolled_students c))).

Definition view (m : Mem) : GraphView :=
  mkView (omap (student_view (heap m)) (students (datastore m)))
         (omap (instructor_view (heap m)) (instructors (datastore m)))
         (omap (course_view (heap m)) (courses (datastore m))).

Definition empty_view : GraphView := mkView ∅ ∅ ∅.

(** Every entity is stored under its own identifier, and the references it
    holds denote objects of the heap. *)
Record sound (m : Mem) : Prop := mkSound {
  sound_students : ∀ k l, students (datastore m) !! k = Some l →
    ∃ s, student_objs (heap m) !! l = Some s ∧ student_id s = k ∧
         Forall (λ lc, lc < length (course_objs (heap m)))%nat (registered_courses s);
  sound_instructors : ∀ k l, instructors (datastore m) !! k = Some l →
    ∃ i, instructor_objs (heap m) !! l = Some i ∧ instructor_id i = k ∧
         Forall (λ lc, lc < length (course_objs (heap m)))%nat (assigned_courses i);
  sound_courses : ∀ k l, courses (datastore m) !! k = Some l →
    ∃ c, course_objs (heap m) !! l = Some c ∧ course_id c = k ∧
         (instructor c < length (instructor_objs (heap m)))%nat ∧
         Forall (λ ls, ls < length (student_objs (heap m)))%nat (enrolled_students c);
}.

(** Field values as the constructors leave them: validated and stripped. *)
Definition person_ok `{Validator} (p : Person) : Prop :=
  Person_init (name p) (age p) (_email p) = Ok p.

Definition student_id_ok (sid : string) : Prop :=
  check_id (PyStr.strip sid) = true ∧ PyStr.strip sid = sid.

Definition instructor_id_ok (iid : string) : Prop :=
  check_id (PyStr.strip iid) = true.

Definition course_id_ok (cid : string) : Prop :=
  check_course_id (PyStr.strip cid) = true ∧ PyStr.upper (PyStr.strip cid) = cid.

Definition course_name_ok (cname : string) : Prop :=
  check_course_name (PyStr.strip cname) = true.

(** The data-model invariants of a graph: valid fields under unique
    identifiers; every course's instructor is an instructor of the graph that
    lists the course, and lists only courses of the graph that it teaches
    (invariant 1); students and courses of the graph list each other
    (invariant 2). *)
Record graph_ok `{Validator} (m : Mem) : Prop := mkGraphOk {
  ok_students : ∀ k l, students (datastore m) !! k = Some l →
    ∃ s, student_objs (heap m) !! l = Some s ∧ student_id s = k ∧
         person_ok (student_person s) ∧ student_id_ok k ∧
         ∀ lc, lc ∈ registered_courses s →
               ∃ c, course_objs (heap m) !! lc = Some c ∧
                    courses (datastore m) !! course_id c = Some lc ∧
                    l ∈ enrolled_students c;
  ok_instructors : ∀ k l, instructors (datastore m) !! k = Some l →
    ∃ i, instructor_objs (heap m) !! l = Some i ∧ instructor_id i = k ∧
         person_ok (instructor_person i) ∧ instructor_id_ok k ∧
         ∀ lc, lc ∈ assigned_courses i →
               ∃ c, course_objs (heap m) !! lc = Some c ∧
                    courses (datastore m) !! course_id c = Some lc ∧
                    instructor c = l;
  ok_courses : ∀ k l, courses (datastore m) !! k = Some l →
    ∃ c i, course_objs (heap m) !! l = Some c ∧ course_id c = k ∧
           course_id_ok k ∧ course_name_ok (course_name c) ∧
           instructor_objs (heap m) !! instructor c = Some i ∧
           instructors (datastore m) !! instructor_id i = Some (instructor c) ∧
           l ∈ assigned_courses i ∧
           ∀ ls, ls ∈ enrolled_students c →
                 ∃ s, student_objs (heap m) !! ls = Some s ∧
                      students (datastore m) !! student_id s = Some ls ∧
                      l ∈ registered_courses s;
}.

(** ** The import, on rows *)

(** The statements of the two loaders once the fields of an entry have been
    read: one instructor, one student, one course, one enrollment. *)
Definition load_instructor `{Validator} (r : person_row) : M Mem unit :=
  let '(name, age, email, iid) := r in
  let! i := lift_result (Instructor_init name age email iid) in
  let! l := in_heap (new_instructor i) in
  modify (set_instructors <[iid := l]>).

Definition load_student `{Validator} (r : person_row) : M Mem unit :=
  let '(name, age, email, sid) := r in
  let! s := lift_result (Student_init name age email sid) in
  let! l := in_heap (new_student s) in
  modify (set_students <[sid := l]>).

Definition load_course (r : course_row) : M Mem unit :=
  let '(cid, cname, iid) := r in
  let! instr := gets (λ m, instructors (datastore m) !! iid) in
  match instr with
  | Some li =>
      let! l := in_heap (Course_init cid cname li) in
      modify (set_courses <[cid := l]>)
  | None => ret tt
  end.

Definition load_enrollment (e : string * string) : M Mem unit :=
  let '(sid, cid) := e in
  let! student := gets (λ m, students (datastore m) !! sid) in
  let! course := gets (λ m, courses (datastore m) !! cid) in
  match student, course with
  | Some ls, Some lc => in_heap (register_course ls lc)
  | _, _ => ret tt
  end.

(** Their effect on the graph as data. *)
Definition view_add_instructor (r : person_row) (v : GraphView) : GraphView :=
  let '(name, age, email, iid) := r in
  mkView (v_students v) (<[iid := (mkPerson name age email, ∅)]> (v_instructors v))
         (v_courses v).

Definition view_add_student (r : person_row) (v : GraphView) : GraphView :=
  let '(name, age, email, sid) := r in
  mkView (<[sid := (mkPerson name age email, ∅)]> (v_students v)) (v_instructors v)
         (v_courses v).

Definition view_add_course (r : course_row) (v : GraphView) : GraphView :=
  let '(cid, cname, iid) := r in
  match v_instructors v !! iid with
  | Some (p, assigned) =>
      mkView (v_students v) (<[iid := (p, assigned ∪ {[cid]})]> (v_instructors v))
             (<[cid := (cname, iid, ∅)]> (v_courses v))
  | None => v
  end.

Definition view_enroll (e : string * string) (v : GraphView) : GraphView :=
  let '(sid, cid) := e in
  match v_students v !! sid, v_courses v !! cid with
  | Some (p, registered), Some (cname, iid, enrolled) =>
      mkView (<[sid := (p, registered ∪ {[cid]})]> (v_students v)) (v_instructors v)
             (<[cid := (cname, iid, enrolled ∪ {[sid]})]> (v_courses v))
  | _, _ => v
  end.

(** The graph that an import of the given rows builds. *)
Definition view_of_rows (irows srows : list person_row) (crows : list course_row)
    (erows : list (string * string)) : GraphView :=
  foldl (flip view_enroll)
    (foldl (flip view_add_course)
       (foldl (flip view_add_student)
          (foldl (flip view_add_instructor) empty_view irows) srows) crows) erows.

(** Students and courses list each other. *)
Definition view_symmetric (v : GraphView) : Prop :=
  ∀ sid cid p registered cname iid enrolled,
    v_students v !! sid = Some (p, registered) →
    v_courses v !! cid = Some (cname, iid, enrolled) →
    (cid ∈ registered ↔ sid ∈ enrolled).

(** Rows whose fields are as the constructors leave them. *)
Definition instructor_row_clean `{Validator} (r : person_row) : Prop :=
  let '(name, age, email, iid) := r in
  Person_init name age email = Ok (mkPerson name age email) ∧ instructor_id_ok iid.

Definition student_row_clean `{Validator} (r : person_row) : Prop :=
  let '(name, age, email, sid) := r in
  Person_init name age email = Ok (mkPerson name age email) ∧ student_id_ok sid.

Definition course_row_clean (r : course_row) : Prop :=
  let '(cid, cname, iid) := r in course_id_ok cid ∧ course_name_ok cname.

(** No student is registered and no course has students: the graph before
    the enrollments are replayed. *)
Definition no_enrollments (v : GraphView) : Prop :=
  (∀ sid p registered, v_students v !! sid = Some (p, registered) → registered = ∅) ∧
  (∀ cid cname iid enrolled, v_courses v !! cid = Some (cname, iid, enrolled) → enrolled = ∅).

(** The four loops of an import, on rows. *)
Definition load_rows `{Validator} (irows srows : list person_row) (crows : list course_row)
    (erows : list (string * string)) : M Mem unit :=
  for_each irows load_instructor >>
  for_each srows load_student >>
  for_each crows load_course >>
  for_each erows load_enrollment.

(** ** The export, as rows *)

Definition person_fields (p : Person) (id : string) : person_row :=
  (name p, age p, _email p, id).

Definition instructor_row_at (h : Heap) (l : loc) : option person_row :=
  i ← instructor_objs h !! l; Some (person_fields (instructor_person i) (instructor_id i)).

Definition student_entry_at (h : Heap) (l : loc) : option (person_row * list string) :=
  s ← student_objs h !! l;
  Some (person_fields (student_person s) (student_id s),
        course_ids h (registered_courses s)).

Definition course_row_at (h : Heap) (l : loc) : option course_row :=
  c ← course_objs h !! l;
  i ← instructor_objs h !! instructor c;
  Some (course_id c, course_name c, instructor_id i).

Definition instructor_rows (m : Mem) : list person_row :=
  omap (instructor_row_at (heap m)) (FileManager.instructor_values m).

Definition student_entries (m : Mem) : list (person_row * list string) :=
  omap (student_entry_at (heap m)) (FileManager.student_values m).

Definition student_rows (m : Mem) : list person_row := (student_entries m).*1.

Definition entry_enrollments (e : person_row * list string) : list (string * string) :=
  (λ cid, (e.1.2, cid)) <$> e.2.

Definition enrollment_rows (m : Mem) : list (string * string) :=
  student_entries m ≫= entry_enrollments.

Definition course_rows (m : Mem) : list course_row :=
  omap (course_row_at (heap m)) (FileManager.course_values m).

(** The rows as entries of the JSON document and as rows of the CSV files. *)
Definition student_json (e : person_row * list string) : StudentJson :=
  let '(name, age, email, sid, registered) := e in
  mkStudentJson (Some name) (Some age) (Some email) (Some sid) (Some registered).

Definition instructor_json (e : person_row * list string) : InstructorJson :=
  let '(name, age, email, iid, assigned) := e in
  mkInstructorJson (Some name) (Some age) (Some email) (Some iid) (Some assigned).

Definition course_json (e : course_row * list string) : CourseJson :=
  let '(cid, cname, iid, enrolled) := e in
  mkCourseJson (Some cid) (Some cname) (Some iid) (Some enrolled).

Definition person_csv (r : person_row) : PersonRow :=
  let '(name, age, email, id) := r in mkPersonRow name (PyStr.str age) email id.

Definition course_csv (r : course_row) : CourseRow :=
  let '(cid, cname, iid) := r in mkCourseRow cid cname iid.

(** The entries of an export that carry a list of identifiers besides the
    row: instructors with their assigned courses, courses with their
    students. *)
Definition instructor_entry_at (h : Heap) (l : loc) : option (person_row * list string) :=
  i ← instructor_objs h !! l;
  Some (person_fields (instructor_person i) (instructor_id i),
        course_ids h (assigned_courses i)).

Definition course_entry_at (h : Heap) (l : loc) : option (course_row * list string) :=
  c ← course_objs h !! l;
  i ← instructor_objs h !! instructor c;
  Some (course_id c, course_name c, instructor_id i, student_ids h (enrolled_students c)).

Definition instructor_entries (m : Mem) : list (person_row * list string) :=
  omap (instructor_entry_at (heap m)) (FileManager.instructor_values m).

Definition course_entries (m : Mem) : list (course_row * list string) :=
  omap (course_entry_at (heap m)) (FileManager.course_values m).

(** The JSON document and the CSV files of a graph. *)
Definition json_of (m : Mem) : JsonDoc :=
  mkJsonDoc (Some (student_json <$> student_entries m))
            (Some (instructor_json <$> instructor_entries m))
            (Some (course_json <$> course_entries m)).


(** Exactly-once membership: no entity of the graph lists a reference
    twice. *)
Definition graph_nodup (m : Mem) : Prop :=
  (∀ k l s, students (datastore m) !! k = Some l → student_objs (heap m) !! l = Some s →
            NoDup (registered_courses s)) ∧
  (∀ k l i, instructors (datastore m) !! k = Some l →
            instructor_objs (heap m) !! l = Some i → NoDup (assigned_courses i)) ∧
  (∀ k l c, courses (datastore m) !! k = Some l → course_objs (heap m) !! l = Some c →
            NoDup (enrolled_students c)).

(** The constraints of the schema ([data/db/contract.py]): primary keys are
    unique, a course's instructor is a row of [instructors], an enrollment's
    student and course are rows of [students] and [courses]. *)
Definition tables_ok (t : Tables) : Prop :=
  NoDup (person_row_id <$> students_t t) ∧
  NoDup (person_row_id <$> instructors_t t) ∧
  NoDup (course_row_id <$> courses_t t) ∧
  NoDup (enrollments_t t) ∧
  (∀ c, c ∈ courses_t t → course_row_instructor c ∈ person_row_id <$> instructors_t t) ∧
  (∀ e, e ∈ enrollments_t t →
        e.1 ∈ person_row_id <$> students_t t ∧ e.2 ∈ course_row_id <$> courses_t t).

(** An operation keeps the constraints of the schema, whatever its
    outcome. *)
Definition keeps_constraints {A} (op : M Db A) : Prop :=
  ∀ d, tables_ok (dbm d) → tables_ok (dbm (op d).2).

(** The objects that the constructors build from clean rows. *)
Definition student_of_row (r : person_row) : Student :=
  let '(name, age, email, sid) := r in mkStudent (mkPerson name age email) sid [].
Definition instructor_of_row (r : person_row) : Instructor :=
  let '(name, age, email, iid) := r in mkInstructor (mkPerson name age email) iid [].

(** [m[k] = l] for the keys and locations of two lists, in order. *)
Definition insert_all (m : gmap string nat) (ks : list string) (ls : list nat)
  : gmap string nat :=
  foldl (λ m kl, <[kl.1 := kl.2]> m) m (zip ks ls).

(** The rows of the store are as the constructors leave them. *)
Definition rows_clean `{Validator} (t : Tables) : Prop :=
  Forall instructor_row_clean (instructors_t t) ∧
  Forall student_row_clean (students_t t) ∧
  Forall course_row_clean (courses_t t).


(** The graph held by a hydration: its objects, reached through its three
    look-up maps. *)
Definition hydrated_graph (d : Db) (data : Hydrated) : Mem :=
  mkMem (db_heap d)
        (mkFileManager (students_map data) (instructors_map data) (courses_map data)).

(** The persistent scenario with a second instructor, read once: the
    object that [edit_course] is given. *)
Module ReassignScenario.

#[local] Existing Instance Fallback.validator.

Definition with_jones : Db :=
  (DatabaseDataManager.add_instructor "Dr. Alan Jones" 52 "a.jones@university.edu"
                                      "199505678" StoreScenario.campus).2.
Definition store : Db := (DatabaseDataManager.get_instructor "199505678" with_jones).2.
Definition jones : loc := 3%nat.
Definition jones_obj : Instructor :=
  mkInstructor (mkPerson "Dr. Alan Jones" 52 "a.jones@university.edu") "199505678" [].

End ReassignScenario.

(** * Properties *)

(** ** The monad *)

Lemma for_each_app {S A} (xs ys : list A) (body : A → M S unit) (s : S) :
  for_each (xs ++ ys) body s = (for_each xs body >> for_each ys body) s.
Proof.
  revert s. induction xs as [|x xs IH]; intros s; simpl.
  - done.
  - unfold bind in *. destruct (body x s) as [[[]|e] s']; [apply IH|done].
Qed.

(** ** Ages that SQLite stores *)

Lemma check_age_sqlite (a : Z) : check_age a = true → sqlite_integer a = true.
Proof. unfold check_age, sqlite_integer. lia. Qed.

Lemma Person_init_binds `{Validator} n a e p :
  Person_init n a e = Ok p → sqlite_integer a = true ∧ age p = a.
Proof.
  unfold Person_init. destruct (negb (check_name _)); [done|].
  destruct (check_age a) eqn:Ha; [|done]. simpl.
  destruct (negb _); [done|]. intros [= <-]. split; [by apply check_age_sqlite|done].
Qed.

Lemma Student_init_binds `{Validator} n a e sid s :
  Student_init n a e sid = Ok s → sqlite_integer a = true.
Proof.
  unfold Student_init. destruct (Person_init n a e) as [p|] eqn:Hp; [|done].
  intros _. by apply (Person_init_binds n a e p).
Qed.

Lemma Instructor_init_binds `{Validator} n a e iid i :
  Instructor_init n a e iid = Ok i → sqlite_integer a = true.
Proof.
  unfold Instructor_init. destruct (Person_init n a e) as [p|] eqn:Hp; [|done].
  intros _. by apply (Person_init_binds n a e p).
Qed.

(** ** Editing a person (C10) *)

Section EditPerson.
Context `{Validator}.

Lemma Person_update_falsy kw p r p' :
  Person_update kw p = (r, p') →
  (falsy_str (kw_name kw) → name p' = name p) ∧
  (falsy_int (kw_age kw) → age p' = age p) ∧
  (falsy_str (kw_email kw) → _email p' = _email p).
Proof.
  unfold Person_update, bind, raise, ret, modify, falsy_str, falsy_int.
  destruct (truthy_str (kw_name kw)) as [n|];
    destruct (truthy_int (kw_age kw)) as [a|];
    destruct (truthy_str (kw_email kw)) as [e|];
    repeat (destruct (negb _); simpl);
    intros [= <- <-]; simpl; done.
Qed.

Lemma Person_update_all_falsy kw p :
  falsy_str (kw_name kw) → falsy_int (kw_age kw) → falsy_str (kw_email kw) →
  Person_update kw p = (Ok tt, p).
Proof. unfold Person_update, bind, ret, falsy_str, falsy_int. by intros -> -> ->. Qed.

Lemma Person_update_raises kw p e p' :
  Person_update kw p = (Raise e, p') → ∃ msg, e = ValueError msg.
Proof.
  unfold Person_update, bind, raise, ret, modify, invalid_email.
  destruct (truthy_str (kw_name kw)) as [n|];
    destruct (truthy_int (kw_age kw)) as [a|];
    destruct (truthy_str (kw_email kw)) as [em|];
    repeat (destruct (negb _); simpl);
    intros [= <- <-]; eauto.
Qed.

(** [edit_student] runs [Person.update] on the stored object and keeps
    whatever it assigned, also when it raises. *)
Lemma edit_student_run (m : Mem) sid l s kw :
  PyStr.truthy sid = true →
  students (datastore m) !! sid = Some l →
  student_objs (heap m) !! l = Some s →
  ∃ r r' p, Person_update kw (student_person s) = (r, p) ∧
    (r = Ok tt → r' = Ok tt) ∧
    MemoryDataManager.edit_student (Some sid) kw m =
      (r', mkMem (set_student_objs
                    (λ os, <[l:=mkStudent p (student_id s) (registered_courses s)]> os)
                    (heap m)) (datastore m)).
Proof.
  intros Ht Hl Hs.
  destruct (Person_update kw (student_person s)) as [r p] eqn:Hu.
  unfold MemoryDataManager.edit_student. simpl. rewrite Ht.
  unfold bind, gets. rewrite Hl.
  unfold try_except, in_heap, zoom, Student_update, bind, deref. rewrite Hs, Hu.
  destruct r as [[]|e].
  - by exists (Ok tt), (Ok tt), p.
  - destruct (Person_update_raises _ _ _ _ Hu) as [msg ->]. simpl.
    by exists (Raise (ValueError msg)), (Raise (DataError (FromValueError msg))), p.
Qed.

Lemma edit_instructor_run (m : Mem) iid l i kw :
  PyStr.truthy iid = true →
  instructors (datastore m) !! iid = Some l →
  instructor_objs (heap m) !! l = Some i →
  ∃ r r' p, Person_update kw (instructor_person i) = (r, p) ∧
    (r = Ok tt → r' = Ok tt) ∧
    MemoryDataManager.edit_instructor (Some iid) kw m =
      (r', mkMem (set_instructor_objs
                    (λ os, <[l:=mkInstructor p (instructor_id i) (assigned_courses i)]> os)
                    (heap m)) (datastore m)).
Proof.
  intros Ht Hl Hi.
  destruct (Person_update kw (instructor_person i)) as [r p] eqn:Hu.
  unfold MemoryDataManager.edit_instructor. simpl. rewrite Ht.
  unfold bind, gets. rewrite Hl.
  unfold try_except, in_heap, zoom, Instructor_update, bind, deref. rewrite Hi, Hu.
  destruct r as [[]|e].
  - by exists (Ok tt), (Ok tt), p.
  - destruct (Person_update_raises _ _ _ _ Hu) as [msg ->]. simpl.
    by exists (Raise (ValueError msg)), (Raise (DataError (FromValueError msg))), p.
Qed.

End EditPerson.

(** ** Removing a student or an instructor (C1) *)

(** Both removals only unbind the identifier; the heap, and with it every
    list that refers to the removed object, stays as it was. *)
Lemma remove_student_run (m : Mem) sid l :
  students (datastore m) !! sid = Some l →
  MemoryDataManager.remove_student sid m = (Ok tt, set_students (delete sid) m).
Proof. intros Hl. unfold MemoryDataManager.remove_student, bind, gets. by rewrite Hl. Qed.

Lemma remove_instructor_run (m : Mem) iid l :
  instructors (datastore m) !! iid = Some l →
  MemoryDataManager.remove_instructor iid m = (Ok tt, set_instructors (delete iid) m).
Proof. intros Hl. unfold MemoryDataManager.remove_instructor, bind, gets. by rewrite Hl. Qed.

Lemma remove_student_keeps_heap (m : Mem) sid :
  heap (MemoryDataManager.remove_student sid m).2 = heap m.
Proof.
  unfold MemoryDataManager.remove_student, bind, gets.
  by destruct (students (datastore m) !! sid).
Qed.

Lemma remove_instructor_keeps_heap (m : Mem) iid :
  heap (MemoryDataManager.remove_instructor iid m).2 = heap m.
Proof.
  unfold MemoryDataManager.remove_instructor, bind, gets.
  by destruct (instructors (datastore m) !! iid).
Qed.

(** C1, at the scenario.  Removing the enrolled student succeeds and the
    student is gone from the graph, yet course ["EECE230"], which remains,
    still lists the removed student; removing the instructor succeeds and the
    remaining course still refers to the removed instructor. *)
Theorem remove_leaves_edges_to_removed_entity :
  students (datastore Scenario.campus) !! "202401111" = Some Scenario.john ∧
  (Scenario.remove_student Scenario.campus).1 = Ok tt ∧
  student_at (Scenario.remove_student Scenario.campus).2 "202401111" = None ∧
  enrolled_students <$> course_at (Scenario.remove_student Scenario.campus).2 "EECE230"
    = Some [Scenario.john] ∧
  instructors (datastore Scenario.campus) !! "199801234" = Some Scenario.smith ∧
  (Scenario.remove_instructor Scenario.campus).1 = Ok tt ∧
  instructor_at (Scenario.remove_instructor Scenario.campus).2 "199801234" = None ∧
  instructor <$> course_at (Scenario.remove_instructor Scenario.campus).2 "EECE230"
    = Some Scenario.smith.
Proof. split_and!; vm_compute; reflexivity. Qed.

(** ** Reassigning a course (C2) *)

Section EditCourse.
Context `{Validator}.

(** [Course.update] writes the course object only: no instructor is
    touched. *)
Lemma Course_update_keeps_instructors l kw (h : Heap) :
  instructor_objs (Course_update l kw h).2 = instructor_objs h.
Proof.
  unfold Course_update, bind, raise, ret, store_course, modify, deref.
  repeat case_match; simplify_eq/=; done.
Qed.

Lemma edit_course_keeps_instructors kw (m : Mem) :
  instructor_objs (heap (MemoryDataManager.edit_course kw m).2) = instructor_objs (heap m).
Proof.
  unfold MemoryDataManager.edit_course, bind, gets, raise.
  destruct (truthy_str (kw_course_id kw)) as [cid|]; [|done].
  destruct (courses (datastore m) !! cid) as [l|]; [|done].
  unfold try_except, in_heap, zoom.
  pose proof (Course_update_keeps_instructors l kw (heap m)) as Hk.
  destruct (Course_update l kw (heap m)) as [[[]|e] h']; simpl in *; [done|].
  unfold value_error_to_data_error. by destruct e.
Qed.

End EditCourse.

(** C2, at the scenario.  Editing course ["EECE230"] to hand it from the
    first instructor to the second succeeds and sets the course's instructor
    reference, but the old instructor's [assigned_courses] still holds the
    course and the new instructor's does not. *)
Theorem reassign_leaves_assigned_courses :
  assigned_courses <$> instructor_at Scenario.campus "199801234" = Some [Scenario.eece230] ∧
  assigned_courses <$> instructor_at Scenario.campus "199505678" = Some [] ∧
  (Scenario.reassign Scenario.campus).1 = Ok tt ∧
  instructor <$> course_at (Scenario.reassign Scenario.campus).2 "EECE230"
    = Some Scenario.jones ∧
  assigned_courses <$> instructor_at (Scenario.reassign Scenario.campus).2 "199801234"
    = Some [Scenario.eece230] ∧
  assigned_courses <$> instructor_at (Scenario.reassign Scenario.campus).2 "199505678"
    = Some [].
Proof. split_and!; vm_compute; reflexivity. Qed.

(** ** Adding under a taken identifier (C4) *)

Section AddDuplicate.
Context `{Validator}.

(** A failed [add_student] or [add_instructor] leaves the whole state as it
    was, and fails with [AlreadyExists] once the fields validate. *)
Lemma add_student_taken (m : Mem) name age email sid l :
  students (datastore m) !! PyStr.strip sid = Some l →
  ∃ c, MemoryDataManager.add_student name age email sid m = (Raise (DataError c), m) ∧
       (∀ s, Student_init name age email sid = Ok s →
             c = AlreadyExists EStudent (PyStr.strip sid)).
Proof.
  intros Hl. unfold MemoryDataManager.add_student, bind, try_except, lift_result.
  destruct (Student_init name age email sid) as [s|e] eqn:Hinit.
  - assert (student_id s = PyStr.strip sid) as Hid.
    { unfold Student_init in Hinit. destruct (Person_init name age email); [|done].
      destruct (negb _); [done|]. by injection Hinit as <-. }
    unfold gets. rewrite Hid, Hl. simpl.
    eexists. split; [done|]. by intros ? [= <-].
  - assert (∃ msg, e = ValueError msg) as [msg ->].
    { unfold Student_init, Person_init, invalid_email in Hinit.
      repeat case_match; simplify_eq/=; eauto. }
    simpl. eexists. split; [done|]. done.
Qed.

Lemma add_instructor_taken (m : Mem) name age email iid l :
  instructors (datastore m) !! iid = Some l →
  ∃ c, MemoryDataManager.add_instructor name age email iid m = (Raise (DataError c), m) ∧
       (∀ i, Instructor_init name age email iid = Ok i →
             c = AlreadyExists EInstructor iid).
Proof.
  intros Hl. unfold MemoryDataManager.add_instructor, bind, try_except, lift_result.
  destruct (Instructor_init name age email iid) as [i|e] eqn:Hinit.
  - assert (instructor_id i = iid) as Hid.
    { unfold Instructor_init in Hinit. destruct (Person_init name age email); [|done].
      destruct (negb _); [done|]. by injection Hinit as <-. }
    unfold gets. rewrite Hid, Hl. simpl.
    eexists. split; [done|]. by intros ? [= <-].
  - assert (∃ msg, e = ValueError msg) as [msg ->].
    { unfold Instructor_init, Person_init, invalid_email in Hinit.
      repeat case_match; simplify_eq/=; eauto. }
    simpl. eexists. split; [done|]. done.
Qed.

End AddDuplicate.

(** C4, at the scenario.  Adding a course under the taken identifier
    ["EECE230"], with the second instructor, fails with [AlreadyExists] and
    leaves the three dictionaries as they were, but the rejected [Course]
    object (location 1) has been appended to that instructor's
    [assigned_courses], which was empty before. *)
Theorem add_course_taken_changes_instructor :
  is_Some (course_at Scenario.campus "EECE230") ∧
  assigned_courses <$> instructor_at Scenario.campus "199505678" = Some [] ∧
  (Scenario.add_again Scenario.campus).1 = Raise (DataError (AlreadyExists ECourse "EECE230")) ∧
  datastore (Scenario.add_again Scenario.campus).2 = datastore Scenario.campus ∧
  assigned_courses <$> instructor_at (Scenario.add_again Scenario.campus).2 "199505678"
    = Some [1%nat] ∧
  course_id <$> course_objs (heap (Scenario.add_again Scenario.campus).2) !! 1%nat
    = Some "EECE230".
Proof. split_and!; try (vm_compute; reflexivity). vm_compute. eauto. Qed.

(** ** Removing a course (C5) *)

Lemma filter_ne_absent (x : loc) (l : list loc) : x ∉ l → filter (λ y, y ≠ x) l = l.
Proof.
  induction l as [|y l IH]; [done|]. intros Hx.
  rewrite filter_cons_True by set_solver. f_equal. apply IH. set_solver.
Qed.

Lemma list_remove_NoDup (x : loc) (l : list loc) :
  NoDup l → x ∈ l → list_remove x l = Some (filter (λ y, y ≠ x) l).
Proof.
  induction 1 as [|y l Hy Hnd IH]; intros Hin; [by apply elem_of_nil in Hin|].
  simpl. destruct (decide (y = x)) as [->|Hne].
  - rewrite filter_cons_False by naive_solver. by rewrite filter_ne_absent.
  - rewrite filter_cons_True by done.
    apply elem_of_cons in Hin as [->|Hin]; [done|]. by rewrite IH.
Qed.

Lemma list_remove_absent (x : loc) (l : list loc) : x ∉ l → list_remove x l = None.
Proof.
  induction l as [|y l IH]; [done|]. intros Hx. simpl.
  destruct (decide (y = x)) as [->|]; [set_solver|]. rewrite IH; [done|set_solver].
Qed.

Lemma detach_loop (lc : loc) (todo : list loc) (m : Mem) :
  NoDup todo →
  (∀ ls, ls ∈ todo → ∃ s, student_objs (heap m) !! ls = Some s
                          ∧ lc ∈ registered_courses s ∧ NoDup (registered_courses s)) →
  ∃ m', for_each todo (detach_body lc) m = (Ok tt, m') ∧
        datastore m' = datastore m ∧
        instructor_objs (heap m') = instructor_objs (heap m) ∧
        course_objs (heap m') = course_objs (heap m) ∧
        ∀ ls, student_objs (heap m') !! ls =
              if decide (ls ∈ todo) then detach_course lc <$> student_objs (heap m) !! ls
              else student_objs (heap m) !! ls.
Proof.
  intros Hnd. revert m. induction Hnd as [|x todo Hx Hnd IH]; intros m Hall.
  - exists m. split_and!; done.
  - destruct (Hall x) as (s & Hs & Hin & Hnds); [set_solver|].
    simpl. unfold bind at 1. unfold detach_body at 1.
    unfold bind, in_heap, zoom, deref. rewrite Hs.
    rewrite (list_remove_NoDup _ _ Hnds Hin).
    unfold store_student, modify. simpl.
    set (m1 := mkMem _ _).
    destruct (IH m1) as (m' & Hrun & Hd & Hi & Hc & Hst).
    { intros ls Hls. destruct (Hall ls) as (s' & Hs' & ?); [set_solver|].
      exists s'. split; [|done]. subst m1. simpl.
      rewrite list_lookup_insert_ne; [done|]. intros ->. done. }
    exists m'. rewrite Hrun. split_and!; try done.
    intros ls. rewrite Hst. subst m1. simpl.
    destruct (decide (ls = x)) as [->|Hne].
    + rewrite decide_False by done. rewrite decide_True by set_solver.
      rewrite list_lookup_insert_eq by (by eapply lookup_lt_Some). by rewrite Hs.
    + rewrite list_lookup_insert_ne by done.
      destruct (decide (ls ∈ todo)).
      * by rewrite decide_True by set_solver.
      * by rewrite decide_False by set_solver.
Qed.

(** C5, at the scenario.  Course ["EECE230"] is present in the graph after
    the successful reassignment of C2, yet [remove_course("EECE230")] does
    not succeed: the [list.remove] on the new instructor's
    [assigned_courses] raises [ValueError], which reaches the caller as it
    is, and nothing is removed or detached, the state being the one before
    the call.  Likewise the course that [data_from_csv] loads from a row
    with the identifier ["phys210"] is present, with [course_id]
    ["PHYS210"], under the key ["phys210"]: [remove_course(c.course_id)]
    fails with the [DataError] of a course that does not exist. *)
Theorem remove_course_fails_for_a_present_course :
  (Scenario.reassign Scenario.campus).1 = Ok tt ∧
  course_id <$> course_at Scenario.reassigned "EECE230" = Some "EECE230" ∧
  Scenario.remove_course Scenario.reassigned
    = (Raise list_remove_error, Scenario.reassigned) ∧
  (MemoryDataManager.data_from_csv (H:=Fallback.validator) ImportScenario.lower_case_course
     Scenario.fresh).1 = Ok tt ∧
  course_id <$> course_at ImportScenario.imported "phys210" = Some "PHYS210" ∧
  MemoryDataManager.remove_course "PHYS210" ImportScenario.imported
    = (Raise (DataError (DoesNotExist ECourse "PHYS210")), ImportScenario.imported).
Proof. split_and!; vm_compute; reflexivity. Qed.

(** What the detachment means for membership. *)
Lemma detach_course_spec (lc : loc) (s : Student) :
  (lc ∉ registered_courses (detach_course lc s)) ∧
  (∀ x, x ≠ lc → (x ∈ registered_courses (detach_course lc s) ↔ x ∈ registered_courses s)) ∧
  student_person (detach_course lc s) = student_person s ∧
  student_id (detach_course lc s) = student_id s.
Proof.
  unfold detach_course. simpl. split_and!; try done.
  - rewrite list_elem_of_filter. naive_solver.
  - intros x Hx. rewrite list_elem_of_filter. naive_solver.
Qed.

(** ** Enrollment on the in-memory manager (C3) *)

Lemma course_ids_app (h : Heap) (l1 l2 : list loc) :
  course_ids h (l1 ++ l2) = course_ids h l1 ++ course_ids h l2.
Proof. apply omap_app. Qed.

Lemma student_ids_app (h : Heap) (l1 l2 : list loc) :
  student_ids h (l1 ++ l2) = student_ids h l1 ++ student_ids h l2.
Proof. apply omap_app. Qed.

(** Identifiers read through a list of locations only depend on the
    identifiers stored at those locations. *)
Lemma course_ids_ext (h h' : Heap) (ls : list loc) :
  (∀ l, l ∈ ls → course_id <$> course_objs h' !! l = course_id <$> course_objs h !! l) →
  course_ids h' ls = course_ids h ls.
Proof.
  intros Hext. unfold course_ids. induction ls as [|l ls IH]; [done|].
  cbn [omap list_omap]. rewrite Hext by set_solver.
  destruct (course_id <$> course_objs h !! l); (rewrite IH; [done|]); intros; apply Hext; set_solver.
Qed.

Lemma student_ids_ext (h h' : Heap) (ls : list loc) :
  (∀ l, l ∈ ls → student_id <$> student_objs h' !! l = student_id <$> student_objs h !! l) →
  student_ids h' ls = student_ids h ls.
Proof.
  intros Hext. unfold student_ids. induction ls as [|l ls IH]; [done|].
  cbn [omap list_omap]. rewrite Hext by set_solver.
  destruct (student_id <$> student_objs h !! l); (rewrite IH; [done|]); intros; apply Hext; set_solver.
Qed.

Lemma add_student_run (h : Heap) (lc ls : loc) (c : Course) (s : Student) :
  course_objs h !! lc = Some c → student_objs h !! ls = Some s →
  add_student lc ls h = (Ok tt, heap_add_student lc ls c s h).
Proof.
  intros Hc Hs. unfold add_student, heap_add_student, bind, deref, gets, when.
  rewrite Hc, Hs. by case_bool_decide.
Qed.

Lemma register_course_run (h : Heap) (ls lc : loc) (s : Student) (c : Course) :
  student_objs h !! ls = Some s → course_objs h !! lc = Some c →
  register_course ls lc h = (Ok tt, heap_register ls lc s c h).
Proof.
  intros Hs Hc. unfold register_course, heap_register, bind, deref, gets, when.
  rewrite Hs, Hc. case_bool_decide; [|done].
  unfold store_student, modify. simpl.
  rewrite (add_student_run _ lc ls c
             (mkStudent (student_person s) (student_id s) (registered_courses s ++ [lc])));
    [done|done|].
  simpl. apply list_lookup_insert_eq. by eapply lookup_lt_Some.
Qed.

(** After a registration the course is among the student's courses, so a
    second registration finds it and does nothing. *)
Lemma register_course_again (h : Heap) (ls lc : loc) (s : Student) (c : Course) :
  student_objs h !! ls = Some s → course_objs h !! lc = Some c →
  register_course ls lc (heap_register ls lc s c h) = (Ok tt, heap_register ls lc s c h).
Proof.
  intros Hs Hc. unfold heap_register. case_bool_decide as Hnew.
  - set (s' := mkStudent _ _ _). set (h1 := set_student_objs _ h).
    assert (student_objs h1 !! ls = Some s') as Hs1.
    { subst h1. simpl. apply list_lookup_insert_eq. by eapply lookup_lt_Some. }
    assert (∃ c', course_objs (heap_add_student lc ls c s' h1) !! lc = Some c'
                  ∧ course_id c' = course_id c) as (c' & Hc' & Hid).
    { unfold heap_add_student. case_bool_decide.
      - exists (mkCourse (course_id c) (course_name c) (instructor c)
                         (enrolled_students c ++ [ls])).
        split; [|done]. subst h1. simpl.
        apply list_lookup_insert_eq. by eapply lookup_lt_Some.
      - by exists c. }
    assert (student_objs (heap_add_student lc ls c s' h1) !! ls = Some s') as Hs2.
    { unfold heap_add_student. by case_bool_decide. }
    rewrite (register_course_run _ ls lc s' c' Hs2 Hc').
    unfold heap_register. rewrite bool_decide_false; [done|].
    intros Hout. apply Hout. subst s'. simpl. rewrite course_ids_app.
    apply elem_of_app. right. unfold course_ids. simpl. rewrite Hc'. simpl.
    rewrite Hid. apply list_elem_of_here.
  - rewrite (register_course_run _ ls lc s c Hs Hc).
    unfold heap_register. by rewrite bool_decide_false by naive_solver.
Qed.

(** Enrollment through the in-memory manager: it succeeds for an existing
    pair, a repetition changes nothing, and an already-enrolled pair is left
    as it is. *)
Lemma memory_enroll_idempotent (m : Mem) sid cid ls lc s c :
  students (datastore m) !! sid = Some ls → student_objs (heap m) !! ls = Some s →
  courses (datastore m) !! cid = Some lc → course_objs (heap m) !! lc = Some c →
  ∃ m1, MemoryDataManager.enroll_student sid cid m = (Ok tt, m1) ∧
        MemoryDataManager.enroll_student sid cid m1 = (Ok tt, m1) ∧
        datastore m1 = datastore m ∧
        (course_id c ∈ course_ids (heap m) (registered_courses s) → m1 = m).
Proof.
  intros Hls Hs Hlc Hc. destruct m as [h fm]. simpl in *.
  exists (mkMem (heap_register ls lc s c h) fm).
  unfold MemoryDataManager.enroll_student, bind, gets, in_heap, zoom. simpl.
  rewrite Hls. simpl. rewrite Hlc. simpl.
  rewrite (register_course_run _ _ _ _ _ Hs Hc). simpl.
  rewrite (register_course_again _ _ _ _ _ Hs Hc).
  split_and!; try done.
  intros Hin. unfold heap_register. by rewrite bool_decide_false by naive_solver.
Qed.

(** ** Enrollment on the persistent manager (C3) *)

(** With the student and the course in the store, [enroll_student] inserts a
    new pair and refuses a pair that is already there, leaving the state as it
    was. *)
Lemma store_enroll_run (d : Db) sid cid srow crow :
  DatabaseManager.find_person sid (students_t (dbm d)) = Some srow →
  DatabaseManager.find_course cid (courses_t (dbm d)) = Some crow →
  is_Some (DatabaseManager.join_instructor (dbm d) crow) →
  DatabaseDataManager.enroll_student sid cid d =
    if bool_decide ((sid, cid) ∈ enrollments_t (dbm d))
    then (Raise duplicate_enrollment, d)
    else (Ok tt, mkDb (db_heap d)
                     (mkTables (students_t (dbm d)) (instructors_t (dbm d))
                               (courses_t (dbm d)) (enrollments_t (dbm d) ++ [(sid, cid)]))
                     (_cache d)).
Proof.
  intros Hs Hc [j Hj]. destruct d as [h t ca]. simpl in *.
  unfold DatabaseDataManager.enroll_student, try_except, bind, in_dbm, zoom,
    DatabaseManager.get_student, DatabaseManager.get_course, gets. simpl.
  rewrite Hs. simpl. rewrite Hc. simpl. rewrite Hj. simpl.
  unfold DatabaseManager.enroll_student. simpl.
  case_bool_decide; [by destruct t|].
  rewrite bool_decide_true; [done|]. rewrite Hs, Hc. split; eauto.
Qed.

(** The tables after a new enrollment. *)
Lemma store_enroll_new (d : Db) sid cid srow crow :
  DatabaseManager.find_person sid (students_t (dbm d)) = Some srow →
  DatabaseManager.find_course cid (courses_t (dbm d)) = Some crow →
  is_Some (DatabaseManager.join_instructor (dbm d) crow) →
  (sid, cid) ∉ enrollments_t (dbm d) →
  ∃ d1, DatabaseDataManager.enroll_student sid cid d = (Ok tt, d1) ∧
        enrollments_t (dbm d1) = enrollments_t (dbm d) ++ [(sid, cid)] ∧
        DatabaseDataManager.enroll_student sid cid d1 = (Raise duplicate_enrollment, d1).
Proof.
  intros Hs Hc Hj Hnew. eexists. split; [|split].
  - rewrite (store_enroll_run d sid cid srow crow) by done.
    by rewrite bool_decide_false by done.
  - done.
  - rewrite (store_enroll_run _ sid cid srow crow); simpl; try done.
    rewrite bool_decide_true; [done|]. apply elem_of_app. right. apply list_elem_of_here.
Qed.

(** C3, as the code has it.  On the in-memory manager, enrolling an existing
    student in an existing course succeeds, a second call changes nothing
    (so no entry is duplicated) and an already-enrolled pair is a no-op.  On
    the persistent manager a new pair is stored, and enrolling a pair that is
    already stored raises [DataError] and leaves the whole state, so also the
    graph read back from it, as it was. *)
Theorem enroll_again_noop_in_memory_refused_by_store :
  (∀ (m : Mem) sid cid ls lc s c,
      students (datastore m) !! sid = Some ls → student_objs (heap m) !! ls = Some s →
      courses (datastore m) !! cid = Some lc → course_objs (heap m) !! lc = Some c →
      ∃ m1, MemoryDataManager.enroll_student sid cid m = (Ok tt, m1) ∧
            MemoryDataManager.enroll_student sid cid m1 = (Ok tt, m1) ∧
            (course_id c ∈ course_ids (heap m) (registered_courses s) → m1 = m)) ∧
  (∀ (d : Db) sid cid srow crow,
      DatabaseManager.find_person sid (students_t (dbm d)) = Some srow →
      DatabaseManager.find_course cid (courses_t (dbm d)) = Some crow →
      is_Some (DatabaseManager.join_instructor (dbm d) crow) →
      ((sid, cid) ∈ enrollments_t (dbm d) →
       DatabaseDataManager.enroll_student sid cid d = (Raise duplicate_enrollment, d)) ∧
      ((sid, cid) ∉ enrollments_t (dbm d) →
       ∃ d1, DatabaseDataManager.enroll_student sid cid d = (Ok tt, d1) ∧
             enrollments_t (dbm d1) = enrollments_t (dbm d) ++ [(sid, cid)] ∧
             DatabaseDataManager.enroll_student sid cid d1 = (Raise duplicate_enrollment, d1))).
Proof.
  split.
  - intros m sid cid ls lc s c Hls Hs Hlc Hc.
    destruct (memory_enroll_idempotent m sid cid ls lc s c Hls Hs Hlc Hc)
      as (m1 & H1 & H2 & _ & H3).
    by exists m1.
  - intros d sid cid srow crow Hs Hc Hj. split.
    + intros Hin. rewrite (store_enroll_run d sid cid srow crow) by done.
      by rewrite bool_decide_true by done.
    + intros Hnew. by eapply store_enroll_new.
Qed.

Lemma enroll_again_witness :
  MemoryDataManager.enroll_student "202401111" "EECE230" Scenario.campus
    = (Ok tt, Scenario.campus) ∧
  DatabaseDataManager.enroll_student "202401111" "EECE230" StoreScenario.campus
    = (Raise duplicate_enrollment, StoreScenario.campus).
Proof.
  destruct enroll_again_noop_in_memory_refused_by_store as [Hmem Hstore]. split.
  - destruct (Hmem Scenario.campus "202401111" "EECE230" Scenario.john Scenario.eece230
                   Scenario.john_obj Scenario.eece230_obj) as (m1 & H1 & _ & H3);
      [vm_compute; reflexivity ..|].
    rewrite H1. f_equal. apply H3. vm_compute. apply list_elem_of_here.
  - destruct (Hstore StoreScenario.campus "202401111" "EECE230"
                     ("John Doe", 20, "john.doe@lau.edu", "202401111")
                     ("EECE230", "Software Engineering", "199801234")) as [Hdup _];
      [vm_compute; reflexivity | vm_compute; reflexivity | vm_compute; eauto |].
    apply Hdup. vm_compute. apply list_elem_of_here.
Defined.

(** C3, as stated, at the persistent scenario: the pair is stored already,
    and enrolling it again is an error. *)
Lemma store_enroll_again_is_an_error :
  enrollments_t (dbm StoreScenario.campus) = [("202401111", "EECE230")] ∧
  (StoreScenario.enroll_again StoreScenario.campus).1
    = Raise (DataError (FromSqlite
        "UNIQUE constraint failed: enrollments.student_id, enrollments.course_id")).
Proof. split; vm_compute; reflexivity. Qed.

(** ** Mutations of the persistent manager and the cache (C9) *)

Lemma cache_blind_ret {A} (a : A) : cache_blind (ret a).
Proof. by intros c d. Qed.

Lemma cache_blind_raise {A} (e : exn) : cache_blind (raise (A:=A) e).
Proof. by intros c d. Qed.

Lemma cache_blind_lift_result {A} (r : result A) : cache_blind (lift_result r).
Proof. by intros c d. Qed.

Lemma cache_blind_bind {A B} (m : M Db A) (k : A → M Db B) :
  cache_blind m → (∀ a, cache_blind (k a)) → cache_blind (bind m k).
Proof.
  intros Hm Hk c d. unfold bind. rewrite Hm.
  destruct (m d) as [[a|e] d']; [apply Hk|done].
Qed.

Lemma cache_blind_try {A} (m : M Db A) (h : exn → option (M Db A)) :
  cache_blind m → (∀ e k, h e = Some k → cache_blind k) → cache_blind (try_except m h).
Proof.
  intros Hm Hh c d. unfold try_except. rewrite Hm.
  destruct (m d) as [[a|e] d']; [done|].
  destruct (h e) as [k|] eqn:He; [|done]. by apply (Hh e k).
Qed.

Lemma cache_blind_sqlite_handler {A} e (k : M Db A) :
  sqlite_error_to_data_error e = Some k → cache_blind k.
Proof. destruct e; intros [= <-]. apply cache_blind_raise. Qed.

Lemma cache_blind_value_handler {A} e (k : M Db A) :
  value_error_to_data_error e = Some k → cache_blind k.
Proof. destruct e; intros [= <-]; apply cache_blind_raise. Qed.

Lemma cache_blind_in_dbm {A} (m : M Tables A) : cache_blind (in_dbm m).
Proof. intros c d. unfold in_dbm, zoom. simpl. by destruct (m (dbm d)). Qed.

Lemma cache_blind_in_db_heap {A} (m : M Heap A) : cache_blind (in_db_heap m).
Proof. intros c d. unfold in_db_heap, zoom. simpl. by destruct (m (db_heap d)). Qed.

Ltac cache_blind_step :=
  first
    [ apply cache_blind_ret | apply cache_blind_raise | apply cache_blind_lift_result
    | apply cache_blind_in_dbm | apply cache_blind_in_db_heap
    | apply cache_blind_bind; [|intros ?]
    | apply cache_blind_try;
      [|intros ? ?; first [ apply cache_blind_sqlite_handler
                          | apply cache_blind_value_handler ]]
    | case_match ].

Ltac cache_blind := repeat cache_blind_step.

Section StoreMutations.
Context `{Validator}.

Lemma add_student_cache_blind name age email sid :
  cache_blind (DatabaseDataManager.add_student name age email sid).
Proof. unfold DatabaseDataManager.add_student. cache_blind. Qed.

Lemma edit_student_cache_blind sid kw :
  cache_blind (DatabaseDataManager.edit_student sid kw).
Proof. unfold DatabaseDataManager.edit_student. cache_blind. Qed.

Lemma remove_student_cache_blind sid :
  cache_blind (DatabaseDataManager.remove_student sid).
Proof. unfold DatabaseDataManager.remove_student. cache_blind. Qed.

Lemma add_instructor_cache_blind name age email iid :
  cache_blind (DatabaseDataManager.add_instructor name age email iid).
Proof. unfold DatabaseDataManager.add_instructor. cache_blind. Qed.

Lemma edit_instructor_cache_blind iid kw :
  cache_blind (DatabaseDataManager.edit_instructor iid kw).
Proof. unfold DatabaseDataManager.edit_instructor. cache_blind. Qed.

Lemma remove_instructor_cache_blind iid :
  cache_blind (DatabaseDataManager.remove_instructor iid).
Proof. unfold DatabaseDataManager.remove_instructor. cache_blind. Qed.

Lemma add_course_cache_blind cid cname instr :
  cache_blind (DatabaseDataManager.add_course cid cname instr).
Proof. unfold DatabaseDataManager.add_course. cache_blind. Qed.

Lemma edit_course_cache_blind kw :
  cache_blind (DatabaseDataManager.edit_course kw).
Proof. unfold DatabaseDataManager.edit_course. cache_blind. Qed.

Lemma remove_course_cache_blind cid :
  cache_blind (DatabaseDataManager.remove_course cid).
Proof. unfold DatabaseDataManager.remove_course. cache_blind. Qed.

Lemma enroll_student_cache_blind sid cid :
  cache_blind (DatabaseDataManager.enroll_student sid cid).
Proof. unfold DatabaseDataManager.enroll_student. cache_blind. Qed.

(** [add_student]: the row is looked up in the table, then inserted. *)
Lemma store_add_student_run (d : Db) name age email sid s :
  Student_init name age email sid = Ok s →
  DatabaseDataManager.add_student name age email sid d =
    match DatabaseManager.find_person (student_id s) (students_t (dbm d)) with
    | Some _ => (Raise (DataError (AlreadyExists EStudent (student_id s))), d)
    | None =>
        match DatabaseManager.add_student sid name age email (dbm d) with
        | (Ok _, t) => (Ok tt, mkDb (db_heap d) t (_cache d))
        | (Raise (IntegrityError msg), t) =>
            (Raise (DataError (FromSqlite msg)), mkDb (db_heap d) t (_cache d))
        | (Raise e, t) => (Raise e, mkDb (db_heap d) t (_cache d))
        end
    end.
Proof.
  intros Hs. destruct d as [h t ca].
  unfold DatabaseDataManager.add_student, try_except, bind, lift_result, in_dbm, zoom,
    DatabaseManager.get_student, gets. simpl. rewrite Hs. simpl.
  destruct (DatabaseManager.find_person (student_id s) (students_t t)); simpl.
  - by destruct t.
  - unfold DatabaseManager.add_student. rewrite (Student_init_binds _ _ _ _ _ Hs).
    cbn [negb]. destruct (DatabaseManager.find_person sid (students_t t)); simpl; done.
Qed.

(** [remove_course]: the row is looked up in the table, then deleted. *)
Lemma store_remove_course_run (d : Db) cid :
  DatabaseDataManager.remove_course cid d =
    match DatabaseManager.find_course cid (courses_t (dbm d))
          ≫= DatabaseManager.join_instructor (dbm d) with
    | None => (Raise (DataError (DoesNotExist ECourse cid)), d)
    | Some _ =>
        (Ok tt, mkDb (db_heap d) (DatabaseManager.delete_course cid (dbm d)).2 (_cache d))
    end.
Proof.
  destruct d as [h t ca].
  unfold DatabaseDataManager.remove_course, try_except, bind, in_dbm, zoom,
    DatabaseManager.get_course, gets. simpl.
  destruct (DatabaseManager.find_course cid (courses_t t)
            ≫= DatabaseManager.join_instructor t); simpl; [done|by destruct t].
Qed.

(** What the mutating calls of the persistent manager do with the cache:
    they neither consult nor invalidate it.  The answer of each and its
    effect on the store are those it has under any other cache, and the cache
    it finds is the cache it leaves.  The existence check is a query on the
    table, followed by the row mutation ([add_student] and [remove_course]
    shown).  It is every read that empties the cache, before it hydrates. *)
Lemma store_mutations_query_the_store_and_keep_the_cache :
  (∀ name age email sid, cache_blind (DatabaseDataManager.add_student name age email sid)) ∧
  (∀ sid kw, cache_blind (DatabaseDataManager.edit_student sid kw)) ∧
  (∀ sid, cache_blind (DatabaseDataManager.remove_student sid)) ∧
  (∀ name age email iid, cache_blind (DatabaseDataManager.add_instructor name age email iid)) ∧
  (∀ iid kw, cache_blind (DatabaseDataManager.edit_instructor iid kw)) ∧
  (∀ iid, cache_blind (DatabaseDataManager.remove_instructor iid)) ∧
  (∀ cid cname instr, cache_blind (DatabaseDataManager.add_course cid cname instr)) ∧
  (∀ kw, cache_blind (DatabaseDataManager.edit_course kw)) ∧
  (∀ cid, cache_blind (DatabaseDataManager.remove_course cid)) ∧
  (∀ sid cid, cache_blind (DatabaseDataManager.enroll_student sid cid)) ∧
  (∀ d name age email sid,
      is_Some (DatabaseManager.find_person (PyStr.strip sid) (students_t (dbm d))) →
      (DatabaseDataManager.add_student name age email sid d).2 = d) ∧
  (∀ d cid,
      DatabaseDataManager.remove_course cid d =
        match DatabaseManager.find_course cid (courses_t (dbm d))
              ≫= DatabaseManager.join_instructor (dbm d) with
        | None => (Raise (DataError (DoesNotExist ECourse cid)), d)
        | Some _ =>
            (Ok tt, mkDb (db_heap d) (DatabaseManager.delete_course cid (dbm d)).2 (_cache d))
        end) ∧
  (∀ c d,
      DatabaseDataManager.get_students (set_cache c d)
        = DatabaseDataManager.get_students (set_cache None d) ∧
      DatabaseDataManager.get_instructors (set_cache c d)
        = DatabaseDataManager.get_instructors (set_cache None d) ∧
      DatabaseDataManager.get_courses (set_cache c d)
        = DatabaseDataManager.get_courses (set_cache None d) ∧
      (∀ id, DatabaseDataManager.get_student id (set_cache c d)
             = DatabaseDataManager.get_student id (set_cache None d)) ∧
      (∀ id, DatabaseDataManager.get_instructor id (set_cache c d)
             = DatabaseDataManager.get_instructor id (set_cache None d)) ∧
      (∀ id, DatabaseDataManager.get_course id (set_cache c d)
             = DatabaseDataManager.get_course id (set_cache None d))).
Proof.
  split_and!.
  - apply add_student_cache_blind.
  - apply edit_student_cache_blind.
  - apply remove_student_cache_blind.
  - apply add_instructor_cache_blind.
  - apply edit_instructor_cache_blind.
  - apply remove_instructor_cache_blind.
  - apply add_course_cache_blind.
  - apply edit_course_cache_blind.
  - apply remove_course_cache_blind.
  - apply enroll_student_cache_blind.
  - intros d name age email sid [row Hrow].
    destruct (Student_init name age email sid) as [s|e] eqn:Hs.
    + rewrite (store_add_student_run d name age email sid s Hs).
      assert (student_id s = PyStr.strip sid) as ->.
      { unfold Student_init in Hs. repeat case_match; by simplify_eq/=. }
      by rewrite Hrow.
    + unfold DatabaseDataManager.add_student, bind, try_except, lift_result.
      rewrite Hs. unfold value_error_to_data_error. by destruct e.
  - apply store_remove_course_run.
  - intros c d. by split_and!.
Qed.

End StoreMutations.

Lemma store_mutations_witness :
  (DatabaseDataManager.add_student (H:=Fallback.validator) "John Doe" 20 "john.doe@lau.edu"
     "202401111" StoreScenario.campus).2 = StoreScenario.campus.
Proof.
  destruct (store_mutations_query_the_store_and_keep_the_cache (H:=Fallback.validator))
    as (_ & _ & _ & _ & _ & _ & _ & _ & _ & _ & Hadd & _).
  apply Hadd. vm_compute. eauto.
Defined.

(** C9, at the persistent scenario.  The cache holds the graph of the last
    read, with its single student; [add_student] of a second student
    succeeds and stores a second row, and the cache is not invalidated: after
    the call it is still the graph hydrated before it. *)
Theorem store_add_keeps_the_stale_cache :
  length <$> (hy_students <$> _cache StoreScenario.campus) = Some 1%nat ∧
  (StoreScenario.add_jane StoreScenario.campus).1 = Ok tt ∧
  length (students_t (dbm (StoreScenario.add_jane StoreScenario.campus).2)) = 2%nat ∧
  _cache (StoreScenario.add_jane StoreScenario.campus).2 = _cache StoreScenario.campus.
Proof. split_and!; vm_compute; reflexivity. Qed.

(** ** Importing from an unreadable JSON file (C7) *)

Section JsonImport.
Context `{Validator}.

(** What [data_from_json] does with a file it cannot load.  For a missing
    file and for a text that [json.load] rejects with [JSONDecodeError] it
    empties the three dictionaries and returns normally: the error is logged,
    not reported to the caller.  For a document without its ["instructors"]
    key the [KeyError] reaches the caller, the dictionaries emptied. *)
Lemma json_import_unreadable_file_empties_graph_silently (m : Mem) :
  MemoryDataManager.data_from_json JsonMissing m = (Ok tt, mkMem (heap m) empty_file_manager) ∧
  MemoryDataManager.data_from_json JsonInvalid m = (Ok tt, mkMem (heap m) empty_file_manager) ∧
  (∀ sdicts cdicts,
      MemoryDataManager.data_from_json (JsonData (mkJsonDoc sdicts None cdicts)) m
        = (Raise (KeyError "instructors"), mkMem (heap m) empty_file_manager)).
Proof. by split_and!. Qed.

End JsonImport.

(** C7, at the scenario.  Importing from a missing file, or from a text that
    [json.load] rejects with [JSONDecodeError], returns normally: no failure
    is reported to the caller.  Importing a document whose student entry has
    an invalid age raises [ValueError] (not [DataError]) and leaves the graph
    partially populated: the instructor loaded before that entry is in it,
    the student is not. *)
Theorem json_import_failure_unreported_or_partial :
  (ImportScenario.from_missing Scenario.campus).1 = Ok tt ∧
  (ImportScenario.from_invalid Scenario.campus).1 = Ok tt ∧
  (ImportScenario.from_half_valid Scenario.campus).1 = Raise (ValueError "Invalid Age.") ∧
  is_Some (instructor_at (ImportScenario.from_half_valid Scenario.campus).2 "199801234") ∧
  student_at (ImportScenario.from_half_valid Scenario.campus).2 "202401111" = None.
Proof. split_and!; try (vm_compute; reflexivity). vm_compute. eauto. Qed.

(** ** Import builds the graph its rows describe (towards C6) *)

Lemma course_ids_same (h h' : Heap) (xs : list loc) :
  course_objs h' = course_objs h → course_ids h' xs = course_ids h xs.
Proof. unfold course_ids. by intros ->. Qed.

Lemma student_ids_same (h h' : Heap) (xs : list loc) :
  student_objs h' = student_objs h → student_ids h' xs = student_ids h xs.
Proof. unfold student_ids. by intros ->. Qed.

Lemma course_ids_grow (h h' : Heap) (cs : list Course) (xs : list loc) :
  course_objs h' = course_objs h ++ cs →
  Forall (λ l, l < length (course_objs h))%nat xs →
  course_ids h' xs = course_ids h xs.
Proof.
  intros Hh Hxs. apply course_ids_ext. intros l Hl.
  rewrite Forall_forall in Hxs. rewrite Hh, lookup_app_l; [done|]. by apply Hxs.
Qed.

Lemma student_ids_grow (h h' : Heap) (ss : list Student) (xs : list loc) :
  student_objs h' = student_objs h ++ ss →
  Forall (λ l, l < length (student_objs h))%nat xs →
  student_ids h' xs = student_ids h xs.
Proof.
  intros Hh Hxs. apply student_ids_ext. intros l Hl.
  rewrite Forall_forall in Hxs. rewrite Hh, lookup_app_l; [done|]. by apply Hxs.
Qed.

Lemma course_ids_update (h h' : Heap) (lc : loc) (c c' : Course) (xs : list loc) :
  course_objs h !! lc = Some c → course_id c' = course_id c →
  course_objs h' = <[lc := c']> (course_objs h) →
  course_ids h' xs = course_ids h xs.
Proof.
  intros Hc Hid Hh. apply course_ids_ext. intros l _. rewrite Hh.
  destruct (decide (l = lc)) as [->|Hne].
  - rewrite list_lookup_insert_eq by (by eapply lookup_lt_Some). rewrite Hc. simpl.
    by rewrite Hid.
  - by rewrite list_lookup_insert_ne.
Qed.

Lemma student_ids_update (h h' : Heap) (ls : loc) (s s' : Student) (xs : list loc) :
  student_objs h !! ls = Some s → student_id s' = student_id s →
  student_objs h' = <[ls := s']> (student_objs h) →
  student_ids h' xs = student_ids h xs.
Proof.
  intros Hs Hid Hh. apply student_ids_ext. intros l _. rewrite Hh.
  destruct (decide (l = ls)) as [->|Hne].
  - rewrite list_lookup_insert_eq by (by eapply lookup_lt_Some). rewrite Hs. simpl.
    by rewrite Hid.
  - by rewrite list_lookup_insert_ne.
Qed.

Lemma view_ext (m m' : Mem) :
  (∀ k, students (datastore m') !! k ≫= student_view (heap m')
        = students (datastore m) !! k ≫= student_view (heap m)) →
  (∀ k, instructors (datastore m') !! k ≫= instructor_view (heap m')
        = instructors (datastore m) !! k ≫= instructor_view (heap m)) →
  (∀ k, courses (datastore m') !! k ≫= course_view (heap m')
        = courses (datastore m) !! k ≫= course_view (heap m)) →
  view m' = view m.
Proof.
  intros Hs Hi Hc. unfold view. f_equal; apply map_eq; intros k; rewrite !lookup_omap; auto.
Qed.

Lemma student_view_frame (h h' : Heap) (l : loc) (s : Student) :
  student_objs h !! l = Some s → student_objs h' !! l = Some s →
  course_ids h' (registered_courses s) = course_ids h (registered_courses s) →
  student_view h' l = student_view h l.
Proof. intros Hs Hs' Hids. unfold student_view. rewrite Hs, Hs'. simpl. by rewrite Hids. Qed.

Lemma instructor_view_frame (h h' : Heap) (l : loc) (i : Instructor) :
  instructor_objs h !! l = Some i → instructor_objs h' !! l = Some i →
  course_ids h' (assigned_courses i) = course_ids h (assigned_courses i) →
  instructor_view h' l = instructor_view h l.
Proof. intros Hi Hi' Hids. unfold instructor_view. rewrite Hi, Hi'. simpl. by rewrite Hids. Qed.

Lemma course_view_frame (h h' : Heap) (l : loc) (c : Course) :
  course_objs h !! l = Some c → course_objs h' !! l = Some c →
  instructor_id <$> instructor_objs h' !! instructor c
    = instructor_id <$> instructor_objs h !! instructor c →
  student_ids h' (enrolled_students c) = student_ids h (enrolled_students c) →
  course_view h' l = course_view h l.
Proof.
  intros Hc Hc' Hi Hids. unfold course_view. rewrite Hc, Hc'. simpl.
  destruct (instructor_objs h' !! instructor c) as [i'|],
    (instructor_objs h !! instructor c) as [i|]; simplify_eq/=; [|done].
  by rewrite Hids, Hi.
Qed.

Section ImportRows.
Context `{Validator}.

Lemma Instructor_init_clean name age email iid :
  Person_init name age email = Ok (mkPerson name age email) → instructor_id_ok iid →
  Instructor_init name age email iid = Ok (mkInstructor (mkPerson name age email) iid []).
Proof. unfold Instructor_init, instructor_id_ok. by intros -> ->. Qed.

Lemma Student_init_clean name age email sid :
  Person_init name age email = Ok (mkPerson name age email) → student_id_ok sid →
  Student_init name age email sid = Ok (mkStudent (mkPerson name age email) sid []).
Proof. unfold Student_init, student_id_ok. by intros -> [-> ->]. Qed.

Lemma load_instructor_spec (m : Mem) name age email iid :
  sound m →
  Person_init name age email = Ok (mkPerson name age email) → instructor_id_ok iid →
  ∃ m', load_instructor (name, age, email, iid) m = (Ok tt, m') ∧ sound m' ∧
        view m' = view_add_instructor (name, age, email, iid) (view m).
Proof.
  intros [Hss Hsi Hsc] Hp Hid. destruct m as [[hs hi hc] [ds di dc]]. simpl in *.
  unfold load_instructor, bind, lift_result. rewrite (Instructor_init_clean _ _ _ _ Hp Hid).
  unfold in_heap, zoom, new_instructor, modify, set_instructors. simpl.
  eexists. split; [done|]. split.
  - split; simpl.
    + done.
    + intros k l. destruct (decide (k = iid)) as [->|Hne].
      * rewrite lookup_insert_eq. intros [= <-]. eexists.
        split_and!; [by apply list_lookup_middle|done|by constructor].
      * rewrite lookup_insert_ne by done. intros Hl.
        destruct (Hsi k l Hl) as (i & Hi & ? & ?). exists i. split_and!; try done.
        by apply lookup_app_l_Some.
    + intros k l Hl. destruct (Hsc k l Hl) as (c & Hc & ? & Hlt & ?).
      exists c. split_and!; try done. rewrite length_app. lia.
  - unfold view, view_add_instructor. simpl. f_equal.
    apply map_eq. intros k. rewrite lookup_omap.
    destruct (decide (k = iid)) as [->|Hne].
    + rewrite !lookup_insert_eq. simpl. unfold instructor_view. simpl.
      by rewrite list_lookup_middle.
    + rewrite !lookup_insert_ne by done. rewrite lookup_omap.
      destruct (di !! k) as [l|] eqn:Hl; [|done]. simpl.
      destruct (Hsi k l Hl) as (i & Hi & ? & ?).
      apply (instructor_view_frame _ _ _ i); [done| |done].
      by apply lookup_app_l_Some.
    + apply map_eq. intros k. rewrite !lookup_omap.
      destruct (dc !! k) as [l|] eqn:Hl; [|done]. simpl.
      destruct (Hsc k l Hl) as (c & Hc & ? & Hlt & ?).
      apply (course_view_frame _ _ _ c); [done|done| |done].
      simpl. by rewrite lookup_app_l.
Qed.

Lemma load_student_spec (m : Mem) name age email sid :
  sound m →
  Person_init name age email = Ok (mkPerson name age email) → student_id_ok sid →
  ∃ m', load_student (name, age, email, sid) m = (Ok tt, m') ∧ sound m' ∧
        view m' = view_add_student (name, age, email, sid) (view m).
Proof.
  intros [Hss Hsi Hsc] Hp Hid. destruct m as [[hs hi hc] [ds di dc]]. simpl in *.
  unfold load_student, bind, lift_result. rewrite (Student_init_clean _ _ _ _ Hp Hid).
  unfold in_heap, zoom, new_student, modify, set_students. simpl.
  eexists. split; [done|]. split.
  - split; simpl.
    + intros k l. destruct (decide (k = sid)) as [->|Hne].
      * rewrite lookup_insert_eq. intros [= <-]. eexists.
        split_and!; [by apply list_lookup_middle|done|by constructor].
      * rewrite lookup_insert_ne by done. intros Hl.
        destruct (Hss k l Hl) as (s & Hs & ? & ?). exists s. split_and!; try done.
        by apply lookup_app_l_Some.
    + done.
    + intros k l Hl. destruct (Hsc k l Hl) as (c & Hc & ? & ? & Hlt).
      exists c. split_and!; try done.
      eapply Forall_impl; [exact Hlt|]. intros x Hx. simpl in *. rewrite length_app. lia.
  - unfold view, view_add_student. simpl. f_equal.
    + apply map_eq. intros k. rewrite lookup_omap.
      destruct (decide (k = sid)) as [->|Hne].
      * rewrite !lookup_insert_eq. simpl. unfold student_view. simpl.
        by rewrite list_lookup_middle.
      * rewrite !lookup_insert_ne by done. rewrite lookup_omap.
        destruct (ds !! k) as [l|] eqn:Hl; [|done]. simpl.
        destruct (Hss k l Hl) as (s & Hs & ? & ?).
        apply (student_view_frame _ _ _ s); [done| |done].
        by apply lookup_app_l_Some.
    + apply map_eq. intros k. rewrite !lookup_omap.
      destruct (dc !! k) as [l|] eqn:Hl; [|done]. simpl.
      destruct (Hsc k l Hl) as (c & Hc & ? & ? & Hlt).
      apply (course_view_frame _ _ _ c); [done|done|done|].
      by apply (student_ids_grow _ _ [mkStudent (mkPerson name age email) sid []]).
Qed.

Lemma Course_init_run (h : Heap) cid cname li i :
  course_id_ok cid → course_name_ok cname →
  instructor_objs h !! li = Some i →
  Course_init cid cname li h =
    (Ok (length (course_objs h)),
     let h1 := set_course_objs (λ os, os ++ [mkCourse cid cname li []]) h in
     if bool_decide (cid ∉ course_ids h1 (assigned_courses i))
     then set_instructor_objs
            (λ os, <[li := mkInstructor (instructor_person i) (instructor_id i)
                             (assigned_courses i ++ [length (course_objs h)])]> os) h1
     else h1).
Proof.
  intros [Hid Hup] Hname Hi. unfold Course_init, course_name_ok in *.
  rewrite Hid, Hname, Hup. simpl.
  unfold bind, new_course, assign_course, bind, deref, gets, when. simpl.
  rewrite Hi. simpl. rewrite list_lookup_middle by done. simpl.
  by case_bool_decide.
Qed.

Lemma load_course_spec (m : Mem) cid cname iid :
  sound m → course_id_ok cid → course_name_ok cname →
  ∃ m', load_course (cid, cname, iid) m = (Ok tt, m') ∧ sound m' ∧
        view m' = view_add_course (cid, cname, iid) (view m).
Proof.
  intros [Hss Hsi Hsc] Hid Hname. destruct m as [[hs hi hc] [ds di dc]]. simpl in *.
  unfold load_course, bind, gets. simpl.
  unfold view_add_course, view. simpl. rewrite lookup_omap.
  destruct (di !! iid) as [li|] eqn:Hli; simpl.
  2:{ exists (mkMem (mkHeap hs hi hc) (mkFileManager ds di dc)). by split_and!. }
  destruct (Hsi iid li Hli) as (i & Hi & Hiid & Hassigned).
  unfold in_heap, zoom. simpl.
  rewrite (Course_init_run (mkHeap hs hi hc) cid cname li i Hid Hname Hi). simpl.
  unfold modify, set_courses. simpl.
  set (c0 := mkCourse cid cname li []).
  set (i' := mkInstructor (instructor_person i) (instructor_id i)
                          (assigned_courses i ++ [length hc])).
  set (h1 := set_course_objs (λ os, os ++ [c0]) (mkHeap hs hi hc)).
  set (h2 := if bool_decide (cid ∉ course_ids h1 (assigned_courses i))
             then set_instructor_objs (λ os, <[li := i']> os) h1 else h1).
  assert (student_objs h2 = hs) as Hs2 by (subst h2; by case_bool_decide).
  assert (course_objs h2 = hc ++ [c0]) as Hc2 by (subst h2; by case_bool_decide).
  assert (length (instructor_objs h2) = length hi) as Hlen2.
  { subst h2. case_bool_decide; simpl; [by rewrite length_insert|done]. }
  assert (∀ l, l ≠ li → instructor_objs h2 !! l = hi !! l) as Hi2.
  { intros l Hne. subst h2. case_bool_decide; simpl; [|done].
    by rewrite list_lookup_insert_ne. }
  assert (∃ i2, instructor_objs h2 !! li = Some i2 ∧ instructor_id i2 = iid ∧
                instructor_person i2 = instructor_person i ∧
                Forall (λ lc, lc < length (hc ++ [c0]))%nat (assigned_courses i2) ∧
                (list_to_set (course_ids h2 (assigned_courses i2)) : gset string)
                = list_to_set (course_ids (mkHeap hs hi hc) (assigned_courses i)) ∪ {[cid]})
    as (i2 & Hli2 & Hid2 & Hp2 & Hcl2 & Hset2).
  { assert (course_ids h1 (assigned_courses i)
            = course_ids (mkHeap hs hi hc) (assigned_courses i)) as Hids1.
    { by apply (course_ids_grow _ _ [c0]). }
    assert (∀ xs, course_ids h2 xs = course_ids h1 xs) as Hids2.
    { intros xs. apply course_ids_same. by rewrite Hc2. }
    subst h2. case_bool_decide as Hnew.
    - exists i'. split_and!; try done.
      + simpl. apply list_lookup_insert_eq. by eapply lookup_lt_Some.
      + simpl. apply Forall_app. split.
        * eapply Forall_impl; [exact Hassigned|]. intros x Hx. simpl in *.
          rewrite length_app. lia.
        * constructor; [|done]. rewrite length_app. simpl. lia.
      + rewrite Hids2. simpl. rewrite course_ids_app, Hids1.
        rewrite list_to_set_app_L. f_equal. unfold course_ids. simpl.
        rewrite list_lookup_middle by done. simpl. set_solver.
    - exists i. split_and!; try done.
      + eapply Forall_impl; [exact Hassigned|]. intros x Hx. simpl in *.
        rewrite length_app. lia.
      + rewrite Hids1. rewrite Hids1 in Hnew.
        apply set_eq. intros x. rewrite elem_of_union, elem_of_singleton.
        rewrite !elem_of_list_to_set. split; [auto|]. by intros [?| ->]. }
  exists (mkMem h2 (mkFileManager ds di (<[cid := length hc]> dc))).
  split; [done|]. split.
  - split; simpl.
    + intros k l Hl. destruct (Hss k l Hl) as (s & Hs & ? & Hcl).
      exists s. rewrite Hs2, Hc2. split_and!; try done.
      eapply Forall_impl; [exact Hcl|]. intros x Hx. simpl in *. rewrite length_app. lia.
    + intros k l Hl. rewrite Hc2. destruct (decide (l = li)) as [->|Hne].
      * exists i2. split_and!; try done.
        destruct (Hsi k li Hl) as (i0 & Hi0 & ? & ?). by simplify_eq.
      * destruct (Hsi k l Hl) as (i0 & Hi0 & ? & Hcl).
        exists i0. rewrite Hi2 by done. split_and!; try done.
        eapply Forall_impl; [exact Hcl|]. intros x Hx. simpl in *. rewrite length_app. lia.
    + intros k l. rewrite Hc2, Hs2, Hlen2. destruct (decide (k = cid)) as [->|Hne].
      * rewrite lookup_insert_eq. intros [= <-]. exists c0.
        split_and!; [by apply list_lookup_middle|done| |by constructor].
        simpl. by eapply lookup_lt_Some.
      * rewrite lookup_insert_ne by done. intros Hl.
        destruct (Hsc k l Hl) as (c & Hc & ? & ? & ?).
        exists c. split_and!; try done. by apply lookup_app_l_Some.
  - assert (instructor_view (mkHeap hs hi hc) li
            = Some (instructor_person i,
                    list_to_set (course_ids (mkHeap hs hi hc) (assigned_courses i)))) as ->.
    { unfold instructor_view. simpl. by rewrite Hi. }
    cbn [students instructors courses datastore heap]. f_equal.
    + apply map_eq. intros k. rewrite !lookup_omap.
      destruct (ds !! k) as [l|] eqn:Hl; [|done]. simpl.
      destruct (Hss k l Hl) as (s & Hs & ? & Hcl).
      apply (student_view_frame _ _ _ s); [done|by rewrite Hs2|].
      by apply (course_ids_grow _ _ [c0]).
    + apply map_eq. intros k. rewrite lookup_omap.
      destruct (decide (k = iid)) as [->|Hne].
      * rewrite lookup_insert_eq, Hli. simpl. unfold instructor_view.
        rewrite Hli2. simpl. by rewrite Hp2, Hset2.
      * rewrite lookup_insert_ne by done. rewrite lookup_omap.
        destruct (di !! k) as [l|] eqn:Hl; [|done]. simpl.
        destruct (Hsi k l Hl) as (i0 & Hi0 & Hk & Hcl).
        assert (l ≠ li) as Hlne by (intros ->; simplify_eq; done).
        apply (instructor_view_frame _ _ _ i0); [done|by rewrite Hi2|].
        by apply (course_ids_grow _ _ [c0]).
    + apply map_eq. intros k. rewrite lookup_omap.
      destruct (decide (k = cid)) as [->|Hne].
      * rewrite !lookup_insert_eq. simpl. unfold course_view.
        rewrite Hc2, list_lookup_middle by done. simpl. rewrite Hli2. simpl.
        by rewrite Hid2.
      * rewrite !lookup_insert_ne by done. rewrite lookup_omap.
        destruct (dc !! k) as [l|] eqn:Hl; [|done]. simpl.
        destruct (Hsc k l Hl) as (c & Hc & ? & Hlt & Hcl).
        apply (course_view_frame _ _ _ c); [done|by rewrite Hc2; apply lookup_app_l_Some| |].
        -- simpl. destruct (decide (instructor c = li)) as [Heq|Hn].
           ++ rewrite Heq, Hli2, Hi. simpl. by rewrite Hid2, Hiid.
           ++ by rewrite Hi2.
        -- apply student_ids_same. by rewrite Hs2.
Qed.

End ImportRows.

(** The heap after a registration, in terms of the two objects it may
    rewrite. *)
Lemma heap_register_spec (h : Heap) (ls lc : loc) (s : Student) (c : Course) :
  student_objs h !! ls = Some s → course_objs h !! lc = Some c →
  (course_id c ∈ course_ids h (registered_courses s) →
   student_id s ∈ student_ids h (enrolled_students c)) →
  instructor_objs (heap_register ls lc s c h) = instructor_objs h ∧
  (∃ s2, student_objs (heap_register ls lc s c h) = <[ls := s2]> (student_objs h) ∧
         student_person s2 = student_person s ∧ student_id s2 = student_id s ∧
         (∀ x, x ∈ registered_courses s2 → x ∈ registered_courses s ∨ x = lc) ∧
         (list_to_set (course_ids h (registered_courses s2)) : gset string)
         = list_to_set (course_ids h (registered_courses s)) ∪ {[course_id c]}) ∧
  (∃ c2, course_objs (heap_register ls lc s c h) = <[lc := c2]> (course_objs h) ∧
         course_id c2 = course_id c ∧ course_name c2 = course_name c ∧
         instructor c2 = instructor c ∧
         (∀ x, x ∈ enrolled_students c2 → x ∈ enrolled_students c ∨ x = ls) ∧
         (list_to_set (student_ids h (enrolled_students c2)) : gset string)
         = list_to_set (student_ids h (enrolled_students c)) ∪ {[student_id s]}).
Proof.
  intros Hs Hc Hsym. unfold heap_register. case_bool_decide as Hnew.
  - set (s' := mkStudent _ _ _). set (h1 := set_student_objs _ h).
    assert (student_ids h1 (enrolled_students c) = student_ids h (enrolled_students c))
      as Hids.
    { by apply (student_ids_update h h1 ls s s'). }
    assert ((list_to_set (course_ids h (registered_courses s')) : gset string)
            = list_to_set (course_ids h (registered_courses s)) ∪ {[course_id c]}) as HS.
    { subst s'. simpl. rewrite course_ids_app, list_to_set_app_L. f_equal.
      unfold course_ids. simpl. rewrite Hc. simpl. set_solver. }
    unfold heap_add_student. rewrite Hids. case_bool_decide as Hnew2; simpl.
    + split; [done|]. split.
      * exists s'. split_and!; try done. subst s'. simpl. intros x.
        rewrite elem_of_app, list_elem_of_singleton. tauto.
      * eexists. split_and!; try done.
        -- simpl. intros x. rewrite elem_of_app, list_elem_of_singleton. tauto.
        -- simpl. rewrite student_ids_app, list_to_set_app_L. f_equal.
           unfold student_ids. simpl. rewrite Hs. simpl. set_solver.
    + split; [done|]. split.
      * exists s'. split_and!; try done. subst s'. simpl. intros x.
        rewrite elem_of_app, list_elem_of_singleton. tauto.
      * exists c. split_and!; try done.
        -- by rewrite list_insert_id.
        -- auto.
        -- apply set_eq. intros x. rewrite elem_of_union, elem_of_singleton.
           rewrite !elem_of_list_to_set. split; [auto|]. by intros [?| ->].
  - split; [done|]. split.
    + exists s. split_and!; try done.
      * by rewrite list_insert_id.
      * auto.
      * apply set_eq. intros x. rewrite elem_of_union, elem_of_singleton.
        rewrite !elem_of_list_to_set. split; [auto|]. by intros [?| ->].
    + exists c. split_and!; try done.
      * by rewrite list_insert_id.
      * auto.
      * apply set_eq. intros x. rewrite elem_of_union, elem_of_singleton.
        rewrite !elem_of_list_to_set. split; [auto|]. intros [?| ->]; [done|].
        by apply Hsym.
Qed.

Lemma load_enrollment_spec (m : Mem) sid cid :
  sound m → view_symmetric (view m) →
  ∃ m', load_enrollment (sid, cid) m = (Ok tt, m') ∧ sound m' ∧
        view m' = view_enroll (sid, cid) (view m).
Proof.
  intros [Hss Hsi Hsc] Hsym. destruct m as [[hs hi hc] [ds di dc]]. simpl in *.
  set (h := mkHeap hs hi hc) in *.
  set (m := mkMem h (mkFileManager ds di dc)) in *.
  unfold load_enrollment, bind, gets. simpl.
  unfold view_enroll. simpl. rewrite !lookup_omap.
  destruct (ds !! sid) as [ls|] eqn:Hls; simpl.
  2:{ exists m. by split_and!. }
  destruct (Hss sid ls Hls) as (s & Hs & Hsid & Hcl).
  assert (student_view h ls
          = Some (student_person s, list_to_set (course_ids h (registered_courses s))))
    as Hsv.
  { unfold student_view. simpl. by rewrite Hs. }
  rewrite Hsv.
  destruct (dc !! cid) as [lc|] eqn:Hlc; simpl.
  2:{ exists m. by split_and!. }
  destruct (Hsc cid lc Hlc) as (c & Hc & Hcid & Hlt & Hcle).
  destruct (lookup_lt_is_Some_2 hi (instructor c) Hlt) as [i Hi].
  assert (course_view h lc
          = Some (course_name c, instructor_id i,
                  list_to_set (student_ids h (enrolled_students c)))) as Hcv.
  { unfold course_view. simpl. rewrite Hc. simpl. by rewrite Hi. }
  rewrite Hcv.
  unfold in_heap, zoom. simpl.
  rewrite (register_course_run h ls lc s c Hs Hc).
  destruct (heap_register_spec h ls lc s c Hs Hc) as
    (Hi2 & (s2 & Hs2 & Hp2 & Hid2 & Hreg2 & HS) & (c2 & Hc2 & Hcid2 & Hn2 & Hin2 & Hen2 & HT)).
  { intros Hin. rewrite Hcid in Hin. rewrite Hsid.
    specialize (Hsym sid cid (student_person s)
                  (list_to_set (course_ids h (registered_courses s)))
                  (course_name c) (instructor_id i)
                  (list_to_set (student_ids h (enrolled_students c)))).
    unfold view in Hsym. simpl in Hsym. rewrite !lookup_omap, Hls, Hlc in Hsym.
    simpl in Hsym. rewrite Hsv, Hcv in Hsym.
    apply (elem_of_list_to_set (C:=gset string)). apply Hsym; [done|done|].
    by apply elem_of_list_to_set. }
  set (h2 := heap_register ls lc s c h) in *.
  assert (∀ xs, course_ids h2 xs = course_ids h xs) as Hcids.
  { intros xs. by apply (course_ids_update h h2 lc c c2). }
  assert (∀ xs, student_ids h2 xs = student_ids h xs) as Hsids.
  { intros xs. by apply (student_ids_update h h2 ls s s2). }
  assert (lc < length hc)%nat as Hlclt by (by eapply lookup_lt_Some).
  assert (ls < length hs)%nat as Hlslt by (by eapply lookup_lt_Some).
  exists (mkMem h2 (mkFileManager ds di dc)). split; [done|]. split.
  - split; cbn [students instructors courses datastore heap].
    + intros k l Hl. rewrite Hs2, Hc2, length_insert.
      destruct (decide (l = ls)) as [->|Hne].
      * exists s2. rewrite list_lookup_insert_eq by done.
        destruct (Hss k ls Hl) as (s0 & Hs0 & ? & ?). simplify_eq.
        split_and!; try done. apply Forall_forall. intros x Hx.
        destruct (Hreg2 x Hx) as [?| ->]; [|done].
        rewrite Forall_forall in Hcl. by apply Hcl.
      * rewrite list_lookup_insert_ne by done. by apply Hss.
    + intros k l Hl. rewrite Hi2, Hc2, length_insert. by apply Hsi.
    + intros k l Hl. rewrite Hi2, Hs2, Hc2, length_insert.
      destruct (decide (l = lc)) as [->|Hne].
      * exists c2. rewrite list_lookup_insert_eq by done.
        destruct (Hsc k lc Hl) as (c0 & Hc0 & ? & ? & ?). simplify_eq.
        split_and!; [done|done|by rewrite Hin2|].
        apply Forall_forall. intros x Hx.
        destruct (Hen2 x Hx) as [?| ->]; [|done].
        rewrite Forall_forall in Hcle. by apply Hcle.
      * rewrite list_lookup_insert_ne by done. by apply Hsc.
  - unfold view. cbn [students instructors courses datastore heap]. f_equal.
    + apply map_eq. intros k. rewrite lookup_omap.
      destruct (decide (k = sid)) as [->|Hne].
      * rewrite lookup_insert_eq, Hls. simpl. unfold student_view.
        rewrite Hs2, list_lookup_insert_eq by done. simpl.
        by rewrite Hcids, Hp2, HS, Hcid.
      * rewrite lookup_insert_ne by done. rewrite lookup_omap.
        destruct (ds !! k) as [l|] eqn:Hl; [|done]. simpl.
        destruct (Hss k l Hl) as (s0 & Hs0 & Hk & ?).
        assert (l ≠ ls) as Hlne by (intros ->; simplify_eq; done).
        apply (student_view_frame _ _ _ s0); [done| |done].
        by rewrite Hs2, list_lookup_insert_ne.
    + apply map_eq. intros k. rewrite !lookup_omap.
      destruct (di !! k) as [l|] eqn:Hl; [|done]. simpl.
      destruct (Hsi k l Hl) as (i0 & Hi0 & Hk & ?).
      apply (instructor_view_frame _ _ _ i0); [done|by rewrite Hi2|done].
    + apply map_eq. intros k. rewrite lookup_omap.
      destruct (decide (k = cid)) as [->|Hne].
      * rewrite lookup_insert_eq, Hlc. simpl. unfold course_view.
        rewrite Hc2, list_lookup_insert_eq by done. simpl.
        rewrite Hin2, Hi2. simpl. rewrite Hi. simpl.
        by rewrite Hsids, Hn2, HT, Hsid.
      * rewrite lookup_insert_ne by done. rewrite lookup_omap.
        destruct (dc !! k) as [l|] eqn:Hl; [|done]. simpl.
        destruct (Hsc k l Hl) as (c0 & Hc0 & Hk & ? & ?).
        assert (l ≠ lc) as Hlne by (intros ->; simplify_eq; done).
        apply (course_view_frame _ _ _ c0); [done| |by rewrite Hi2|done].
        by rewrite Hc2, list_lookup_insert_ne.
Qed.

Lemma for_each_view {A} (body : A → M Mem unit) (vop : A → GraphView → GraphView)
    (P : A → Prop) (Inv : GraphView → Prop) :
  (∀ m r, sound m → Inv (view m) → P r →
          ∃ m', body r m = (Ok tt, m') ∧ sound m' ∧ view m' = vop r (view m)) →
  (∀ r v, P r → Inv v → Inv (vop r v)) →
  ∀ rows m, sound m → Inv (view m) → Forall P rows →
    ∃ m', for_each rows body m = (Ok tt, m') ∧ sound m' ∧
          view m' = foldl (flip vop) (view m) rows ∧ Inv (view m').
Proof.
  intros Hbody Hinv rows. induction rows as [|r rows IH]; intros m Hsound HI HP.
  - by exists m.
  - apply Forall_cons in HP as [Hr HP].
    destruct (Hbody m r Hsound HI Hr) as (m1 & Hrun1 & Hsound1 & Hview1).
    destruct (IH m1) as (m' & Hrun & Hsound' & Hview' & HI'); [done| |done|].
    { rewrite Hview1. by apply Hinv. }
    exists m'. simpl. unfold bind. rewrite Hrun1, Hrun.
    split_and!; try done. by rewrite Hview', Hview1.
Qed.

Lemma no_enrollments_symmetric (v : GraphView) : no_enrollments v → view_symmetric v.
Proof.
  intros [Hs Hc] sid cid p registered cname iid enrolled Hsid Hcid.
  rewrite (Hs _ _ _ Hsid), (Hc _ _ _ _ Hcid). set_solver.
Qed.

Lemma no_enrollments_add_instructor r v :
  no_enrollments v → no_enrollments (view_add_instructor r v).
Proof. destruct r as [[[? ?] ?] ?]. by intros [Hs Hc]. Qed.

Lemma no_enrollments_add_student r v :
  no_enrollments v → no_enrollments (view_add_student r v).
Proof.
  destruct r as [[[name age] email] sid]. intros [Hs Hc]. split; simpl; [|done].
  intros k p registered. destruct (decide (k = sid)) as [->|Hne].
  - rewrite lookup_insert_eq. by intros [= <- <-].
  - rewrite lookup_insert_ne by done. apply Hs.
Qed.

Lemma no_enrollments_add_course r v :
  no_enrollments v → no_enrollments (view_add_course r v).
Proof.
  destruct r as [[cid cname] iid]. intros [Hs Hc]. unfold view_add_course.
  destruct (v_instructors v !! iid) as [[p assigned]|]; [|done].
  split; simpl; [done|].
  intros k cname' iid' enrolled. destruct (decide (k = cid)) as [->|Hne].
  - rewrite lookup_insert_eq. by intros [= <- <- <-].
  - rewrite lookup_insert_ne by done. apply Hc.
Qed.

Lemma view_symmetric_enroll e v : view_symmetric v → view_symmetric (view_enroll e v).
Proof.
  destruct e as [sid cid]. intros Hsym. unfold view_enroll.
  destruct (v_students v !! sid) as [[p0 registered0]|] eqn:Hs0; [|done].
  destruct (v_courses v !! cid) as [[[cname0 iid0] enrolled0]|] eqn:Hc0; [|done].
  intros sid' cid' p registered cname iid enrolled. simpl.
  destruct (decide (sid' = sid)) as [->|Hsne]; destruct (decide (cid' = cid)) as [->|Hcne].
  - rewrite !lookup_insert_eq. intros [= <- <-] [= <- <- <-]. set_solver.
  - rewrite lookup_insert_eq, lookup_insert_ne by done. intros [= <- <-] Hc.
    specialize (Hsym sid cid' _ _ _ _ _ Hs0 Hc). set_solver.
  - rewrite lookup_insert_ne, lookup_insert_eq by done. intros Hs [= <- <- <-].
    specialize (Hsym sid' cid _ _ _ _ _ Hs Hc0). set_solver.
  - rewrite !lookup_insert_ne by done. apply Hsym.
Qed.

Lemma sound_cleared (h : Heap) : sound (mkMem h empty_file_manager).
Proof. split; simpl; intros k l Hl; by rewrite lookup_empty in Hl. Qed.

Lemma view_cleared (h : Heap) : view (mkMem h empty_file_manager) = empty_view.
Proof. unfold view, empty_view. simpl. by rewrite !omap_empty. Qed.

Section ImportLoops.
Context `{Validator}.

(** The first three loops, run on clean rows from an emptied datastore,
    build the entities that the rows describe, nobody enrolled yet. *)
Lemma load_entities_spec (h : Heap) irows srows crows :
  Forall instructor_row_clean irows → Forall student_row_clean srows →
  Forall course_row_clean crows →
  ∃ m1 m2 m3,
    for_each irows load_instructor (mkMem h empty_file_manager) = (Ok tt, m1) ∧
    for_each srows load_student m1 = (Ok tt, m2) ∧
    for_each crows load_course m2 = (Ok tt, m3) ∧
    sound m3 ∧ no_enrollments (view m3) ∧
    view m3 = foldl (flip view_add_course)
                (foldl (flip view_add_student)
                   (foldl (flip view_add_instructor) empty_view irows) srows) crows.
Proof.
  intros Hi Hs Hc.
  destruct (for_each_view load_instructor view_add_instructor instructor_row_clean
              no_enrollments) with (rows := irows) (m := mkMem h empty_file_manager)
    as (m1 & Hrun1 & Hsound1 & Hview1 & Hinv1).
  - intros m [[[name age] email] iid] Hsound _ [Hp Hid]. by apply load_instructor_spec.
  - intros r v _. apply no_enrollments_add_instructor.
  - apply sound_cleared.
  - rewrite view_cleared. by split.
  - done.
  - destruct (for_each_view load_student view_add_student student_row_clean
                no_enrollments) with (rows := srows) (m := m1)
      as (m2 & Hrun2 & Hsound2 & Hview2 & Hinv2).
    + intros m [[[name age] email] sid] Hsound _ [Hp Hid]. by apply load_student_spec.
    + intros r v _. apply no_enrollments_add_student.
    + done.
    + done.
    + done.
    + destruct (for_each_view load_course view_add_course course_row_clean
                  no_enrollments) with (rows := crows) (m := m2)
        as (m3 & Hrun3 & Hsound3 & Hview3 & Hinv3).
      * intros m [[cid cname] iid] Hsound _ [Hid Hname]. by apply load_course_spec.
      * intros r v _. apply no_enrollments_add_course.
      * done.
      * done.
      * done.
      * exists m1, m2, m3. split_and!; try done.
        by rewrite Hview3, Hview2, Hview1, view_cleared.
Qed.

(** The last loop replays the enrollments. *)
Lemma load_links_spec erows (m3 : Mem) :
  sound m3 → view_symmetric (view m3) →
  ∃ m4, for_each erows load_enrollment m3 = (Ok tt, m4) ∧ sound m4 ∧
        view m4 = foldl (flip view_enroll) (view m3) erows.
Proof.
  intros Hsound Hsym.
  destruct (for_each_view load_enrollment view_enroll (λ _, True)
              view_symmetric) with (rows := erows) (m := m3)
    as (m4 & Hrun4 & Hsound4 & Hview4 & Hinv4).
  - intros m [sid cid] Hsound' Hsym' _. by apply load_enrollment_spec.
  - intros r v _. apply view_symmetric_enroll.
  - done.
  - done.
  - by apply Forall_forall.
  - by exists m4.
Qed.

(** The four loops, run on clean rows from an emptied datastore, build the
    graph that the rows describe. *)
Lemma load_rows_spec (h : Heap) irows srows crows erows :
  Forall instructor_row_clean irows → Forall student_row_clean srows →
  Forall course_row_clean crows →
  ∃ m', load_rows irows srows crows erows (mkMem h empty_file_manager) = (Ok tt, m') ∧
        sound m' ∧ view m' = view_of_rows irows srows crows erows.
Proof.
  intros Hi Hs Hc.
  destruct (load_entities_spec h irows srows crows Hi Hs Hc)
    as (m1 & m2 & m3 & Hrun1 & Hrun2 & Hrun3 & Hsound3 & Hinv3 & Hview3).
  destruct (load_links_spec erows m3 Hsound3 (no_enrollments_symmetric _ Hinv3))
    as (m4 & Hrun4 & Hsound4 & Hview4).
  exists m4. unfold load_rows, bind. rewrite Hrun1, Hrun2, Hrun3, Hrun4.
  split_and!; try done. unfold view_of_rows. by rewrite Hview4, Hview3.
Qed.

End ImportLoops.

(** ** The graph built from rows, entry by entry *)

Lemma fold_add_instructor_others irows v :
  v_students (foldl (flip view_add_instructor) v irows) = v_students v ∧
  v_courses (foldl (flip view_add_instructor) v irows) = v_courses v.
Proof.
  revert v. induction irows as [|[[[name age] email] iid] irows IH]; intros v; [done|].
  specialize (IH (view_add_instructor (name, age, email, iid) v)).
  simpl in *. by destruct IH as [-> ->].
Qed.

Lemma fold_add_instructor_absent irows v k :
  k ∉ irows.*2 →
  v_instructors (foldl (flip view_add_instructor) v irows) !! k = v_instructors v !! k.
Proof.
  revert v. induction irows as [|[[[name age] email] iid] irows IH]; intros v Hk; [done|].
  simpl in *. rewrite IH by set_solver. simpl.
  rewrite lookup_insert_ne; [done|]. set_solver.
Qed.

Lemma fold_add_instructor_present irows v name age email k :
  NoDup irows.*2 → (name, age, email, k) ∈ irows →
  v_instructors (foldl (flip view_add_instructor) v irows) !! k
    = Some (mkPerson name age email, ∅).
Proof.
  revert v. induction irows as [|[[[name' age'] email'] iid] irows IH]; intros v Hnd Hin.
  - by apply elem_of_nil in Hin.
  - simpl in *. apply NoDup_cons in Hnd as [Hfresh Hnd].
    apply elem_of_cons in Hin as [Heq|Hin].
    + simplify_eq. rewrite fold_add_instructor_absent by done. simpl.
      by rewrite lookup_insert_eq.
    + by apply IH.
Qed.

Lemma fold_add_student_others srows v :
  v_instructors (foldl (flip view_add_student) v srows) = v_instructors v ∧
  v_courses (foldl (flip view_add_student) v srows) = v_courses v.
Proof.
  revert v. induction srows as [|[[[name age] email] sid] srows IH]; intros v; [done|].
  specialize (IH (view_add_student (name, age, email, sid) v)).
  simpl in *. by destruct IH as [-> ->].
Qed.

Lemma fold_add_student_absent srows v k :
  k ∉ srows.*2 →
  v_students (foldl (flip view_add_student) v srows) !! k = v_students v !! k.
Proof.
  revert v. induction srows as [|[[[name age] email] sid] srows IH]; intros v Hk; [done|].
  simpl in *. rewrite IH by set_solver. simpl.
  rewrite lookup_insert_ne; [done|]. set_solver.
Qed.

Lemma fold_add_student_present srows v name age email k :
  NoDup srows.*2 → (name, age, email, k) ∈ srows →
  v_students (foldl (flip view_add_student) v srows) !! k
    = Some (mkPerson name age email, ∅).
Proof.
  revert v. induction srows as [|[[[name' age'] email'] sid] srows IH]; intros v Hnd Hin.
  - by apply elem_of_nil in Hin.
  - simpl in *. apply NoDup_cons in Hnd as [Hfresh Hnd].
    apply elem_of_cons in Hin as [Heq|Hin].
    + simplify_eq. rewrite fold_add_student_absent by done. simpl.
      by rewrite lookup_insert_eq.
    + by apply IH.
Qed.

Lemma foldl_flip_cons {A B} (f : A → B → B) (v : B) (r : A) (rows : list A) :
  foldl (flip f) v (r :: rows) = foldl (flip f) (f r v) rows.
Proof. done. Qed.

Lemma view_add_course_some cid cname iid v p assigned :
  v_instructors v !! iid = Some (p, assigned) →
  view_add_course (cid, cname, iid) v =
    mkView (v_students v) (<[iid := (p, assigned ∪ {[cid]})]> (v_instructors v))
           (<[cid := (cname, iid, ∅)]> (v_courses v)).
Proof. unfold view_add_course. by intros ->. Qed.

Lemma view_add_course_none cid cname iid v :
  v_instructors v !! iid = None → view_add_course (cid, cname, iid) v = v.
Proof. unfold view_add_course. by intros ->. Qed.

Lemma view_enroll_some sid cid v p registered cname iid enrolled :
  v_students v !! sid = Some (p, registered) →
  v_courses v !! cid = Some (cname, iid, enrolled) →
  view_enroll (sid, cid) v =
    mkView (<[sid := (p, registered ∪ {[cid]})]> (v_students v)) (v_instructors v)
           (<[cid := (cname, iid, enrolled ∪ {[sid]})]> (v_courses v)).
Proof. unfold view_enroll. by intros -> ->. Qed.

Lemma view_enroll_no_student sid cid v :
  v_students v !! sid = None → view_enroll (sid, cid) v = v.
Proof. unfold view_enroll. by intros ->. Qed.

Lemma view_enroll_no_course sid cid v :
  v_courses v !! cid = None → view_enroll (sid, cid) v = v.
Proof.
  unfold view_enroll. intros ->. by destruct (v_students v !! sid) as [[? ?]|].
Qed.

Lemma fold_add_course_students crows v :
  v_students (foldl (flip view_add_course) v crows) = v_students v.
Proof.
  revert v. induction crows as [|[[cid cname] iid] crows IH]; intros v; [done|].
  simpl. rewrite IH. unfold view_add_course.
  by destruct (v_instructors v !! iid) as [[? ?]|].
Qed.

Lemma view_add_course_instructor_present r v iid :
  is_Some (v_instructors v !! iid) → is_Some (v_instructors (view_add_course r v) !! iid).
Proof.
  destruct r as [[cid cname] iid0]. unfold view_add_course.
  destruct (v_instructors v !! iid0) as [[p assigned]|] eqn:H0; [|done]. simpl.
  intros Hin. destruct (decide (iid = iid0)) as [->|Hne].
  - rewrite lookup_insert_eq. eauto.
  - by rewrite lookup_insert_ne.
Qed.

Lemma fold_add_course_instructors_none crows v iid :
  v_instructors v !! iid = None →
  v_instructors (foldl (flip view_add_course) v crows) !! iid = None.
Proof.
  revert v. induction crows as [|[[cid cname] iid0] crows IH]; intros v Hnone; [done|].
  simpl. apply IH. unfold view_add_course.
  destruct (v_instructors v !! iid0) as [[p assigned]|] eqn:H0; [|done]. simpl.
  rewrite lookup_insert_ne; [done|]. intros ->. by rewrite Hnone in H0.
Qed.

Lemma fold_add_course_instructors_some crows v iid p assigned :
  v_instructors v !! iid = Some (p, assigned) →
  ∃ assigned',
    v_instructors (foldl (flip view_add_course) v crows) !! iid = Some (p, assigned') ∧
    ∀ cid, cid ∈ assigned' ↔ cid ∈ assigned ∨ ∃ cname, (cid, cname, iid) ∈ crows.
Proof.
  revert v assigned.
  induction crows as [|[[cid0 cname0] iid0] crows IH]; intros v assigned Hsome.
  - exists assigned. split; [done|]. intros cid. split; [auto|].
    intros [?|[cname Hin]]; [done|]. by apply elem_of_nil in Hin.
  - rewrite foldl_flip_cons.
    destruct (v_instructors v !! iid0) as [[p0 assigned0]|] eqn:H0.
    + rewrite (view_add_course_some _ _ _ _ _ _ H0).
      destruct (decide (iid = iid0)) as [->|Hne].
      * simplify_eq.
        edestruct IH as (assigned' & Hlook & Hmem);
          [|exists assigned'; split; [exact Hlook|]].
        { simpl. by rewrite lookup_insert_eq. }
        intros cid. rewrite Hmem.
        rewrite elem_of_union, elem_of_singleton. split.
        -- intros [[?| ->]|[cname Hin]]; [by left| |].
           ++ right. exists cname0. apply list_elem_of_here.
           ++ right. exists cname. by apply list_elem_of_further.
        -- intros [?|[cname Hin]]; [by left; left|].
           apply elem_of_cons in Hin as [Heq|Hin]; [simplify_eq; by left; right|].
           right. by exists cname.
      * edestruct IH as (assigned' & Hlook & Hmem);
          [|exists assigned'; split; [exact Hlook|]].
        { simpl. rewrite lookup_insert_ne by done. exact Hsome. }
        intros cid. rewrite Hmem. split.
        -- intros [?|[cname Hin]]; [by left|]. right. exists cname.
           by apply list_elem_of_further.
        -- intros [?|[cname Hin]]; [by left|].
           apply elem_of_cons in Hin as [Heq|Hin]; [by simplify_eq|].
           right. by exists cname.
    + rewrite (view_add_course_none _ _ _ _ H0).
      destruct (IH v assigned Hsome) as (assigned' & Hlook & Hmem).
      exists assigned'. split; [done|]. intros cid. rewrite Hmem. split.
      * intros [?|[cname Hin]]; [by left|]. right. exists cname.
        by apply list_elem_of_further.
      * intros [?|[cname Hin]]; [by left|].
        apply elem_of_cons in Hin as [Heq|Hin]; [|right; by exists cname].
        simplify_eq.
Qed.

Lemma fold_add_course_courses_absent crows v k :
  k ∉ crows.*1.*1 →
  v_courses (foldl (flip view_add_course) v crows) !! k = v_courses v !! k.
Proof.
  revert v. induction crows as [|[[cid cname] iid] crows IH]; intros v Hk; [done|].
  simpl in *. rewrite IH by set_solver. unfold view_add_course.
  destruct (v_instructors v !! iid) as [[p assigned]|]; [|done]. simpl.
  rewrite lookup_insert_ne; [done|]. set_solver.
Qed.

Lemma fold_add_course_courses_present crows v cid cname iid :
  NoDup crows.*1.*1 → (cid, cname, iid) ∈ crows → is_Some (v_instructors v !! iid) →
  v_courses (foldl (flip view_add_course) v crows) !! cid = Some (cname, iid, ∅).
Proof.
  revert v. induction crows as [|[[cid0 cname0] iid0] crows IH]; intros v Hnd Hin Hi.
  - by apply elem_of_nil in Hin.
  - simpl in Hnd. apply NoDup_cons in Hnd as [Hfresh Hnd]. rewrite foldl_flip_cons.
    apply elem_of_cons in Hin as [Heq|Hin].
    + simplify_eq. rewrite fold_add_course_courses_absent by done.
      destruct Hi as [[p assigned] Hi]. rewrite (view_add_course_some _ _ _ _ _ _ Hi).
      simpl. by rewrite lookup_insert_eq.
    + apply IH; [done|done|]. by apply view_add_course_instructor_present.
Qed.

Lemma view_enroll_instructors e v : v_instructors (view_enroll e v) = v_instructors v.
Proof.
  destruct e as [sid cid]. unfold view_enroll.
  destruct (v_students v !! sid) as [[? ?]|]; [|done].
  by destruct (v_courses v !! cid) as [[[? ?] ?]|].
Qed.

Lemma view_enroll_student_present e v k :
  is_Some (v_students (view_enroll e v) !! k) ↔ is_Some (v_students v !! k).
Proof.
  destruct e as [sid cid]. unfold view_enroll.
  destruct (v_students v !! sid) as [[p registered]|] eqn:Hs; [|done].
  destruct (v_courses v !! cid) as [[[? ?] ?]|]; [|done]. simpl.
  destruct (decide (k = sid)) as [->|Hne].
  - rewrite lookup_insert_eq, Hs. split; eauto.
  - by rewrite lookup_insert_ne.
Qed.

Lemma view_enroll_course_present e v k :
  is_Some (v_courses (view_enroll e v) !! k) ↔ is_Some (v_courses v !! k).
Proof.
  destruct e as [sid cid]. unfold view_enroll.
  destruct (v_students v !! sid) as [[p registered]|] eqn:Hs; [|done].
  destruct (v_courses v !! cid) as [[[cname iid] enrolled]|] eqn:Hc; [|done]. simpl.
  destruct (decide (k = cid)) as [->|Hne].
  - rewrite lookup_insert_eq, Hc. split; eauto.
  - by rewrite lookup_insert_ne.
Qed.

Lemma fold_enroll_instructors erows v :
  v_instructors (foldl (flip view_enroll) v erows) = v_instructors v.
Proof.
  revert v. induction erows as [|e erows IH]; intros v; [done|].
  simpl. rewrite IH. apply view_enroll_instructors.
Qed.

Lemma fold_enroll_students_none erows v sid :
  v_students v !! sid = None → v_students (foldl (flip view_enroll) v erows) !! sid = None.
Proof.
  revert v. induction erows as [|e erows IH]; intros v Hnone; [done|].
  simpl. apply IH. apply eq_None_not_Some. rewrite view_enroll_student_present.
  by rewrite Hnone; intros [? ?].
Qed.

Lemma fold_enroll_courses_none erows v cid :
  v_courses v !! cid = None → v_courses (foldl (flip view_enroll) v erows) !! cid = None.
Proof.
  revert v. induction erows as [|e erows IH]; intros v Hnone; [done|].
  simpl. apply IH. apply eq_None_not_Some. rewrite view_enroll_course_present.
  by rewrite Hnone; intros [? ?].
Qed.

Lemma fold_enroll_students_some erows v sid p registered :
  v_students v !! sid = Some (p, registered) →
  ∃ registered',
    v_students (foldl (flip view_enroll) v erows) !! sid = Some (p, registered') ∧
    ∀ cid, cid ∈ registered' ↔
           cid ∈ registered ∨ ((sid, cid) ∈ erows ∧ is_Some (v_courses v !! cid)).
Proof.
  revert v registered. induction erows as [|[s0 c0] erows IH]; intros v registered Hsome.
  - exists registered. split; [done|]. intros cid. split; [auto|].
    intros [?|[Hin _]]; [done|]. by apply elem_of_nil in Hin.
  - rewrite foldl_flip_cons.
    assert (∀ cid, is_Some (v_courses (view_enroll (s0, c0) v) !! cid)
                   ↔ is_Some (v_courses v !! cid)) as Hdom.
    { intros cid. apply view_enroll_course_present. }
    destruct (v_students v !! s0) as [[p0 registered0]|] eqn:Hs0.
    + destruct (v_courses v !! c0) as [[[cname0 iid0] enrolled0]|] eqn:Hc0.
      * rewrite (view_enroll_some _ _ _ _ _ _ _ _ Hs0 Hc0) in *.
        destruct (decide (sid = s0)) as [->|Hne].
        -- simplify_eq.
           edestruct IH as (registered' & Hlook & Hmem);
             [|exists registered'; split; [exact Hlook|]].
           { simpl. by rewrite lookup_insert_eq. }
           intros cid. rewrite Hmem, Hdom, elem_of_union, elem_of_singleton,
             elem_of_cons. split.
           ++ intros [[?| ->]|[? ?]]; [by left| |by right; split; [right|]].
              right. split; [by left|]. rewrite Hc0. eauto.
           ++ intros [?|[[Heq|?] ?]]; [by left; left| |by right].
              simplify_eq. by left; right.
        -- edestruct IH as (registered' & Hlook & Hmem);
             [|exists registered'; split; [exact Hlook|]].
           { simpl. rewrite lookup_insert_ne by done. exact Hsome. }
           intros cid. rewrite Hmem, Hdom, elem_of_cons. split.
           ++ intros [?|[? ?]]; [by left|by right; split; [right|]].
           ++ intros [?|[[Heq|?] ?]]; [by left| |by right]. by simplify_eq.
      * rewrite (view_enroll_no_course _ _ _ Hc0) in *.
        destruct (IH v registered Hsome) as (registered' & Hlook & Hmem).
        exists registered'. split; [done|]. intros cid. rewrite Hmem, elem_of_cons. split.
        -- intros [?|[? ?]]; [by left|by right; split; [right|]].
        -- intros [?|[[Heq|?] [x Hx]]]; [by left| |by right; split; [|exists x]].
           simplify_eq.
    + rewrite (view_enroll_no_student _ _ _ Hs0) in *.
      destruct (IH v registered Hsome) as (registered' & Hlook & Hmem).
      exists registered'. split; [done|]. intros cid. rewrite Hmem, elem_of_cons. split.
      * intros [?|[? ?]]; [by left|by right; split; [right|]].
      * intros [?|[[Heq|?] ?]]; [by left| |by right]. simplify_eq.
Qed.

Lemma fold_enroll_courses_some erows v cid cname iid enrolled :
  v_courses v !! cid = Some (cname, iid, enrolled) →
  ∃ enrolled',
    v_courses (foldl (flip view_enroll) v erows) !! cid = Some (cname, iid, enrolled') ∧
    ∀ sid, sid ∈ enrolled' ↔
           sid ∈ enrolled ∨ ((sid, cid) ∈ erows ∧ is_Some (v_students v !! sid)).
Proof.
  revert v enrolled. induction erows as [|[s0 c0] erows IH]; intros v enrolled Hsome.
  - exists enrolled. split; [done|]. intros sid. split; [auto|].
    intros [?|[Hin _]]; [done|]. by apply elem_of_nil in Hin.
  - rewrite foldl_flip_cons.
    assert (∀ sid, is_Some (v_students (view_enroll (s0, c0) v) !! sid)
                   ↔ is_Some (v_students v !! sid)) as Hdom.
    { intros sid. apply view_enroll_student_present. }
    destruct (v_students v !! s0) as [[p0 registered0]|] eqn:Hs0.
    + destruct (v_courses v !! c0) as [[[cname0 iid0] enrolled0]|] eqn:Hc0.
      * rewrite (view_enroll_some _ _ _ _ _ _ _ _ Hs0 Hc0) in *.
        destruct (decide (cid = c0)) as [->|Hne].
        -- simplify_eq.
           edestruct IH as (enrolled' & Hlook & Hmem);
             [|exists enrolled'; split; [exact Hlook|]].
           { simpl. by rewrite lookup_insert_eq. }
           intros sid. rewrite Hmem, Hdom, elem_of_union, elem_of_singleton,
             elem_of_cons. split.
           ++ intros [[?| ->]|[? ?]]; [by left| |by right; split; [right|]].
              right. split; [by left|]. rewrite Hs0. eauto.
           ++ intros [?|[[Heq|?] ?]]; [by left; left| |by right].
              simplify_eq. by left; right.
        -- edestruct IH as (enrolled' & Hlook & Hmem);
             [|exists enrolled'; split; [exact Hlook|]].
           { simpl. rewrite lookup_insert_ne by done. exact Hsome. }
           intros sid. rewrite Hmem, Hdom, elem_of_cons. split.
           ++ intros [?|[? ?]]; [by left|by right; split; [right|]].
           ++ intros [?|[[Heq|?] ?]]; [by left| |by right]. by simplify_eq.
      * rewrite (view_enroll_no_course _ _ _ Hc0) in *.
        destruct (IH v enrolled Hsome) as (enrolled' & Hlook & Hmem).
        exists enrolled'. split; [done|]. intros sid. rewrite Hmem, elem_of_cons. split.
        -- intros [?|[? ?]]; [by left|by right; split; [right|]].
        -- intros [?|[[Heq|?] ?]]; [by left| |by right]. simplify_eq.
    + rewrite (view_enroll_no_student _ _ _ Hs0) in *.
      destruct (IH v enrolled Hsome) as (enrolled' & Hlook & Hmem).
      exists enrolled'. split; [done|]. intros sid. rewrite Hmem, elem_of_cons. split.
      * intros [?|[? ?]]; [by left|by right; split; [right|]].
      * intros [?|[[Heq|?] [x Hx]]]; [by left| |by right; split; [|exists x]].
        simplify_eq.
Qed.

(** ** The rows exported from a graph *)

Lemma person_eta (p : Person) : mkPerson (name p) (age p) (_email p) = p.
Proof. by destruct p. Qed.

Lemma omap_values_elem {A} (f : loc → option A) (d : gmap string loc) (a : A) :
  a ∈ omap f (map_to_list d).*2 ↔ ∃ k l, d !! k = Some l ∧ f l = Some a.
Proof.
  rewrite list_elem_of_omap. split.
  - intros (l & Hl & Hf). apply list_elem_of_fmap in Hl as ([k l'] & -> & Hkl).
    apply elem_of_map_to_list in Hkl. by exists k, l'.
  - intros (k & l & Hkl & Hf). exists l. split; [|done].
    apply list_elem_of_fmap. exists (k, l). split; [done|]. by apply elem_of_map_to_list.
Qed.

Lemma omap_values_keys {A} (f : loc → option A) (key : A → string)
    (pairs : list (string * loc)) :
  (∀ k l, (k, l) ∈ pairs → ∃ a, f l = Some a ∧ key a = k) →
  key <$> omap f pairs.*2 = pairs.*1.
Proof.
  induction pairs as [|[k l] pairs IH]; intros Hall; [done|].
  destruct (Hall k l) as (a & Ha & Hk); [apply list_elem_of_here|].
  simpl. rewrite Ha. simpl. rewrite Hk.
  f_equal. apply IH. intros k' l' Hin. apply Hall. by apply list_elem_of_further.
Qed.

Lemma omap_values_NoDup {A} (f : loc → option A) (key : A → string) (d : gmap string loc) :
  (∀ k l, d !! k = Some l → ∃ a, f l = Some a ∧ key a = k) →
  NoDup (key <$> omap f (map_to_list d).*2).
Proof.
  intros Hall. rewrite (omap_values_keys f key).
  - apply NoDup_fst_map_to_list.
  - intros k l Hin. apply Hall. by apply elem_of_map_to_list.
Qed.

Section ExportedRows.
Context `{Validator}.
Variable m : Mem.
Hypothesis Hok : graph_ok m.

Lemma instructor_rows_elem name age email k :
  (name, age, email, k) ∈ instructor_rows m ↔
  ∃ l i, instructors (datastore m) !! k = Some l ∧ instructor_objs (heap m) !! l = Some i ∧
         instructor_person i = mkPerson name age email.
Proof.
  unfold instructor_rows, FileManager.instructor_values. rewrite omap_values_elem. split.
  - intros (k' & l & Hl & Hrow). destruct (ok_instructors m Hok k' l Hl) as (i & Hi & Hid & _).
    unfold instructor_row_at in Hrow. rewrite Hi in Hrow. simpl in Hrow.
    unfold person_fields in Hrow. simplify_eq. exists l, i. split_and!; try done.
    by rewrite person_eta.
  - intros (l & i & Hl & Hi & Hp). exists k, l. split; [done|].
    destruct (ok_instructors m Hok k l Hl) as (i' & Hi' & Hid & _). simplify_eq.
    unfold instructor_row_at. rewrite Hi. simpl. unfold person_fields. by rewrite Hp.
Qed.

Lemma instructor_rows_keys :
  (instructor_rows m).*2 = (map_to_list (instructors (datastore m))).*1.
Proof.
  unfold instructor_rows, FileManager.instructor_values. apply omap_values_keys.
  intros k l Hin. apply elem_of_map_to_list in Hin.
  destruct (ok_instructors m Hok k l Hin) as (i & Hi & Hid & _).
  eexists. unfold instructor_row_at. rewrite Hi. simpl. split; [done|]. done.
Qed.

Lemma student_entries_elem name age email k registered :
  (name, age, email, k, registered) ∈ student_entries m ↔
  ∃ l s, students (datastore m) !! k = Some l ∧ student_objs (heap m) !! l = Some s ∧
         student_person s = mkPerson name age email ∧
         registered = course_ids (heap m) (registered_courses s).
Proof.
  unfold student_entries, FileManager.student_values. rewrite omap_values_elem. split.
  - intros (k' & l & Hl & Hrow). destruct (ok_students m Hok k' l Hl) as (s & Hs & Hid & _).
    unfold student_entry_at in Hrow. rewrite Hs in Hrow. simpl in Hrow.
    unfold person_fields in Hrow. simplify_eq. exists l, s. split_and!; try done.
    by rewrite person_eta.
  - intros (l & s & Hl & Hs & Hp & ->). exists k, l. split; [done|].
    destruct (ok_students m Hok k l Hl) as (s' & Hs' & Hid & _). simplify_eq.
    unfold student_entry_at. rewrite Hs. simpl. unfold person_fields. by rewrite Hp.
Qed.

Lemma student_rows_elem name age email k :
  (name, age, email, k) ∈ student_rows m ↔
  ∃ l s, students (datastore m) !! k = Some l ∧ student_objs (heap m) !! l = Some s ∧
         student_person s = mkPerson name age email.
Proof.
  unfold student_rows. rewrite list_elem_of_fmap. split.
  - intros ([[[[name' age'] email'] k'] registered] & Heq & Hin). simpl in Heq. simplify_eq.
    apply student_entries_elem in Hin as (l & s & ? & ? & ? & _). by exists l, s.
  - intros (l & s & Hl & Hs & Hp).
    exists (name, age, email, k, course_ids (heap m) (registered_courses s)).
    split; [done|]. apply student_entries_elem. by exists l, s.
Qed.

Lemma student_rows_keys :
  (student_rows m).*2 = (map_to_list (students (datastore m))).*1.
Proof.
  unfold student_rows, student_entries, FileManager.student_values.
  rewrite <- list_fmap_compose.
  apply (omap_values_keys _ (λ e : person_row * list string, e.1.2)).
  intros k l Hin. apply elem_of_map_to_list in Hin.
  destruct (ok_students m Hok k l Hin) as (s & Hs & Hid & _).
  eexists. unfold student_entry_at. rewrite Hs. simpl. split; [done|]. done.
Qed.

Lemma enrollment_rows_elem sid cid :
  (sid, cid) ∈ enrollment_rows m ↔
  ∃ l s, students (datastore m) !! sid = Some l ∧ student_objs (heap m) !! l = Some s ∧
         cid ∈ course_ids (heap m) (registered_courses s).
Proof.
  unfold enrollment_rows. rewrite list_elem_of_bind. split.
  - intros ([[[[name age] email] k] registered] & Hin & Hentry).
    unfold entry_enrollments in Hin. simpl in Hin.
    apply list_elem_of_fmap in Hin as (cid' & Heq & Hcid). simplify_eq.
    apply student_entries_elem in Hentry as (l & s & Hl & Hs & _ & ->). by exists l, s.
  - intros (l & s & Hl & Hs & Hcid).
    exists (person_fields (student_person s) sid, course_ids (heap m) (registered_courses s)).
    split.
    + unfold entry_enrollments. simpl. apply list_elem_of_fmap. by exists cid.
    + unfold person_fields. apply student_entries_elem. exists l, s.
      split_and!; try done. by rewrite person_eta.
Qed.

Lemma course_rows_elem cid cname iid :
  (cid, cname, iid) ∈ course_rows m ↔
  ∃ l c i, courses (datastore m) !! cid = Some l ∧ course_objs (heap m) !! l = Some c ∧
           instructor_objs (heap m) !! instructor c = Some i ∧
           cname = course_name c ∧ iid = instructor_id i.
Proof.
  unfold course_rows, FileManager.course_values. rewrite omap_values_elem. split.
  - intros (k' & l & Hl & Hrow).
    destruct (ok_courses m Hok k' l Hl) as (c & i & Hc & Hid & _ & _ & Hi & _).
    unfold course_row_at in Hrow. rewrite Hc in Hrow. simpl in Hrow.
    rewrite Hi in Hrow. simpl in Hrow. simplify_eq. by exists l, c, i.
  - intros (l & c & i & Hl & Hc & Hi & -> & ->). exists cid, l. split; [done|].
    destruct (ok_courses m Hok cid l Hl) as (c' & i' & Hc' & Hid & _). simplify_eq.
    unfold course_row_at. rewrite Hc. simpl. by rewrite Hi.
Qed.

Lemma course_rows_keys :
  (course_rows m).*1.*1 = (map_to_list (courses (datastore m))).*1.
Proof.
  unfold course_rows, FileManager.course_values.
  rewrite <- list_fmap_compose.
  apply (omap_values_keys _ (λ r : course_row, r.1.1)).
  intros k l Hin. apply elem_of_map_to_list in Hin.
  destruct (ok_courses m Hok k l Hin) as (c & i & Hc & Hid & _ & _ & Hi & _).
  eexists. unfold course_row_at. rewrite Hc. simpl. rewrite Hi. simpl. split; [done|]. done.
Qed.

End ExportedRows.

Lemma course_ids_elem (h : Heap) (ls : list loc) (cid : string) :
  cid ∈ course_ids h ls ↔
  ∃ lc c, lc ∈ ls ∧ course_objs h !! lc = Some c ∧ course_id c = cid.
Proof.
  unfold course_ids. rewrite list_elem_of_omap. split.
  - intros (lc & Hin & Hc). destruct (course_objs h !! lc) as [c|] eqn:E; [|done].
    simpl in Hc. simplify_eq. by exists lc, c.
  - intros (lc & c & Hin & Hc & <-). exists lc. by rewrite Hc.
Qed.

Lemma student_ids_elem (h : Heap) (ls : list loc) (sid : string) :
  sid ∈ student_ids h ls ↔
  ∃ l s, l ∈ ls ∧ student_objs h !! l = Some s ∧ student_id s = sid.
Proof.
  unfold student_ids. rewrite list_elem_of_omap. split.
  - intros (l & Hin & Hs). destruct (student_objs h !! l) as [s|] eqn:E; [|done].
    simpl in Hs. simplify_eq. by exists l, s.
  - intros (l & s & Hin & Hs & <-). exists l. by rewrite Hs.
Qed.

Lemma not_elem_of_keys {A} (d : gmap string A) (k : string) :
  d !! k = None → k ∉ (map_to_list d).*1.
Proof.
  intros Hk Hin. apply list_elem_of_fmap in Hin as ([k' a] & -> & Hin).
  apply elem_of_map_to_list in Hin. simpl in Hk. congruence.
Qed.

Lemma GraphView_eq (v v' : GraphView) :
  v_students v = v_students v' → v_instructors v = v_instructors v' →
  v_courses v = v_courses v' → v = v'.
Proof. destruct v, v'. simpl. by intros -> -> ->. Qed.

Section ExportedView.
Context `{Validator}.
Variable m : Mem.
Hypothesis Hok : graph_ok m.

Let v1 := foldl (flip view_add_instructor) empty_view (instructor_rows m).
Let v2 := foldl (flip view_add_student) v1 (student_rows m).
Let v3 := foldl (flip view_add_course) v2 (course_rows m).

Lemma exported_instructors_none k :
  instructors (datastore m) !! k = None → v_instructors v2 !! k = None.
Proof.
  intros Hk. unfold v2. rewrite (proj1 (fold_add_student_others _ _)).
  unfold v1. rewrite fold_add_instructor_absent; [done|].
  rewrite instructor_rows_keys by done. by apply not_elem_of_keys.
Qed.

Lemma exported_instructors_some k l i :
  instructors (datastore m) !! k = Some l → instructor_objs (heap m) !! l = Some i →
  v_instructors v2 !! k = Some (instructor_person i, ∅).
Proof.
  intros Hk Hi. unfold v2. rewrite (proj1 (fold_add_student_others _ _)).
  unfold v1. rewrite <- (person_eta (instructor_person i)).
  apply fold_add_instructor_present.
  - rewrite instructor_rows_keys by done. apply NoDup_fst_map_to_list.
  - apply instructor_rows_elem; [done|]. exists l, i. by rewrite person_eta.
Qed.

Lemma exported_students_none k :
  students (datastore m) !! k = None → v_students v3 !! k = None.
Proof.
  intros Hk. unfold v3. rewrite fold_add_course_students.
  unfold v2. rewrite fold_add_student_absent.
  - unfold v1. by rewrite (proj1 (fold_add_instructor_others _ _)).
  - rewrite student_rows_keys by done. by apply not_elem_of_keys.
Qed.

Lemma exported_students_some k l s :
  students (datastore m) !! k = Some l → student_objs (heap m) !! l = Some s →
  v_students v3 !! k = Some (student_person s, ∅).
Proof.
  intros Hk Hs. unfold v3. rewrite fold_add_course_students.
  unfold v2. rewrite <- (person_eta (student_person s)).
  apply fold_add_student_present.
  - rewrite student_rows_keys by done. apply NoDup_fst_map_to_list.
  - apply student_rows_elem; [done|]. exists l, s. by rewrite person_eta.
Qed.

Lemma exported_courses_none k :
  courses (datastore m) !! k = None → v_courses v3 !! k = None.
Proof.
  intros Hk. unfold v3. rewrite fold_add_course_courses_absent.
  - unfold v2. rewrite (proj2 (fold_add_student_others _ _)).
    unfold v1. by rewrite (proj2 (fold_add_instructor_others _ _)).
  - rewrite course_rows_keys by done. by apply not_elem_of_keys.
Qed.

Lemma exported_courses_some k l c i :
  courses (datastore m) !! k = Some l → course_objs (heap m) !! l = Some c →
  instructor_objs (heap m) !! instructor c = Some i →
  v_courses v3 !! k = Some (course_name c, instructor_id i, ∅).
Proof.
  intros Hk Hc Hi. unfold v3. apply fold_add_course_courses_present.
  - rewrite course_rows_keys by done. apply NoDup_fst_map_to_list.
  - apply course_rows_elem; [done|]. by exists l, c, i.
  - destruct (ok_courses m Hok k l Hk) as (c' & i' & Hc' & _ & _ & _ & Hi' & Hdi & _).
    simplify_eq. by rewrite (exported_instructors_some _ _ _ Hdi Hi).
Qed.

Lemma exported_assigned k l i :
  instructors (datastore m) !! k = Some l → instructor_objs (heap m) !! l = Some i →
  v_instructors v3 !! k
    = Some (instructor_person i, list_to_set (course_ids (heap m) (assigned_courses i))).
Proof.
  intros Hk Hi.
  destruct (fold_add_course_instructors_some (course_rows m) v2 k _ _
              (exported_instructors_some _ _ _ Hk Hi)) as (assigned' & Hlook & Hassigned).
  fold v3 in Hlook. rewrite Hlook. do 2 f_equal. apply set_eq. intros cid.
  rewrite Hassigned, elem_of_list_to_set, course_ids_elem.
  destruct (ok_instructors m Hok k l Hk) as (i' & Hi' & Hid & _ & _ & Hlists).
  simplify_eq. split.
  - intros [Hin|(cname & Hin)]; [set_solver|].
    apply course_rows_elem in Hin as (lc & c & i' & Hdc & Hc & Hi' & _ & Hid); [|done].
    destruct (ok_courses m Hok cid lc Hdc) as (c' & i'' & Hc' & Hcid & _ & _ & Hi'' & Hdi & Hin & _).
    simplify_eq. rewrite <- Hid in Hdi. rewrite Hk in Hdi. simplify_eq.
    by exists lc, c.
  - intros (lc & c & Hin & Hc & Hcid). right. exists (course_name c).
    destruct (Hlists lc Hin) as (c' & Hc' & Hdc & Hinstr). simplify_eq.
    apply course_rows_elem; [done|]. exists lc, c, i. split_and!; done.
Qed.

Lemma exported_assigned_none k :
  instructors (datastore m) !! k = None → v_instructors v3 !! k = None.
Proof.
  intros Hk. unfold v3. apply fold_add_course_instructors_none.
  by apply exported_instructors_none.
Qed.

Lemma exported_registered k l s :
  students (datastore m) !! k = Some l → student_objs (heap m) !! l = Some s →
  v_students (foldl (flip view_enroll) v3 (enrollment_rows m)) !! k
    = Some (student_person s, list_to_set (course_ids (heap m) (registered_courses s))).
Proof.
  intros Hk Hs.
  destruct (fold_enroll_students_some (enrollment_rows m) v3 k _ _
              (exported_students_some _ _ _ Hk Hs)) as (registered' & Hlook & Hregistered).
  rewrite Hlook. do 2 f_equal. apply set_eq. intros cid.
  rewrite Hregistered, elem_of_list_to_set.
  destruct (ok_students m Hok k l Hk) as (s' & Hs' & Hid & _ & _ & Hlists).
  simplify_eq. split.
  - intros [Hin|[Hin _]]; [set_solver|].
    apply enrollment_rows_elem in Hin as (l' & s' & Hds & Hs' & Hin); [|done].
    by simplify_eq.
  - intros Hin. right. split.
    + apply enrollment_rows_elem; [done|]. by exists l, s.
    + apply course_ids_elem in Hin as (lc & c & Hin & Hc & Hcid).
      destruct (Hlists lc Hin) as (c' & Hc' & Hdc & _). simplify_eq.
      destruct (ok_courses m Hok _ lc Hdc) as (c' & i & Hc' & _ & _ & _ & Hi & _).
      simplify_eq. by rewrite (exported_courses_some _ _ _ _ Hdc Hc Hi).
Qed.

Lemma exported_enrolled k l c i :
  courses (datastore m) !! k = Some l → course_objs (heap m) !! l = Some c →
  instructor_objs (heap m) !! instructor c = Some i →
  v_courses (foldl (flip view_enroll) v3 (enrollment_rows m)) !! k
    = Some (course_name c, instructor_id i,
            list_to_set (student_ids (heap m) (enrolled_students c))).
Proof.
  intros Hk Hc Hi.
  destruct (fold_enroll_courses_some (enrollment_rows m) v3 k _ _ _
              (exported_courses_some _ _ _ _ Hk Hc Hi)) as (enrolled' & Hlook & Henrolled).
  rewrite Hlook. do 2 f_equal. apply set_eq. intros sid.
  rewrite Henrolled, elem_of_list_to_set, student_ids_elem.
  destruct (ok_courses m Hok k l Hk) as (c' & i' & Hc' & Hcid & _ & _ & _ & _ & _ & Hlists).
  simplify_eq. split.
  - intros [Hin|[Hin _]]; [set_solver|].
    apply enrollment_rows_elem in Hin as (ls & s & Hds & Hs & Hin); [|done].
    apply course_ids_elem in Hin as (lc & c' & Hin & Hc' & Hcid).
    destruct (ok_students m Hok sid ls Hds) as (s' & Hs' & Hsid & _ & _ & Hregs).
    simplify_eq. destruct (Hregs lc Hin) as (c'' & Hc'' & Hdc & Hen). simplify_eq.
    rewrite Hcid in Hdc. rewrite Hk in Hdc. simplify_eq. by exists ls, s.
  - intros (ls & s & Hin & Hs & Hsid).
    destruct (Hlists ls Hin) as (s' & Hs' & Hds & Hreg). simplify_eq. right. split.
    + apply enrollment_rows_elem; [done|]. exists ls, s. split_and!; try done.
      apply course_ids_elem. by exists l, c.
    + by rewrite (exported_students_some _ _ _ Hds Hs).
Qed.

(** Replaying the exported rows rebuilds the graph they were exported from. *)
Lemma exported_rows_view :
  view_of_rows (instructor_rows m) (student_rows m) (course_rows m) (enrollment_rows m)
    = view m.
Proof.
  unfold view_of_rows. fold v1. fold v2. fold v3. apply GraphView_eq.
  - apply map_eq. intros k. unfold view. cbn [v_students]. rewrite lookup_omap.
    destruct (students (datastore m) !! k) as [l|] eqn:Hk.
    + destruct (ok_students m Hok k l Hk) as (s & Hs & _).
      rewrite (exported_registered _ _ _ Hk Hs). simpl. unfold student_view.
      by rewrite Hs.
    + simpl. apply fold_enroll_students_none. by apply exported_students_none.
  - rewrite fold_enroll_instructors.
    apply map_eq. intros k. unfold view. cbn [v_instructors]. rewrite lookup_omap.
    destruct (instructors (datastore m) !! k) as [l|] eqn:Hk.
    + destruct (ok_instructors m Hok k l Hk) as (i & Hi & _).
      rewrite (exported_assigned _ _ _ Hk Hi). simpl. unfold instructor_view.
      by rewrite Hi.
    + simpl. by apply exported_assigned_none.
  - apply map_eq. intros k. unfold view. cbn [v_courses]. rewrite lookup_omap.
    destruct (courses (datastore m) !! k) as [l|] eqn:Hk.
    + destruct (ok_courses m Hok k l Hk) as (c & i & Hc & _ & _ & _ & Hi & _).
      rewrite (exported_enrolled _ _ _ _ Hk Hc Hi). simpl. unfold course_view.
      rewrite Hc. simpl. by rewrite Hi.
    + simpl. apply fold_enroll_courses_none. by apply exported_courses_none.
Qed.

End ExportedView.

(** ** The export *)

Lemma list_comp_omap {S A B} (xs : list A) (f : A → M S B) (g : A → option B) (s : S) :
  (∀ x, x ∈ xs → ∃ y, g x = Some y ∧ f x s = (Ok y, s)) →
  list_comp xs f s = (Ok (omap g xs), s).
Proof.
  induction xs as [|x xs IH]; intros Hall; [done|].
  destruct (Hall x) as (y & Hg & Hf); [apply list_elem_of_here|].
  simpl. unfold bind. rewrite Hf, IH, Hg; [done|].
  intros x' Hin. apply Hall. by apply list_elem_of_further.
Qed.

Lemma list_comp_course_ids (h : Heap) (ls : list loc) :
  (∀ lc, lc ∈ ls → is_Some (course_objs h !! lc)) →
  list_comp ls (λ l, let! c := deref course_objs l in ret (course_id c)) h
    = (Ok (course_ids h ls), h).
Proof.
  intros Hall. unfold course_ids. apply list_comp_omap. intros lc Hin.
  destruct (Hall lc Hin) as [c Hc]. exists (course_id c).
  unfold bind, deref, ret. by rewrite Hc.
Qed.

Lemma list_comp_student_ids (h : Heap) (ls : list loc) :
  (∀ l, l ∈ ls → is_Some (student_objs h !! l)) →
  list_comp ls (λ l, let! s := deref student_objs l in ret (student_id s)) h
    = (Ok (student_ids h ls), h).
Proof.
  intros Hall. unfold student_ids. apply list_comp_omap. intros l Hin.
  destruct (Hall l Hin) as [s Hs]. exists (student_id s).
  unfold bind, deref, ret. by rewrite Hs.
Qed.

Lemma omap_values_fmap {A B} (f : loc → option A) (g : loc → option B) (key : A → B)
    (ls : list loc) :
  (∀ l, l ∈ ls → g l = key <$> f l) → omap g ls = key <$> omap f ls.
Proof.
  induction ls as [|l ls IH]; intros Hall; [done|].
  assert (omap g ls = key <$> omap f ls) as IH'.
  { apply IH. intros l' Hin. apply Hall. by apply list_elem_of_further. }
  simpl. rewrite (Hall l) by apply list_elem_of_here.
  destruct (f l); simpl; [f_equal|]; apply IH'.
Qed.

Lemma instructor_entries_rows (m : Mem) : (instructor_entries m).*1 = instructor_rows m.
Proof.
  unfold instructor_entries, instructor_rows. symmetry. apply omap_values_fmap.
  intros l _. unfold instructor_row_at, instructor_entry_at.
  by destruct (instructor_objs (heap m) !! l).
Qed.

Lemma course_entries_rows (m : Mem) : (course_entries m).*1 = course_rows m.
Proof.
  unfold course_entries, course_rows. symmetry. apply omap_values_fmap.
  intros l _. unfold course_row_at, course_entry_at.
  destruct (course_objs (heap m) !! l) as [c|]; [|done]. simpl.
  by destruct (instructor_objs (heap m) !! instructor c).
Qed.

Lemma bind_run {S A B} (c : M S A) (k : A → M S B) (s s' : S) (a : A) :
  c s = (Ok a, s') → bind c k s = k a s'.
Proof. unfold bind. by intros ->. Qed.

Lemma elem_of_values (d : gmap string loc) (l : loc) :
  l ∈ (map_to_list d).*2 ↔ ∃ k, d !! k = Some l.
Proof.
  rewrite list_elem_of_fmap. split.
  - intros ([k l'] & -> & Hin). apply elem_of_map_to_list in Hin. by exists k.
  - intros [k Hk]. exists (k, l). split; [done|]. by apply elem_of_map_to_list.
Qed.

Section ExportRun.
Context `{Validator}.
Variable m : Mem.
Hypothesis Hok : graph_ok m.

Lemma students_to_dict_run :
  list_comp (FileManager.student_values m)
            (λ l, in_heap (let! s := deref student_objs l in Student_to_dict s)) m
    = (Ok (student_json <$> student_entries m), m).
Proof.
  unfold student_entries.
  rewrite <- (omap_values_fmap _ (λ l, student_json <$> student_entry_at (heap m) l)) by done.
  apply list_comp_omap. intros l Hin. apply elem_of_values in Hin as [k Hk].
  destruct (ok_students m Hok k l Hk) as (s & Hs & _ & _ & _ & Hregs).
  eexists. unfold student_entry_at. rewrite Hs. split; [done|].
  destruct m as [h fm]. simpl in *.
  unfold in_heap, zoom, bind, deref, Student_to_dict. simpl. rewrite Hs.
  unfold bind. rewrite list_comp_course_ids; [done|].
  intros lc Hin. destruct (Hregs lc Hin) as (c & Hc & _). by exists c.
Qed.

Lemma instructors_to_dict_run :
  list_comp (FileManager.instructor_values m)
            (λ l, in_heap (let! i := deref instructor_objs l in Instructor_to_dict i)) m
    = (Ok (instructor_json <$> instructor_entries m), m).
Proof.
  unfold instructor_entries.
  rewrite <- (omap_values_fmap _ (λ l, instructor_json <$> instructor_entry_at (heap m) l))
    by done.
  apply list_comp_omap. intros l Hin. apply elem_of_values in Hin as [k Hk].
  destruct (ok_instructors m Hok k l Hk) as (i & Hi & _ & _ & _ & Hassigned).
  eexists. unfold instructor_entry_at. rewrite Hi. split; [done|].
  destruct m as [h fm]. simpl in *.
  unfold in_heap, zoom, bind, deref, Instructor_to_dict. simpl. rewrite Hi.
  unfold bind. rewrite list_comp_course_ids; [done|].
  intros lc Hin. destruct (Hassigned lc Hin) as (c & Hc & _). by exists c.
Qed.

Lemma courses_to_dict_run :
  list_comp (FileManager.course_values m)
            (λ l, in_heap (let! c := deref course_objs l in Course_to_dict c)) m
    = (Ok (course_json <$> course_entries m), m).
Proof.
  unfold course_entries.
  rewrite <- (omap_values_fmap _ (λ l, course_json <$> course_entry_at (heap m) l)) by done.
  apply list_comp_omap. intros l Hin. apply elem_of_values in Hin as [k Hk].
  destruct (ok_courses m Hok k l Hk) as (c & i & Hc & _ & _ & _ & Hi & _ & _ & Henrolled).
  eexists. unfold course_entry_at. rewrite Hc. simpl. rewrite Hi. split; [done|].
  destruct m as [h fm]. simpl in *.
  unfold in_heap, zoom, bind, deref, Course_to_dict. simpl. rewrite Hc.
  unfold bind, deref. rewrite Hi. rewrite list_comp_student_ids; [done|].
  intros ls Hin. destruct (Henrolled ls Hin) as (s & Hs & _). by exists s.
Qed.

(** [save_to_json] writes the document of the graph and changes nothing. *)
Lemma save_to_json_run : FileManager.save_to_json m = (Ok (json_of m), m).
Proof.
  unfold FileManager.save_to_json.
  rewrite (bind_run _ _ m m (FileManager.student_values m)) by done.
  rewrite (bind_run _ _ m m _ students_to_dict_run).
  rewrite (bind_run _ _ m m (FileManager.instructor_values m)) by done.
  rewrite (bind_run _ _ m m _ instructors_to_dict_run).
  rewrite (bind_run _ _ m m (FileManager.course_values m)) by done.
  by rewrite (bind_run _ _ m m _ courses_to_dict_run).
Qed.







End ExportRun.

(** ** The import, loop by loop *)

Lemma bind_ext_run {S A B} (c c' : M S A) (k k' : A → M S B) (s : S) :
  c s = c' s → (∀ a s', c s = (Ok a, s') → k a s' = k' a s') →
  bind c k s = bind c' k' s.
Proof.
  intros Hc Hk. unfold bind. rewrite <- Hc. destruct (c s) as [[a|e] s']; [|done].
  by apply Hk.
Qed.

Lemma try_except_ok {S A} (c : M S A) (h : exn → option (M S A)) (s s' : S) (a : A) :
  c s = (Ok a, s') → try_except c h s = (Ok a, s').
Proof. unfold try_except. by intros ->. Qed.

Lemma for_each_fmap_ext {S A B C} (f : A → B) (g : A → C)
    (body : B → M S unit) (body' : C → M S unit) (xs : list A) (s : S) :
  (∀ x, x ∈ xs → ∀ s, body (f x) s = body' (g x) s) →
  for_each (f <$> xs) body s = for_each (g <$> xs) body' s.
Proof.
  revert s. induction xs as [|x xs IH]; intros s Hall; [done|].
  simpl. apply bind_ext_run.
  - apply Hall, list_elem_of_here.
  - intros _ s' _. apply IH. intros x' Hin. apply Hall. by apply list_elem_of_further.
Qed.

Lemma for_each_datastore {A} (body : A → M Mem unit) (xs : list A) (s : Mem) :
  (∀ x s, datastore (body x s).2 = datastore s) →
  datastore (for_each xs body s).2 = datastore s.
Proof.
  intros Hbody. revert s. induction xs as [|x xs IH]; intros s; [done|].
  simpl. unfold bind. specialize (Hbody x s).
  destruct (body x s) as [[[]|e] s']; simpl in *; [|done]. by rewrite IH.
Qed.

Lemma load_enrollment_datastore (e : string * string) (s : Mem) :
  datastore (load_enrollment e s).2 = datastore s.
Proof.
  destruct e as [sid cid]. unfold load_enrollment, bind, gets, in_heap, zoom. simpl.
  destruct (students (datastore s) !! sid) as [ls|]; [|done].
  destruct (courses (datastore s) !! cid) as [lc|]; [|done].
  by destruct (register_course ls lc (heap s)).
Qed.

(** [int(str(age))] gives a valid age back. *)
Lemma int_str_age (z : Z) : check_age z = true → PyStr.int (PyStr.str z) = Some z.
Proof.
  unfold check_age. intros Hz. apply andb_true_iff in Hz as [Hlo Hhi].
  apply Z.leb_le in Hlo, Hhi.
  assert (forallb (λ n, match PyStr.int (PyStr.str (Z.of_nat n)) with
                        | Some z' => Z.eqb z' (Z.of_nat n)
                        | None => false
                        end) (seq 0 121) = true) as Hall by (vm_compute; reflexivity).
  rewrite forallb_forall in Hall. specialize (Hall (Z.to_nat z)).
  rewrite Z2Nat.id in Hall by done.
  destruct (PyStr.int (PyStr.str z)) as [z'|].
  - f_equal. apply Z.eqb_eq, Hall, in_seq. lia.
  - discriminate Hall. apply in_seq. lia.
Qed.

Section CleanRows.
Context `{Validator}.

Lemma Person_init_age name age email p :
  Person_init name age email = Ok p → check_age age = true.
Proof.
  unfold Person_init. intros Hinit.
  destruct (check_name (PyStr.strip name)); [|done]. simpl in Hinit.
  by destruct (check_age age).
Qed.

Variable m : Mem.
Hypothesis Hok : graph_ok m.

Lemma instructor_rows_clean : Forall instructor_row_clean (instructor_rows m).
Proof.
  apply Forall_forall. intros [[[name age] email] k] Hin.
  apply instructor_rows_elem in Hin as (l & i & Hk & Hi & Hp); [|done].
  destruct (ok_instructors m Hok k l Hk) as (i' & Hi' & _ & Hperson & Hid & _).
  simplify_eq. unfold person_ok in Hperson. rewrite Hp in Hperson. by split.
Qed.

Lemma student_rows_clean : Forall student_row_clean (student_rows m).
Proof.
  apply Forall_forall. intros [[[name age] email] k] Hin.
  apply student_rows_elem in Hin as (l & s & Hk & Hs & Hp); [|done].
  destruct (ok_students m Hok k l Hk) as (s' & Hs' & _ & Hperson & Hid & _).
  simplify_eq. unfold person_ok in Hperson. rewrite Hp in Hperson. by split.
Qed.

Lemma course_rows_clean : Forall course_row_clean (course_rows m).
Proof.
  apply Forall_forall. intros [[cid cname] iid] Hin.
  apply course_rows_elem in Hin as (l & c & i & Hk & Hc & Hi & -> & ->); [|done].
  destruct (ok_courses m Hok cid l Hk) as (c' & i' & Hc' & _ & Hid & Hname & _).
  simplify_eq. by split.
Qed.

End CleanRows.

(** The inner loop of the last phase of [load_from_json], for a student that
    the dictionary holds. *)
Lemma json_link_student (sid : string) (ls : loc) (regs : list string) (s : Mem) :
  students (datastore s) !! sid = Some ls →
  for_each regs (λ cid,
    let! course := gets (λ m, courses (datastore m) !! cid) in
    match course with
    | Some lc => in_heap (register_course ls lc)
    | None => ret tt
    end) s
  = for_each ((λ cid, (sid, cid)) <$> regs) load_enrollment s.
Proof.
  revert s. induction regs as [|cid regs IH]; intros s Hs; [done|].
  simpl. apply bind_ext_run.
  - unfold load_enrollment, bind, gets. rewrite Hs.
    by destruct (courses (datastore s) !! cid).
  - intros [] s' Hrun. apply IH.
    assert (datastore s' = datastore s) as ->; [|done].
    assert (load_enrollment (sid, cid) s = (Ok tt, s')) as Hrun'.
    { rewrite <- Hrun. unfold load_enrollment, bind, gets. rewrite Hs.
      by destruct (courses (datastore s) !! cid). }
    pose proof (load_enrollment_datastore (sid, cid) s) as Hd. by rewrite Hrun' in Hd.
Qed.

(** The last phase of [load_from_json] replays the enrollments of the
    entries, as long as the dictionary holds every student of the file. *)
Lemma json_links_loop (entries : list (person_row * list string)) (s : Mem) :
  (∀ e, e ∈ entries → is_Some (students (datastore s) !! e.1.2)) →
  for_each (student_json <$> entries) (λ s_data,
    let! sid := item "student_id" (sj_student_id s_data) in
    let! student := gets (λ m, students (datastore m) !! sid) in
    let! ls := item sid student in
    let! regs := item "registered_courses" (sj_registered_courses s_data) in
    for_each regs (λ cid,
      let! course := gets (λ m, courses (datastore m) !! cid) in
      match course with
      | Some lc => in_heap (register_course ls lc)
      | None => ret tt
      end)) s
  = for_each (entries ≫= entry_enrollments) load_enrollment s.
Proof.
  revert s. induction entries as [|e entries IH]; intros s Hall; [done|].
  change ((e :: entries) ≫= entry_enrollments)
    with (entry_enrollments e ++ (entries ≫= entry_enrollments)).
  rewrite for_each_app. simpl. apply bind_ext_run.
  - destruct (Hall e) as [ls Hls]; [apply list_elem_of_here|].
    destruct e as [[[[name age] email] sid] regs]. simpl in Hls.
    unfold entry_enrollments. simpl.
    rewrite <- (json_link_student sid ls regs s Hls).
    unfold bind, item, gets, ret. simpl. by rewrite Hls.
  - intros [] s' Hrun. apply IH. intros e' Hin.
    assert (datastore s' = datastore s) as ->.
    { pose proof (for_each_datastore load_enrollment (entry_enrollments e) s
                    load_enrollment_datastore) as Hd.
      destruct (Hall e) as [ls Hls]; [apply list_elem_of_here|].
      destruct e as [[[[name age] email] sid] regs]. simpl in Hls.
      unfold entry_enrollments in Hd. simpl in Hd.
      rewrite <- (json_link_student sid ls regs s Hls) in Hd.
      revert Hrun Hd. unfold bind, item, gets, ret. simpl. rewrite Hls.
      by intros ->. }
    apply Hall. by apply list_elem_of_further.
Qed.

Section ImportRun.
Context `{Validator}.
Variable m : Mem.
Hypothesis Hok : graph_ok m.


Lemma instructor_csv_row (r : person_row) (s : Mem) :
  instructor_row_clean r →
  (let row := person_csv r in
   let! age := int_of_cell (row_age row) in
   let! i := lift_result (Instructor_init (row_name row) age (row_email row) (row_id row)) in
   let! l := in_heap (new_instructor i) in
   modify (set_instructors <[row_id row := l]>)) s
  = load_instructor r s.
Proof.
  destruct r as [[[name age] email] iid]. intros [Hp _].
  cbn [person_csv row_age row_name row_email row_id]. cbv zeta.
  rewrite (bind_run _ _ s s age); [done|].
  unfold int_of_cell. by rewrite (int_str_age age (Person_init_age _ _ _ _ Hp)).
Qed.

Lemma student_csv_row (r : person_row) (s : Mem) :
  student_row_clean r →
  (let row := person_csv r in
   let! age := int_of_cell (row_age row) in
   let! st := lift_result (Student_init (row_name row) age (row_email row) (row_id row)) in
   let! l := in_heap (new_student st) in
   modify (set_students <[row_id row := l]>)) s
  = load_student r s.
Proof.
  destruct r as [[[name age] email] sid]. intros [Hp _].
  cbn [person_csv row_age row_name row_email row_id]. cbv zeta.
  rewrite (bind_run _ _ s s age); [done|].
  unfold int_of_cell. by rewrite (int_str_age age (Person_init_age _ _ _ _ Hp)).
Qed.


End ImportRun.

(** ** Export, then import (C6) *)







Ltac entries H :=
  repeat (apply elem_of_cons in H as [H|H]; [simplify_eq|]);
  try (by apply elem_of_nil in H).

(** The graph of the scenario satisfies the data-model invariants. *)
Lemma campus_graph_ok : graph_ok (H:=Fallback.validator) Scenario.campus.
Proof.
  split; intros k l Hl; apply elem_of_map_to_list in Hl; vm_compute in Hl; entries Hl.
  - exists Scenario.john_obj. split_and!; try (by vm_compute).
    intros lc Hin. vm_compute in Hin. entries Hin.
    exists Scenario.eece230_obj. split_and!; try (by vm_compute).
    vm_compute. apply list_elem_of_here.
  - exists Scenario.jones_obj. split_and!; try (by vm_compute).
    intros lc Hin. vm_compute in Hin. entries Hin.
  - exists Scenario.smith_obj. split_and!; try (by vm_compute).
    intros lc Hin. vm_compute in Hin. entries Hin.
    exists Scenario.eece230_obj. split_and!; by vm_compute.
  - exists Scenario.eece230_obj, Scenario.smith_obj. split_and!; try (by vm_compute).
    + vm_compute. apply list_elem_of_here.
    + intros lc Hin. vm_compute in Hin. entries Hin.
      exists Scenario.john_obj. split_and!; try (by vm_compute).
      vm_compute. apply list_elem_of_here.
Qed.

Lemma newline_graph_ok : graph_ok (H:=Fallback.validator) NewlineScenario.graph.
Proof.
  split; intros k l Hl; apply elem_of_map_to_list in Hl; vm_compute in Hl; entries Hl.
  eexists. split_and!; try (by vm_compute).
  intros lc Hin. vm_compute in Hin. entries Hin.
Qed.

(** C6, at the scenario.  The graph with the one instructor whose identifier
    ends in a carriage return satisfies the data-model invariants;
    [data_to_csv] succeeds and hands the identifier to the writer as it is;
    read back through [open(path, 'r')] the cell ends in a line feed, so
    [data_from_csv] into a fresh manager succeeds and builds a graph without
    the instructor of the exported one: the identifier it holds is another
    string. *)
Theorem csv_round_trip_turns_carriage_return_into_line_feed :
  (NewlineScenario.build Scenario.fresh).1 = Ok tt ∧
  graph_ok (H:=Fallback.validator) NewlineScenario.graph ∧
  graph_nodup NewlineScenario.graph ∧
  instructor_id <$> instructor_at NewlineScenario.graph NewlineScenario.cr_id
    = Some NewlineScenario.cr_id ∧
  MemoryDataManager.data_to_csv NewlineScenario.graph
    = (Ok NewlineScenario.written, NewlineScenario.graph) ∧
  instructors_csv (read_back NewlineScenario.written)
    = Some [mkPersonRow "Dr. Emily Smith" "45" "e.smith@university.edu"
                        NewlineScenario.lf_id] ∧
  (NewlineScenario.reimport Scenario.fresh).1 = Ok tt ∧
  instructor_at NewlineScenario.reimported NewlineScenario.cr_id = None ∧
  instructor_id <$> instructor_at NewlineScenario.reimported NewlineScenario.lf_id
    = Some NewlineScenario.lf_id ∧
  is_Some (v_instructors (view NewlineScenario.graph) !! NewlineScenario.cr_id) ∧
  v_instructors (view NewlineScenario.reimported) !! NewlineScenario.cr_id = None.
Proof.
  split_and!; try (vm_compute; reflexivity).
  - apply newline_graph_ok.
  - split_and!; intros k l o Hl Ho; apply elem_of_map_to_list in Hl; vm_compute in Hl;
      entries Hl. vm_compute in Ho. injection Ho as <-. apply NoDup_nil_2.
  - vm_compute. eauto.
Qed.



(** ** CSV import with a missing file (C8) *)

Lemma bind_raise {S A B} (c : M S A) (k : A → M S B) (s s' : S) (e : exn) :
  c s = (Raise e, s') → bind c k s = (Raise e, s').
Proof. unfold bind. by intros ->. Qed.

Lemma try_except_raise {S A} (c : M S A) (h : exn → option (M S A)) (k : M S A)
    (s s' : S) (e : exn) :
  c s = (Raise e, s') → h e = Some k → try_except c h s = k s'.
Proof. unfold try_except. by intros -> ->. Qed.

Lemma for_each_ok {S A} (P : A → Prop) (Inv : S → Prop) (body : A → M S unit) :
  (∀ x s, P x → Inv s → ∃ s', body x s = (Ok tt, s') ∧ Inv s') →
  ∀ xs s, Forall P xs → Inv s → ∃ s', for_each xs body s = (Ok tt, s') ∧ Inv s'.
Proof.
  intros Hbody xs. induction xs as [|x xs IH]; intros s HP HI.
  - by exists s.
  - apply Forall_cons in HP as [Hx HP].
    destruct (Hbody x s Hx HI) as (s1 & Hrun1 & HI1).
    destruct (IH s1 HP HI1) as (s' & Hrun & HI').
    exists s'. simpl. by rewrite (bind_run _ _ _ _ _ Hrun1).
Qed.

Section MissingFile.
Context `{Validator}.

Lemma instructor_csv_row_ok (r : PersonRow) (s : Mem) :
  person_row_loads r = true → instructors_allocated s →
  ∃ s', (let! age := int_of_cell (row_age r) in
         let! i := lift_result (Instructor_init (row_name r) age (row_email r) (row_id r)) in
         let! l := in_heap (new_instructor i) in
         modify (set_instructors <[row_id r := l]>)) s = (Ok tt, s') ∧
        instructors_allocated s'.
Proof.
  unfold person_row_loads, int_of_cell. intros Hloads Halloc.
  destruct (PyStr.int (row_age r)) as [age|]; [|done].
  apply andb_true_iff in Hloads as [Hp Hid].
  unfold bind, ret, lift_result, Instructor_init.
  destruct (Person_init (row_name r) age (row_email r)) as [p|]; [|done].
  rewrite Hid. destruct s as [[hs hi hc] [ds di dc]].
  unfold in_heap, zoom, new_instructor, modify, set_instructors. simpl.
  eexists. split; [done|]. intros k l. simpl.
  rewrite length_app. simpl. destruct (decide (k = row_id r)) as [->|Hne].
  - rewrite lookup_insert_eq. intros [= <-]. lia.
  - rewrite lookup_insert_ne by done. intros Hl. specialize (Halloc k l Hl). simpl in Halloc.
    lia.
Qed.

Lemma student_csv_row_ok (r : PersonRow) (s : Mem) :
  person_row_loads r = true → instructors_allocated s →
  ∃ s', (let! age := int_of_cell (row_age r) in
         let! st := lift_result (Student_init (row_name r) age (row_email r) (row_id r)) in
         let! l := in_heap (new_student st) in
         modify (set_students <[row_id r := l]>)) s = (Ok tt, s') ∧
        instructors_allocated s'.
Proof.
  unfold person_row_loads, int_of_cell. intros Hloads Halloc.
  destruct (PyStr.int (row_age r)) as [age|]; [|done].
  apply andb_true_iff in Hloads as [Hp Hid].
  unfold bind, ret, lift_result, Student_init.
  destruct (Person_init (row_name r) age (row_email r)) as [p|]; [|done].
  rewrite Hid. destruct s as [[hs hi hc] [ds di dc]].
  unfold in_heap, zoom, new_student, modify, set_students. simpl.
  eexists. split; [done|]. intros k l Hl. apply (Halloc k l Hl).
Qed.

Lemma course_csv_row_ok (r : CourseRow) (s : Mem) :
  course_row_loads r = true → instructors_allocated s →
  ∃ s', (let! instr := gets (λ m, instructors (datastore m) !! row_instructor_id r) in
         match instr with
         | Some li =>
             let! l := in_heap (Course_init (row_course_id r) (row_course_name r) li) in
             modify (set_courses <[row_course_id r := l]>)
         | None => ret tt
         end) s = (Ok tt, s') ∧
        instructors_allocated s'.
Proof.
  unfold course_row_loads. intros Hloads Halloc.
  apply andb_true_iff in Hloads as [Hid Hname].
  unfold bind at 1. unfold gets.
  destruct (instructors (datastore s) !! row_instructor_id r) as [li|] eqn:Hli.
  - destruct (lookup_lt_is_Some_2 _ _ (Halloc _ _ Hli)) as [i Hi].
    destruct s as [[hs hi hc] [ds di dc]]. simpl in *.
    unfold bind, in_heap, zoom, Course_init. simpl. rewrite Hid, Hname. simpl.
    unfold bind, new_course, assign_course, bind, deref, gets, when. simpl.
    rewrite Hi. simpl. rewrite list_lookup_middle by done. simpl.
    case_bool_decide; simpl; (eexists; split; [done|]); intros k l Hl; simpl in *.
    + rewrite length_insert. by apply (Halloc k l).
    + by apply (Halloc k l).
  - by exists s.
Qed.

End MissingFile.

(** The case in which the handler of [load_from_csv] is reached: when one of
    the four files is missing and every row of the files read before it is
    accepted, [data_from_csv] returns normally (the error is logged) and
    leaves the three dictionaries empty, whatever they held before and
    whatever the files that were present contain. *)
Lemma csv_import_missing_file_empties_graph `{Validator} (dir : CsvDir) (m : Mem) :
  loads_until_missing_file dir →
  ∃ h', MemoryDataManager.data_from_csv dir m = (Ok tt, mkMem h' empty_file_manager).
Proof.
  intros Hloads. unfold MemoryDataManager.data_from_csv, FileManager.load_from_csv.
  rewrite (bind_run _ _ m (mkMem (heap m) empty_file_manager) tt) by done.
  set (s0 := mkMem (heap m) empty_file_manager).
  assert (instructors_allocated s0) as Halloc0.
  { intros k l Hl. unfold s0 in Hl. simpl in Hl. by rewrite lookup_empty in Hl. }
  destruct dir as [fi fs fc fe]. unfold loads_until_missing_file in Hloads.
  cbn [instructors_csv students_csv courses_csv enrollments_csv] in *.
  unfold try_except.
  destruct fi as [irows|]; [|by exists (heap m)].
  destruct Hloads as [Hirows Hloads].
  destruct (for_each_ok _ _ _ instructor_csv_row_ok irows s0 Hirows Halloc0)
    as (s1 & Hrun1 & Halloc1).
  rewrite (bind_run _ _ s0 s1 tt) by exact Hrun1.
  destruct fs as [srows|]; [|by exists (heap s1)].
  destruct Hloads as [Hsrows Hloads].
  destruct (for_each_ok _ _ _ student_csv_row_ok srows s1 Hsrows Halloc1)
    as (s2 & Hrun2 & Halloc2).
  rewrite (bind_run _ _ s1 s2 tt) by exact Hrun2.
  destruct fc as [crows|]; [|by exists (heap s2)].
  destruct Hloads as [Hcrows ->].
  destruct (for_each_ok _ _ _ course_csv_row_ok crows s2 Hcrows Halloc2)
    as (s3 & Hrun3 & Halloc3).
  rewrite (bind_run _ _ s2 s3 tt) by exact Hrun3.
  by exists (heap s3).
Qed.

Lemma students_missing_loads :
  loads_until_missing_file (H:=Fallback.validator) ImportScenario.students_missing.
Proof.
  unfold loads_until_missing_file, ImportScenario.students_missing.
  cbn [instructors_csv students_csv]. split; [|exact I].
  constructor; [vm_compute; reflexivity|constructor].
Qed.

Lemma csv_import_missing_file_witness :
  ∃ h', MemoryDataManager.data_from_csv (H:=Fallback.validator)
          ImportScenario.students_missing Scenario.campus
          = (Ok tt, mkMem h' empty_file_manager).
Proof.
  exact (csv_import_missing_file_empties_graph (H:=Fallback.validator)
           ImportScenario.students_missing Scenario.campus students_missing_loads).
Defined.

(** C8, at the scenario.  [students.csv] is missing from the directory, and
    the second row of [instructors.csv] has an age that [int] rejects.  The
    import into a fresh manager raises [ValueError] before it looks for the
    missing file, only [FileNotFoundError] being handled, and the graph is
    not empty: the instructor of the row read before stays in it. *)
Theorem csv_import_bad_row_before_missing_file :
  ∃ msg m', ImportScenario.from_bad_row_then_missing Scenario.fresh = (Raise (ValueError msg), m') ∧
            instructors_csv ImportScenario.bad_row_then_missing
              = Some [ImportScenario.smith_row; ImportScenario.jones_row] ∧
            students_csv ImportScenario.bad_row_then_missing = None ∧
            instructors (datastore m') !! "199801234" = Some 0%nat.
Proof.
  eexists _, _. split_and!.
  - vm_compute. reflexivity.
  - reflexivity.
  - reflexivity.
  - vm_compute. reflexivity.
Qed.

(** ** Editing with a falsy value, on both managers (C10) *)

Lemma truthy_str_idem (o : option string) : truthy_str (truthy_str o) = truthy_str o.
Proof. destruct o as [s|]; [|done]. simpl. by destruct (PyStr.truthy s) eqn:Hs; simpl; rewrite ?Hs. Qed.

Lemma truthy_int_idem (o : option Z) : truthy_int (truthy_int o) = truthy_int o.
Proof. destruct o as [z|]; [|done]. simpl. by destruct (Z.eqb z 0) eqn:Hz; simpl; rewrite ?Hz. Qed.

Section EditFalsy.
Context `{Validator}.

Lemma Person_update_truthy_fields (kw : PersonKwargs) :
  Person_update (truthy_fields kw) = Person_update kw.
Proof.
  unfold Person_update, truthy_fields. cbn [kw_name kw_age kw_email].
  by rewrite !truthy_str_idem, truthy_int_idem.
Qed.

Lemma edit_student_truthy_fields (id : option string) (kw : PersonKwargs) (m : Mem) :
  MemoryDataManager.edit_student id kw m
  = MemoryDataManager.edit_student id (truthy_fields kw) m.
Proof.
  unfold MemoryDataManager.edit_student, Student_update.
  by rewrite Person_update_truthy_fields.
Qed.

Lemma edit_instructor_truthy_fields (id : option string) (kw : PersonKwargs) (m : Mem) :
  MemoryDataManager.edit_instructor id kw m
  = MemoryDataManager.edit_instructor id (truthy_fields kw) m.
Proof.
  unfold MemoryDataManager.edit_instructor, Instructor_update.
  by rewrite Person_update_truthy_fields.
Qed.

Lemma find_person_update (id : string) (kw : PersonKwargs) (rows : list person_row) :
  DatabaseManager.find_person id (DatabaseManager.update_person id kw rows)
  = DatabaseManager.set_person_fields kw <$> DatabaseManager.find_person id rows.
Proof.
  unfold DatabaseManager.find_person, DatabaseManager.update_person.
  induction rows as [|r rows IH]; [done|].
  rewrite fmap_cons. cbn [list_find].
  destruct (decide (person_row_id r = id)) as [Hr|Hr].
  - rewrite decide_True; [done|]. by destruct r as [[[n a] e] k].
  - rewrite (decide_False (P:=person_row_id r = id)) by done.
    destruct (list_find _ (_ <$> rows)) as [[j x]|]; destruct (list_find _ rows) as [[j' x']|];
      simpl in *; congruence.
Qed.

Lemma store_edit_student_writes (d : Db) (sid : string) (r : person_row) (kw : PersonKwargs) :
  PyStr.truthy sid = true →
  DatabaseManager.find_person sid (students_t (dbm d)) = Some r →
  DatabaseManager.no_person_fields kw = false → DatabaseManager.binds_age kw = true →
  ∃ d', DatabaseDataManager.edit_student (Some sid) kw d = (Ok tt, d') ∧
        DatabaseManager.find_person sid (students_t (dbm d'))
          = Some (DatabaseManager.set_person_fields kw r).
Proof.
  intros Hsid Hfind Hfields Hbinds. eexists. split.
  - unfold DatabaseDataManager.edit_student, truthy_str. rewrite Hsid.
    unfold try_except, bind, in_dbm, zoom, DatabaseManager.get_student, gets. cbn beta.
    rewrite Hfind. unfold DatabaseManager.update_student. rewrite Hfields, Hbinds.
    reflexivity.
  - cbn [dbm students_t]. by rewrite find_person_update, Hfind.
Qed.

Lemma store_edit_instructor_writes (d : Db) (iid : string) (r : person_row)
    (kw : PersonKwargs) :
  PyStr.truthy iid = true →
  DatabaseManager.find_person iid (instructors_t (dbm d)) = Some r →
  DatabaseManager.no_person_fields kw = false → DatabaseManager.binds_age kw = true →
  ∃ d', DatabaseDataManager.edit_instructor (Some iid) kw d = (Ok tt, d') ∧
        DatabaseManager.find_person iid (instructors_t (dbm d'))
          = Some (DatabaseManager.set_person_fields kw r).
Proof.
  intros Hiid Hfind Hfields Hbinds. eexists. split.
  - unfold DatabaseDataManager.edit_instructor, truthy_str. rewrite Hiid.
    unfold try_except, bind, in_dbm, zoom, DatabaseManager.get_instructor, gets. cbn beta.
    rewrite Hfind. unfold DatabaseManager.update_instructor. rewrite Hfields, Hbinds.
    reflexivity.
  - cbn [dbm instructors_t]. by rewrite find_person_update, Hfind.
Qed.

(** C10.  In memory, [edit_student] and [edit_instructor] called with a
    falsy value for a field (absent, empty, or the age 0) are the calls
    without that field: same outcome, same state.  For an existing student
    or instructor the falsy field is therefore left as it was, whatever
    happens to the other fields, and when every supplied field is falsy the
    call succeeds and changes nothing; in particular an edit of the age to 0
    succeeds without changing the stored age, although [check_age] accepts
    0.  The persistent manager does not do this: its [edit_student] and
    [edit_instructor], given the age 0 for a stored row, succeed and store
    the age 0 (and the other supplied values, falsy or not). *)
Theorem edit_with_falsy_field_keeps_it (kw : PersonKwargs) :
  (∀ id m, MemoryDataManager.edit_student id kw m
           = MemoryDataManager.edit_student id (truthy_fields kw) m) ∧
  (∀ id m, MemoryDataManager.edit_instructor id kw m
           = MemoryDataManager.edit_instructor id (truthy_fields kw) m) ∧
  (∀ m sid l s,
      PyStr.truthy sid = true →
      students (datastore m) !! sid = Some l →
      student_objs (heap m) !! l = Some s →
      let out := MemoryDataManager.edit_student (Some sid) kw m in
      (∃ s', student_objs (heap out.2) !! l = Some s' ∧
         (falsy_str (kw_name kw) → name (student_person s') = name (student_person s)) ∧
         (falsy_int (kw_age kw) → age (student_person s') = age (student_person s)) ∧
         (falsy_str (kw_email kw) →
          _email (student_person s') = _email (student_person s))) ∧
      (falsy_str (kw_name kw) → falsy_int (kw_age kw) → falsy_str (kw_email kw) →
       out = (Ok tt, m))) ∧
  (∀ m iid l i,
      PyStr.truthy iid = true →
      instructors (datastore m) !! iid = Some l →
      instructor_objs (heap m) !! l = Some i →
      let out := MemoryDataManager.edit_instructor (Some iid) kw m in
      (∃ i', instructor_objs (heap out.2) !! l = Some i' ∧
         (falsy_str (kw_name kw) →
          name (instructor_person i') = name (instructor_person i)) ∧
         (falsy_int (kw_age kw) → age (instructor_person i') = age (instructor_person i)) ∧
         (falsy_str (kw_email kw) →
          _email (instructor_person i') = _email (instructor_person i))) ∧
      (falsy_str (kw_name kw) → falsy_int (kw_age kw) → falsy_str (kw_email kw) →
       out = (Ok tt, m))) ∧
  falsy_int (Some 0) ∧ check_age 0 = true ∧
  (∀ d sid n a e,
      PyStr.truthy sid = true →
      DatabaseManager.find_person sid (students_t (dbm d)) = Some (n, a, e, sid) →
      kw_age kw = Some 0 →
      ∃ d', DatabaseDataManager.edit_student (Some sid) kw d = (Ok tt, d') ∧
            DatabaseManager.find_person sid (students_t (dbm d'))
              = Some (default n (kw_name kw), 0, default e (kw_email kw), sid)) ∧
  (∀ d iid n a e,
      PyStr.truthy iid = true →
      DatabaseManager.find_person iid (instructors_t (dbm d)) = Some (n, a, e, iid) →
      kw_age kw = Some 0 →
      ∃ d', DatabaseDataManager.edit_instructor (Some iid) kw d = (Ok tt, d') ∧
            DatabaseManager.find_person iid (instructors_t (dbm d'))
              = Some (default n (kw_name kw), 0, default e (kw_email kw), iid)).
Proof.
  split_and!.
  - intros id m. apply edit_student_truthy_fields.
  - intros id m. apply edit_instructor_truthy_fields.
  - intros m sid l s Ht Hl Hs out.
    destruct (edit_student_run m sid l s kw Ht Hl Hs) as (r & r' & p & Hu & Hr & Hrun).
    subst out. rewrite Hrun. simpl. split.
    + eexists. split.
      * apply list_lookup_insert_eq. by eapply lookup_lt_Some.
      * simpl. by apply Person_update_falsy in Hu.
    + intros Hn Ha He. rewrite Person_update_all_falsy in Hu by done.
      injection Hu as <- <-. rewrite Hr by done.
      f_equal. destruct m as [[ss ii cs] fm]. simpl in *.
      unfold set_student_objs. simpl. f_equal. f_equal.
      apply list_insert_id. by destruct s.
  - intros m iid l i Ht Hl Hi out.
    destruct (edit_instructor_run m iid l i kw Ht Hl Hi) as (r & r' & p & Hu & Hr & Hrun).
    subst out. rewrite Hrun. simpl. split.
    + eexists. split.
      * apply list_lookup_insert_eq. by eapply lookup_lt_Some.
      * simpl. by apply Person_update_falsy in Hu.
    + intros Hn Ha He. rewrite Person_update_all_falsy in Hu by done.
      injection Hu as <- <-. rewrite Hr by done.
      f_equal. destruct m as [[ss ii cs] fm]. simpl in *.
      unfold set_instructor_objs. simpl. f_equal. f_equal.
      apply list_insert_id. by destruct i.
  - done.
  - done.
  - intros d sid n a e Ht Hfind Hage.
    destruct (store_edit_student_writes d sid (n, a, e, sid) kw Ht Hfind) as (d' & Hrun & Hrow).
    + unfold DatabaseManager.no_person_fields. rewrite Hage. by destruct (kw_name kw).
    + unfold DatabaseManager.binds_age. by rewrite Hage.
    + exists d'. split; [done|]. rewrite Hrow. unfold DatabaseManager.set_person_fields.
      by rewrite Hage.
  - intros d iid n a e Ht Hfind Hage.
    destruct (store_edit_instructor_writes d iid (n, a, e, iid) kw Ht Hfind)
      as (d' & Hrun & Hrow).
    + unfold DatabaseManager.no_person_fields. rewrite Hage. by destruct (kw_name kw).
    + unfold DatabaseManager.binds_age. by rewrite Hage.
    + exists d'. split; [done|]. rewrite Hrow. unfold DatabaseManager.set_person_fields.
      by rewrite Hage.
Qed.

End EditFalsy.

Lemma edit_with_falsy_field_witness :
  MemoryDataManager.edit_student (H:=Fallback.validator) (Some "202401111")
    Scenario.age_zero Scenario.campus = (Ok tt, Scenario.campus) ∧
  MemoryDataManager.edit_instructor (H:=Fallback.validator) (Some "199801234")
    Scenario.age_zero Scenario.campus = (Ok tt, Scenario.campus) ∧
  age (student_person Scenario.john_obj) = 20 ∧
  ∃ d', DatabaseDataManager.edit_student (Some "202401111") Scenario.age_zero
          StoreScenario.campus = (Ok tt, d') ∧
        DatabaseManager.find_person "202401111" (students_t (dbm d'))
          = Some ("John Doe", 0, "john.doe@lau.edu", "202401111").
Proof.
  destruct (edit_with_falsy_field_keeps_it (H:=Fallback.validator) Scenario.age_zero)
    as (_ & _ & Hstudent & Hinstructor & _ & _ & Hstore & _).
  split_and!.
  - apply (Hstudent Scenario.campus "202401111" Scenario.john Scenario.john_obj);
      vm_compute; reflexivity.
  - apply (Hinstructor Scenario.campus "199801234" Scenario.smith Scenario.smith_obj);
      vm_compute; reflexivity.
  - reflexivity.
  - apply (Hstore StoreScenario.campus "202401111" "John Doe" 20 "john.doe@lau.edu");
      vm_compute; reflexivity.
Defined.

(** C10, as stated for every [edit_*], at the persistent scenario: the
    persistent manager does not go through [Person.update]; its
    [edit_student] hands the keyword arguments to the [UPDATE] statement as
    they are, so the edit of the age to 0 succeeds and the stored age, 20
    before, is 0. *)
Lemma store_edit_writes_falsy_age :
  students_t (dbm StoreScenario.campus) = [("John Doe", 20, "john.doe@lau.edu", "202401111")] ∧
  (DatabaseDataManager.edit_student (Some "202401111") Scenario.age_zero
     StoreScenario.campus).1 = Ok tt ∧
  students_t (dbm (DatabaseDataManager.edit_student (Some "202401111") Scenario.age_zero
                     StoreScenario.campus).2)
    = [("John Doe", 0, "john.doe@lau.edu", "202401111")].
Proof. split_and!; vm_compute; reflexivity. Qed.

(** * Further properties of the code *)

(** ** Stripping and upper-casing ([str.strip], [str.upper]) *)

Lemma append_cons (a : ascii) (s t : string) : String a s +:+ t = String a (s +:+ t).
Proof. reflexivity. Qed.

Lemma append_assoc (s t u : string) : (s +:+ t) +:+ u = s +:+ (t +:+ u).
Proof. induction s as [|a s IH]; [done|]. by rewrite !append_cons, IH. Qed.

Lemma rev_app_append (s acc : string) : String.rev_app s acc = String.rev s +:+ acc.
Proof.
  unfold String.rev. revert acc. induction s as [|a s IH]; intros acc; [done|].
  simpl. rewrite (IH (String a acc)), (IH (String a "")). by rewrite append_assoc.
Qed.

Lemma rev_cons (a : ascii) (s : string) : String.rev (String a s) = String.rev s +:+ String a "".
Proof. unfold String.rev at 1. simpl. apply rev_app_append. Qed.

Lemma rev_snoc (a : ascii) (s : string) : String.rev (s +:+ String a "") = String a (String.rev s).
Proof.
  induction s as [|b s IH]; [done|].
  by rewrite append_cons, !rev_cons, IH.
Qed.

Lemma rev_involutive (s : string) : String.rev (String.rev s) = s.
Proof. induction s as [|a s IH]; [done|]. by rewrite rev_cons, rev_snoc, IH. Qed.

(** A string that does not begin with white space. *)
Lemma lstrip_clean (s : string) :
  match PyStr.lstrip s with
  | EmptyString => True
  | String a _ => PyStr.is_space a = false
  end.
Proof.
  induction s as [|a s IH]; [done|]. simpl.
  destruct (PyStr.is_space a) eqn:Ha; [done|]. by rewrite Ha.
Qed.

Lemma lstrip_id (a : ascii) (s : string) :
  PyStr.is_space a = false → PyStr.lstrip (String a s) = String a s.
Proof. intros Ha. simpl. by rewrite Ha. Qed.

Lemma lstrip_idem (s : string) : PyStr.lstrip (PyStr.lstrip s) = PyStr.lstrip s.
Proof.
  pose proof (lstrip_clean s) as Hc. destruct (PyStr.lstrip s) as [|a t]; [done|].
  by apply lstrip_id.
Qed.

Lemma lstrip_snoc (s : string) (a : ascii) :
  PyStr.is_space a = false →
  PyStr.lstrip (s +:+ String a "") = PyStr.lstrip s +:+ String a "".
Proof.
  intros Ha. induction s as [|b s IH].
  - simpl. by rewrite Ha.
  - rewrite append_cons. simpl. destruct (PyStr.is_space b); [done|].
    by rewrite append_cons.
Qed.

Lemma rstrip_idem (s : string) : PyStr.rstrip (PyStr.rstrip s) = PyStr.rstrip s.
Proof. unfold PyStr.rstrip. by rewrite rev_involutive, lstrip_idem. Qed.

Lemma rstrip_cons (a : ascii) (s : string) :
  PyStr.is_space a = false → ∃ t, PyStr.rstrip (String a s) = String a t.
Proof.
  intros Ha. unfold PyStr.rstrip. rewrite rev_cons, lstrip_snoc by done.
  rewrite rev_snoc. eauto.
Qed.

(** [strip] is idempotent: a stripped string is stored as it is. *)
Lemma strip_idem (s : string) : PyStr.strip (PyStr.strip s) = PyStr.strip s.
Proof.
  unfold PyStr.strip. pose proof (lstrip_clean s) as Hc.
  destruct (PyStr.lstrip s) as [|a t] eqn:Hl.
  - done.
  - destruct (rstrip_cons a t Hc) as [u Hu]. rewrite Hu.
    rewrite (lstrip_id a u Hc), <- Hu. apply rstrip_idem.
Qed.

Lemma upper_ascii_facts (a : ascii) :
  PyStr.is_space (PyStr.upper_ascii a) = PyStr.is_space a ∧
  PyStr.is_alpha (PyStr.upper_ascii a) = PyStr.is_alpha a ∧
  PyStr.is_digit (PyStr.upper_ascii a) = PyStr.is_digit a ∧
  PyStr.upper_ascii (PyStr.upper_ascii a) = PyStr.upper_ascii a.
Proof. destruct a as [[] [] [] [] [] [] [] []]; vm_compute; done. Qed.

Lemma upper_append (s t : string) : PyStr.upper (s +:+ t) = PyStr.upper s +:+ PyStr.upper t.
Proof.
  induction s as [|a s IH]; [done|]. rewrite append_cons. simpl.
  by rewrite append_cons, IH.
Qed.

Lemma upper_rev (s : string) : PyStr.upper (String.rev s) = String.rev (PyStr.upper s).
Proof.
  induction s as [|a s IH]; [done|]. simpl. by rewrite !rev_cons, upper_append, IH.
Qed.

Lemma upper_lstrip (s : string) : PyStr.upper (PyStr.lstrip s) = PyStr.lstrip (PyStr.upper s).
Proof.
  induction s as [|a s IH]; [done|]. simpl.
  rewrite (proj1 (upper_ascii_facts a)). by destruct (PyStr.is_space a).
Qed.

Lemma upper_strip (s : string) : PyStr.upper (PyStr.strip s) = PyStr.strip (PyStr.upper s).
Proof.
  unfold PyStr.strip, PyStr.rstrip. by rewrite upper_rev, upper_lstrip, upper_rev, upper_lstrip.
Qed.

Lemma upper_idem (s : string) : PyStr.upper (PyStr.upper s) = PyStr.upper s.
Proof.
  induction s as [|a s IH]; [done|]. simpl.
  by rewrite (proj2 (proj2 (proj2 (upper_ascii_facts a)))), IH.
Qed.

(** The identifier that [Course.__init__] stores is stripped and upper-case
    already, and passes the check that the given one passed. *)
Lemma course_id_canonical (cid : string) :
  check_course_id (PyStr.strip cid) = true → course_id_ok (PyStr.upper (PyStr.strip cid)).
Proof.
  intros Hid. unfold course_id_ok.
  assert (PyStr.strip (PyStr.upper (PyStr.strip cid)) = PyStr.upper (PyStr.strip cid)) as Hs.
  { by rewrite <- upper_strip, strip_idem. }
  rewrite Hs. split; [|apply upper_idem].
  unfold check_course_id in *. rewrite strip_idem in Hid. rewrite Hs.
  destruct (PyStr.strip cid) as [|a [|b [|c [|d [|x [|y [|z tl]]]]]]]; try done.
  simpl.
  rewrite !(proj1 (proj2 (upper_ascii_facts _))), !(proj1 (proj2 (proj2 (upper_ascii_facts _)))).
  destruct tl as [|l [|l' tl]]; simpl; try done.
  by rewrite (proj1 (proj2 (upper_ascii_facts l))).
Qed.

Section Canonical.
Context `{Validator}.

Lemma Person_init_canonical n a e p :
  Person_init n a e = Ok p → person_ok p.
Proof.
  unfold person_ok, Person_init. intros Hinit.
  destruct (check_name (PyStr.strip n)) eqn:Hn; [|done]. simpl in Hinit.
  destruct (check_age a) eqn:Ha; [|done]. simpl in Hinit.
  destruct (check_email_r (PyStr.strip e)) as [ok reason] eqn:He. simpl in Hinit.
  destruct ok; [|done]. simpl in Hinit. injection Hinit as <-. simpl.
  by rewrite !strip_idem, Hn, Ha, He.
Qed.

Lemma Student_init_canonical n a e sid s :
  Student_init n a e sid = Ok s →
  person_ok (student_person s) ∧ student_id_ok (student_id s) ∧
  student_id s = PyStr.strip sid ∧ registered_courses s = [] ∧
  Person_init n a e = Ok (student_person s).
Proof.
  unfold Student_init. intros Hinit.
  destruct (Person_init n a e) as [p|] eqn:Hp; [|done].
  destruct (check_id (PyStr.strip sid)) eqn:Hid; [|done]. simpl in Hinit.
  injection Hinit as <-. simpl. split_and!; try done.
  - by eapply Person_init_canonical.
  - unfold student_id_ok. by rewrite !strip_idem.
Qed.

Lemma Instructor_init_canonical n a e iid i :
  Instructor_init n a e iid = Ok i →
  person_ok (instructor_person i) ∧ instructor_id_ok (instructor_id i) ∧
  instructor_id i = iid ∧ assigned_courses i = [] ∧
  Person_init n a e = Ok (instructor_person i).
Proof.
  unfold Instructor_init. intros Hinit.
  destruct (Person_init n a e) as [p|] eqn:Hp; [|done].
  destruct (check_id (PyStr.strip iid)) eqn:Hid; [|done]. simpl in Hinit.
  injection Hinit as <-. simpl. split_and!; try done.
  by eapply Person_init_canonical.
Qed.

End Canonical.

(** ** The in-memory manager keeps the invariants of the data model *)

Section KeepsInvariants.
Context `{Validator}.

Lemma add_student_fresh (m : Mem) n a e sid s :
  Student_init n a e sid = Ok s → students (datastore m) !! student_id s = None →
  MemoryDataManager.add_student n a e sid m =
    (Ok tt, mkMem (set_student_objs (λ os, os ++ [s]) (heap m))
                  (mkFileManager (<[student_id s := length (student_objs (heap m))]>
                                    (students (datastore m)))
                                 (instructors (datastore m)) (courses (datastore m)))).
Proof.
  intros Hinit Hnew. unfold MemoryDataManager.add_student, bind, try_except, lift_result, gets.
  rewrite Hinit, Hnew. by rewrite bool_decide_false by (by intros [? ?]).
Qed.

Lemma add_instructor_fresh (m : Mem) n a e iid i :
  Instructor_init n a e iid = Ok i → instructors (datastore m) !! instructor_id i = None →
  MemoryDataManager.add_instructor n a e iid m =
    (Ok tt, mkMem (set_instructor_objs (λ os, os ++ [i]) (heap m))
                  (mkFileManager (students (datastore m))
                                 (<[instructor_id i := length (instructor_objs (heap m))]>
                                    (instructors (datastore m)))
                                 (courses (datastore m)))).
Proof.
  intros Hinit Hnew.
  unfold MemoryDataManager.add_instructor, bind, try_except, lift_result, gets.
  rewrite Hinit, Hnew. by rewrite bool_decide_false by (by intros [? ?]).
Qed.

(** A failed [add_student] or [add_instructor] raises [DataError] and leaves
    the whole state as it was. *)
Lemma add_student_fails (m : Mem) n a e sid :
  (∃ s, Student_init n a e sid = Ok s ∧ students (datastore m) !! student_id s = None) ∨
  (∃ c, MemoryDataManager.add_student n a e sid m = (Raise (DataError c), m)).
Proof.
  destruct (Student_init n a e sid) as [s|err] eqn:Hinit.
  - destruct (students (datastore m) !! student_id s) as [l|] eqn:Hl; [|left; eauto].
    right. unfold MemoryDataManager.add_student, bind, try_except, lift_result, gets.
    rewrite Hinit, Hl. rewrite bool_decide_true by eauto. eauto.
  - right. unfold MemoryDataManager.add_student, bind, try_except, lift_result.
    rewrite Hinit.
    assert (∃ msg, err = ValueError msg) as [msg ->].
    { unfold Student_init, Person_init, invalid_email in Hinit.
      repeat case_match; simplify_eq/=; eauto. }
    simpl. eauto.
Qed.

Lemma add_instructor_fails (m : Mem) n a e iid :
  (∃ i, Instructor_init n a e iid = Ok i ∧
        instructors (datastore m) !! instructor_id i = None) ∨
  (∃ c, MemoryDataManager.add_instructor n a e iid m = (Raise (DataError c), m)).
Proof.
  destruct (Instructor_init n a e iid) as [i|err] eqn:Hinit.
  - destruct (instructors (datastore m) !! instructor_id i) as [l|] eqn:Hl; [|left; eauto].
    right. unfold MemoryDataManager.add_instructor, bind, try_except, lift_result, gets.
    rewrite Hinit, Hl. rewrite bool_decide_true by eauto. eauto.
  - right. unfold MemoryDataManager.add_instructor, bind, try_except, lift_result.
    rewrite Hinit.
    assert (∃ msg, err = ValueError msg) as [msg ->].
    { unfold Instructor_init, Person_init, invalid_email in Hinit.
      repeat case_match; simplify_eq/=; eauto. }
    simpl. eauto.
Qed.

Lemma graph_ok_new_student (m : Mem) (s : Student) :
  graph_ok m → person_ok (student_person s) → student_id_ok (student_id s) →
  registered_courses s = [] → students (datastore m) !! student_id s = None →
  graph_ok (mkMem (set_student_objs (λ os, os ++ [s]) (heap m))
                  (mkFileManager (<[student_id s := length (student_objs (heap m))]>
                                    (students (datastore m)))
                                 (instructors (datastore m)) (courses (datastore m)))).
Proof.
  intros Hok Hp Hid Hregs Hnew. destruct m as [[hs hi hc] [ds di dc]]. simpl in *.
  split; simpl; intros k l Hl.
  - destruct (decide (k = student_id s)) as [->|Hne].
    + rewrite lookup_insert_eq in Hl. injection Hl as <-. exists s.
      rewrite list_lookup_middle by done. split_and!; try done.
      intros lc Hin. rewrite Hregs in Hin. by apply elem_of_nil in Hin.
    + rewrite lookup_insert_ne in Hl by done.
      destruct (ok_students _ Hok k l Hl) as (s0 & Hs0 & Hk & Hp0 & Hid0 & Hlinks).
      simpl in *. exists s0. split_and!; try done.
      by apply lookup_app_l_Some.
  - apply (ok_instructors _ Hok k l Hl).
  - destruct (ok_courses _ Hok k l Hl)
      as (c & i & Hc & Hk & Hcid & Hname & Hi & Hdi & Hin & Hlinks).
    simpl in *. exists c, i. split_and!; try done.
    intros ls Hls. destruct (Hlinks ls Hls) as (s0 & Hs0 & Hds & Hreg).
    exists s0. split_and!; try done.
    + by apply lookup_app_l_Some.
    + rewrite lookup_insert_ne; [done|]. intros Heq. rewrite <- Heq in Hds. congruence.
Qed.

Lemma graph_ok_new_instructor (m : Mem) (i : Instructor) :
  graph_ok m → person_ok (instructor_person i) → instructor_id_ok (instructor_id i) →
  assigned_courses i = [] → instructors (datastore m) !! instructor_id i = None →
  graph_ok (mkMem (set_instructor_objs (λ os, os ++ [i]) (heap m))
                  (mkFileManager (students (datastore m))
                                 (<[instructor_id i := length (instructor_objs (heap m))]>
                                    (instructors (datastore m)))
                                 (courses (datastore m)))).
Proof.
  intros Hok Hp Hid Hassigned Hnew. destruct m as [[hs hi hc] [ds di dc]]. simpl in *.
  split; simpl; intros k l Hl.
  - apply (ok_students _ Hok k l Hl).
  - destruct (decide (k = instructor_id i)) as [->|Hne].
    + rewrite lookup_insert_eq in Hl. injection Hl as <-. exists i.
      rewrite list_lookup_middle by done. split_and!; try done.
      intros lc Hin. rewrite Hassigned in Hin. by apply elem_of_nil in Hin.
    + rewrite lookup_insert_ne in Hl by done.
      destruct (ok_instructors _ Hok k l Hl) as (i0 & Hi0 & Hk & Hp0 & Hid0 & Hlinks).
      simpl in *. exists i0. split_and!; try done.
      by apply lookup_app_l_Some.
  - destruct (ok_courses _ Hok k l Hl)
      as (c & i0 & Hc & Hk & Hcid & Hname & Hi0 & Hdi & Hin & Hlinks).
    simpl in *. exists c, i0. split_and!; try done.
    + by apply lookup_app_l_Some.
    + rewrite lookup_insert_ne; [done|]. intros Heq. rewrite <- Heq in Hdi. congruence.
Qed.

Lemma person_ok_iff (p : Person) :
  person_ok p ↔
  check_name (PyStr.strip (name p)) = true ∧ check_age (age p) = true ∧
  (check_email_r (PyStr.strip (_email p))).1 = true ∧
  PyStr.strip (name p) = name p ∧ PyStr.strip (_email p) = _email p.
Proof.
  unfold person_ok, Person_init. destruct p as [n a e]. simpl. split.
  - intros Hinit. destruct (check_name (PyStr.strip n)); [|done]. simpl in Hinit.
    destruct (check_age a); [|done]. simpl in Hinit.
    destruct (check_email_r (PyStr.strip e)).1; [|done]. simpl in Hinit.
    by injection Hinit as -> ->.
  - intros (-> & -> & -> & -> & ->). done.
Qed.

(** [Person.update] leaves valid, stripped fields behind, also when it
    raises half-way. *)
Lemma Person_update_keeps_ok kw p r p' :
  person_ok p → Person_update kw p = (r, p') → person_ok p'.
Proof.
  rewrite !person_ok_iff. intros (Hn & Ha & He & Hsn & Hse).
  unfold Person_update, bind, raise, ret, modify.
  destruct (truthy_str (kw_name kw)) as [n|]; simpl.
  - destruct (check_name (PyStr.strip n)) eqn:Hn'; simpl; [|by intros [= <- <-]].
    destruct (truthy_int (kw_age kw)) as [a|]; simpl.
    + destruct (check_age a) eqn:Ha'; simpl;
        [|intros [= <- <-]; simpl; by rewrite !strip_idem].
      destruct (truthy_str (kw_email kw)) as [e|]; simpl.
      * destruct (check_email_r (PyStr.strip e)).1 eqn:He'; simpl;
          intros [= <- <-]; simpl; by rewrite !strip_idem.
      * intros [= <- <-]; simpl; by rewrite !strip_idem.
    + destruct (truthy_str (kw_email kw)) as [e|]; simpl.
      * destruct (check_email_r (PyStr.strip e)).1 eqn:He'; simpl;
          intros [= <- <-]; simpl; by rewrite !strip_idem.
      * intros [= <- <-]; simpl; by rewrite !strip_idem.
  - destruct (truthy_int (kw_age kw)) as [a|]; simpl.
    + destruct (check_age a) eqn:Ha'; simpl; [|by intros [= <- <-]].
      destruct (truthy_str (kw_email kw)) as [e|]; simpl.
      * destruct (check_email_r (PyStr.strip e)).1 eqn:He'; simpl;
          intros [= <- <-]; simpl; by rewrite ?strip_idem.
      * by intros [= <- <-].
    + destruct (truthy_str (kw_email kw)) as [e|]; simpl.
      * destruct (check_email_r (PyStr.strip e)).1 eqn:He'; simpl;
          intros [= <- <-]; simpl; by rewrite ?strip_idem.
      * by intros [= <- <-].
Qed.

Lemma graph_ok_student_person (m : Mem) (l : loc) (s : Student) (p : Person) :
  graph_ok m → student_objs (heap m) !! l = Some s → person_ok p →
  graph_ok (mkMem (set_student_objs
                     (λ os, <[l := mkStudent p (student_id s) (registered_courses s)]> os)
                     (heap m)) (datastore m)).
Proof.
  intros Hok Hs Hp. destruct m as [[hs hi hc] [ds di dc]]. simpl in *.
  assert (∀ l0 s0, hs !! l0 = Some s0 →
            ∃ s1, <[l := mkStudent p (student_id s) (registered_courses s)]> hs !! l0 = Some s1
                  ∧ student_id s1 = student_id s0
                  ∧ registered_courses s1 = registered_courses s0
                  ∧ (person_ok (student_person s0) → person_ok (student_person s1)))
    as Hsame.
  { intros l0 s0 Hs0. destruct (decide (l0 = l)) as [->|Hne].
    - rewrite list_lookup_insert_eq by (by eapply lookup_lt_Some). simplify_eq.
      by eexists.
    - rewrite list_lookup_insert_ne by done. by exists s0. }
  split; simpl; intros k l0 Hl.
  - destruct (ok_students _ Hok k l0 Hl) as (s0 & Hs0 & Hk & Hp0 & Hid0 & Hlinks).
    simpl in *. destruct (Hsame l0 s0 Hs0) as (s1 & Hs1 & Hid1 & Hregs1 & Hp1).
    exists s1. split_and!; [done|congruence|by apply Hp1|done|].
    rewrite Hregs1. apply Hlinks.
  - apply (ok_instructors _ Hok k l0 Hl).
  - destruct (ok_courses _ Hok k l0 Hl)
      as (c & i & Hc & Hk & Hcid & Hname & Hi & Hdi & Hin & Hlinks).
    simpl in *. exists c, i. split_and!; try done.
    intros ls Hls. destruct (Hlinks ls Hls) as (s0 & Hs0 & Hds & Hreg).
    destruct (Hsame ls s0 Hs0) as (s1 & Hs1 & Hid1 & Hregs1 & _).
    exists s1. split_and!; [done|by rewrite Hid1|by rewrite Hregs1].
Qed.

Lemma graph_ok_instructor_person (m : Mem) (l : loc) (i : Instructor) (p : Person) :
  graph_ok m → instructor_objs (heap m) !! l = Some i → person_ok p →
  graph_ok (mkMem (set_instructor_objs
                     (λ os, <[l := mkInstructor p (instructor_id i) (assigned_courses i)]> os)
                     (heap m)) (datastore m)).
Proof.
  intros Hok Hi Hp. destruct m as [[hs hi hc] [ds di dc]]. simpl in *.
  assert (∀ l0 i0, hi !! l0 = Some i0 →
            ∃ i1, <[l := mkInstructor p (instructor_id i) (assigned_courses i)]> hi !! l0
                    = Some i1
                  ∧ instructor_id i1 = instructor_id i0
                  ∧ assigned_courses i1 = assigned_courses i0
                  ∧ (person_ok (instructor_person i0) → person_ok (instructor_person i1)))
    as Hsame.
  { intros l0 i0 Hi0. destruct (decide (l0 = l)) as [->|Hne].
    - rewrite list_lookup_insert_eq by (by eapply lookup_lt_Some). simplify_eq.
      by eexists.
    - rewrite list_lookup_insert_ne by done. by exists i0. }
  split; simpl; intros k l0 Hl.
  - apply (ok_students _ Hok k l0 Hl).
  - destruct (ok_instructors _ Hok k l0 Hl) as (i0 & Hi0 & Hk & Hp0 & Hid0 & Hlinks).
    simpl in *. destruct (Hsame l0 i0 Hi0) as (i1 & Hi1 & Hid1 & Hassigned1 & Hp1).
    exists i1. split_and!; [done|congruence|by apply Hp1|done|].
    rewrite Hassigned1. apply Hlinks.
  - destruct (ok_courses _ Hok k l0 Hl)
      as (c & i0 & Hc & Hk & Hcid & Hname & Hi0 & Hdi & Hin & Hlinks).
    simpl in *. destruct (Hsame _ i0 Hi0) as (i1 & Hi1 & Hid1 & Hassigned1 & _).
    exists c, i1. split_and!; try done; [by rewrite Hid1|by rewrite Hassigned1].
Qed.

Lemma edit_student_keeps_ok (m : Mem) sid kw :
  graph_ok m → graph_ok (MemoryDataManager.edit_student sid kw m).2.
Proof.
  intros Hok. unfold MemoryDataManager.edit_student.
  destruct (truthy_str sid) as [k|] eqn:Hsid; [|done].
  assert (PyStr.truthy k = true ∧ sid = Some k) as [Ht ->].
  { unfold truthy_str in Hsid. destruct sid as [k'|]; [|done].
    destruct (PyStr.truthy k') eqn:Ht; by simplify_eq. }
  destruct (students (datastore m) !! k) as [l|] eqn:Hl.
  2: { unfold bind, gets. by rewrite Hl. }
  destruct (ok_students _ Hok k l Hl) as (s & Hs & _ & Hp & _).
  destruct (edit_student_run m k l s kw Ht Hl Hs) as (r & r' & p & Hu & _ & Hrun).
  unfold MemoryDataManager.edit_student in Hrun. rewrite Hsid in Hrun. rewrite Hrun.
  simpl. eapply graph_ok_student_person; [done|done|].
  by eapply Person_update_keeps_ok.
Qed.

Lemma edit_instructor_keeps_ok (m : Mem) iid kw :
  graph_ok m → graph_ok (MemoryDataManager.edit_instructor iid kw m).2.
Proof.
  intros Hok. unfold MemoryDataManager.edit_instructor.
  destruct (truthy_str iid) as [k|] eqn:Hiid; [|done].
  assert (PyStr.truthy k = true ∧ iid = Some k) as [Ht ->].
  { unfold truthy_str in Hiid. destruct iid as [k'|]; [|done].
    destruct (PyStr.truthy k') eqn:Ht; by simplify_eq. }
  destruct (instructors (datastore m) !! k) as [l|] eqn:Hl.
  2: { unfold bind, gets. by rewrite Hl. }
  destruct (ok_instructors _ Hok k l Hl) as (i & Hi & _ & Hp & _).
  destruct (edit_instructor_run m k l i kw Ht Hl Hi) as (r & r' & p & Hu & _ & Hrun).
  unfold MemoryDataManager.edit_instructor in Hrun. rewrite Hiid in Hrun. rewrite Hrun.
  simpl. eapply graph_ok_instructor_person; [done|done|].
  by eapply Person_update_keeps_ok.
Qed.

Lemma Course_init_run_any (h : Heap) cid cname li i :
  check_course_id (PyStr.strip cid) = true → check_course_name (PyStr.strip cname) = true →
  instructor_objs h !! li = Some i →
  Course_init cid cname li h =
    (Ok (length (course_objs h)),
     let h1 := set_course_objs
                 (λ os, os ++ [mkCourse (PyStr.upper (PyStr.strip cid)) cname li []]) h in
     if bool_decide (PyStr.upper (PyStr.strip cid) ∉ course_ids h1 (assigned_courses i))
     then set_instructor_objs
            (λ os, <[li := mkInstructor (instructor_person i) (instructor_id i)
                             (assigned_courses i ++ [length (course_objs h)])]> os) h1
     else h1).
Proof.
  intros Hid Hname Hi. unfold Course_init. rewrite Hid, Hname. simpl.
  unfold bind, new_course, assign_course, bind, deref, gets, when. simpl.
  rewrite Hi. simpl. rewrite list_lookup_middle by done. simpl.
  by case_bool_decide.
Qed.

(** The state after a successful [add_course]. *)
Lemma add_course_fresh (m : Mem) cid cname li i :
  graph_ok m →
  check_course_id (PyStr.strip cid) = true → check_course_name (PyStr.strip cname) = true →
  instructor_objs (heap m) !! li = Some i →
  instructors (datastore m) !! instructor_id i = Some li →
  courses (datastore m) !! PyStr.upper (PyStr.strip cid) = None →
  MemoryDataManager.add_course cid cname li m =
    (Ok tt,
     mkMem (mkHeap (student_objs (heap m))
                   (<[li := mkInstructor (instructor_person i) (instructor_id i)
                              (assigned_courses i ++ [length (course_objs (heap m))])]>
                      (instructor_objs (heap m)))
                   (course_objs (heap m)
                      ++ [mkCourse (PyStr.upper (PyStr.strip cid)) cname li []]))
           (mkFileManager (students (datastore m)) (instructors (datastore m))
              (<[PyStr.upper (PyStr.strip cid) := length (course_objs (heap m))]>
                 (courses (datastore m))))).
Proof.
  intros Hok Hid Hname Hi Hdi Hnew. destruct m as [[hs hi hc] [ds di dc]]. simpl in *.
  assert (PyStr.upper (PyStr.strip cid)
            ∉ course_ids (mkHeap hs hi
                            (hc ++ [mkCourse (PyStr.upper (PyStr.strip cid)) cname li []]))
                         (assigned_courses i)) as Hfresh.
  { intros Hin. apply course_ids_elem in Hin as (lc0 & c0 & Hlc0 & Hc0 & Hcid0).
    simpl in Hc0.
    destruct (ok_instructors _ Hok _ _ Hdi) as (i' & Hi' & _ & _ & _ & Hlinks).
    simpl in *. simplify_eq.
    destruct (Hlinks lc0 Hlc0) as (c0' & Hc0' & Hdc & _).
    rewrite (lookup_app_l_Some _ _ _ _ Hc0') in Hc0. simplify_eq. congruence. }
  pose proof (Course_init_run_any (mkHeap hs hi hc) cid cname li i Hid Hname Hi) as Hinit.
  simpl in Hinit. rewrite (bool_decide_true _ Hfresh) in Hinit.
  unfold MemoryDataManager.add_course, bind, try_except, in_heap, zoom, deref, gets, modify.
  simpl. rewrite Hinit. simpl. rewrite list_lookup_middle by done. simpl. rewrite Hnew.
  by rewrite bool_decide_false by (by intros [? ?]).
Qed.

Lemma graph_ok_new_course (m : Mem) cid cname li i :
  graph_ok m → course_id_ok cid → course_name_ok cname →
  instructor_objs (heap m) !! li = Some i →
  instructors (datastore m) !! instructor_id i = Some li →
  courses (datastore m) !! cid = None →
  graph_ok
    (mkMem (mkHeap (student_objs (heap m))
                   (<[li := mkInstructor (instructor_person i) (instructor_id i)
                              (assigned_courses i ++ [length (course_objs (heap m))])]>
                      (instructor_objs (heap m)))
                   (course_objs (heap m) ++ [mkCourse cid cname li []]))
           (mkFileManager (students (datastore m)) (instructors (datastore m))
              (<[cid := length (course_objs (heap m))]> (courses (datastore m))))).
Proof.
  intros Hok Hcid Hcname Hi Hdi Hnew. destruct m as [[hs hi hc] [ds di dc]]. simpl in *.
  set (i' := mkInstructor (instructor_person i) (instructor_id i)
                          (assigned_courses i ++ [length hc])).
  (* courses of the graph stay where they are, under their identifiers *)
  assert (∀ lc0 c0, hc !! lc0 = Some c0 → dc !! course_id c0 = Some lc0 →
            (hc ++ [mkCourse cid cname li []]) !! lc0 = Some c0 ∧
            <[cid := length hc]> dc !! course_id c0 = Some lc0) as Hcourse.
  { intros lc0 c0 Hc0 Hdc. split; [by apply lookup_app_l_Some|].
    rewrite lookup_insert_ne; [done|]. intros Heq. rewrite <- Heq in Hdc. congruence. }
  (* instructors keep their identifier and their courses *)
  assert (∀ l0 i0, hi !! l0 = Some i0 →
            ∃ i1, <[li := i']> hi !! l0 = Some i1 ∧ instructor_id i1 = instructor_id i0 ∧
                  instructor_person i1 = instructor_person i0 ∧
                  (∀ x, x ∈ assigned_courses i0 → x ∈ assigned_courses i1) ∧
                  (∀ x, x ∈ assigned_courses i1 →
                        x ∈ assigned_courses i0 ∨ (x = length hc ∧ l0 = li))) as Hinstr.
  { intros l0 i0 Hi0. destruct (decide (l0 = li)) as [->|Hne].
    - rewrite list_lookup_insert_eq by (by eapply lookup_lt_Some). simplify_eq.
      exists i'. subst i'. simpl. split_and!; try done.
      + intros x Hx. apply elem_of_app. by left.
      + intros x Hx. apply elem_of_app in Hx as [Hx|Hx]; [by left|].
        apply list_elem_of_singleton in Hx. by right.
    - rewrite list_lookup_insert_ne by done. exists i0. split_and!; try done.
      intros x Hx. by left. }
  split; simpl; intros k l Hl.
  - destruct (ok_students _ Hok k l Hl) as (s0 & Hs0 & Hk & Hp0 & Hid0 & Hlinks).
    simpl in *. exists s0. split_and!; try done.
    intros lc0 Hlc0. destruct (Hlinks lc0 Hlc0) as (c0 & Hc0 & Hdc & Hin).
    destruct (Hcourse lc0 c0 Hc0 Hdc). by exists c0.
  - destruct (ok_instructors _ Hok k l Hl) as (i0 & Hi0 & Hk & Hp0 & Hid0 & Hlinks).
    simpl in *. destruct (Hinstr l i0 Hi0) as (i1 & Hi1 & Hid1 & Hp1 & _ & Hassigned).
    exists i1. split_and!; [done|congruence|by rewrite Hp1|done|].
    intros lc0 Hlc0. destruct (Hassigned lc0 Hlc0) as [Hold|[-> ->]].
    + destruct (Hlinks lc0 Hold) as (c0 & Hc0 & Hdc & Hin).
      destruct (Hcourse lc0 c0 Hc0 Hdc). by exists c0.
    + eexists. rewrite list_lookup_middle by done. split; [done|]. simpl.
      by rewrite lookup_insert_eq.
  - destruct (decide (k = cid)) as [->|Hne].
    + rewrite lookup_insert_eq in Hl. injection Hl as <-.
      exists (mkCourse cid cname li []), i'. rewrite list_lookup_middle by done. simpl.
      split_and!; try done.
      * apply list_lookup_insert_eq. by eapply lookup_lt_Some.
      * apply elem_of_app. right. apply list_elem_of_here.
      * intros ls Hls. by apply elem_of_nil in Hls.
    + rewrite lookup_insert_ne in Hl by done.
      destruct (ok_courses _ Hok k l Hl)
        as (c & i0 & Hc & Hk & Hcid0 & Hname0 & Hi0 & Hdi0 & Hin & Hlinks).
      simpl in *. destruct (Hinstr _ i0 Hi0) as (i1 & Hi1 & Hid1 & _ & Hkeep & _).
      exists c, i1. split_and!; try done.
      * by apply lookup_app_l_Some.
      * by rewrite Hid1.
      * by apply Hkeep.
Qed.


(** In a graph that satisfies the invariants, the identifier tests of
    [register_course] and [add_student] are membership tests on the lists. *)
Lemma registered_by_id (m : Mem) sid cid ls lc s c :
  graph_ok m →
  students (datastore m) !! sid = Some ls → student_objs (heap m) !! ls = Some s →
  courses (datastore m) !! cid = Some lc → course_objs (heap m) !! lc = Some c →
  (course_id c ∈ course_ids (heap m) (registered_courses s) ↔ lc ∈ registered_courses s) ∧
  (student_id s ∈ student_ids (heap m) (enrolled_students c) ↔ ls ∈ enrolled_students c) ∧
  (lc ∈ registered_courses s ↔ ls ∈ enrolled_students c).
Proof.
  intros Hok Hds Hs Hdc Hc.
  destruct (ok_students _ Hok sid ls Hds) as (s' & Hs' & Hsid & _ & _ & Hregs).
  destruct (ok_courses _ Hok cid lc Hdc) as (c' & i & Hc' & Hcid & _ & _ & _ & _ & _ & Hens).
  simplify_eq. split_and!.
  - rewrite course_ids_elem. split.
    + intros (lc0 & c0 & Hin & Hc0 & Hid).
      destruct (Hregs lc0 Hin) as (c0' & Hc0' & Hdc0 & _). simplify_eq.
      rewrite Hid in Hdc0. by simplify_eq.
    + intros Hin. by exists lc, c.
  - rewrite student_ids_elem. split.
    + intros (ls0 & s0 & Hin & Hs0 & Hid).
      destruct (Hens ls0 Hin) as (s0' & Hs0' & Hds0 & _). simplify_eq.
      rewrite Hid in Hds0. by simplify_eq.
    + intros Hin. by exists ls, s.
  - split.
    + intros Hin. destruct (Hregs lc Hin) as (c0 & Hc0 & _ & Hen). by simplify_eq.
    + intros Hin. destruct (Hens ls Hin) as (s0 & Hs0 & _ & Hreg). by simplify_eq.
Qed.

(** The state after [enroll_student] of an existing pair. *)
Lemma enroll_student_run (m : Mem) sid cid ls lc s c :
  graph_ok m →
  students (datastore m) !! sid = Some ls → student_objs (heap m) !! ls = Some s →
  courses (datastore m) !! cid = Some lc → course_objs (heap m) !! lc = Some c →
  MemoryDataManager.enroll_student sid cid m =
    (Ok tt,
     if bool_decide (lc ∈ registered_courses s) then m
     else mkMem (mkHeap
                   (<[ls := mkStudent (student_person s) (student_id s)
                              (registered_courses s ++ [lc])]> (student_objs (heap m)))
                   (instructor_objs (heap m))
                   (<[lc := mkCourse (course_id c) (course_name c) (instructor c)
                              (enrolled_students c ++ [ls])]> (course_objs (heap m))))
                (datastore m)).
Proof.
  intros Hok Hds Hs Hdc Hc.
  destruct (registered_by_id m sid cid ls lc s c Hok Hds Hs Hdc Hc) as (Hreg & Hen & Hsym).
  unfold MemoryDataManager.enroll_student, bind, gets, in_heap, zoom.
  rewrite Hds, Hdc, (register_course_run _ _ _ _ _ Hs Hc).
  destruct m as [[hs hi hc] fm]. simpl in *. f_equal.
  unfold heap_register. case_bool_decide as Hnew.
  - rewrite bool_decide_false by (by rewrite <- Hreg).
    unfold heap_add_student.
    match goal with
    | |- context [student_ids ?h1 ?xs] =>
        rewrite (student_ids_update (mkHeap hs hi hc) h1 ls s
                   (mkStudent (student_person s) (student_id s) (registered_courses s ++ [lc]))
                   xs Hs eq_refl eq_refl)
    end.
    rewrite bool_decide_true; [done|]. simpl. rewrite Hen, <- Hsym, <- Hreg. done.
  - rewrite bool_decide_true; [done|]. by apply Hreg.
Qed.

Lemma graph_ok_enrolled (m : Mem) sid cid ls lc s c :
  graph_ok m →
  students (datastore m) !! sid = Some ls → student_objs (heap m) !! ls = Some s →
  courses (datastore m) !! cid = Some lc → course_objs (heap m) !! lc = Some c →
  graph_ok
    (mkMem (mkHeap
              (<[ls := mkStudent (student_person s) (student_id s)
                         (registered_courses s ++ [lc])]> (student_objs (heap m)))
              (instructor_objs (heap m))
              (<[lc := mkCourse (course_id c) (course_name c) (instructor c)
                         (enrolled_students c ++ [ls])]> (course_objs (heap m))))
           (datastore m)).
Proof.
  intros Hok Hds Hs Hdc Hc.
  destruct (ok_students _ Hok sid ls Hds) as (s_ & Hs_ & Hsid & _).
  destruct (ok_courses _ Hok cid lc Hdc) as (c_ & i_ & Hc_ & Hcid & _).
  simplify_eq. destruct m as [[hs hi hc] [ds di dc]]. simpl in *.
  set (s' := mkStudent (student_person s) (student_id s) (registered_courses s ++ [lc])).
  set (c' := mkCourse (course_id c) (course_name c) (instructor c)
                      (enrolled_students c ++ [ls])).
  assert (∀ l0 s0, hs !! l0 = Some s0 →
            ∃ s1, <[ls := s']> hs !! l0 = Some s1 ∧ student_id s1 = student_id s0 ∧
                  student_person s1 = student_person s0 ∧
                  (∀ x, x ∈ registered_courses s0 → x ∈ registered_courses s1) ∧
                  (∀ x, x ∈ registered_courses s1 →
                        x ∈ registered_courses s0 ∨ (x = lc ∧ l0 = ls))) as Hstud.
  { intros l0 s0 Hs0. destruct (decide (l0 = ls)) as [->|Hne].
    - rewrite list_lookup_insert_eq by (by eapply lookup_lt_Some). simplify_eq.
      exists s'. subst s'. simpl. split_and!; try done.
      + intros x Hx. apply elem_of_app. by left.
      + intros x Hx. apply elem_of_app in Hx as [Hx|Hx]; [by left|].
        apply list_elem_of_singleton in Hx. by right.
    - rewrite list_lookup_insert_ne by done. exists s0. split_and!; try done.
      intros x Hx. by left. }
  assert (∀ l0 c0, hc !! l0 = Some c0 →
            ∃ c1, <[lc := c']> hc !! l0 = Some c1 ∧ course_id c1 = course_id c0 ∧
                  course_name c1 = course_name c0 ∧ instructor c1 = instructor c0 ∧
                  (∀ x, x ∈ enrolled_students c0 → x ∈ enrolled_students c1) ∧
                  (∀ x, x ∈ enrolled_students c1 →
                        x ∈ enrolled_students c0 ∨ (x = ls ∧ l0 = lc))) as Hcour.
  { intros l0 c0 Hc0. destruct (decide (l0 = lc)) as [->|Hne].
    - rewrite list_lookup_insert_eq by (by eapply lookup_lt_Some). simplify_eq.
      exists c'. subst c'. simpl. split_and!; try done.
      + intros x Hx. apply elem_of_app. by left.
      + intros x Hx. apply elem_of_app in Hx as [Hx|Hx]; [by left|].
        apply list_elem_of_singleton in Hx. by right.
    - rewrite list_lookup_insert_ne by done. exists c0. split_and!; try done.
      intros x Hx. by left. }
  split; simpl; intros k l Hl.
  - destruct (ok_students _ Hok k l Hl) as (s0 & Hs0 & Hk & Hp0 & Hid0 & Hlinks).
    simpl in *. destruct (Hstud l s0 Hs0) as (s1 & Hs1 & Hid1 & Hp1 & _ & Hregs).
    exists s1. split_and!; [done|congruence|by rewrite Hp1|done|].
    intros x Hx. destruct (Hregs x Hx) as [Hold|[-> ->]].
    + destruct (Hlinks x Hold) as (c0 & Hc0 & Hdc0 & Hin).
      destruct (Hcour x c0 Hc0) as (c1 & Hc1 & Hcid1 & _ & _ & Hkeep & _).
      exists c1. split_and!; [done|by rewrite Hcid1|by apply Hkeep].
    + exists c'. split_and!.
      * apply list_lookup_insert_eq. by eapply lookup_lt_Some.
      * done.
      * subst c'. simpl. apply elem_of_app. right. apply list_elem_of_here.
  - destruct (ok_instructors _ Hok k l Hl) as (i0 & Hi0 & Hk & Hp0 & Hid0 & Hlinks).
    simpl in *. exists i0. split_and!; try done.
    intros x Hx. destruct (Hlinks x Hx) as (c0 & Hc0 & Hdc0 & Hinstr).
    destruct (Hcour x c0 Hc0) as (c1 & Hc1 & Hcid1 & _ & Hinstr1 & _).
    exists c1. split_and!; [done|by rewrite Hcid1|congruence].
  - destruct (ok_courses _ Hok k l Hl)
      as (c0 & i0 & Hc0 & Hk & Hcid0 & Hname0 & Hi0 & Hdi0 & Hin & Hlinks).
    simpl in *.
    destruct (Hcour l c0 Hc0) as (c1 & Hc1 & Hcid1 & Hname1 & Hinstr1 & _ & Hens).
    exists c1, i0. rewrite Hinstr1, Hname1. split_and!; [done|congruence|done..|].
    intros x Hx. destruct (Hens x Hx) as [Hold|[-> ->]].
    + destruct (Hlinks x Hold) as (s0 & Hs0 & Hds0 & Hreg).
      destruct (Hstud x s0 Hs0) as (s1 & Hs1 & Hid1 & _ & Hkeep & _).
      exists s1. split_and!; [done|by rewrite Hid1|by apply Hkeep].
    + exists s'. split_and!.
      * apply list_lookup_insert_eq. by eapply lookup_lt_Some.
      * done.
      * subst s'. simpl. apply elem_of_app. right. apply list_elem_of_here.
Qed.

Lemma enroll_student_keeps_ok (m : Mem) sid cid :
  graph_ok m → graph_ok (MemoryDataManager.enroll_student sid cid m).2.
Proof.
  intros Hok.
  destruct (students (datastore m) !! sid) as [ls|] eqn:Hds.
  2: { unfold MemoryDataManager.enroll_student, bind, gets. by rewrite Hds. }
  destruct (courses (datastore m) !! cid) as [lc|] eqn:Hdc.
  2: { unfold MemoryDataManager.enroll_student, bind, gets. by rewrite Hds, Hdc. }
  destruct (ok_students _ Hok sid ls Hds) as (s & Hs & _).
  destruct (ok_courses _ Hok cid lc Hdc) as (c & i & Hc & _).
  rewrite (enroll_student_run m sid cid ls lc s c) by done. simpl.
  case_bool_decide; [done|]. by eapply graph_ok_enrolled.
Qed.

(** *** Exactly-once membership *)

Lemma graph_nodup_new_student (m : Mem) (s : Student) :
  graph_ok m → graph_nodup m → registered_courses s = [] →
  graph_nodup (mkMem (set_student_objs (λ os, os ++ [s]) (heap m))
                     (mkFileManager (<[student_id s := length (student_objs (heap m))]>
                                       (students (datastore m)))
                                    (instructors (datastore m)) (courses (datastore m)))).
Proof.
  intros Hok (Hns & Hni & Hnc) Hregs. destruct m as [[hs hi hc] [ds di dc]]. simpl in *.
  split_and!; simpl; [|done|done].
  intros k l s0 Hl Hs0. destruct (decide (k = student_id s)) as [->|Hne].
  - rewrite lookup_insert_eq in Hl. injection Hl as <-.
    rewrite list_lookup_middle in Hs0 by done. injection Hs0 as <-.
    rewrite Hregs. apply NoDup_nil_2.
  - rewrite lookup_insert_ne in Hl by done.
    destruct (ok_students _ Hok k l Hl) as (s1 & Hs1 & _). simpl in *.
    rewrite (lookup_app_l_Some _ _ _ _ Hs1) in Hs0. injection Hs0 as <-. by eapply Hns.
Qed.

Lemma graph_nodup_new_instructor (m : Mem) (i : Instructor) :
  graph_ok m → graph_nodup m → assigned_courses i = [] →
  graph_nodup (mkMem (set_instructor_objs (λ os, os ++ [i]) (heap m))
                     (mkFileManager (students (datastore m))
                                    (<[instructor_id i := length (instructor_objs (heap m))]>
                                       (instructors (datastore m)))
                                    (courses (datastore m)))).
Proof.
  intros Hok (Hns & Hni & Hnc) Hassigned. destruct m as [[hs hi hc] [ds di dc]]. simpl in *.
  split_and!; simpl; [done| |done].
  intros k l i0 Hl Hi0. destruct (decide (k = instructor_id i)) as [->|Hne].
  - rewrite lookup_insert_eq in Hl. injection Hl as <-.
    rewrite list_lookup_middle in Hi0 by done. injection Hi0 as <-.
    rewrite Hassigned. apply NoDup_nil_2.
  - rewrite lookup_insert_ne in Hl by done.
    destruct (ok_instructors _ Hok k l Hl) as (i1 & Hi1 & _). simpl in *.
    rewrite (lookup_app_l_Some _ _ _ _ Hi1) in Hi0. injection Hi0 as <-. by eapply Hni.
Qed.

Lemma graph_nodup_student_person (m : Mem) (l : loc) (s : Student) (p : Person) :
  graph_nodup m → student_objs (heap m) !! l = Some s →
  graph_nodup (mkMem (set_student_objs
                        (λ os, <[l := mkStudent p (student_id s) (registered_courses s)]> os)
                        (heap m)) (datastore m)).
Proof.
  intros (Hns & Hni & Hnc) Hs. destruct m as [[hs hi hc] [ds di dc]]. simpl in *.
  split_and!; simpl; [|done|done].
  intros k l0 s0 Hl Hs0. destruct (decide (l0 = l)) as [->|Hne].
  - rewrite list_lookup_insert_eq in Hs0 by (by eapply lookup_lt_Some).
    injection Hs0 as <-. simpl. by eapply Hns.
  - rewrite list_lookup_insert_ne in Hs0 by done. by eapply Hns.
Qed.

Lemma graph_nodup_instructor_person (m : Mem) (l : loc) (i : Instructor) (p : Person) :
  graph_nodup m → instructor_objs (heap m) !! l = Some i →
  graph_nodup (mkMem (set_instructor_objs
                        (λ os, <[l := mkInstructor p (instructor_id i) (assigned_courses i)]> os)
                        (heap m)) (datastore m)).
Proof.
  intros (Hns & Hni & Hnc) Hi. destruct m as [[hs hi hc] [ds di dc]]. simpl in *.
  split_and!; simpl; [done| |done].
  intros k l0 i0 Hl Hi0. destruct (decide (l0 = l)) as [->|Hne].
  - rewrite list_lookup_insert_eq in Hi0 by (by eapply lookup_lt_Some).
    injection Hi0 as <-. simpl. by eapply Hni.
  - rewrite list_lookup_insert_ne in Hi0 by done. by eapply Hni.
Qed.

Lemma edit_student_keeps_nodup (m : Mem) sid kw :
  graph_ok m → graph_nodup m → graph_nodup (MemoryDataManager.edit_student sid kw m).2.
Proof.
  intros Hok Hnd. unfold MemoryDataManager.edit_student.
  destruct (truthy_str sid) as [k|] eqn:Hsid; [|done].
  assert (PyStr.truthy k = true ∧ sid = Some k) as [Ht ->].
  { unfold truthy_str in Hsid. destruct sid as [k'|]; [|done].
    destruct (PyStr.truthy k') eqn:Ht; by simplify_eq. }
  destruct (students (datastore m) !! k) as [l|] eqn:Hl.
  2: { unfold bind, gets. by rewrite Hl. }
  destruct (ok_students _ Hok k l Hl) as (s & Hs & _).
  destruct (edit_student_run m k l s kw Ht Hl Hs) as (r & r' & p & Hu & _ & Hrun).
  unfold MemoryDataManager.edit_student in Hrun. rewrite Hsid in Hrun. rewrite Hrun.
  simpl. by eapply graph_nodup_student_person.
Qed.

Lemma edit_instructor_keeps_nodup (m : Mem) iid kw :
  graph_ok m → graph_nodup m → graph_nodup (MemoryDataManager.edit_instructor iid kw m).2.
Proof.
  intros Hok Hnd. unfold MemoryDataManager.edit_instructor.
  destruct (truthy_str iid) as [k|] eqn:Hiid; [|done].
  assert (PyStr.truthy k = true ∧ iid = Some k) as [Ht ->].
  { unfold truthy_str in Hiid. destruct iid as [k'|]; [|done].
    destruct (PyStr.truthy k') eqn:Ht; by simplify_eq. }
  destruct (instructors (datastore m) !! k) as [l|] eqn:Hl.
  2: { unfold bind, gets. by rewrite Hl. }
  destruct (ok_instructors _ Hok k l Hl) as (i & Hi & _).
  destruct (edit_instructor_run m k l i kw Ht Hl Hi) as (r & r' & p & Hu & _ & Hrun).
  unfold MemoryDataManager.edit_instructor in Hrun. rewrite Hiid in Hrun. rewrite Hrun.
  simpl. by eapply graph_nodup_instructor_person.
Qed.

Lemma graph_nodup_new_course (m : Mem) cid cname li i :
  graph_ok m → graph_nodup m →
  instructor_objs (heap m) !! li = Some i →
  instructors (datastore m) !! instructor_id i = Some li →
  courses (datastore m) !! cid = None →
  graph_nodup
    (mkMem (mkHeap (student_objs (heap m))
                   (<[li := mkInstructor (instructor_person i) (instructor_id i)
                              (assigned_courses i ++ [length (course_objs (heap m))])]>
                      (instructor_objs (heap m)))
                   (course_objs (heap m) ++ [mkCourse cid cname li []]))
           (mkFileManager (students (datastore m)) (instructors (datastore m))
              (<[cid := length (course_objs (heap m))]> (courses (datastore m))))).
Proof.
  intros Hok (Hns & Hni & Hnc) Hi Hdi Hnew. destruct m as [[hs hi hc] [ds di dc]].
  simpl in *. split_and!; simpl; [done| |].
  - intros k l i0 Hl Hi0. destruct (decide (l = li)) as [->|Hne].
    + rewrite list_lookup_insert_eq in Hi0 by (by eapply lookup_lt_Some).
      injection Hi0 as <-. simpl. apply NoDup_app. split_and!.
      * by eapply Hni.
      * intros x Hx Hx'. apply list_elem_of_singleton in Hx' as ->.
        destruct (ok_instructors _ Hok _ _ Hdi) as (i' & Hi' & _ & _ & _ & Hlinks).
        simpl in *. simplify_eq. destruct (Hlinks _ Hx) as (c0 & Hc0 & _).
        apply lookup_lt_Some in Hc0. lia.
      * apply NoDup_singleton.
    + rewrite list_lookup_insert_ne in Hi0 by done. by eapply Hni.
  - intros k l c0 Hl Hc0. destruct (decide (k = cid)) as [->|Hne].
    + rewrite lookup_insert_eq in Hl. injection Hl as <-.
      rewrite list_lookup_middle in Hc0 by done. injection Hc0 as <-. apply NoDup_nil_2.
    + rewrite lookup_insert_ne in Hl by done.
      destruct (ok_courses _ Hok k l Hl) as (c1 & i1 & Hc1 & _). simpl in *.
      rewrite (lookup_app_l_Some _ _ _ _ Hc1) in Hc0. injection Hc0 as <-. by eapply Hnc.
Qed.

Lemma graph_nodup_enrolled (m : Mem) sid cid ls lc s c :
  graph_nodup m →
  students (datastore m) !! sid = Some ls → student_objs (heap m) !! ls = Some s →
  courses (datastore m) !! cid = Some lc → course_objs (heap m) !! lc = Some c →
  lc ∉ registered_courses s → ls ∉ enrolled_students c →
  graph_nodup
    (mkMem (mkHeap
              (<[ls := mkStudent (student_person s) (student_id s)
                         (registered_courses s ++ [lc])]> (student_objs (heap m)))
              (instructor_objs (heap m))
              (<[lc := mkCourse (course_id c) (course_name c) (instructor c)
                         (enrolled_students c ++ [ls])]> (course_objs (heap m))))
           (datastore m)).
Proof.
  intros (Hns & Hni & Hnc) Hds Hs Hdc Hc Hreg Hen. destruct m as [[hs hi hc] [ds di dc]].
  simpl in *. split_and!; simpl; [|done|].
  - intros k l s0 Hl Hs0. destruct (decide (l = ls)) as [->|Hne].
    + rewrite list_lookup_insert_eq in Hs0 by (by eapply lookup_lt_Some).
      injection Hs0 as <-. simpl. apply NoDup_app. split_and!.
      * by eapply Hns.
      * intros x Hx Hx'. by apply list_elem_of_singleton in Hx' as ->.
      * apply NoDup_singleton.
    + rewrite list_lookup_insert_ne in Hs0 by done. by eapply Hns.
  - intros k l c0 Hl Hc0. destruct (decide (l = lc)) as [->|Hne].
    + rewrite list_lookup_insert_eq in Hc0 by (by eapply lookup_lt_Some).
      injection Hc0 as <-. simpl. apply NoDup_app. split_and!.
      * by eapply Hnc.
      * intros x Hx Hx'. by apply list_elem_of_singleton in Hx' as ->.
      * apply NoDup_singleton.
    + rewrite list_lookup_insert_ne in Hc0 by done. by eapply Hnc.
Qed.

Lemma enroll_student_keeps_nodup (m : Mem) sid cid :
  graph_ok m → graph_nodup m → graph_nodup (MemoryDataManager.enroll_student sid cid m).2.
Proof.
  intros Hok Hnd.
  destruct (students (datastore m) !! sid) as [ls|] eqn:Hds.
  2: { unfold MemoryDataManager.enroll_student, bind, gets. by rewrite Hds. }
  destruct (courses (datastore m) !! cid) as [lc|] eqn:Hdc.
  2: { unfold MemoryDataManager.enroll_student, bind, gets. by rewrite Hds, Hdc. }
  destruct (ok_students _ Hok sid ls Hds) as (s & Hs & _).
  destruct (ok_courses _ Hok cid lc Hdc) as (c & i & Hc & _).
  rewrite (enroll_student_run m sid cid ls lc s c) by done. simpl.
  destruct (registered_by_id m sid cid ls lc s c Hok Hds Hs Hdc Hc) as (_ & _ & Hsym).
  case_bool_decide as Hreg; [done|].
  eapply graph_nodup_enrolled; try done. by rewrite <- Hsym.
Qed.

(** X2.  [add_student] and [add_instructor] keep the invariants of the data
    model, whatever their arguments: valid stripped fields under unique
    identifiers, invariants 1 and 2, and no reference listed twice. *)
Theorem add_person_keeps_invariants (m : Mem) (n : string) (a : Z) (e id : string) :
  graph_ok m → graph_nodup m →
  (graph_ok (MemoryDataManager.add_student n a e id m).2 ∧
   graph_nodup (MemoryDataManager.add_student n a e id m).2) ∧
  (graph_ok (MemoryDataManager.add_instructor n a e id m).2 ∧
   graph_nodup (MemoryDataManager.add_instructor n a e id m).2).
Proof.
  intros Hok Hnd. split.
  - destruct (add_student_fails m n a e id) as [(s & Hinit & Hnew)|[c ->]]; [|done].
    rewrite (add_student_fresh m n a e id s) by done. simpl.
    destruct (Student_init_canonical _ _ _ _ _ Hinit) as (Hp & Hid & _ & Hregs & _).
    split; [by apply graph_ok_new_student|by apply graph_nodup_new_student].
  - destruct (add_instructor_fails m n a e id) as [(i & Hinit & Hnew)|[c ->]]; [|done].
    rewrite (add_instructor_fresh m n a e id i) by done. simpl.
    destruct (Instructor_init_canonical _ _ _ _ _ Hinit) as (Hp & Hid & _ & Hassigned & _).
    split; [by apply graph_ok_new_instructor|by apply graph_nodup_new_instructor].
Qed.


(** X4.  In a graph that satisfies the invariants, [enroll_student] with an
    unknown student, or with a known student and an unknown course, raises the
    not-found [DataError] of that identifier and changes nothing; with a
    student and a course of the graph it succeeds: an enrolled pair changes
    nothing, a new pair appends the course to the student's
    [registered_courses] and the student to the course's
    [enrolled_students], nothing else changing.  Either way the invariants
    hold afterwards. *)
Theorem enroll_student_keeps_invariants (m : Mem) (sid cid : string) :
  graph_ok m → graph_nodup m →
  (students (datastore m) !! sid = None →
   MemoryDataManager.enroll_student sid cid m
   = (Raise (DataError (NotFound EStudent sid)), m)) ∧
  (is_Some (students (datastore m) !! sid) → courses (datastore m) !! cid = None →
   MemoryDataManager.enroll_student sid cid m
   = (Raise (DataError (NotFound ECourse cid)), m)) ∧
  (∀ ls lc s c,
     students (datastore m) !! sid = Some ls → student_objs (heap m) !! ls = Some s →
     courses (datastore m) !! cid = Some lc → course_objs (heap m) !! lc = Some c →
     MemoryDataManager.enroll_student sid cid m =
       (Ok tt,
        if bool_decide (lc ∈ registered_courses s) then m
        else mkMem (mkHeap
                      (<[ls := mkStudent (student_person s) (student_id s)
                                 (registered_courses s ++ [lc])]> (student_objs (heap m)))
                      (instructor_objs (heap m))
                      (<[lc := mkCourse (course_id c) (course_name c) (instructor c)
                                 (enrolled_students c ++ [ls])]> (course_objs (heap m))))
                   (datastore m))) ∧
  graph_ok (MemoryDataManager.enroll_student sid cid m).2 ∧
  graph_nodup (MemoryDataManager.enroll_student sid cid m).2.
Proof.
  intros Hok Hnd. split_and!.
  - intros Hds. unfold MemoryDataManager.enroll_student, bind, gets. by rewrite Hds.
  - intros [ls Hds] Hdc. unfold MemoryDataManager.enroll_student, bind, gets.
    by rewrite Hds, Hdc.
  - intros ls lc s c Hds Hs Hdc Hc. by apply enroll_student_run.
  - by apply enroll_student_keeps_ok.
  - by apply enroll_student_keeps_nodup.
Qed.

(** X5.  [edit_student] and [edit_instructor] keep the invariants whether
    they succeed or raise: the fields that [Person.update] has written before
    an invalid one stops it are valid and stripped. *)
Theorem edit_person_keeps_invariants (m : Mem) (id : option string) (kw : PersonKwargs) :
  graph_ok m → graph_nodup m →
  (graph_ok (MemoryDataManager.edit_student id kw m).2 ∧
   graph_nodup (MemoryDataManager.edit_student id kw m).2) ∧
  (graph_ok (MemoryDataManager.edit_instructor id kw m).2 ∧
   graph_nodup (MemoryDataManager.edit_instructor id kw m).2).
Proof.
  intros Hok Hnd. split_and!.
  - by apply edit_student_keeps_ok.
  - by apply edit_student_keeps_nodup.
  - by apply edit_instructor_keeps_ok.
  - by apply edit_instructor_keeps_nodup.
Qed.

(** *** Removing a course *)

Lemma remove_course_run (m : Mem) (lc : loc) (c : Course) (i : Instructor) :
  courses (datastore m) !! course_id c = Some lc →
  course_objs (heap m) !! lc = Some c →
  instructor_objs (heap m) !! instructor c = Some i →
  lc ∈ assigned_courses i → NoDup (assigned_courses i) →
  NoDup (enrolled_students c) →
  (∀ ls, ls ∈ enrolled_students c →
         ∃ s, student_objs (heap m) !! ls = Some s
              ∧ lc ∈ registered_courses s ∧ NoDup (registered_courses s)) →
  ∃ m', MemoryDataManager.remove_course (course_id c) m = (Ok tt, m') ∧
    instructor_objs (heap m') =
      <[instructor c := mkInstructor (instructor_person i) (instructor_id i)
                          (filter (λ y, y ≠ lc) (assigned_courses i))]>
        (instructor_objs (heap m)) ∧
    (∀ ls, student_objs (heap m') !! ls =
           if decide (ls ∈ enrolled_students c)
           then detach_course lc <$> student_objs (heap m) !! ls
           else student_objs (heap m) !! ls) ∧
    course_objs (heap m') = course_objs (heap m) ∧
    students (datastore m') = students (datastore m) ∧
    instructors (datastore m') = instructors (datastore m) ∧
    courses (datastore m') = delete (course_id c) (courses (datastore m)).
Proof.
  intros Hc Hlc Hi Hin Hnd Hnde Hst.
  destruct m as [h fm]. simpl in *.
  unfold MemoryDataManager.remove_course, bind, gets, in_heap, zoom, deref. simpl.
  rewrite Hc. simpl. rewrite Hlc. simpl. rewrite Hi. simpl.
  rewrite (list_remove_NoDup _ _ Hnd Hin).
  unfold store_instructor, modify. simpl.
  set (m1 := mkMem _ fm).
  destruct (detach_loop lc (enrolled_students c) m1 Hnde) as (m2 & Hrun & Hd & Hi2 & Hc2 & Hs2).
  { intros ls Hls. by apply Hst. }
  change (for_each (enrolled_students c) _ m1)
    with (for_each (enrolled_students c) (detach_body lc) m1).
  rewrite Hrun. eexists. split; [done|]. simpl. rewrite Hd. subst m1. simpl in *.
  by split_and!.
Qed.

Lemma remove_course_keeps (m : Mem) (cid : string) :
  graph_ok m → graph_nodup m →
  graph_ok (MemoryDataManager.remove_course cid m).2 ∧
  graph_nodup (MemoryDataManager.remove_course cid m).2.
Proof.
  intros Hok Hnd.
  destruct (courses (datastore m) !! cid) as [lc|] eqn:Hdc.
  2: { unfold MemoryDataManager.remove_course, bind, gets. by rewrite Hdc. }
  destruct (ok_courses _ Hok cid lc Hdc)
    as (c & i & Hc & <- & _ & _ & Hi & Hdi & Hin & Hens).
  destruct Hnd as (Hns & Hni & Hnc).
  destruct (remove_course_run m lc c i Hdc Hc Hi Hin) as (m' & Hrun & Hi' & Hs' & Hc' & Hds' & Hdi' & Hdc').
  { by eapply Hni. }
  { by eapply Hnc. }
  { intros ls Hls. destruct (Hens ls Hls) as (s & Hs & Hds & Hreg).
    exists s. split_and!; try done. by eapply Hns. }
  rewrite Hrun. simpl.
  (* what the students, instructors and courses of the graph have become *)
  assert (∀ k l s0, students (datastore m) !! k = Some l →
            student_objs (heap m) !! l = Some s0 →
            ∃ s1, student_objs (heap m') !! l = Some s1 ∧ student_id s1 = student_id s0 ∧
                  student_person s1 = student_person s0 ∧
                  (∀ x, x ∈ registered_courses s1 ↔ x ∈ registered_courses s0 ∧ x ≠ lc) ∧
                  (NoDup (registered_courses s0) → NoDup (registered_courses s1))) as Hstud.
  { intros k l s0 Hl Hs0. rewrite Hs', Hs0. destruct (decide (l ∈ enrolled_students c)).
    - eexists. split; [done|]. simpl. split_and!; try done.
      + intros x. by rewrite list_elem_of_filter, (comm and).
      + apply NoDup_filter.
    - exists s0. split_and!; try done. intros x. split; [|by intros [? _]].
      intros Hx. split; [done|]. intros ->.
      destruct (ok_students _ Hok k l Hl) as (s0' & Hs0' & _ & _ & _ & Hlinks).
      simplify_eq. destruct (Hlinks lc Hx) as (c0 & Hc0 & _ & Hl0). by simplify_eq. }
  assert (∀ k l i0, instructors (datastore m) !! k = Some l →
            instructor_objs (heap m) !! l = Some i0 →
            ∃ i1, instructor_objs (heap m') !! l = Some i1 ∧
                  instructor_id i1 = instructor_id i0 ∧
                  instructor_person i1 = instructor_person i0 ∧
                  (∀ x, x ∈ assigned_courses i1 ↔ x ∈ assigned_courses i0 ∧ x ≠ lc) ∧
                  (NoDup (assigned_courses i0) → NoDup (assigned_courses i1))) as Hinstr.
  { intros k l i0 Hl Hi0. rewrite Hi'. destruct (decide (l = instructor c)) as [->|Hne].
    - rewrite list_lookup_insert_eq by (by eapply lookup_lt_Some). simplify_eq.
      eexists. split; [done|]. simpl. split_and!; try done.
      + intros x. by rewrite list_elem_of_filter, (comm and).
      + apply NoDup_filter.
    - rewrite list_lookup_insert_ne by done. exists i0. split_and!; try done.
      intros x. split; [|by intros [? _]].
      intros Hx. split; [done|]. intros ->.
      destruct (ok_instructors _ Hok k l Hl) as (i0' & Hi0' & _ & _ & _ & Hlinks).
      simplify_eq. destruct (Hlinks lc Hx) as (c0 & Hc0 & _ & Hl0). by simplify_eq. }
  assert (∀ x c0, x ≠ lc → course_objs (heap m) !! x = Some c0 →
            courses (datastore m) !! course_id c0 = Some x →
            courses (datastore m') !! course_id c0 = Some x) as Hcour.
  { intros x c0 Hne Hc0 Hd0. rewrite Hdc', lookup_delete_ne; [done|].
    intros Heq. rewrite <- Heq in Hd0. congruence. }
  split.
  - split; intros k l Hl.
    + rewrite Hds' in Hl.
      destruct (ok_students _ Hok k l Hl) as (s0 & Hs0 & Hk & Hp0 & Hid0 & Hlinks).
      destruct (Hstud k l s0 Hl Hs0) as (s1 & Hs1 & Hid1 & Hp1 & Hregs & _).
      exists s1. split_and!; [done|congruence|by rewrite Hp1|done|].
      intros x Hx. apply Hregs in Hx as [Hx Hne].
      destruct (Hlinks x Hx) as (c0 & Hc0 & Hd0 & Hl0).
      exists c0. rewrite Hc'. split_and!; try done. by apply Hcour.
    + rewrite Hdi' in Hl.
      destruct (ok_instructors _ Hok k l Hl) as (i0 & Hi0 & Hk & Hp0 & Hid0 & Hlinks).
      destruct (Hinstr k l i0 Hl Hi0) as (i1 & Hi1 & Hid1 & Hp1 & Hassigned & _).
      exists i1. split_and!; [done|congruence|by rewrite Hp1|done|].
      intros x Hx. apply Hassigned in Hx as [Hx Hne].
      destruct (Hlinks x Hx) as (c0 & Hc0 & Hd0 & Hl0).
      exists c0. rewrite Hc'. split_and!; try done. by apply Hcour.
    + rewrite Hdc' in Hl. apply lookup_delete_Some in Hl as [Hk Hl].
      destruct (ok_courses _ Hok k l Hl)
        as (c0 & i0 & Hc0 & Hk0 & Hcid0 & Hname0 & Hi0 & Hdi0 & Hin0 & Hlinks).
      assert (l ≠ lc) as Hne by (intros ->; by simplify_eq).
      destruct (Hinstr _ _ i0 Hdi0 Hi0) as (i1 & Hi1 & Hid1 & _ & Hassigned & _).
      exists c0, i1. rewrite Hc', Hdi', Hid1. split_and!; try done.
      * by apply Hassigned.
      * intros x Hx. destruct (Hlinks x Hx) as (s0 & Hs0 & Hd0 & Hreg).
        destruct (Hstud _ _ s0 Hd0 Hs0) as (s1 & Hs1 & Hid1' & _ & Hregs & _).
        exists s1. rewrite Hds', Hid1'. split_and!; try done. by apply Hregs.
  - split_and!.
    + intros k l s1 Hl Hs1. rewrite Hds' in Hl.
      destruct (ok_students _ Hok k l Hl) as (s0 & Hs0 & _).
      destruct (Hstud k l s0 Hl Hs0) as (s1' & Hs1' & _ & _ & _ & Hkeep).
      simplify_eq. apply Hkeep. by eapply Hns.
    + intros k l i1 Hl Hi1. rewrite Hdi' in Hl.
      destruct (ok_instructors _ Hok k l Hl) as (i0 & Hi0 & _).
      destruct (Hinstr k l i0 Hl Hi0) as (i1' & Hi1' & _ & _ & _ & Hkeep).
      simplify_eq. apply Hkeep. by eapply Hni.
    + intros k l c1 Hl Hc1. rewrite Hdc' in Hl. apply lookup_delete_Some in Hl as [Hk Hl].
      rewrite Hc' in Hc1. by eapply Hnc.
Qed.

(** X6.  In a graph that satisfies the invariants and lists no reference
    twice, [remove_course] of an identifier without a course raises the
    [DataError] of a course that does not exist and changes nothing; for a
    course of the graph it succeeds, takes the course, and nothing else, off
    its instructor's [assigned_courses] and off the [registered_courses] of
    each of its enrolled students, leaves every other object and the student
    and instructor dictionaries as they were, and unbinds the identifier, so
    that [get_course] then fails with [NotFound].  Either way the invariants
    hold afterwards. *)
Theorem remove_course_keeps_invariants (m : Mem) (cid : string) :
  graph_ok m → graph_nodup m →
  (courses (datastore m) !! cid = None →
   MemoryDataManager.remove_course cid m
   = (Raise (DataError (DoesNotExist ECourse cid)), m)) ∧
  (∀ lc c i,
     courses (datastore m) !! cid = Some lc → course_objs (heap m) !! lc = Some c →
     instructor_objs (heap m) !! instructor c = Some i →
     ∃ m', MemoryDataManager.remove_course cid m = (Ok tt, m') ∧
       instructor_objs (heap m') =
         <[instructor c := mkInstructor (instructor_person i) (instructor_id i)
                             (filter (λ y, y ≠ lc) (assigned_courses i))]>
           (instructor_objs (heap m)) ∧
       (∀ ls, student_objs (heap m') !! ls =
              if decide (ls ∈ enrolled_students c)
              then detach_course lc <$> student_objs (heap m) !! ls
              else student_objs (heap m) !! ls) ∧
       course_objs (heap m') = course_objs (heap m) ∧
       students (datastore m') = students (datastore m) ∧
       instructors (datastore m') = instructors (datastore m) ∧
       courses (datastore m') = delete cid (courses (datastore m)) ∧
       MemoryDataManager.get_course cid m'
         = (Raise (DataError (NotFound ECourse cid)), m')) ∧
  graph_ok (MemoryDataManager.remove_course cid m).2 ∧
  graph_nodup (MemoryDataManager.remove_course cid m).2.
Proof.
  intros Hok Hnd. split_and!; [| |by apply remove_course_keeps..].
  - intros Hdc. unfold MemoryDataManager.remove_course, bind, gets. by rewrite Hdc.
  - intros lc c i Hdc Hc Hi.
    destruct (ok_courses _ Hok cid lc Hdc)
      as (c' & i' & Hc' & Hcid & _ & _ & Hi' & Hdi & Hin & Hens).
    simplify_eq. destruct Hnd as (Hns & Hni & Hnc).
    destruct (remove_course_run m lc c i Hdc Hc Hi Hin)
      as (m' & Hrun & Hi2 & Hs2 & Hc2 & Hds2 & Hdi2 & Hdc2).
    { by eapply Hni. }
    { by eapply Hnc. }
    { intros ls Hls. destruct (Hens ls Hls) as (s & Hs & Hds & Hreg).
      exists s. split_and!; try done. by eapply Hns. }
    exists m'. split_and!; try done.
    unfold MemoryDataManager.get_course, bind, gets. by rewrite Hdc2, lookup_delete_eq.
Qed.

End KeepsInvariants.

(** ** Constructors and stored fields *)

(** X1.  The fields that the constructors store are canonical: building a
    [Person], a [Student] or an [Instructor] again from the fields of a built
    one succeeds and gives the same object, and the identifier that [Course]
    stores (stripped, upper-case) passes the check of the given one and is
    stored unchanged when given again. *)
Theorem constructed_entities_revalidate `{Validator} :
  (∀ n a e p, Person_init n a e = Ok p →
     Person_init (name p) (age p) (_email p) = Ok p) ∧
  (∀ n a e sid s, Student_init n a e sid = Ok s →
     student_id s = PyStr.strip sid ∧
     Student_init (name (student_person s)) (age (student_person s))
                  (_email (student_person s)) (student_id s) = Ok s) ∧
  (∀ n a e iid i, Instructor_init n a e iid = Ok i →
     instructor_id i = iid ∧
     Instructor_init (name (instructor_person i)) (age (instructor_person i))
                     (_email (instructor_person i)) (instructor_id i) = Ok i) ∧
  (∀ cid, check_course_id (PyStr.strip cid) = true →
     check_course_id (PyStr.strip (PyStr.upper (PyStr.strip cid))) = true ∧
     PyStr.upper (PyStr.strip (PyStr.upper (PyStr.strip cid))) = PyStr.upper (PyStr.strip cid)).
Proof.
  split_and!.
  - intros n a e p Hinit. by apply Person_init_canonical in Hinit.
  - intros n a e sid s Hinit.
    destruct (Student_init_canonical _ _ _ _ _ Hinit) as (Hp & [Hid Hstrip] & Hsid & Hregs & _).
    split; [done|]. unfold Student_init. unfold person_ok in Hp. rewrite Hp, Hid. simpl.
    rewrite Hstrip. destruct s. simpl in *. by rewrite Hregs.
  - intros n a e iid i Hinit.
    destruct (Instructor_init_canonical _ _ _ _ _ Hinit) as (Hp & Hid & Hiid & Hassigned & _).
    split; [done|]. unfold Instructor_init. unfold person_ok in Hp.
    unfold instructor_id_ok in Hid. rewrite Hp, Hid. simpl.
    destruct i. simpl in *. by rewrite Hassigned.
  - intros cid Hid. apply (course_id_canonical cid Hid).
Qed.

Lemma constructed_entities_revalidate_witness :
  Student_init (H:=Fallback.validator) "John Doe" 20 "john.doe@lau.edu" "202401111"
    = Ok (mkStudent (mkPerson "John Doe" 20 "john.doe@lau.edu") "202401111" []) ∧
  check_course_id (PyStr.strip "EECE230") = true.
Proof.
  destruct (constructed_entities_revalidate (H:=Fallback.validator))
    as (_ & Hstudent & _ & Hcourse).
  split.
  - apply (Hstudent "  John Doe " 20 " john.doe@lau.edu" " 202401111 "
             (mkStudent (mkPerson "John Doe" 20 "john.doe@lau.edu") "202401111" [])).
    vm_compute. reflexivity.
  - apply (Hcourse " eece230 "). vm_compute. reflexivity.
Defined.

(** ** Adding, then looking up *)

(** X7.  A student added with valid fields under a new identifier is stored
    under the stripped identifier: [get_student] of the stripped identifier
    returns the new object, every other identifier resolves as before, the
    same [add_student] again fails with [AlreadyExists], and, look-ups not
    being stripped, [get_student] of an identifier given with surrounding
    white space fails with [NotFound]. *)
Theorem add_student_then_get `{Validator} (m : Mem) (n : string) (a : Z) (e sid : string)
    (s : Student) :
  Student_init n a e sid = Ok s →
  students (datastore m) !! PyStr.strip sid = None →
  ∃ m', MemoryDataManager.add_student n a e sid m = (Ok tt, m') ∧
        MemoryDataManager.get_student (PyStr.strip sid) m'
          = (Ok (length (student_objs (heap m))), m') ∧
        student_at m' (PyStr.strip sid) = Some s ∧
        (∀ k, k ≠ PyStr.strip sid →
              students (datastore m') !! k = students (datastore m) !! k) ∧
        MemoryDataManager.add_student n a e sid m'
          = (Raise (DataError (AlreadyExists EStudent (PyStr.strip sid))), m') ∧
        (PyStr.strip sid ≠ sid → students (datastore m) !! sid = None →
         MemoryDataManager.get_student sid m'
           = (Raise (DataError (NotFound EStudent sid)), m')).
Proof.
  intros Hinit Hnew.
  destruct (Student_init_canonical _ _ _ _ _ Hinit) as (_ & _ & Hsid & _).
  rewrite <- Hsid in *.
  rewrite (add_student_fresh m n a e sid s Hinit Hnew). eexists. split; [done|].
  destruct m as [[hs hi hc] [ds di dc]]. simpl in *.
  split_and!.
  - unfold MemoryDataManager.get_student, bind, gets. simpl. by rewrite lookup_insert_eq.
  - unfold student_at. simpl. rewrite lookup_insert_eq. simpl.
    by rewrite list_lookup_middle.
  - intros k Hk. simpl. by rewrite lookup_insert_ne.
  - unfold MemoryDataManager.add_student, bind, try_except, lift_result, gets.
    rewrite Hinit. simpl. rewrite lookup_insert_eq.
    by rewrite bool_decide_true by eauto.
  - intros Hne Habsent. unfold MemoryDataManager.get_student, bind, gets. simpl.
    rewrite lookup_insert_ne by done. by rewrite Habsent.
Qed.

Lemma add_student_then_get_witness :
  ∃ m', MemoryDataManager.add_student (H:=Fallback.validator)
          "Jane Dane" 21 "jane.dane@lau.edu" " 202302222" Scenario.campus = (Ok tt, m') ∧
        MemoryDataManager.get_student "202302222" m' = (Ok 1%nat, m') ∧
        MemoryDataManager.get_student " 202302222" m'
          = (Raise (DataError (NotFound EStudent " 202302222")), m').
Proof.
  destruct (add_student_then_get (H:=Fallback.validator) Scenario.campus
              "Jane Dane" 21 "jane.dane@lau.edu" " 202302222"
              (mkStudent (mkPerson "Jane Dane" 21 "jane.dane@lau.edu") "202302222" []))
    as (m' & Hadd & Hget & _ & _ & _ & Hraw).
  - vm_compute. reflexivity.
  - vm_compute. reflexivity.
  - exists m'. split_and!; [exact Hadd|exact Hget|].
    apply Hraw; [vm_compute; discriminate|vm_compute; reflexivity].
Defined.

(** X8.  In a graph that satisfies the invariants, a course added with
    valid fields, for an instructor of the graph, under an identifier that is
    not taken is stored under the stripped, upper-cased identifier and
    appended to its instructor's [assigned_courses]; look-ups are not
    upper-cased, so [get_course] of the identifier as it was given fails with
    [NotFound] when it differs. *)
Theorem add_course_then_get `{Validator} (m : Mem) (cid cname : string) (li : loc)
    (i : Instructor) :
  graph_ok m →
  check_course_id (PyStr.strip cid) = true → check_course_name (PyStr.strip cname) = true →
  instructor_objs (heap m) !! li = Some i →
  instructors (datastore m) !! instructor_id i = Some li →
  courses (datastore m) !! PyStr.upper (PyStr.strip cid) = None →
  ∃ m', MemoryDataManager.add_course cid cname li m = (Ok tt, m') ∧
        MemoryDataManager.get_course (PyStr.upper (PyStr.strip cid)) m'
          = (Ok (length (course_objs (heap m))), m') ∧
        course_at m' (PyStr.upper (PyStr.strip cid))
          = Some (mkCourse (PyStr.upper (PyStr.strip cid)) cname li []) ∧
        instructor_at m' (instructor_id i)
          = Some (mkInstructor (instructor_person i) (instructor_id i)
                               (assigned_courses i ++ [length (course_objs (heap m))])) ∧
        (PyStr.upper (PyStr.strip cid) ≠ cid → courses (datastore m) !! cid = None →
         MemoryDataManager.get_course cid m'
           = (Raise (DataError (NotFound ECourse cid)), m')).
Proof.
  intros Hok Hid Hname Hi Hdi Hnew.
  rewrite (add_course_fresh m cid cname li i) by done. eexists. split; [done|].
  destruct m as [[hs hi hc] [ds di dc]]. simpl in *.
  split_and!.
  - unfold MemoryDataManager.get_course, bind, gets. simpl. by rewrite lookup_insert_eq.
  - unfold course_at. simpl. rewrite lookup_insert_eq. simpl.
    by rewrite list_lookup_middle.
  - unfold instructor_at. simpl. rewrite Hdi. simpl.
    apply list_lookup_insert_eq. by eapply lookup_lt_Some.
  - intros Hne Habsent. unfold MemoryDataManager.get_course, bind, gets. simpl.
    rewrite lookup_insert_ne by done. by rewrite Habsent.
Qed.

Lemma add_course_then_get_witness :
  ∃ m', MemoryDataManager.add_course
          "math201" "Calculus III" Scenario.jones Scenario.campus = (Ok tt, m') ∧
        MemoryDataManager.get_course "MATH201" m' = (Ok 1%nat, m') ∧
        MemoryDataManager.get_course "math201" m'
          = (Raise (DataError (NotFound ECourse "math201")), m').
Proof.
  destruct (add_course_then_get (H:=Fallback.validator) Scenario.campus
              "math201" "Calculus III" Scenario.jones Scenario.jones_obj)
    as (m' & Hadd & Hget & _ & _ & Hraw).
  - exact campus_graph_ok.
  - vm_compute. reflexivity.
  - vm_compute. reflexivity.
  - vm_compute. reflexivity.
  - vm_compute. reflexivity.
  - vm_compute. reflexivity.
  - exists m'. split_and!; [exact Hadd|exact Hget|].
    apply Hraw; [vm_compute; discriminate|vm_compute; reflexivity].
Defined.

(** ** A failed edit *)

(** X9.  [edit_student] is not atomic: when the new name is valid and the
    new age is not, the call raises [DataError] for the age, and the student
    keeps the new (stripped) name, with the old age and e-mail address. *)
Theorem failed_edit_keeps_earlier_fields `{Validator} (m : Mem) (sid : string) (l : loc)
    (s : Student) (n : string) (a : Z) (e : option string) :
  PyStr.truthy sid = true →
  students (datastore m) !! sid = Some l → student_objs (heap m) !! l = Some s →
  PyStr.truthy n = true → check_name (PyStr.strip n) = true →
  a ≠ 0 → check_age a = false →
  ∃ m', MemoryDataManager.edit_student (Some sid) (mkPersonKwargs (Some n) (Some a) e) m
          = (Raise (DataError (FromValueError "Invalid Age.")), m') ∧
        student_at m' sid
          = Some (mkStudent (mkPerson (PyStr.strip n) (age (student_person s))
                                      (_email (student_person s)))
                            (student_id s) (registered_courses s)).
Proof.
  intros Hsid Hl Hs Hn Hname Ha Hage.
  unfold MemoryDataManager.edit_student, truthy_str. rewrite Hsid.
  unfold bind, gets. rewrite Hl.
  unfold try_except, in_heap, zoom, Student_update, bind, deref. rewrite Hs.
  unfold Person_update, bind, truthy_str, truthy_int.
  cbn [kw_name kw_age kw_email]. rewrite Hn, Hname. simpl.
  rewrite (proj2 (Z.eqb_neq a 0) Ha), Hage. simpl.
  eexists. split; [done|]. unfold student_at. simpl. rewrite Hl. simpl.
  apply list_lookup_insert_eq. by eapply lookup_lt_Some.
Qed.

Lemma failed_edit_keeps_earlier_fields_witness :
  ∃ m', MemoryDataManager.edit_student (H:=Fallback.validator) (Some "202401111")
          (mkPersonKwargs (Some "Johnny Doe") (Some 200) None) Scenario.campus
          = (Raise (DataError (FromValueError "Invalid Age.")), m') ∧
        student_at m' "202401111"
          = Some (mkStudent (mkPerson "Johnny Doe" 20 "john.doe@lau.edu") "202401111"
                            [Scenario.eece230]).
Proof.
  apply (failed_edit_keeps_earlier_fields (H:=Fallback.validator) Scenario.campus
           "202401111" Scenario.john Scenario.john_obj "Johnny Doe" 200 None);
    try (vm_compute; reflexivity).
  vm_compute. discriminate.
Defined.

(** ** The invariants, at the scenario *)

Lemma campus_graph_nodup : graph_nodup Scenario.campus.
Proof.
  split_and!; intros k l o Hl Ho; apply elem_of_map_to_list in Hl; vm_compute in Hl;
    entries Hl; vm_compute in Ho; injection Ho as <-;
    repeat (apply NoDup_cons_2; [by apply not_elem_of_nil|]); apply NoDup_nil_2.
Qed.

Lemma add_person_keeps_invariants_witness :
  graph_ok (H:=Fallback.validator)
    (MemoryDataManager.add_student (H:=Fallback.validator) "Jane Dane" 21 "jane.dane@lau.edu" "202302222"
       Scenario.campus).2 ∧
  graph_ok (H:=Fallback.validator)
    (MemoryDataManager.add_instructor (H:=Fallback.validator) "Jane Dane" 21 "jane.dane@lau.edu" "202302222"
       Scenario.campus).2.
Proof.
  destruct (add_person_keeps_invariants (H:=Fallback.validator) Scenario.campus
              "Jane Dane" 21 "jane.dane@lau.edu" "202302222"
              campus_graph_ok campus_graph_nodup) as [[Hs _] [Hi _]].
  by split.
Defined.


(** The scenario with the second student satisfies the invariants. *)
Lemma with_jane_graph_ok : graph_ok (H:=Fallback.validator) Scenario.with_jane.
Proof.
  split; intros k l Hl; apply elem_of_map_to_list in Hl; vm_compute in Hl; entries Hl.
  - exists Scenario.jane_obj. split_and!; try (by vm_compute).
    intros lc Hin. vm_compute in Hin. entries Hin.
  - exists Scenario.john_obj. split_and!; try (by vm_compute).
    intros lc Hin. vm_compute in Hin. entries Hin.
    exists Scenario.eece230_obj. split_and!; try (by vm_compute).
    vm_compute. apply list_elem_of_here.
  - exists Scenario.jones_obj. split_and!; try (by vm_compute).
    intros lc Hin. vm_compute in Hin. entries Hin.
  - exists Scenario.smith_obj. split_and!; try (by vm_compute).
    intros lc Hin. vm_compute in Hin. entries Hin.
    exists Scenario.eece230_obj. split_and!; by vm_compute.
  - exists Scenario.eece230_obj, Scenario.smith_obj. split_and!; try (by vm_compute).
    + vm_compute. apply list_elem_of_here.
    + intros lc Hin. vm_compute in Hin. entries Hin.
      exists Scenario.john_obj. split_and!; try (by vm_compute).
      vm_compute. apply list_elem_of_here.
Qed.

Lemma with_jane_graph_nodup : graph_nodup Scenario.with_jane.
Proof.
  split_and!; intros k l o Hl Ho; apply elem_of_map_to_list in Hl; vm_compute in Hl;
    entries Hl; vm_compute in Ho; injection Ho as <-;
    repeat (apply NoDup_cons_2; [by apply not_elem_of_nil|]); apply NoDup_nil_2.
Qed.

Lemma enroll_student_keeps_invariants_witness :
  ∃ m', MemoryDataManager.enroll_student "202302222" "EECE230" Scenario.with_jane
          = (Ok tt, m') ∧
        registered_courses <$> student_at Scenario.with_jane "202302222" = Some [] ∧
        registered_courses <$> student_at m' "202302222" = Some [Scenario.eece230] ∧
        enrolled_students <$> course_at m' "EECE230" = Some [Scenario.john; Scenario.jane] ∧
        graph_ok (H:=Fallback.validator) m' ∧ graph_nodup m'.
Proof.
  destruct (enroll_student_keeps_invariants (H:=Fallback.validator) Scenario.with_jane
              "202302222" "EECE230" with_jane_graph_ok with_jane_graph_nodup)
    as (_ & _ & Hrun & Hok & Hnd).
  specialize (Hrun Scenario.jane Scenario.eece230 Scenario.jane_obj Scenario.eece230_obj).
  rewrite Hrun in Hok, Hnd |- * by (vm_compute; reflexivity).
  eexists. split_and!; [reflexivity|vm_compute; reflexivity..|exact Hok|exact Hnd].
Defined.

Lemma edit_person_keeps_invariants_witness :
  graph_ok (H:=Fallback.validator)
    (MemoryDataManager.edit_student (H:=Fallback.validator) (Some "202401111")
       (mkPersonKwargs (Some "Johnny Doe") (Some 200) None) Scenario.campus).2.
Proof.
  destruct (edit_person_keeps_invariants (H:=Fallback.validator) Scenario.campus
              (Some "202401111") (mkPersonKwargs (Some "Johnny Doe") (Some 200) None)
              campus_graph_ok campus_graph_nodup) as [[Hs _] _].
  exact Hs.
Defined.

Lemma remove_course_keeps_invariants_witness :
  ∃ m', MemoryDataManager.remove_course "EECE230" Scenario.campus = (Ok tt, m') ∧
        assigned_courses <$> instructor_at m' "199801234" = Some [] ∧
        registered_courses <$> student_at m' "202401111" = Some [] ∧
        MemoryDataManager.get_course "EECE230" m'
          = (Raise (DataError (NotFound ECourse "EECE230")), m') ∧
        graph_ok (H:=Fallback.validator) m' ∧ graph_nodup m'.
Proof.
  destruct (remove_course_keeps_invariants (H:=Fallback.validator) Scenario.campus
              "EECE230" campus_graph_ok campus_graph_nodup) as (_ & Hrun & Hok & Hnd).
  destruct (Hrun Scenario.eece230 Scenario.eece230_obj Scenario.smith_obj)
    as (m' & Hrm & Hi & Hs & _ & Hds & Hdi & _ & Hget); [vm_compute; reflexivity..|].
  rewrite Hrm in Hok, Hnd. exists m'. split_and!; [exact Hrm| | |exact Hget|exact Hok|exact Hnd].
  - unfold instructor_at. rewrite Hdi, Hi. vm_compute; reflexivity.
  - unfold student_at. rewrite Hds.
    replace (students (datastore Scenario.campus) !! "202401111") with (Some Scenario.john)
      by (vm_compute; reflexivity).
    simpl. rewrite Hs. vm_compute; reflexivity.
Defined.

(** ** The relational store keeps its constraints *)

Lemma find_person_Some id rows r :
  DatabaseManager.find_person id rows = Some r → r ∈ rows ∧ person_row_id r = id.
Proof.
  unfold DatabaseManager.find_person. intros Hfind.
  destruct (list_find _ rows) as [[i r']|] eqn:Hl; simplify_eq/=.
  apply list_find_Some in Hl as (Hi & Hid & _). split; [by eapply list_elem_of_lookup_2|done].
Qed.

Lemma find_person_None id rows :
  DatabaseManager.find_person id rows = None ↔ id ∉ person_row_id <$> rows.
Proof.
  unfold DatabaseManager.find_person. split.
  - intros Hfind Hin. destruct (list_find _ rows) as [[i r']|] eqn:Hl; simplify_eq/=.
    apply list_find_None in Hl. apply list_elem_of_fmap in Hin as (r & -> & Hr).
    by eapply Forall_forall in Hl.
  - intros Hnin. destruct (list_find _ rows) as [[i r']|] eqn:Hl; [|done].
    apply list_find_Some in Hl as (Hi & Hid & _). exfalso. apply Hnin.
    apply list_elem_of_fmap. exists r'. split; [done|by eapply list_elem_of_lookup_2].
Qed.

Lemma find_person_is_Some id rows :
  is_Some (DatabaseManager.find_person id rows) ↔ id ∈ person_row_id <$> rows.
Proof.
  destruct (DatabaseManager.find_person id rows) as [r|] eqn:Hfind.
  - split; [|by eexists]. intros _. apply find_person_Some in Hfind as [Hr <-].
    apply list_elem_of_fmap. by exists r.
  - split; [by intros [? ?]|]. intros Hin. by apply find_person_None in Hfind.
Qed.

Lemma find_course_Some id rows r :
  DatabaseManager.find_course id rows = Some r → r ∈ rows ∧ course_row_id r = id.
Proof.
  unfold DatabaseManager.find_course. intros Hfind.
  destruct (list_find _ rows) as [[i r']|] eqn:Hl; simplify_eq/=.
  apply list_find_Some in Hl as (Hi & Hid & _). split; [by eapply list_elem_of_lookup_2|done].
Qed.

Lemma find_course_None id rows :
  DatabaseManager.find_course id rows = None ↔ id ∉ course_row_id <$> rows.
Proof.
  unfold DatabaseManager.find_course. split.
  - intros Hfind Hin. destruct (list_find _ rows) as [[i r']|] eqn:Hl; simplify_eq/=.
    apply list_find_None in Hl. apply list_elem_of_fmap in Hin as (r & -> & Hr).
    by eapply Forall_forall in Hl.
  - intros Hnin. destruct (list_find _ rows) as [[i r']|] eqn:Hl; [|done].
    apply list_find_Some in Hl as (Hi & Hid & _). exfalso. apply Hnin.
    apply list_elem_of_fmap. exists r'. split; [done|by eapply list_elem_of_lookup_2].
Qed.

Lemma find_course_is_Some id rows :
  is_Some (DatabaseManager.find_course id rows) ↔ id ∈ course_row_id <$> rows.
Proof.
  destruct (DatabaseManager.find_course id rows) as [r|] eqn:Hfind.
  - split; [|by eexists]. intros _. apply find_course_Some in Hfind as [Hr <-].
    apply list_elem_of_fmap. by exists r.
  - split; [by intros [? ?]|]. intros Hin. by apply find_course_None in Hfind.
Qed.

Lemma update_person_ids id kw rows :
  person_row_id <$> DatabaseManager.update_person id kw rows = person_row_id <$> rows.
Proof.
  unfold DatabaseManager.update_person. rewrite <- list_fmap_compose.
  apply list_fmap_ext. intros i [[[n a] e] k] _. simpl. by case_decide.
Qed.

Lemma NoDup_snoc_fresh {A} (xs : list A) (x : A) : NoDup xs → x ∉ xs → NoDup (xs ++ [x]).
Proof.
  intros Hnd Hx. apply NoDup_app. split_and!; [done| |apply NoDup_singleton].
  intros y Hy ->%list_elem_of_singleton. done.
Qed.

Lemma elem_of_filter_ids {A} (key : A → string) (id : string) (rows : list A) (k : string) :
  k ∈ key <$> rows → k ≠ id → k ∈ key <$> filter (λ r, key r ≠ id) rows.
Proof.
  intros (r & -> & Hr)%list_elem_of_fmap Hne. apply list_elem_of_fmap. exists r.
  split; [done|]. by apply list_elem_of_filter.
Qed.

Lemma NoDup_filter_ids {A} (key : A → string) (P : A → Prop) `{∀ x, Decision (P x)}
    (rows : list A) :
  NoDup (key <$> rows) → NoDup (key <$> filter P rows).
Proof.
  induction rows as [|r rows IH]; [done|]. rewrite fmap_cons, NoDup_cons. intros [Hr Hnd].
  rewrite filter_cons. case_decide; [|by apply IH].
  rewrite fmap_cons, NoDup_cons. split; [|by apply IH].
  intros (r' & Heq & Hr')%list_elem_of_fmap. apply Hr. apply list_elem_of_fmap.
  exists r'. split; [done|]. by apply list_elem_of_filter in Hr' as [_ ?].
Qed.

Section TablesOk.

Local Ltac tables := unfold tables_ok; cbn [snd students_t instructors_t courses_t enrollments_t].

Lemma add_student_tables_ok sid n a e t :
  tables_ok t → tables_ok (DatabaseManager.add_student sid n a e t).2.
Proof.
  intros (Hs & Hi & Hc & He & Hfk & Hen). unfold DatabaseManager.add_student.
  destruct (sqlite_integer a); cbn [negb]; [|done].
  destruct (DatabaseManager.find_person sid (students_t t)) eqn:Hfind; [done|]. tables.
  apply find_person_None in Hfind.
  split_and!; try done.
  - rewrite fmap_app. by apply NoDup_snoc_fresh.
  - intros e' He'. destruct (Hen e' He') as [H1 H2]. split; [|done].
    rewrite fmap_app. apply elem_of_app. by left.
Qed.

Lemma update_student_tables_ok sid kw t :
  tables_ok t → tables_ok (DatabaseManager.update_student sid kw t).2.
Proof.
  intros (Hs & Hi & Hc & He & Hfk & Hen). unfold DatabaseManager.update_student.
  destruct (DatabaseManager.no_person_fields kw); [done|].
  destruct (DatabaseManager.binds_age kw); cbn [negb]; [|done]. tables.
  split_and!; try done; tables; by rewrite update_person_ids.
Qed.

Lemma delete_student_tables_ok sid t :
  tables_ok t → tables_ok (DatabaseManager.delete_student sid t).2.
Proof.
  intros (Hs & Hi & Hc & He & Hfk & Hen). unfold DatabaseManager.delete_student. tables.
  split_and!; try done; tables.
  - by apply NoDup_filter_ids.
  - by apply NoDup_filter.
  - intros e (Hne & He')%list_elem_of_filter. destruct (Hen e He') as [H1 H2].
    split; [|done]. by apply elem_of_filter_ids.
Qed.

Lemma add_instructor_tables_ok iid n a e t :
  tables_ok t → tables_ok (DatabaseManager.add_instructor iid n a e t).2.
Proof.
  intros (Hs & Hi & Hc & He & Hfk & Hen). unfold DatabaseManager.add_instructor.
  destruct (sqlite_integer a); cbn [negb]; [|done].
  destruct (DatabaseManager.find_person iid (instructors_t t)) eqn:Hfind; [done|]. tables.
  apply find_person_None in Hfind.
  split_and!; try done.
  - rewrite fmap_app. by apply NoDup_snoc_fresh.
  - intros c Hc'. simpl. rewrite fmap_app. apply elem_of_app. left. by apply Hfk.
Qed.

Lemma update_instructor_tables_ok iid kw t :
  tables_ok t → tables_ok (DatabaseManager.update_instructor iid kw t).2.
Proof.
  intros (Hs & Hi & Hc & He & Hfk & Hen). unfold DatabaseManager.update_instructor.
  destruct (DatabaseManager.no_person_fields kw); [done|].
  destruct (DatabaseManager.binds_age kw); cbn [negb]; [|done]. tables.
  split_and!; try done; tables; rewrite update_person_ids; done.
Qed.

Lemma delete_instructor_tables_ok iid t :
  tables_ok t → tables_ok (DatabaseManager.delete_instructor iid t).2.
Proof.
  intros (Hs & Hi & Hc & He & Hfk & Hen). unfold DatabaseManager.delete_instructor.
  case_bool_decide as Hused; [done|]. tables.
  split_and!; try done; tables.
  - by apply NoDup_filter_ids.
  - intros c Hc'. apply elem_of_filter_ids; [by apply Hfk|].
    intros Heq. apply Hused. apply Exists_exists. by exists c.
Qed.

Lemma add_course_tables_ok cid cname iid t :
  tables_ok t → tables_ok (DatabaseManager.add_course cid cname iid t).2.
Proof.
  intros (Hs & Hi & Hc & He & Hfk & Hen). unfold DatabaseManager.add_course.
  destruct (DatabaseManager.find_course cid (courses_t t)) eqn:Hfind; [done|].
  destruct (DatabaseManager.find_person iid (instructors_t t)) eqn:Hinstr; [|done]. tables.
  apply find_course_None in Hfind.
  split_and!; try done; tables.
  - rewrite fmap_app. by apply NoDup_snoc_fresh.
  - intros c [Hc'| ->%list_elem_of_singleton]%elem_of_app; [by apply Hfk|].
    apply find_person_is_Some. by eexists.
  - intros e' He'. destruct (Hen e' He') as [H1 H2]. split; [done|].
    rewrite fmap_app. apply elem_of_app. by left.
Qed.

Lemma update_course_tables_ok cid kw t :
  tables_ok t → tables_ok (DatabaseManager.update_course cid kw t).2.
Proof.
  intros (Hs & Hi & Hc & He & Hfk & Hen). unfold DatabaseManager.update_course.
  assert (∀ name iid,
    course_row_id <$>
      ((λ r : course_row,
          if decide (course_row_id r = cid)
          then (r.1.1, default r.1.2 name, default r.2 iid) else r) <$> courses_t t)
    = course_row_id <$> courses_t t) as Hids.
  { intros name iid. rewrite <- list_fmap_compose. apply list_fmap_ext.
    intros i [[k cn] ii] _. simpl. by case_decide. }
  destruct kw as [name iid].
  cbn [DatabaseManager.f_course_name DatabaseManager.f_instructor_id].
  destruct name as [name|], iid as [iid|]; cbn beta iota zeta; try done.
  all: repeat case_bool_decide; cbn [andb negb]; try done.
  all: tables; split_and!; try done; rewrite ?Hids; try done.
  all: intros c (c' & -> & Hc')%list_elem_of_fmap; case_decide as Hid; [|by apply Hfk].
  all: cbn [course_row_instructor snd default]; try (by apply (Hfk c')).
  all: try (by apply find_person_is_Some).
  all: exfalso; match goal with Hn : ¬ is_Some (DatabaseManager.find_course _ _) |- _ => apply Hn end.
  all: apply find_course_is_Some, list_elem_of_fmap; by exists c'.
Qed.

Lemma delete_course_tables_ok cid t :
  tables_ok t → tables_ok (DatabaseManager.delete_course cid t).2.
Proof.
  intros (Hs & Hi & Hc & He & Hfk & Hen). unfold DatabaseManager.delete_course. tables.
  split_and!; try done; tables.
  - by apply NoDup_filter_ids.
  - by apply NoDup_filter.
  - intros c (_ & Hc')%list_elem_of_filter. by apply Hfk.
  - intros e (Hne & He')%list_elem_of_filter. destruct (Hen e He') as [H1 H2].
    split; [done|]. by apply elem_of_filter_ids.
Qed.

Lemma enroll_student_tables_ok sid cid t :
  tables_ok t → tables_ok (DatabaseManager.enroll_student sid cid t).2.
Proof.
  intros (Hs & Hi & Hc & He & Hfk & Hen). unfold DatabaseManager.enroll_student.
  case_bool_decide as Hin; [done|]. case_bool_decide as Hfks; [|done]. tables.
  destruct Hfks as [Hsf Hcf].
  split_and!; try done; tables.
  - by apply NoDup_snoc_fresh.
  - intros e [He'| ->%list_elem_of_singleton]%elem_of_app; [by apply Hen|]. tables.
    split; [by apply find_person_is_Some|by apply find_course_is_Some].
Qed.

Lemma clear_all_tables_ok t : tables_ok (DatabaseManager.clear_all_tables t).2.
Proof.
  simpl. split_and!; try apply NoDup_nil_2; intros x Hx; by apply elem_of_nil in Hx.
Qed.

End TablesOk.

Lemma keeps_ret {A} (a : A) : keeps_constraints (ret a).
Proof. by intros d. Qed.

Lemma keeps_raise {A} (e : exn) : keeps_constraints (raise (A:=A) e).
Proof. by intros d. Qed.

Lemma keeps_lift_result {A} (r : result A) : keeps_constraints (lift_result r).
Proof. by intros d. Qed.

Lemma keeps_gets {A} (f : Db → A) : keeps_constraints (gets f).
Proof. by intros d. Qed.

Lemma keeps_bind {A B} (m : M Db A) (k : A → M Db B) :
  keeps_constraints m → (∀ a, keeps_constraints (k a)) → keeps_constraints (bind m k).
Proof.
  intros Hm Hk d Hd. unfold bind. specialize (Hm d Hd).
  destruct (m d) as [[a|e] d']; [by apply Hk|done].
Qed.

Lemma keeps_try {A} (m : M Db A) (h : exn → option (M Db A)) :
  keeps_constraints m → (∀ e k, h e = Some k → keeps_constraints k) →
  keeps_constraints (try_except m h).
Proof.
  intros Hm Hh d Hd. unfold try_except. specialize (Hm d Hd).
  destruct (m d) as [[a|e] d']; [done|].
  destruct (h e) as [k|] eqn:He; [|done]. by apply (Hh e k).
Qed.

Lemma keeps_for_each {A} (xs : list A) (body : A → M Db unit) :
  (∀ x, keeps_constraints (body x)) → keeps_constraints (for_each xs body).
Proof.
  intros Hbody. induction xs as [|x xs IH]; [apply keeps_ret|].
  simpl. apply keeps_bind; [apply Hbody|by intros _].
Qed.

Lemma keeps_sqlite_handler {A} e (k : M Db A) :
  sqlite_error_to_data_error e = Some k → keeps_constraints k.
Proof. destruct e; intros [= <-]. apply keeps_raise. Qed.

Lemma keeps_value_handler {A} e (k : M Db A) :
  value_error_to_data_error e = Some k → keeps_constraints k.
Proof. destruct e; intros [= <-]; apply keeps_raise. Qed.

Lemma keeps_in_dbm {A} (m : M Tables A) :
  (∀ t, tables_ok t → tables_ok (m t).2) → keeps_constraints (in_dbm m).
Proof.
  intros Hm d Hd. unfold in_dbm, zoom. specialize (Hm _ Hd).
  by destruct (m (dbm d)).
Qed.

Lemma keeps_in_db_heap {A} (m : M Heap A) : keeps_constraints (in_db_heap m).
Proof. intros d Hd. unfold in_db_heap, zoom. by destruct (m (db_heap d)). Qed.

Lemma keeps_on_file_manager {A} (fm : FileManager) (m : M Mem A) :
  keeps_constraints (on_file_manager fm m).
Proof. intros d Hd. unfold on_file_manager. by destruct (m _). Qed.

Lemma keeps_get {A} (f : Tables → A) t : tables_ok t → tables_ok (gets f t).2.
Proof. done. Qed.

Ltac keeps_step :=
  first
    [ apply keeps_ret | apply keeps_raise | apply keeps_lift_result | apply keeps_gets
    | apply keeps_in_db_heap | apply keeps_on_file_manager
    | apply keeps_in_dbm;
      first [ apply add_student_tables_ok | apply update_student_tables_ok
            | apply delete_student_tables_ok | apply add_instructor_tables_ok
            | apply update_instructor_tables_ok | apply delete_instructor_tables_ok
            | apply add_course_tables_ok | apply update_course_tables_ok
            | apply delete_course_tables_ok | apply enroll_student_tables_ok
            | (intros ? _; apply clear_all_tables_ok) | apply keeps_get ]
    | apply keeps_for_each; intros ?
    | apply keeps_bind; [|intros ?]
    | apply keeps_try;
      [|intros ? ?; first [ apply keeps_sqlite_handler | apply keeps_value_handler ]]
    | case_match ].

Ltac keeps := repeat keeps_step.

Section StoreKeepsConstraints.
Context `{Validator}.

Lemma import_with_keeps (load : M Mem unit) :
  keeps_constraints (DatabaseDataManager.import_with load).
Proof.
  unfold DatabaseDataManager.import_with, DatabaseDataManager._populate_db_from_file_manager.
  keeps.
Qed.

(** X10.  Every operation of the persistent manager that writes to the
    store keeps the constraints of the schema, whether it succeeds or
    raises: unique primary keys, every course's instructor a row of
    [instructors], every enrollment's student and course rows of [students]
    and [courses]. *)
Theorem store_keeps_the_schema_constraints (d : Db) :
  tables_ok (dbm d) →
  (∀ n a e id, tables_ok (dbm (DatabaseDataManager.add_student n a e id d).2) ∧
               tables_ok (dbm (DatabaseDataManager.add_instructor n a e id d).2)) ∧
  (∀ id kw, tables_ok (dbm (DatabaseDataManager.edit_student id kw d).2) ∧
            tables_ok (dbm (DatabaseDataManager.edit_instructor id kw d).2)) ∧
  (∀ id, tables_ok (dbm (DatabaseDataManager.remove_student id d).2) ∧
         tables_ok (dbm (DatabaseDataManager.remove_instructor id d).2) ∧
         tables_ok (dbm (DatabaseDataManager.remove_course id d).2)) ∧
  (∀ cid cname li, tables_ok (dbm (DatabaseDataManager.add_course cid cname li d).2)) ∧
  (∀ kw, tables_ok (dbm (DatabaseDataManager.edit_course kw d).2)) ∧
  (∀ sid cid, tables_ok (dbm (DatabaseDataManager.enroll_student sid cid d).2)) ∧
  (∀ file, tables_ok (dbm (DatabaseDataManager.data_from_json file d).2)) ∧
  (∀ dir, tables_ok (dbm (DatabaseDataManager.data_from_csv dir d).2)).
Proof.
  intros Hd.
  assert (∀ A (op : M Db A), keeps_constraints op → tables_ok (dbm (op d).2)) as Hop.
  { intros A op Hk. by apply Hk. }
  split_and!; intros.
  - split; apply Hop.
    + unfold DatabaseDataManager.add_student. keeps.
    + unfold DatabaseDataManager.add_instructor. keeps.
  - split; apply Hop.
    + unfold DatabaseDataManager.edit_student. keeps.
    + unfold DatabaseDataManager.edit_instructor. keeps.
  - split_and!; apply Hop.
    + unfold DatabaseDataManager.remove_student. keeps.
    + unfold DatabaseDataManager.remove_instructor. keeps.
    + unfold DatabaseDataManager.remove_course. keeps.
  - apply Hop. unfold DatabaseDataManager.add_course. keeps.
  - apply Hop. unfold DatabaseDataManager.edit_course. keeps.
  - apply Hop. unfold DatabaseDataManager.enroll_student. keeps.
  - unfold DatabaseDataManager.data_from_json.
    pose proof (import_with_keeps (FileManager.load_from_json file) d Hd) as Hk.
    destruct (DatabaseDataManager.import_with _ d) as [[[]|e] d']; [done|]. by destruct e.
  - unfold DatabaseDataManager.data_from_csv.
    pose proof (import_with_keeps (FileManager.load_from_csv dir) d Hd) as Hk.
    destruct (DatabaseDataManager.import_with _ d) as [[[]|e] d']; [done|]. by destruct e.
Qed.

End StoreKeepsConstraints.

(** ** Removing from the relational store *)

Lemma find_person_filter_ne id k rows :
  k ≠ id →
  DatabaseManager.find_person k (filter (λ r, person_row_id r ≠ id) rows)
  = DatabaseManager.find_person k rows.
Proof.
  intros Hne. unfold DatabaseManager.find_person.
  induction rows as [|r rows IH]; [done|].
  rewrite filter_cons. case_decide as Hr.
  - simpl. case_decide; [done|].
    destruct (list_find _ (filter _ rows)) as [[i x]|], (list_find _ rows) as [[j y]|];
      simpl in *; congruence.
  - rewrite IH. simpl. rewrite decide_False by congruence.
    by destruct (list_find _ rows) as [[j y]|].
Qed.

Lemma find_course_filter_ne id k rows :
  k ≠ id →
  DatabaseManager.find_course k (filter (λ r, course_row_id r ≠ id) rows)
  = DatabaseManager.find_course k rows.
Proof.
  intros Hne. unfold DatabaseManager.find_course.
  induction rows as [|r rows IH]; [done|].
  rewrite filter_cons. case_decide as Hr.
  - simpl. case_decide; [done|].
    destruct (list_find _ (filter _ rows)) as [[i x]|], (list_find _ rows) as [[j y]|];
      simpl in *; congruence.
  - rewrite IH. simpl. rewrite decide_False by congruence.
    by destruct (list_find _ rows) as [[j y]|].
Qed.

Lemma find_person_filter_eq id rows :
  DatabaseManager.find_person id (filter (λ r, person_row_id r ≠ id) rows) = None.
Proof.
  apply find_person_None. intros (r & -> & Hr)%list_elem_of_fmap.
  by apply list_elem_of_filter in Hr as [? _].
Qed.

Lemma find_course_filter_eq id rows :
  DatabaseManager.find_course id (filter (λ r, course_row_id r ≠ id) rows) = None.
Proof.
  apply find_course_None. intros (r & -> & Hr)%list_elem_of_fmap.
  by apply list_elem_of_filter in Hr as [? _].
Qed.

Section StoreRemoval.
Context `{Validator}.

(** X11.  The persistent manager refuses to remove an instructor that a
    course row refers to: [remove_instructor] raises [DataError] for the
    failed foreign key and nothing changes. *)
Theorem store_remove_instructor_refused_while_teaching (d : Db) (iid : string)
    (r : person_row) (c : course_row) :
  DatabaseManager.find_person iid (instructors_t (dbm d)) = Some r →
  c ∈ courses_t (dbm d) → course_row_instructor c = iid →
  DatabaseDataManager.remove_instructor iid d
    = (Raise (DataError (FromSqlite "FOREIGN KEY constraint failed")), d).
Proof.
  intros Hfind Hc Hiid.
  unfold DatabaseDataManager.remove_instructor, try_except, bind, in_dbm, zoom,
    DatabaseManager.get_instructor, gets. simpl. rewrite Hfind. simpl.
  unfold DatabaseManager.delete_instructor.
  rewrite bool_decide_eq_true_2; [by destruct d|].
  apply Exists_exists. by exists c.
Qed.

(** X12.  Removing a student or a course from the store removes its
    enrollments with it and nothing else: the row can no longer be found,
    every other row of its table is found as before, the enrollments left are
    those of the other students (courses), the other tables are unchanged. *)
Theorem store_remove_cascades (d : Db) :
  (∀ sid r,
     DatabaseManager.find_person sid (students_t (dbm d)) = Some r →
     ∃ t', DatabaseDataManager.remove_student sid d
             = (Ok tt, mkDb (db_heap d) t' (_cache d)) ∧
           DatabaseManager.find_person sid (students_t t') = None ∧
           (∀ k, k ≠ sid → DatabaseManager.find_person k (students_t t')
                           = DatabaseManager.find_person k (students_t (dbm d))) ∧
           (∀ e, e ∈ enrollments_t t' ↔ e ∈ enrollments_t (dbm d) ∧ e.1 ≠ sid) ∧
           instructors_t t' = instructors_t (dbm d) ∧ courses_t t' = courses_t (dbm d)) ∧
  (∀ cid r,
     DatabaseManager.get_course cid (dbm d) = (Ok (Some r), dbm d) →
     ∃ t', DatabaseDataManager.remove_course cid d
             = (Ok tt, mkDb (db_heap d) t' (_cache d)) ∧
           DatabaseManager.find_course cid (courses_t t') = None ∧
           (∀ k, k ≠ cid → DatabaseManager.find_course k (courses_t t')
                           = DatabaseManager.find_course k (courses_t (dbm d))) ∧
           (∀ e, e ∈ enrollments_t t' ↔ e ∈ enrollments_t (dbm d) ∧ e.2 ≠ cid) ∧
           instructors_t t' = instructors_t (dbm d) ∧ students_t t' = students_t (dbm d)).
Proof.
  split.
  - intros sid r Hfind. eexists. split.
    + unfold DatabaseDataManager.remove_student, try_except, bind, in_dbm, zoom,
        DatabaseManager.get_student, gets. simpl. rewrite Hfind. simpl. reflexivity.
    + simpl. split_and!; try done.
      * apply find_person_filter_eq.
      * intros k Hk. by apply find_person_filter_ne.
      * intros e. rewrite list_elem_of_filter. tauto.
  - intros cid r Hget. eexists. split.
    + unfold DatabaseDataManager.remove_course, try_except, bind, in_dbm, zoom.
      cbn beta. rewrite Hget. simpl. reflexivity.
    + simpl. split_and!; try done.
      * apply find_course_filter_eq.
      * intros k Hk. by apply find_course_filter_ne.
      * intros e. rewrite list_elem_of_filter. tauto.
Qed.

End StoreRemoval.

(** ** What the persistent manager writes is not validated *)

Section StoreUnvalidated.
Context `{Validator}.

Lemma Person_init_raises n a e x :
  Person_init n a e = Raise x → ∃ msg, x = ValueError msg.
Proof.
  unfold Person_init, invalid_email. repeat case_match; intros [= <-]; by eexists.
Qed.

Lemma Student_init_raises n a e sid x :
  Student_init n a e sid = Raise x → ∃ msg, x = ValueError msg.
Proof.
  unfold Student_init. destruct (Person_init n a e) as [p|y] eqn:Hp.
  - case_match; intros [= <-]. by eexists.
  - intros [= <-]. by eapply Person_init_raises.
Qed.

Lemma Student_init_invalid_age n a e sid :
  check_age a = false → ∃ msg, Student_init n a e sid = Raise (ValueError msg).
Proof.
  intros Ha. unfold Student_init, Person_init. rewrite Ha.
  destruct (check_name _); simpl; by eexists.
Qed.

(** A rejected row stops the hydration of the students. *)
Lemma hydrate_students_raises (rows : list person_row) (d : Db) :
  Exists (λ r, is_ok (Student_init r.1.1.1 r.1.1.2 r.1.2 r.2) = false) rows →
  ∃ msg d',
    list_comp rows (λ '(name, age, email, sid),
      let! s := lift_result (Student_init name age email sid) in
      in_db_heap (new_student s)) d = (Raise (ValueError msg), d').
Proof.
  revert d. induction rows as [|[[[n a] e] sid] rows IH]; intros d Hex.
  { by apply Exists_nil in Hex. }
  cbn [list_comp]. unfold bind at 1. unfold bind at 1. unfold lift_result at 1.
  destruct (Student_init n a e sid) as [s|x] eqn:Hinit.
  - apply Exists_cons in Hex as [Hbad|Hex].
    { simpl in Hbad. by rewrite Hinit in Hbad. }
    cbn [in_db_heap zoom new_student].
    match goal with |- context [bind _ _ ?d1] =>
      destruct (IH d1 Hex) as (msg & d' & Hrun) end.
    rewrite (bind_raise _ _ _ _ _ Hrun). by eexists _, _.
  - apply Student_init_raises in Hinit as [msg ->]. by eexists _, _.
Qed.

Lemma hydration_raises (d : Db) :
  Exists (λ r, is_ok (Student_init r.1.1.1 r.1.1.2 r.1.2 r.2) = false) (students_t (dbm d)) →
  ∃ msg d',
    DatabaseDataManager._get_hydrated_data (set_cache None d) = (Raise (ValueError msg), d').
Proof.
  intros Hex.
  unfold DatabaseDataManager._get_hydrated_data.
  unfold bind at 1. unfold gets at 1.
  cbn [_cache set_cache]. unfold try_except.
  unfold bind at 1. unfold in_dbm at 1, zoom at 1, DatabaseManager.get_all_students, gets at 1.
  unfold bind at 1. unfold in_dbm at 1, zoom at 1, DatabaseManager.get_all_instructors, gets at 1.
  unfold bind at 1. unfold in_dbm at 1, zoom at 1, DatabaseManager.get_all_courses, gets at 1.
  unfold bind at 1. unfold in_dbm at 1, zoom at 1, DatabaseManager.get_all_enrollments,
    gets at 1.
  cbn [dbm db_heap _cache].
  destruct (hydrate_students_raises (students_t (dbm d))
              (mkDb (db_heap d) (dbm d) None) Hex) as (msg & d' & Hrun).
  rewrite (bind_raise _ _ _ _ _ Hrun). by eexists _, _.
Qed.

Lemma reads_raise (d d' : Db) (e : exn) :
  DatabaseDataManager._get_hydrated_data (set_cache None d) = (Raise e, d') →
  DatabaseDataManager.get_students d = (Raise e, d') ∧
  (∀ k, DatabaseDataManager.get_student k d = (Raise e, d')) ∧
  DatabaseDataManager.get_instructors d = (Raise e, d') ∧
  (∀ k, DatabaseDataManager.get_instructor k d = (Raise e, d')) ∧
  DatabaseDataManager.get_courses d = (Raise e, d') ∧
  (∀ k, DatabaseDataManager.get_course k d = (Raise e, d')).
Proof.
  intros Hrun.
  assert (DatabaseDataManager._clear_cache d = (Ok tt, set_cache None d)) as Hclear by done.
  split_and!; intros;
    unfold DatabaseDataManager.get_students, DatabaseDataManager.get_student,
      DatabaseDataManager.get_instructors, DatabaseDataManager.get_instructor,
      DatabaseDataManager.get_courses, DatabaseDataManager.get_course;
    rewrite (bind_run _ _ _ _ _ Hclear); by rewrite (bind_raise _ _ _ _ _ Hrun).
Qed.

(** X13.  [edit_student] of the persistent manager writes its arguments
    without validating them: with an age that [check_age] rejects and that
    SQLite can hold (a 64-bit integer) it returns normally, the row holds that
    age, and from then on every read of the manager raises [ValueError], the
    hydration rebuilding every student through the validating constructor.
    An age that SQLite cannot hold is refused when it is bound: the call
    raises [OverflowError], which no handler catches, and changes nothing. *)
Theorem store_edit_is_not_validated (d : Db) (sid : string) (r : person_row)
    (kw : PersonKwargs) (a : Z) :
  PyStr.truthy sid = true →
  DatabaseManager.find_person sid (students_t (dbm d)) = Some r →
  kw_age kw = Some a → check_age a = false →
  if sqlite_integer a
  then
    ∃ d', DatabaseDataManager.edit_student (Some sid) kw d = (Ok tt, d') ∧
          DatabaseManager.set_person_fields kw r ∈ students_t (dbm d') ∧
          ∃ msg, (DatabaseDataManager.get_students d').1 = Raise (ValueError msg) ∧
                 (∀ k, (DatabaseDataManager.get_student k d').1 = Raise (ValueError msg)) ∧
                 (DatabaseDataManager.get_instructors d').1 = Raise (ValueError msg) ∧
                 (∀ k, (DatabaseDataManager.get_instructor k d').1
                       = Raise (ValueError msg)) ∧
                 (DatabaseDataManager.get_courses d').1 = Raise (ValueError msg) ∧
                 (∀ k, (DatabaseDataManager.get_course k d').1 = Raise (ValueError msg))
  else DatabaseDataManager.edit_student (Some sid) kw d = (Raise OverflowError, d).
Proof.
  intros Hsid Hfind Hkw Ha.
  assert (DatabaseManager.no_person_fields kw = false) as Hfields.
  { unfold DatabaseManager.no_person_fields. rewrite Hkw. by destruct (kw_name kw). }
  assert (DatabaseManager.binds_age kw = sqlite_integer a) as Hbinds.
  { unfold DatabaseManager.binds_age. by rewrite Hkw. }
  destruct (sqlite_integer a) eqn:H64.
  2: { unfold DatabaseDataManager.edit_student, truthy_str. rewrite Hsid.
       unfold try_except, bind, in_dbm, zoom, DatabaseManager.get_student, gets. cbn beta.
       rewrite Hfind. unfold DatabaseManager.update_student. rewrite Hfields, Hbinds.
       simpl. by destruct d. }
  eexists. split.
  { unfold DatabaseDataManager.edit_student, truthy_str. rewrite Hsid.
    unfold try_except, bind, in_dbm, zoom, DatabaseManager.get_student, gets. cbn beta.
    rewrite Hfind. unfold DatabaseManager.update_student. rewrite Hfields, Hbinds.
    reflexivity. }
  apply find_person_Some in Hfind as [Hr Hid].
  assert (DatabaseManager.set_person_fields kw r
            ∈ DatabaseManager.update_person sid kw (students_t (dbm d))) as Hin.
  { unfold DatabaseManager.update_person. apply list_elem_of_fmap. exists r.
    split; [|done]. by rewrite decide_True. }
  split; [exact Hin|].
  match goal with |- context [DatabaseDataManager.get_students ?d1] =>
    destruct (hydration_raises d1) as (msg & d'' & Hrun) end.
  { cbn [dbm students_t]. apply Exists_exists. eexists. split; [exact Hin|].
    destruct r as [[[n a0] e] k]. unfold DatabaseManager.set_person_fields.
    rewrite Hkw. cbn [default fst snd id].
    by destruct (Student_init_invalid_age (default n (kw_name kw)) a
                   (default e (kw_email kw)) k Ha) as [msg ->]. }
  exists msg. apply reads_raise in Hrun as (-> & H1 & -> & H2 & -> & H3).
  split_and!; try done; intros k; by rewrite ?H1, ?H2, ?H3.
Qed.

(** X14.  [add_student] of the persistent manager looks for the stripped
    identifier and inserts the identifier as given.  When the two differ the
    row is stored under the unstripped one: the stripped identifier is
    unknown to [remove_student] and [enroll_student], and the same
    [add_student] again fails on the primary key, not with the
    [AlreadyExists] message. *)
Theorem store_add_student_inserts_the_unstripped_id (d : Db) (n : string) (a : Z)
    (e sid : string) (s : Student) :
  Student_init n a e sid = Ok s →
  DatabaseManager.find_person (PyStr.strip sid) (students_t (dbm d)) = None →
  DatabaseManager.find_person sid (students_t (dbm d)) = None →
  ∃ d', DatabaseDataManager.add_student n a e sid d = (Ok tt, d') ∧
        students_t (dbm d') = students_t (dbm d) ++ [(n, a, e, sid)] ∧
        (PyStr.strip sid ≠ sid →
         DatabaseDataManager.remove_student (PyStr.strip sid) d'
           = (Raise (DataError (DoesNotExist EStudent (PyStr.strip sid))), d') ∧
         (∀ cid, DatabaseDataManager.enroll_student (PyStr.strip sid) cid d'
                 = (Raise (DataError (NotFound EStudent (PyStr.strip sid))), d')) ∧
         DatabaseDataManager.add_student n a e sid d'
           = (Raise (DataError (FromSqlite "UNIQUE constraint failed: students.student_id")),
              d')).
Proof.
  intros Hinit Hnew Hraw.
  assert (student_id s = PyStr.strip sid) as Hid.
  { unfold Student_init in Hinit. destruct (Person_init n a e); [|done].
    destruct (negb _); by simplify_eq. }
  eexists. split.
  { unfold DatabaseDataManager.add_student.
    rewrite (bind_run _ _ d d s) by (unfold try_except, lift_result; by rewrite Hinit).
    unfold try_except, bind, in_dbm, zoom, DatabaseManager.get_student, gets. cbn beta.
    rewrite Hid, Hnew. unfold DatabaseManager.add_student.
    rewrite (Student_init_binds _ _ _ _ _ Hinit). cbn beta iota. cbn [negb dbm].
    rewrite Hraw. reflexivity. }
  split; [done|]. intros Hne. cbn [dbm students_t].
  assert (∀ rows, DatabaseManager.find_person (PyStr.strip sid) rows = None →
            DatabaseManager.find_person (PyStr.strip sid) (rows ++ [(n, a, e, sid)]) = None)
    as Hstill.
  { intros rows Hrows. apply find_person_None. rewrite fmap_app.
    intros [Hin|Heq%list_elem_of_singleton]%elem_of_app; [|exact (Hne Heq)].
    by apply find_person_None in Hrows. }
  assert (is_Some (DatabaseManager.find_person sid (students_t (dbm d) ++ [(n, a, e, sid)])))
    as [r Hr].
  { apply find_person_is_Some. rewrite fmap_app. apply elem_of_app. right.
    by apply list_elem_of_singleton. }
  split_and!.
  - unfold DatabaseDataManager.remove_student, try_except, bind, in_dbm, zoom,
      DatabaseManager.get_student, gets. cbn beta. cbn [dbm students_t].
    by rewrite (Hstill _ Hnew).
  - intros cid. unfold DatabaseDataManager.enroll_student, try_except, bind, in_dbm, zoom,
      DatabaseManager.get_student, gets. cbn beta. cbn [dbm students_t].
    by rewrite (Hstill _ Hnew).
  - unfold DatabaseDataManager.add_student.
    match goal with |- bind _ _ ?d1 = _ =>
      rewrite (bind_run _ _ d1 d1 s) by (unfold try_except, lift_result; by rewrite Hinit) end.
    unfold try_except, bind, in_dbm, zoom, DatabaseManager.get_student, gets. cbn beta.
    cbn [dbm students_t]. rewrite Hid, (Hstill _ Hnew).
    unfold DatabaseManager.add_student.
    rewrite (Student_init_binds _ _ _ _ _ Hinit). cbn beta iota. cbn [negb dbm students_t].
    rewrite Hr. reflexivity.
Qed.

End StoreUnvalidated.

(** ** Importing into the relational store *)

Section StoreImport.
Context `{Validator}.

Lemma populate_nothing (d : Db) :
  DatabaseDataManager._populate_db_from_file_manager empty_file_manager d = (Ok tt, d).
Proof.
  unfold DatabaseDataManager._populate_db_from_file_manager, empty_file_manager.
  cbn [students instructors courses]. by rewrite map_to_list_empty.
Qed.

Lemma import_with_run (load : M Mem unit) (d : Db) :
  DatabaseDataManager.import_with load d
  = match load (mkMem (db_heap d) empty_file_manager) with
    | (Ok _, m') =>
        DatabaseDataManager._populate_db_from_file_manager (datastore m')
          (mkDb (heap m') empty_tables (_cache d))
    | (Raise e, m') => (Raise e, mkDb (heap m') empty_tables (_cache d))
    end.
Proof.
  unfold DatabaseDataManager.import_with, bind, in_dbm, zoom, on_file_manager,
    DatabaseManager.clear_all_tables, modify.
  cbn [db_heap dbm _cache].
  by destruct (load _) as [[[]|e] m'].
Qed.

(** X15.  [data_from_json] of the persistent manager clears the tables
    before it reads the file.  For a missing file and for a file that is not
    JSON it returns normally with the four tables empty; when the loader
    raises, the tables are empty as well, and the exception is wrapped in a
    [DataError] only if it is a [FileNotFoundError] or comes from SQLite: a
    document without its ["instructors"] key ends in a [KeyError]. *)
Theorem store_json_import_failure_empties_the_tables (d : Db) :
  DatabaseDataManager.data_from_json JsonMissing d
    = (Imported, mkDb (db_heap d) empty_tables (_cache d)) ∧
  DatabaseDataManager.data_from_json JsonInvalid d
    = (Imported, mkDb (db_heap d) empty_tables (_cache d)) ∧
  (∀ doc e m',
     FileManager.load_from_json (JsonData doc) (mkMem (db_heap d) empty_file_manager)
       = (Raise e, m') →
     DatabaseDataManager.data_from_json (JsonData doc) d
       = (match e with
          | FileNotFoundError | IntegrityError _ => FailedToLoad e
          | _ => Uncaught e
          end, mkDb (heap m') empty_tables (_cache d))) ∧
  (∀ sdicts cdicts,
     DatabaseDataManager.data_from_json (JsonData (mkJsonDoc sdicts None cdicts)) d
       = (Uncaught (KeyError "instructors"), mkDb (db_heap d) empty_tables (_cache d))).
Proof.
  split_and!.
  - unfold DatabaseDataManager.data_from_json. rewrite import_with_run. simpl.
    by rewrite populate_nothing.
  - unfold DatabaseDataManager.data_from_json. rewrite import_with_run. simpl.
    by rewrite populate_nothing.
  - intros doc e m' Hload. unfold DatabaseDataManager.data_from_json.
    rewrite import_with_run, Hload. by destruct e.
  - intros sdicts cdicts. unfold DatabaseDataManager.data_from_json.
    by rewrite import_with_run.
Qed.



End StoreImport.

(** ** The persistent manager, at the scenario *)

Lemma store_campus_tables :
  dbm StoreScenario.campus
  = mkTables [("John Doe", 20, "john.doe@lau.edu", "202401111")]
             [("Dr. Emily Smith", 45, "e.smith@university.edu", "199801234")]
             [("EECE230", "Software Engineering", "199801234")]
             [("202401111", "EECE230")].
Proof. vm_compute. reflexivity. Qed.

Lemma store_campus_tables_ok : tables_ok (dbm StoreScenario.campus).
Proof.
  rewrite store_campus_tables. unfold tables_ok. simpl.
  split_and!; try (apply NoDup_singleton).
  - intros c ->%list_elem_of_singleton. by apply list_elem_of_singleton.
  - intros e ->%list_elem_of_singleton. split; by apply list_elem_of_singleton.
Qed.

Lemma store_keeps_the_schema_constraints_witness :
  tables_ok (dbm (DatabaseDataManager.add_student (H:=Fallback.validator)
                    "Jane Dane" 21 "jane.dane@lau.edu" "202302222" StoreScenario.campus).2) ∧
  tables_ok (dbm (DatabaseDataManager.remove_instructor "199801234" StoreScenario.campus).2).
Proof.
  destruct (store_keeps_the_schema_constraints (H:=Fallback.validator) StoreScenario.campus
              store_campus_tables_ok) as (Hadd & _ & Hremove & _).
  split.
  - exact (proj1 (Hadd "Jane Dane" 21 "jane.dane@lau.edu" "202302222")).
  - exact (proj1 (proj2 (Hremove "199801234"))).
Defined.

Lemma store_remove_instructor_refused_while_teaching_witness :
  DatabaseDataManager.remove_instructor "199801234" StoreScenario.campus
  = (Raise (DataError (FromSqlite "FOREIGN KEY constraint failed")), StoreScenario.campus).
Proof.
  apply (store_remove_instructor_refused_while_teaching StoreScenario.campus "199801234"
           ("Dr. Emily Smith", 45, "e.smith@university.edu", "199801234")
           ("EECE230", "Software Engineering", "199801234")).
  - vm_compute. reflexivity.
  - rewrite store_campus_tables. by apply list_elem_of_singleton.
  - reflexivity.
Defined.

Lemma store_campus_john :
  DatabaseManager.find_person "202401111" (students_t (dbm StoreScenario.campus))
  = Some ("John Doe", 20, "john.doe@lau.edu", "202401111").
Proof. vm_compute. reflexivity. Qed.

Lemma store_remove_cascades_witness :
  ∃ t', DatabaseDataManager.remove_student "202401111" StoreScenario.campus
          = (Ok tt, mkDb (db_heap StoreScenario.campus) t' (_cache StoreScenario.campus)) ∧
        enrollments_t t' = [].
Proof.
  destruct (proj1 (store_remove_cascades StoreScenario.campus) "202401111"
              ("John Doe", 20, "john.doe@lau.edu", "202401111") store_campus_john)
    as (t' & Hrun & _ & _ & Hen & _).
  exists t'. split; [exact Hrun|].
  destruct (enrollments_t t') as [|e es] eqn:Hes; [reflexivity|].
  assert (e ∈ e :: es) as He by apply list_elem_of_here.
  apply Hen in He as [He Hne]. rewrite store_campus_tables in He.
  apply list_elem_of_singleton in He. subst e. by destruct Hne.
Defined.

Lemma store_edit_is_not_validated_witness :
  (∃ d' msg,
     DatabaseDataManager.edit_student (Some "202401111") (mkPersonKwargs None (Some 200) None)
       StoreScenario.campus = (Ok tt, d') ∧
     (DatabaseDataManager.get_students (H:=Fallback.validator) d').1
       = Raise (ValueError msg)) ∧
  DatabaseDataManager.edit_student (Some "202401111")
    (mkPersonKwargs None (Some 9223372036854775808) None) StoreScenario.campus
  = (Raise OverflowError, StoreScenario.campus).
Proof.
  split.
  2: { exact (store_edit_is_not_validated (H:=Fallback.validator) StoreScenario.campus
                "202401111" ("John Doe", 20, "john.doe@lau.edu", "202401111")
                (mkPersonKwargs None (Some 9223372036854775808) None) 9223372036854775808
                eq_refl store_campus_john eq_refl eq_refl). }
  assert (check_age 200 = false) as Hage by (vm_compute; reflexivity).
  pose proof (store_edit_is_not_validated (H:=Fallback.validator) StoreScenario.campus
                "202401111" ("John Doe", 20, "john.doe@lau.edu", "202401111")
                (mkPersonKwargs None (Some 200) None) 200 eq_refl store_campus_john
                eq_refl Hage) as Hedit.
  change (sqlite_integer 200) with true in Hedit. cbv iota in Hedit.
  destruct Hedit as (d' & Hrun & _ & msg & Hget & _).
  exists d', msg. split; [exact Hrun|exact Hget].
Defined.

Lemma store_add_student_inserts_the_unstripped_id_witness :
  ∃ d', DatabaseDataManager.add_student (H:=Fallback.validator)
          "Jane Dane" 21 "jane.dane@lau.edu" " 202302222" StoreScenario.campus = (Ok tt, d') ∧
        DatabaseDataManager.remove_student "202302222" d'
          = (Raise (DataError (DoesNotExist EStudent "202302222")), d').
Proof.
  destruct (store_add_student_inserts_the_unstripped_id (H:=Fallback.validator)
              StoreScenario.campus "Jane Dane" 21 "jane.dane@lau.edu" " 202302222"
              (mkStudent (mkPerson "Jane Dane" 21 "jane.dane@lau.edu") "202302222" []))
    as (d' & Hrun & _ & Hraw).
  - vm_compute. reflexivity.
  - vm_compute. reflexivity.
  - vm_compute. reflexivity.
  - exists d'. split; [exact Hrun|]. apply Hraw. vm_compute. discriminate.
Defined.

Lemma store_json_import_failure_empties_the_tables_witness :
  DatabaseDataManager.data_from_json (H:=Fallback.validator) JsonMissing StoreScenario.campus
  = (Imported, mkDb (db_heap StoreScenario.campus) empty_tables (_cache StoreScenario.campus)).
Proof.
  exact (proj1 (store_json_import_failure_empties_the_tables (H:=Fallback.validator)
                  StoreScenario.campus)).
Defined.


(** ** Hydration: the graph that the reads of the persistent manager build *)

(** A heap in which a student and a course list each other, besides what
    they listed before: its view is the view with the enrollment added. *)
Lemma linked_view (h h2 : Heap) (fm : FileManager) (sid cid : string) (ls lc : loc)
    (s s2 : Student) (c c2 : Course) :
  sound (mkMem h fm) →
  students fm !! sid = Some ls → courses fm !! cid = Some lc →
  student_objs h !! ls = Some s → course_objs h !! lc = Some c →
  instructor_objs h2 = instructor_objs h →
  student_objs h2 = <[ls := s2]> (student_objs h) →
  student_person s2 = student_person s → student_id s2 = student_id s →
  (∀ x, x ∈ registered_courses s2 → x ∈ registered_courses s ∨ x = lc) →
  (list_to_set (course_ids h (registered_courses s2)) : gset string)
    = list_to_set (course_ids h (registered_courses s)) ∪ {[course_id c]} →
  course_objs h2 = <[lc := c2]> (course_objs h) →
  course_id c2 = course_id c → course_name c2 = course_name c →
  instructor c2 = instructor c →
  (∀ x, x ∈ enrolled_students c2 → x ∈ enrolled_students c ∨ x = ls) →
  (list_to_set (student_ids h (enrolled_students c2)) : gset string)
    = list_to_set (student_ids h (enrolled_students c)) ∪ {[student_id s]} →
  sound (mkMem h2 fm) ∧ view (mkMem h2 fm) = view_enroll (sid, cid) (view (mkMem h fm)).
Proof.
  intros [Hss Hsi Hsc] Hls Hlc Hs Hc Hi2 Hs2 Hp2 Hid2 Hreg2 HS Hc2 Hcid2 Hn2 Hin2 Hen2 HT.
  destruct h as [hs hi hc], fm as [ds di dc]. simpl in *.
  set (h := mkHeap hs hi hc) in *.
  destruct (Hss sid ls Hls) as (s' & Hs' & Hsid & Hcl).
  rewrite Hs in Hs'. injection Hs' as <-.
  destruct (Hsc cid lc Hlc) as (c' & Hc' & Hcid & Hlt & Hcle).
  rewrite Hc in Hc'. injection Hc' as <-.
  destruct (lookup_lt_is_Some_2 hi (instructor c) Hlt) as [i Hi].
  assert (student_view h ls
          = Some (student_person s, list_to_set (course_ids h (registered_courses s))))
    as Hsv.
  { unfold student_view. simpl. by rewrite Hs. }
  assert (course_view h lc
          = Some (course_name c, instructor_id i,
                  list_to_set (student_ids h (enrolled_students c)))) as Hcv.
  { unfold course_view. simpl. rewrite Hc. simpl. by rewrite Hi. }
  assert (∀ xs, course_ids h2 xs = course_ids h xs) as Hcids.
  { intros xs. by apply (course_ids_update h h2 lc c c2). }
  assert (∀ xs, student_ids h2 xs = student_ids h xs) as Hsids.
  { intros xs. by apply (student_ids_update h h2 ls s s2). }
  assert (lc < length hc)%nat as Hlclt by (by eapply lookup_lt_Some).
  assert (ls < length hs)%nat as Hlslt by (by eapply lookup_lt_Some).
  split.
  - split; cbn [students instructors courses datastore heap].
    + intros k l Hl. rewrite Hs2, Hc2, length_insert.
      destruct (decide (l = ls)) as [->|Hne].
      * exists s2. rewrite list_lookup_insert_eq by done.
        destruct (Hss k ls Hl) as (s0 & Hs0 & Hk0 & ?).
        rewrite Hs in Hs0. injection Hs0 as <-.
        split_and!; try done; [by rewrite Hid2|]. apply Forall_forall. intros x Hx.
        destruct (Hreg2 x Hx) as [?| ->]; [|done].
        rewrite Forall_forall in Hcl. by apply Hcl.
      * rewrite list_lookup_insert_ne by done. by apply Hss.
    + intros k l Hl. rewrite Hi2, Hc2, length_insert. by apply Hsi.
    + intros k l Hl. rewrite Hi2, Hs2, Hc2, length_insert.
      destruct (decide (l = lc)) as [->|Hne].
      * exists c2. rewrite list_lookup_insert_eq by done.
        destruct (Hsc k lc Hl) as (c0 & Hc0 & Hk0 & ? & ?).
        rewrite Hc in Hc0. injection Hc0 as <-.
        split_and!; [done|by rewrite Hcid2|by rewrite Hin2|].
        apply Forall_forall. intros x Hx.
        destruct (Hen2 x Hx) as [?| ->]; [|done].
        rewrite Forall_forall in Hcle. by apply Hcle.
      * rewrite list_lookup_insert_ne by done. by apply Hsc.
  - unfold view, view_enroll. cbn [students instructors courses datastore heap
      v_students v_instructors v_courses].
    rewrite !lookup_omap, Hls, Hlc. cbn [mbind option_bind]. rewrite Hsv, Hcv.
    f_equal.
    + apply map_eq. intros k. rewrite lookup_omap.
      destruct (decide (k = sid)) as [->|Hne].
      * rewrite lookup_insert_eq, Hls. simpl. unfold student_view.
        rewrite Hs2, list_lookup_insert_eq by done. simpl.
        by rewrite Hcids, Hp2, HS, Hcid.
      * rewrite lookup_insert_ne by done. rewrite lookup_omap.
        destruct (ds !! k) as [l|] eqn:Hl; [|done]. simpl.
        destruct (Hss k l Hl) as (s0 & Hs0 & Hk & ?).
        assert (l ≠ ls) as Hlne by (intros ->; congruence).
        apply (student_view_frame _ _ _ s0); [done| |done].
        by rewrite Hs2, list_lookup_insert_ne.
    + apply map_eq. intros k. rewrite !lookup_omap.
      destruct (di !! k) as [l|] eqn:Hl; [|done]. simpl.
      destruct (Hsi k l Hl) as (i0 & Hi0 & Hk & ?).
      apply (instructor_view_frame _ _ _ i0); [done|by rewrite Hi2|done].
    + apply map_eq. intros k. rewrite lookup_omap.
      destruct (decide (k = cid)) as [->|Hne].
      * rewrite lookup_insert_eq, Hlc. simpl. unfold course_view.
        rewrite Hc2, list_lookup_insert_eq by done. simpl.
        rewrite Hin2, Hi2. simpl. rewrite Hi. simpl.
        by rewrite Hsids, Hn2, HT, Hsid.
      * rewrite lookup_insert_ne by done. rewrite lookup_omap.
        destruct (dc !! k) as [l|] eqn:Hl; [|done]. simpl.
        destruct (Hsc k l Hl) as (c0 & Hc0 & Hk & ? & ?).
        assert (l ≠ lc) as Hlne by (intros ->; congruence).
        apply (course_view_frame _ _ _ c0); [done| |by rewrite Hi2|done].
        by rewrite Hc2, list_lookup_insert_ne.
Qed.

(** The enrollment loop of the hydration. *)
Lemma hydrate_links_spec (smap imap cmap : gmap string nat) (t : Tables)
    (c : option Hydrated) (erows : list (string * string)) (h : Heap) :
  sound (mkMem h (mkFileManager smap imap cmap)) →
  ∃ h',
    for_each erows (λ '(sid, cid),
      match smap !! sid, cmap !! cid with
      | Some ls, Some lc =>
          in_db_heap (
            let! s := deref student_objs ls in
            store_student ls (mkStudent (student_person s) (student_id s)
                                        (registered_courses s ++ [lc])) >>
            let! c := deref course_objs lc in
            store_course lc (mkCourse (course_id c) (course_name c) (instructor c)
                                      (enrolled_students c ++ [ls])))
      | _, _ => ret tt
      end) (mkDb h t c) = (Ok tt, mkDb h' t c) ∧
    sound (mkMem h' (mkFileManager smap imap cmap)) ∧
    view (mkMem h' (mkFileManager smap imap cmap))
      = foldl (flip view_enroll) (view (mkMem h (mkFileManager smap imap cmap))) erows.
Proof.
  revert h. induction erows as [|[sid cid] erows IH]; intros h Hsound.
  { by exists h. }
  cbn [for_each foldl flip].
  assert (∃ h1, (match smap !! sid, cmap !! cid with
                 | Some ls, Some lc =>
                     in_db_heap (
                       let! s := deref student_objs ls in
                       store_student ls (mkStudent (student_person s) (student_id s)
                                                   (registered_courses s ++ [lc])) >>
                       let! c := deref course_objs lc in
                       store_course lc (mkCourse (course_id c) (course_name c) (instructor c)
                                                 (enrolled_students c ++ [ls])))
                 | _, _ => ret tt
                 end) (mkDb h t c) = (Ok tt, mkDb h1 t c) ∧
                sound (mkMem h1 (mkFileManager smap imap cmap)) ∧
                view (mkMem h1 (mkFileManager smap imap cmap))
                  = view_enroll (sid, cid) (view (mkMem h (mkFileManager smap imap cmap))))
    as (h1 & Hrun1 & Hsound1 & Hview1).
  { destruct (smap !! sid) as [ls|] eqn:Hls.
    2:{ exists h. split_and!; try done. rewrite view_enroll_no_student; [done|].
        unfold view. simpl. by rewrite lookup_omap, Hls. }
    destruct (cmap !! cid) as [lc|] eqn:Hlc.
    2:{ exists h. split_and!; try done. rewrite view_enroll_no_course; [done|].
        unfold view. simpl. by rewrite lookup_omap, Hlc. }
    destruct (sound_students _ Hsound sid ls Hls) as (s & Hs & Hsid & Hcl).
    destruct (sound_courses _ Hsound cid lc Hlc) as (c0 & Hc & Hcid & Hlt & Hcle).
    simpl in Hs, Hc.
    set (s2 := mkStudent (student_person s) (student_id s) (registered_courses s ++ [lc])).
    set (c2 := mkCourse (course_id c0) (course_name c0) (instructor c0)
                        (enrolled_students c0 ++ [ls])).
    set (h2 := set_course_objs (λ os, <[lc := c2]> os)
                 (set_student_objs (λ os, <[ls := s2]> os) h)).
    exists h2. split.
    { unfold in_db_heap, zoom, bind, deref, store_student, store_course, modify.
      cbn [db_heap dbm _cache]. rewrite Hs. cbn [set_student_objs course_objs].
      by rewrite Hc. }
    apply (linked_view h h2 _ sid cid ls lc s s2 c0 c2); try done.
    - intros x. subst s2. simpl. rewrite elem_of_app, list_elem_of_singleton. tauto.
    - subst s2. simpl. rewrite course_ids_app, list_to_set_app_L. f_equal.
      unfold course_ids. simpl. rewrite Hc. simpl. set_solver.
    - intros x. subst c2. simpl. rewrite elem_of_app, list_elem_of_singleton. tauto.
    - subst c2. simpl. rewrite student_ids_app, list_to_set_app_L. f_equal.
      unfold student_ids. simpl. rewrite Hs. simpl. set_solver. }
  destruct (IH h1 Hsound1) as (h' & Hrun & Hsound' & Hview').
  exists h'. split_and!; [|done|by rewrite Hview', Hview1].
  by rewrite (bind_run _ _ _ _ _ Hrun1).
Qed.

Lemma insert_all_cons m k ks l ls :
  insert_all m (k :: ks) (l :: ls) = insert_all (<[k := l]> m) ks ls.
Proof. done. Qed.

Lemma insert_all_absent m ks ls k :
  k ∉ ks → insert_all m ks ls !! k = m !! k.
Proof.
  revert m ls. induction ks as [|k' ks IH]; intros m ls Hk; [done|].
  destruct ls as [|l ls]; [done|]. rewrite insert_all_cons.
  rewrite IH by set_solver. apply lookup_insert_ne. set_solver.
Qed.

Lemma insert_all_lookup m ks ls j k l :
  NoDup ks → ks !! j = Some k → ls !! j = Some l → insert_all m ks ls !! k = Some l.
Proof.
  revert m ls j. induction ks as [|k' ks IH]; intros m ls j Hnd Hk Hl; [done|].
  destruct ls as [|l' ls]; [done|]. rewrite insert_all_cons.
  apply NoDup_cons in Hnd as [Hk' Hnd]. destruct j as [|j]; simpl in *.
  - simplify_eq. rewrite insert_all_absent by done. apply lookup_insert_eq.
  - by apply (IH _ _ j).
Qed.

Lemma dict_of_insert_all {A} (key : A → string) (ls : list nat) (ks : list string)
    (objs : list A) :
  Forall2 (λ l k, ∃ o, objs !! l = Some o ∧ key o = k) ls ks →
  dict_of key ls objs = insert_all ∅ ks ls.
Proof.
  unfold dict_of, insert_all. generalize (∅ : gmap string nat).
  intros m H. revert m. induction H as [|l k ls ks (o & Ho & Hk) _ IH]; intros m; [done|].
  simpl. rewrite Ho, Hk. apply IH.
Qed.

Lemma fresh_objects {A} (key : A → string) (pre objs : list A) :
  Forall2 (λ l k, ∃ o, (pre ++ objs) !! l = Some o ∧ key o = k)
          (seq (length pre) (length objs)) (key <$> objs).
Proof.
  revert pre. induction objs as [|o objs IH]; intros pre; [constructor|].
  simpl. constructor.
  - exists o. split; [|done]. by apply list_lookup_middle.
  - specialize (IH (pre ++ [o])). rewrite length_app, Nat.add_1_r in IH.
    by rewrite <- app_assoc in IH.
Qed.

Lemma concat_singletons {A} (xs : list A) : concat ((λ x, [x]) <$> xs) = xs.
Proof. induction xs as [|x xs IH]; [done|]. cbn [fmap list_fmap concat app]. f_equal. apply IH. Qed.

Lemma dict_of_sound {A} (key : A → string) (ls : list nat) (ks : list string)
    (objs : list A) :
  NoDup ks → length ks = length ls →
  (∀ k l, insert_all ∅ ks ls !! k = Some l → ∃ o, objs !! l = Some o ∧ key o = k) →
  dict_of key ls objs = insert_all ∅ ks ls.
Proof.
  intros Hnd Hlen Hobjs. apply dict_of_insert_all.
  apply Forall2_same_length_lookup_2; [done|]. intros j l k Hl Hk.
  apply Hobjs. by apply (insert_all_lookup _ _ _ j).
Qed.

Lemma insert_all_elem m ks ls k l :
  insert_all m ks ls !! k = Some l → l ∈ ls ∨ m !! k = Some l.
Proof.
  revert m ls. induction ks as [|k' ks IH]; intros m ls Hl; [by right|].
  destruct ls as [|l' ls]; [by right|]. rewrite insert_all_cons in Hl.
  destruct (IH _ _ Hl) as [Hin|Hm]; [left; by apply list_elem_of_further|].
  destruct (decide (k = k')) as [->|Hne].
  - rewrite lookup_insert_eq in Hm. injection Hm as ->. left. apply list_elem_of_here.
  - rewrite lookup_insert_ne in Hm by done. by right.
Qed.

Lemma insert_all_is_Some m ks ls k :
  NoDup ks → length ks = length ls → k ∈ ks → is_Some (insert_all m ks ls !! k).
Proof.
  intros Hnd Hlen [j Hj]%list_elem_of_lookup_1.
  destruct (lookup_lt_is_Some_2 ls j) as [l Hl].
  { rewrite <- Hlen. by eapply lookup_lt_Some. }
  exists l. by apply (insert_all_lookup _ _ _ j).
Qed.

Lemma bind_gets {S A B} (f : S → A) (k : A → M S B) (s : S) :
  bind (gets f) k s = k (f s) s.
Proof. done. Qed.

Lemma bind_in_dbm_gets {A B} (f : Tables → A) (k : A → M Db B) (d : Db) :
  bind (in_dbm (gets f)) k d = k (f (dbm d)) (mkDb (db_heap d) (dbm d) (_cache d)).
Proof. done. Qed.

Section Hydration.
Context `{Validator}.

Lemma hydrate_students_run (t : Tables) (c : option Hydrated) (rows : list person_row)
    (h : Heap) :
  Forall student_row_clean rows →
  list_comp rows (λ '(name, age, email, sid),
    let! s := lift_result (Student_init name age email sid) in
    in_db_heap (new_student s)) (mkDb h t c)
  = (Ok (seq (length (student_objs h)) (length rows)),
     mkDb (set_student_objs (λ os, os ++ (student_of_row <$> rows)) h) t c).
Proof.
  revert h. induction rows as [|[[[n a] e] sid] rows IH]; intros h Hclean.
  { simpl. unfold ret, set_student_objs. rewrite app_nil_r. by destruct h. }
  apply Forall_cons in Hclean as [[Hp Hid] Hclean].
  cbn [list_comp].
  rewrite (bind_run _ _ _
             (mkDb (set_student_objs (λ os, os ++ [student_of_row (n, a, e, sid)]) h) t c)
             (length (student_objs h))).
  2:{ unfold bind, lift_result. by rewrite (Student_init_clean n a e sid Hp Hid). }
  rewrite (bind_run _ _ _ _ _ (IH _ Hclean)).
  unfold ret, set_student_objs. cbn [student_objs instructor_objs course_objs].
  rewrite length_app, Nat.add_1_r. cbn [fmap list_fmap length seq].
  by rewrite <- app_assoc.
Qed.

Lemma hydrate_instructors_run (t : Tables) (c : option Hydrated) (rows : list person_row)
    (h : Heap) :
  Forall instructor_row_clean rows →
  list_comp rows (λ '(name, age, email, iid),
    let! i := lift_result (Instructor_init name age email iid) in
    in_db_heap (new_instructor i)) (mkDb h t c)
  = (Ok (seq (length (instructor_objs h)) (length rows)),
     mkDb (set_instructor_objs (λ os, os ++ (instructor_of_row <$> rows)) h) t c).
Proof.
  revert h. induction rows as [|[[[n a] e] iid] rows IH]; intros h Hclean.
  { simpl. unfold ret, set_instructor_objs. rewrite app_nil_r. by destruct h. }
  apply Forall_cons in Hclean as [[Hp Hid] Hclean].
  cbn [list_comp].
  rewrite (bind_run _ _ _
             (mkDb (set_instructor_objs (λ os, os ++ [instructor_of_row (n, a, e, iid)]) h)
                   t c)
             (length (instructor_objs h))).
  2:{ unfold bind, lift_result. by rewrite (Instructor_init_clean n a e iid Hp Hid). }
  rewrite (bind_run _ _ _ _ _ (IH _ Hclean)).
  unfold ret, set_instructor_objs. cbn [student_objs instructor_objs course_objs].
  rewrite length_app, Nat.add_1_r. cbn [fmap list_fmap length seq].
  by rewrite <- app_assoc.
Qed.

Lemma load_students_run (rows : list person_row) (h : Heap) (fm : FileManager) :
  Forall student_row_clean rows →
  for_each rows load_student (mkMem h fm)
  = (Ok tt,
     mkMem (set_student_objs (λ os, os ++ (student_of_row <$> rows)) h)
           (mkFileManager
              (insert_all (students fm) rows.*2 (seq (length (student_objs h)) (length rows)))
              (instructors fm) (courses fm))).
Proof.
  revert h fm. induction rows as [|[[[n a] e] sid] rows IH]; intros h fm Hclean.
  { simpl. unfold ret, set_student_objs. rewrite app_nil_r. by destruct h, fm. }
  apply Forall_cons in Hclean as [[Hp Hid] Hclean].
  cbn [for_each].
  rewrite (bind_run _ _ _
             (mkMem (set_student_objs (λ os, os ++ [student_of_row (n, a, e, sid)]) h)
                    (mkFileManager (<[sid := length (student_objs h)]> (students fm))
                                   (instructors fm) (courses fm))) tt).
  2:{ unfold load_student, bind, lift_result.
      by rewrite (Student_init_clean n a e sid Hp Hid). }
  rewrite (IH _ _ Hclean).
  unfold set_student_objs. cbn [student_objs instructor_objs course_objs students
    instructors courses].
  rewrite length_app, Nat.add_1_r. cbn [fmap list_fmap length seq].
  rewrite insert_all_cons. by rewrite <- app_assoc.
Qed.

Lemma load_instructors_run (rows : list person_row) (h : Heap) (fm : FileManager) :
  Forall instructor_row_clean rows →
  for_each rows load_instructor (mkMem h fm)
  = (Ok tt,
     mkMem (set_instructor_objs (λ os, os ++ (instructor_of_row <$> rows)) h)
           (mkFileManager
              (students fm)
              (insert_all (instructors fm) rows.*2
                          (seq (length (instructor_objs h)) (length rows)))
              (courses fm))).
Proof.
  revert h fm. induction rows as [|[[[n a] e] iid] rows IH]; intros h fm Hclean.
  { simpl. unfold ret, set_instructor_objs. rewrite app_nil_r. by destruct h, fm. }
  apply Forall_cons in Hclean as [[Hp Hid] Hclean].
  cbn [for_each].
  rewrite (bind_run _ _ _
             (mkMem (set_instructor_objs (λ os, os ++ [instructor_of_row (n, a, e, iid)]) h)
                    (mkFileManager (students fm)
                                   (<[iid := length (instructor_objs h)]> (instructors fm))
                                   (courses fm))) tt).
  2:{ unfold load_instructor, bind, lift_result.
      by rewrite (Instructor_init_clean n a e iid Hp Hid). }
  rewrite (IH _ _ Hclean).
  unfold set_instructor_objs. cbn [student_objs instructor_objs course_objs students
    instructors courses].
  rewrite length_app, Nat.add_1_r. cbn [fmap list_fmap length seq].
  rewrite insert_all_cons. by rewrite <- app_assoc.
Qed.

Lemma Course_init_ok (h : Heap) (cid cname : string) (li : nat) :
  course_id_ok cid → course_name_ok cname →
  (li < length (instructor_objs h))%nat →
  ∃ h1, Course_init cid cname li h = (Ok (length (course_objs h)), h1) ∧
        length (instructor_objs h1) = length (instructor_objs h) ∧
        length (course_objs h1) = S (length (course_objs h)).
Proof.
  intros Hid Hname Hli. destruct (lookup_lt_is_Some_2 _ _ Hli) as [i Hi].
  rewrite (Course_init_run h cid cname li i Hid Hname Hi).
  eexists. split; [reflexivity|]. cbn zeta.
  case_bool_decide; unfold set_instructor_objs, set_course_objs;
    cbn [student_objs instructor_objs course_objs];
    rewrite ?length_insert, length_app, Nat.add_1_r; done.
Qed.

Lemma hydrate_courses_sim (t : Tables) (c : option Hydrated) (imap : gmap string nat)
    (crows : list course_row) (h : Heap) (fm : FileManager) :
  instructors fm = imap →
  Forall course_row_clean crows →
  (∀ r, r ∈ crows →
        is_Some (DatabaseManager.find_person (course_row_instructor r) (instructors_t t))) →
  (∀ r, r ∈ crows → is_Some (imap !! course_row_instructor r)) →
  (∀ k l, imap !! k = Some l → (l < length (instructor_objs h))%nat) →
  ∃ h',
    list_comp (omap (DatabaseManager.join_instructor t) crows)
      (λ '(cid, cname, iid, _, _, _),
         match imap !! iid with
         | Some li => let! l := in_db_heap (Course_init cid cname li) in ret [l]
         | None => ret []
         end) (mkDb h t c)
    = (Ok ((λ l, [l]) <$> seq (length (course_objs h)) (length crows)), mkDb h' t c) ∧
    for_each crows load_course (mkMem h fm)
    = (Ok tt,
       mkMem h' (mkFileManager
                   (students fm) (instructors fm)
                   (insert_all (courses fm) (course_row_id <$> crows)
                               (seq (length (course_objs h)) (length crows))))).
Proof.
  intros Himap. revert h fm Himap.
  induction crows as [|[[cid cname] iid] crows IH]; intros h fm Himap Hclean Hjoin Hfound Halloc.
  { exists h. split; [done|]. simpl. unfold ret. by destruct fm. }
  apply Forall_cons in Hclean as [[Hid Hname] Hclean].
  destruct (Hjoin (cid, cname, iid)) as [[[[n a] e] k] Hperson]; [apply list_elem_of_here|].
  destruct (Hfound (cid, cname, iid)) as [li Hli]; [apply list_elem_of_here|].
  simpl in Hperson, Hli.
  destruct (Course_init_ok h cid cname li Hid Hname (Halloc _ _ Hli))
    as (h1 & Hinit & Hlen_i & Hlen_c).
  destruct (IH h1 (mkFileManager (students fm) (instructors fm)
                                 (<[cid := length (course_objs h)]> (courses fm))))
    as (h' & Hrun & Hload); try done.
  { intros r Hr. apply Hjoin. by apply list_elem_of_further. }
  { intros r Hr. apply Hfound. by apply list_elem_of_further. }
  { intros k' l Hl. rewrite Hlen_i. by apply (Halloc k'). }
  exists h'. split.
  - cbn [omap list_omap]. unfold DatabaseManager.join_instructor at 1. rewrite Hperson.
    cbn [mbind option_bind]. cbn [list_comp]. rewrite Hli.
    rewrite (bind_run _ _ _ (mkDb h1 t c) [length (course_objs h)]).
    2:{ unfold bind, in_db_heap, zoom. cbn [db_heap dbm _cache]. by rewrite Hinit. }
    rewrite (bind_run _ _ _ _ _ Hrun). unfold ret. rewrite Hlen_c. done.
  - cbn [for_each].
    rewrite (bind_run _ _ _
               (mkMem h1 (mkFileManager (students fm) (instructors fm)
                                        (<[cid := length (course_objs h)]> (courses fm))))
               tt).
    2:{ rewrite <- Himap in Hli.
        unfold load_course, bind, gets, in_heap, zoom, modify, set_courses.
        cbn [heap datastore]. rewrite Hli. cbn [heap datastore]. by rewrite Hinit. }
    rewrite Hload. rewrite Hlen_c. done.
Qed.

(** The hydration, step by step: its three entity phases build the heap
    and the look-up maps that an import of the three entity tables builds,
    its enrollment loop then links the objects. *)
Lemma hydration_run (h : Heap) (t : Tables) :
  tables_ok t → rows_clean t →
  ∃ data h3 h',
    (for_each (instructors_t t) load_instructor >>
     for_each (students_t t) load_student >>
     for_each (courses_t t) load_course) (mkMem h empty_file_manager)
      = (Ok tt, mkMem h3 (mkFileManager (students_map data) (instructors_map data)
                                        (courses_map data))) ∧
    for_each (enrollments_t t) (λ '(sid, cid),
      match students_map data !! sid, courses_map data !! cid with
      | Some ls, Some lc =>
          in_db_heap (
            let! s := deref student_objs ls in
            store_student ls (mkStudent (student_person s) (student_id s)
                                        (registered_courses s ++ [lc])) >>
            let! c := deref course_objs lc in
            store_course lc (mkCourse (course_id c) (course_name c) (instructor c)
                                      (enrolled_students c ++ [ls])))
      | _, _ => ret tt
      end) (mkDb h3 t None)
      = (Ok tt, mkDb h' t None) ∧
    DatabaseDataManager._get_hydrated_data (mkDb h t None)
      = (Ok data, mkDb h' t (Some data)) ∧
    hy_students data = seq (length (student_objs h)) (length (students_t t)) ∧
    hy_instructors data = seq (length (instructor_objs h)) (length (instructors_t t)) ∧
    hy_courses data = seq (length (course_objs h)) (length (courses_t t)) ∧
    students_map data = insert_all ∅ (person_row_id <$> students_t t) (hy_students data) ∧
    instructors_map data
      = insert_all ∅ (person_row_id <$> instructors_t t) (hy_instructors data) ∧
    courses_map data = insert_all ∅ (course_row_id <$> courses_t t) (hy_courses data) ∧
    sound (hydrated_graph (mkDb h' t (Some data)) data) ∧
    view (hydrated_graph (mkDb h' t (Some data)) data)
      = view_of_rows (instructors_t t) (students_t t) (courses_t t) (enrollments_t t).
Proof.
  intros (Hnd_s & Hnd_i & Hnd_c & Hnd_e & Hfk & Hen) (Hci & Hcs & Hcc).
  destruct t as [S I C E]. cbn [students_t instructors_t courses_t enrollments_t] in *.
  set (t := mkTables S I C E).
  set (locs_s := seq (length (student_objs h)) (length S)).
  set (locs_i := seq (length (instructor_objs h)) (length I)).
  set (locs_c := seq (length (course_objs h)) (length C)).
  set (hS := set_student_objs (λ os, os ++ (student_of_row <$> S)) h).
  set (hSI := set_instructor_objs (λ os, os ++ (instructor_of_row <$> I)) hS).
  set (smap := insert_all ∅ (person_row_id <$> S) locs_s).
  set (imap := insert_all ∅ (person_row_id <$> I) locs_i).
  set (cmap := insert_all ∅ (course_row_id <$> C) locs_c).
  (* the look-up map of the instructors, before the courses are built *)
  assert (dict_of instructor_id locs_i (instructor_objs hSI) = imap) as Htemp.
  { unfold imap, locs_i. apply dict_of_insert_all.
    replace (person_row_id <$> I) with (instructor_id <$> (instructor_of_row <$> I)).
    - unfold hSI, hS, set_instructor_objs, set_student_objs. cbn [instructor_objs].
      rewrite <- (length_fmap instructor_of_row I). apply fresh_objects.
    - rewrite <- list_fmap_compose. apply list_fmap_ext. by intros ? [[[? ?] ?] ?] _. }
  assert (length (person_row_id <$> S) = length locs_s) as Hlen_s.
  { unfold locs_s. by rewrite length_fmap, length_seq. }
  assert (length (person_row_id <$> I) = length locs_i) as Hlen_i.
  { unfold locs_i. by rewrite length_fmap, length_seq. }
  assert (length (course_row_id <$> C) = length locs_c) as Hlen_c.
  { unfold locs_c. by rewrite length_fmap, length_seq. }
  (* the courses *)
  destruct (hydrate_courses_sim t None imap C hSI (mkFileManager smap imap ∅))
    as (h3 & Hrun_c & Hload_c); try done.
  { intros r Hr. apply find_person_is_Some. by apply Hfk. }
  { intros r Hr. apply insert_all_is_Some; [done|done|by apply Hfk]. }
  { intros k l Hl. apply insert_all_elem in Hl as [Hl|Hl]; [|by rewrite lookup_empty in Hl].
    unfold locs_i in Hl. apply elem_of_seq in Hl. unfold hSI, hS, set_instructor_objs,
      set_student_objs. cbn [instructor_objs]. rewrite length_app, length_fmap. lia. }
  cbn [students instructors courses course_objs] in Hload_c.
  change (seq (length (course_objs hSI)) (length C)) with locs_c in Hrun_c, Hload_c.
  fold cmap in Hload_c.
  (* the same entities, as an import builds them *)
  destruct (load_entities_spec h I S C Hci Hcs Hcc)
    as (m1 & m2 & m3 & Hr1 & Hr2 & Hr3 & Hsound3 & Hnone3 & Hview3).
  pose proof Hr1 as Hrun1. pose proof Hr2 as Hrun2. pose proof Hr3 as Hrun3.
  rewrite (load_instructors_run I h empty_file_manager Hci) in Hr1. injection Hr1 as <-.
  rewrite (load_students_run S _ _ Hcs) in Hr2. injection Hr2 as <-.
  pose proof (eq_trans (eq_sym Hr3) Hload_c) as Hm3. injection Hm3 as ->.
  clear Hr3.
  (* the three look-up maps *)
  assert (dict_of student_id locs_s (student_objs h3) = smap) as Hsmap.
  { apply dict_of_sound; [done|done|]. intros k l Hl.
    destruct (sound_students _ Hsound3 k l Hl) as (s & Hs & Hk & _). by exists s. }
  assert (dict_of instructor_id locs_i (instructor_objs h3) = imap) as Himap.
  { apply dict_of_sound; [done|done|]. intros k l Hl.
    destruct (sound_instructors _ Hsound3 k l Hl) as (i & Hi & Hk & _). by exists i. }
  assert (dict_of course_id locs_c (course_objs h3) = cmap) as Hcmap.
  { apply dict_of_sound; [done|done|]. intros k l Hl.
    destruct (sound_courses _ Hsound3 k l Hl) as (c & Hc & Hk & _). by exists c. }
  (* the enrollments *)
  destruct (hydrate_links_spec smap imap cmap t None E h3 Hsound3)
    as (h4 & Hrun_e & Hsound4 & Hview4).
  exists (mkHydrated locs_s locs_i locs_c smap imap cmap), h3, h4.
  split_and!; try done.
  - cbn [students_map instructors_map courses_map].
    by rewrite (bind_run _ _ _ _ _ Hrun1), (bind_run _ _ _ _ _ Hrun2).
  - unfold DatabaseDataManager._get_hydrated_data. rewrite bind_gets. cbn [_cache].
    apply try_except_ok.
    unfold DatabaseManager.get_all_students, DatabaseManager.get_all_instructors,
      DatabaseManager.get_all_courses, DatabaseManager.get_all_enrollments.
    rewrite bind_in_dbm_gets. cbn beta. cbn [dbm db_heap _cache].
    rewrite bind_in_dbm_gets. cbn beta. cbn [dbm db_heap _cache].
    rewrite bind_in_dbm_gets. cbn beta. cbn [dbm db_heap _cache].
    rewrite bind_in_dbm_gets. cbn beta. cbn [dbm db_heap _cache].
    cbn [students_t instructors_t courses_t enrollments_t t].
    rewrite (bind_run _ _ _ _ _ (hydrate_students_run t None S h Hcs)).
    rewrite (bind_run _ _ _ _ _ (hydrate_instructors_run t None I hS Hci)).
    rewrite bind_gets. cbn [db_heap].
    change (seq (length (instructor_objs hS)) (length I)) with locs_i.
    fold hSI. rewrite Htemp.
    rewrite (bind_run _ _ _ _ _ Hrun_c).
    rewrite bind_gets. cbn beta. rewrite bind_gets. cbn beta. rewrite bind_gets. cbn beta.
    cbn [db_heap]. rewrite concat_singletons.
    fold locs_s. rewrite Hsmap, Himap, Hcmap.
    rewrite (bind_run _ _ _ _ _ Hrun_e). reflexivity.
  - unfold hydrated_graph. cbn [db_heap students_map instructors_map courses_map].
    rewrite Hview4. unfold view_of_rows. by rewrite Hview3.
Qed.

Lemma hydration_spec (h : Heap) (t : Tables) :
  tables_ok t → rows_clean t →
  ∃ data h',
    DatabaseDataManager._get_hydrated_data (mkDb h t None)
      = (Ok data, mkDb h' t (Some data)) ∧
    hy_students data = seq (length (student_objs h)) (length (students_t t)) ∧
    hy_instructors data = seq (length (instructor_objs h)) (length (instructors_t t)) ∧
    hy_courses data = seq (length (course_objs h)) (length (courses_t t)) ∧
    students_map data = insert_all ∅ (person_row_id <$> students_t t) (hy_students data) ∧
    instructors_map data
      = insert_all ∅ (person_row_id <$> instructors_t t) (hy_instructors data) ∧
    courses_map data = insert_all ∅ (course_row_id <$> courses_t t) (hy_courses data) ∧
    sound (hydrated_graph (mkDb h' t (Some data)) data) ∧
    view (hydrated_graph (mkDb h' t (Some data)) data)
      = view_of_rows (instructors_t t) (students_t t) (courses_t t) (enrollments_t t).
Proof.
  intros Hok Hclean.
  destruct (hydration_run h t Hok Hclean) as (data & h3 & h' & _ & _ & Hrest).
  by exists data, h'.
Qed.

End Hydration.

(** ** The graph of a relational store, entry by entry *)

Section ViewOfTables.
Variables (I S : list person_row) (C : list course_row) (E : list (string * string)).
Hypothesis Hok : tables_ok (mkTables S I C E).

#[local] Abbreviation v1 := (foldl (flip view_add_instructor) empty_view I).
#[local] Abbreviation v2 := (foldl (flip view_add_student) v1 S).
#[local] Abbreviation v3 := (foldl (flip view_add_course) v2 C).

Lemma tables_instructor_entry n a e iid :
  (n, a, e, iid) ∈ I → v_instructors v2 !! iid = Some (mkPerson n a e, ∅).
Proof.
  destruct Hok as (Hnd_s & Hnd_i & Hnd_c & Hnd_e & Hfk & Hen). intros Hin.
  rewrite (proj1 (fold_add_student_others S v1)).
  by apply fold_add_instructor_present.
Qed.

Lemma tables_student_entry n a e sid :
  (n, a, e, sid) ∈ S → v_students v3 !! sid = Some (mkPerson n a e, ∅).
Proof.
  destruct Hok as (Hnd_s & Hnd_i & Hnd_c & Hnd_e & Hfk & Hen). intros Hin.
  rewrite fold_add_course_students. by apply fold_add_student_present.
Qed.

Lemma tables_course_entry cid cname iid :
  (cid, cname, iid) ∈ C → v_courses v3 !! cid = Some (cname, iid, ∅).
Proof.
  destruct Hok as (Hnd_s & Hnd_i & Hnd_c & Hnd_e & Hfk & Hen). intros Hin.
  simpl in *. apply fold_add_course_courses_present; [|done|].
  - by rewrite <- list_fmap_compose.
  - specialize (Hfk _ Hin). simpl in Hfk.
    apply list_elem_of_fmap in Hfk as ([[[n a] e] k] & Heq & Hk). simpl in Heq. subst iid.
    eexists. apply (tables_instructor_entry n a e k Hk).
Qed.

Lemma view_of_tables_student n a e sid :
  (n, a, e, sid) ∈ S →
  ∃ registered,
    v_students (view_of_rows I S C E) !! sid = Some (mkPerson n a e, registered) ∧
    ∀ cid, cid ∈ registered ↔ (sid, cid) ∈ E.
Proof.
  intros Hin.
  destruct (fold_enroll_students_some E v3 sid _ _ (tables_student_entry n a e sid Hin))
    as (registered & Hlook & Hreg).
  exists registered. split; [exact Hlook|]. intros cid. rewrite Hreg. split.
  - intros [Hc|[Hc _]]; [set_solver|done].
  - intros Hc. right. split; [done|].
    destruct Hok as (_ & _ & _ & _ & _ & Hen). destruct (Hen _ Hc) as [_ Hcid]. simpl in Hcid.
    apply list_elem_of_fmap in Hcid as ([[k cname] iid] & Heq & Hk). simpl in Heq. subst cid.
    eexists. apply (tables_course_entry k cname iid Hk).
Qed.

Lemma view_of_tables_no_student sid :
  sid ∉ person_row_id <$> S → v_students (view_of_rows I S C E) !! sid = None.
Proof.
  intros Hnin. apply fold_enroll_students_none. rewrite fold_add_course_students.
  rewrite fold_add_student_absent by done.
  by rewrite (proj1 (fold_add_instructor_others I empty_view)).
Qed.

Lemma view_of_tables_course cid cname iid :
  (cid, cname, iid) ∈ C →
  ∃ enrolled,
    v_courses (view_of_rows I S C E) !! cid = Some (cname, iid, enrolled) ∧
    ∀ sid, sid ∈ enrolled ↔ (sid, cid) ∈ E.
Proof.
  intros Hin.
  destruct (fold_enroll_courses_some E v3 cid _ _ _ (tables_course_entry cid cname iid Hin))
    as (enrolled & Hlook & Henr).
  exists enrolled. split; [exact Hlook|]. intros sid. rewrite Henr. split.
  - intros [Hs|[Hs _]]; [set_solver|done].
  - intros Hs. right. split; [done|].
    destruct Hok as (_ & _ & _ & _ & _ & Hen). destruct (Hen _ Hs) as [Hsid _]. simpl in Hsid.
    apply list_elem_of_fmap in Hsid as ([[[n a] e] k] & Heq & Hk). simpl in Heq. subst sid.
    eexists. apply (tables_student_entry n a e k Hk).
Qed.

Lemma view_of_tables_instructor n a e iid :
  (n, a, e, iid) ∈ I →
  ∃ assigned,
    v_instructors (view_of_rows I S C E) !! iid = Some (mkPerson n a e, assigned) ∧
    ∀ cid, cid ∈ assigned ↔ ∃ cname, (cid, cname, iid) ∈ C.
Proof.
  intros Hin. unfold view_of_rows. rewrite fold_enroll_instructors.
  destruct (fold_add_course_instructors_some C v2 iid _ _
              (tables_instructor_entry n a e iid Hin)) as (assigned & Hlook & Hass).
  exists assigned. split; [exact Hlook|]. intros cid. rewrite Hass. split.
  - intros [Hc|Hc]; [set_solver|done].
  - intros Hc. by right.
Qed.

End ViewOfTables.

Section StoreReads.
Context `{Validator}.

(** X17.  The hydration behind every read of the persistent manager, run on
    a store that satisfies the constraints of the schema and whose rows are
    as the constructors leave them, succeeds, leaves the tables as they are,
    caches its result, and builds one object per row: a graph whose entities
    and edges are those that an import of the four tables would build. *)
Theorem hydration_rebuilds_the_graph_of_the_tables (d : Db) :
  tables_ok (dbm d) → rows_clean (dbm d) →
  ∃ data d',
    (DatabaseDataManager._clear_cache >> DatabaseDataManager._get_hydrated_data) d
      = (Ok data, d') ∧
    dbm d' = dbm d ∧ _cache d' = Some data ∧
    length (hy_students data) = length (students_t (dbm d)) ∧
    length (hy_instructors data) = length (instructors_t (dbm d)) ∧
    length (hy_courses data) = length (courses_t (dbm d)) ∧
    sound (hydrated_graph d' data) ∧
    view (hydrated_graph d' data)
      = view_of_rows (instructors_t (dbm d)) (students_t (dbm d)) (courses_t (dbm d))
                     (enrollments_t (dbm d)).
Proof.
  intros Hok Hclean. destruct d as [h t c0]. cbn [dbm] in *.
  destruct (hydration_spec h t Hok Hclean)
    as (data & h' & Hrun & Hs & Hi & Hc & _ & _ & _ & Hsound & Hview).
  exists data, (mkDb h' t (Some data)).
  split_and!; try done.
  - by rewrite Hs, length_seq.
  - by rewrite Hi, length_seq.
  - by rewrite Hc, length_seq.
Qed.

Lemma hydrated_view (h : Heap) (t : Tables) (c0 : option Hydrated) :
  tables_ok t → rows_clean t →
  ∃ data h',
    (∀ A (k : Hydrated → M Db A),
       (DatabaseDataManager._clear_cache >>
        let! data := DatabaseDataManager._get_hydrated_data in k data) (mkDb h t c0)
       = k data (mkDb h' t (Some data))) ∧
    sound (mkMem h' (mkFileManager (students_map data) (instructors_map data)
                                   (courses_map data))) ∧
    view (mkMem h' (mkFileManager (students_map data) (instructors_map data)
                                  (courses_map data)))
      = view_of_rows (instructors_t t) (students_t t) (courses_t t) (enrollments_t t).
Proof.
  intros Hok Hclean.
  destruct (hydration_spec h t Hok Hclean)
    as (data & h' & Hrun & _ & _ & _ & _ & _ & _ & Hsound & Hview).
  exists data, h'. split_and!; [|done|done].
  intros A k.
  rewrite (bind_run _ _ _ (mkDb h t None) tt) by done.
  by rewrite (bind_run _ _ _ _ _ Hrun).
Qed.

Lemma get_student_spec (d : Db) (n : string) (a : Z) (e sid : string) :
  tables_ok (dbm d) → rows_clean (dbm d) →
  (n, a, e, sid) ∈ students_t (dbm d) →
  ∃ l d' registered,
    DatabaseDataManager.get_student sid d = (Ok l, d') ∧ dbm d' = dbm d ∧
    student_view (db_heap d') l = Some (mkPerson n a e, registered) ∧
    ∀ cid, cid ∈ registered ↔ (sid, cid) ∈ enrollments_t (dbm d).
Proof.
  destruct d as [h [S I C E] c0]. cbn [dbm students_t enrollments_t]. intros Hok Hclean Hin.
  destruct (hydrated_view h _ c0 Hok Hclean) as (data & h' & Hget & Hsound & Hview).
  destruct (view_of_tables_student I S C E Hok n a e sid Hin) as (registered & Hlook & Hreg).
  cbn [students_t instructors_t courses_t enrollments_t] in Hview.
  rewrite <- Hview in Hlook. unfold view in Hlook.
  cbn [v_students heap datastore students] in Hlook. rewrite lookup_omap in Hlook.
  destruct (students_map data !! sid) as [l|] eqn:Hl; [|done]. simpl in Hlook.
  exists l, (mkDb h' (mkTables S I C E) (Some data)), registered.
  split_and!; try done.
  unfold DatabaseDataManager.get_student. rewrite Hget. by rewrite Hl.
Qed.

Lemma get_student_unknown_spec (d : Db) (sid : string) :
  tables_ok (dbm d) → rows_clean (dbm d) →
  sid ∉ person_row_id <$> students_t (dbm d) →
  ∃ d', DatabaseDataManager.get_student sid d
          = (Raise (DataError (NotFound EStudent sid)), d') ∧ dbm d' = dbm d.
Proof.
  destruct d as [h [S I C E] c0]. cbn [dbm students_t enrollments_t]. intros Hok Hclean Hnin.
  destruct (hydrated_view h _ c0 Hok Hclean) as (data & h' & Hget & Hsound & Hview).
  pose proof (view_of_tables_no_student I S C E sid Hnin) as Hlook.
  cbn [students_t instructors_t courses_t enrollments_t] in Hview.
  rewrite <- Hview in Hlook. unfold view in Hlook.
  cbn [v_students heap datastore students] in Hlook. rewrite lookup_omap in Hlook.
  exists (mkDb h' (mkTables S I C E) (Some data)). split; [|done].
  unfold DatabaseDataManager.get_student. rewrite Hget.
  destruct (students_map data !! sid) as [l|] eqn:Hl; [|done]. simpl in Hlook.
  destruct (sound_students _ Hsound sid l Hl) as (s & Hs & _). simpl in Hs.
  unfold student_view in Hlook. by rewrite Hs in Hlook.
Qed.

Lemma get_instructor_spec (d : Db) (n : string) (a : Z) (e iid : string) :
  tables_ok (dbm d) → rows_clean (dbm d) →
  (n, a, e, iid) ∈ instructors_t (dbm d) →
  ∃ l d' assigned,
    DatabaseDataManager.get_instructor iid d = (Ok l, d') ∧ dbm d' = dbm d ∧
    instructor_view (db_heap d') l = Some (mkPerson n a e, assigned) ∧
    ∀ cid, cid ∈ assigned ↔ ∃ cname, (cid, cname, iid) ∈ courses_t (dbm d).
Proof.
  destruct d as [h [S I C E] c0]. cbn [dbm instructors_t courses_t]. intros Hok Hclean Hin.
  destruct (hydrated_view h _ c0 Hok Hclean) as (data & h' & Hget & Hsound & Hview).
  destruct (view_of_tables_instructor I S C E Hok n a e iid Hin)
    as (assigned & Hlook & Hass).
  cbn [students_t instructors_t courses_t enrollments_t] in Hview.
  rewrite <- Hview in Hlook. unfold view in Hlook.
  cbn [v_instructors heap datastore instructors] in Hlook. rewrite lookup_omap in Hlook.
  destruct (instructors_map data !! iid) as [l|] eqn:Hl; [|done]. simpl in Hlook.
  exists l, (mkDb h' (mkTables S I C E) (Some data)), assigned.
  split_and!; try done.
  unfold DatabaseDataManager.get_instructor. rewrite Hget. by rewrite Hl.
Qed.

Lemma get_course_spec (d : Db) (cid cname iid : string) :
  tables_ok (dbm d) → rows_clean (dbm d) →
  (cid, cname, iid) ∈ courses_t (dbm d) →
  ∃ l d' enrolled,
    DatabaseDataManager.get_course cid d = (Ok l, d') ∧ dbm d' = dbm d ∧
    course_view (db_heap d') l = Some (cname, iid, enrolled) ∧
    ∀ sid, sid ∈ enrolled ↔ (sid, cid) ∈ enrollments_t (dbm d).
Proof.
  destruct d as [h [S I C E] c0]. cbn [dbm courses_t enrollments_t]. intros Hok Hclean Hin.
  destruct (hydrated_view h _ c0 Hok Hclean) as (data & h' & Hget & Hsound & Hview).
  destruct (view_of_tables_course I S C E Hok cid cname iid Hin) as (enrolled & Hlook & Henr).
  cbn [students_t instructors_t courses_t enrollments_t] in Hview.
  rewrite <- Hview in Hlook. unfold view in Hlook.
  cbn [v_courses heap datastore courses] in Hlook. rewrite lookup_omap in Hlook.
  destruct (courses_map data !! cid) as [l|] eqn:Hl; [|done]. simpl in Hlook.
  exists l, (mkDb h' (mkTables S I C E) (Some data)), enrolled.
  split_and!; try done.
  unfold DatabaseDataManager.get_course. rewrite Hget. by rewrite Hl.
Qed.

(** X18.  On such a store [get_student], [get_instructor] and [get_course]
    return the row they are asked for: an object with the fields of the
    row, registered in exactly the courses that [enrollments] pairs it with
    (teaching exactly the courses whose row names it; attended by exactly
    the students that [enrollments] pairs with it); [get_student] of an
    identifier that has no row raises [NotFound]. *)
Theorem store_reads_return_the_rows (d : Db) :
  tables_ok (dbm d) → rows_clean (dbm d) →
  (∀ n a e sid,
     (n, a, e, sid) ∈ students_t (dbm d) →
     ∃ l d' registered,
       DatabaseDataManager.get_student sid d = (Ok l, d') ∧ dbm d' = dbm d ∧
       student_view (db_heap d') l = Some (mkPerson n a e, registered) ∧
       ∀ cid, cid ∈ registered ↔ (sid, cid) ∈ enrollments_t (dbm d)) ∧
  (∀ sid,
     sid ∉ person_row_id <$> students_t (dbm d) →
     ∃ d', DatabaseDataManager.get_student sid d
             = (Raise (DataError (NotFound EStudent sid)), d') ∧ dbm d' = dbm d) ∧
  (∀ n a e iid,
     (n, a, e, iid) ∈ instructors_t (dbm d) →
     ∃ l d' assigned,
       DatabaseDataManager.get_instructor iid d = (Ok l, d') ∧ dbm d' = dbm d ∧
       instructor_view (db_heap d') l = Some (mkPerson n a e, assigned) ∧
       ∀ cid, cid ∈ assigned ↔ ∃ cname, (cid, cname, iid) ∈ courses_t (dbm d)) ∧
  (∀ cid cname iid,
     (cid, cname, iid) ∈ courses_t (dbm d) →
     ∃ l d' enrolled,
       DatabaseDataManager.get_course cid d = (Ok l, d') ∧ dbm d' = dbm d ∧
       course_view (db_heap d') l = Some (cname, iid, enrolled) ∧
       ∀ sid, sid ∈ enrolled ↔ (sid, cid) ∈ enrollments_t (dbm d)).
Proof.
  intros Hok Hclean. split_and!.
  - intros n a e sid Hin. by apply get_student_spec.
  - intros sid Hnin. by apply get_student_unknown_spec.
  - intros n a e iid Hin. by apply get_instructor_spec.
  - intros cid cname iid Hin. by apply get_course_spec.
Qed.

(** X19.  On a store that satisfies the constraints of the schema and holds
    clean rows, a student added through the persistent manager with clean
    fields under a new identifier is a new row, the other tables unchanged,
    and [get_student] returns it with these fields and no course. *)
Theorem store_add_student_then_get (d : Db) (n : string) (a : Z) (e sid : string) :
  tables_ok (dbm d) → rows_clean (dbm d) →
  student_row_clean (n, a, e, sid) →
  sid ∉ person_row_id <$> students_t (dbm d) →
  ∃ d1 l d2,
    DatabaseDataManager.add_student n a e sid d = (Ok tt, d1) ∧
    DatabaseDataManager.get_student sid d1 = (Ok l, d2) ∧
    student_view (db_heap d2) l = Some (mkPerson n a e, ∅) ∧
    dbm d2 = dbm d1 ∧
    students_t (dbm d1) = students_t (dbm d) ++ [(n, a, e, sid)] ∧
    instructors_t (dbm d1) = instructors_t (dbm d) ∧
    courses_t (dbm d1) = courses_t (dbm d) ∧
    enrollments_t (dbm d1) = enrollments_t (dbm d).
Proof.
  intros Hok Hclean [Hp [Hid Hstrip]] Hnew.
  pose proof (proj2 (find_person_None sid (students_t (dbm d))) Hnew) as Hfind.
  set (t1 := mkTables (students_t (dbm d) ++ [(n, a, e, sid)]) (instructors_t (dbm d))
                      (courses_t (dbm d)) (enrollments_t (dbm d))).
  set (d1 := mkDb (db_heap d) t1 (_cache d)).
  pose proof (Student_init_binds _ _ _ _ _
                (Student_init_clean n a e sid Hp (conj Hid Hstrip))) as H64.
  assert (DatabaseDataManager.add_student n a e sid d = (Ok tt, d1)) as Hadd.
  { unfold DatabaseDataManager.add_student.
    rewrite (bind_run _ _ d d (mkStudent (mkPerson n a e) sid [])).
    2:{ unfold try_except, lift_result.
        by rewrite (Student_init_clean n a e sid Hp (conj Hid Hstrip)). }
    unfold try_except, bind, in_dbm, zoom, DatabaseManager.get_student, gets. cbn beta.
    cbn [student_id]. rewrite Hfind. unfold DatabaseManager.add_student. rewrite H64.
    cbn beta iota. cbn [negb dbm]. by rewrite Hfind. }
  assert (tables_ok t1) as Hok1.
  { pose proof (add_student_tables_ok sid n a e (dbm d) Hok) as Hk.
    unfold DatabaseManager.add_student in Hk. rewrite H64 in Hk. cbn [negb] in Hk.
    by rewrite Hfind in Hk. }
  assert (rows_clean t1) as Hclean1.
  { destruct Hclean as (Hci & Hcs & Hcc). split_and!; try done. simpl.
    apply Forall_app. split; [done|]. by constructor. }
  destruct (get_student_spec d1 n a e sid Hok1 Hclean1)
    as (l & d2 & registered & Hget & Hdbm & Hview & Hreg).
  { simpl. apply elem_of_app. right. apply list_elem_of_here. }
  exists d1, l, d2. split_and!; try done.
  rewrite Hview. do 2 f_equal. apply set_eq. intros cid. rewrite Hreg. split; [|set_solver].
  intros Hcid. exfalso. apply Hnew.
  destruct Hok as (_ & _ & _ & _ & _ & Hen). by destruct (Hen _ Hcid) as [? _].
Qed.

(** X20.  On a store that satisfies the constraints of the schema and holds
    clean rows, an enrollment stored through the persistent manager is read
    back on both sides: after [enroll_student] of a stored student in a
    stored course, [get_student] returns the student registered in that
    course besides the earlier ones, and [get_course] returns the course
    attended by that student besides the earlier ones. *)
Theorem store_enroll_then_read (d : Db) (n : string) (a : Z) (e sid cid cname iid : string) :
  tables_ok (dbm d) → rows_clean (dbm d) →
  (n, a, e, sid) ∈ students_t (dbm d) → (cid, cname, iid) ∈ courses_t (dbm d) →
  (sid, cid) ∉ enrollments_t (dbm d) →
  ∃ d1,
    DatabaseDataManager.enroll_student sid cid d = (Ok tt, d1) ∧
    (∃ l d2 registered,
       DatabaseDataManager.get_student sid d1 = (Ok l, d2) ∧
       student_view (db_heap d2) l = Some (mkPerson n a e, registered) ∧
       ∀ k, k ∈ registered ↔ k = cid ∨ (sid, k) ∈ enrollments_t (dbm d)) ∧
    (∃ l d2 enrolled,
       DatabaseDataManager.get_course cid d1 = (Ok l, d2) ∧
       course_view (db_heap d2) l = Some (cname, iid, enrolled) ∧
       ∀ k, k ∈ enrolled ↔ k = sid ∨ (k, cid) ∈ enrollments_t (dbm d)).
Proof.
  intros Hok Hclean Hs Hc Hnew.
  assert (is_Some (DatabaseManager.find_person sid (students_t (dbm d)))) as [rs Hrs].
  { apply find_person_is_Some, list_elem_of_fmap. by exists (n, a, e, sid). }
  assert (is_Some (DatabaseManager.find_course cid (courses_t (dbm d)))) as [rc Hrc].
  { apply find_course_is_Some, list_elem_of_fmap. by exists (cid, cname, iid). }
  assert (is_Some (DatabaseManager.join_instructor (dbm d) rc)) as [jc Hjc].
  { apply find_course_Some in Hrc as [Hin _]. destruct rc as [[k kn] ki].
    destruct Hok as (_ & _ & _ & _ & Hfk & _). specialize (Hfk _ Hin). simpl in Hfk.
    apply find_person_is_Some in Hfk as [[[[? ?] ?] ?] Hri].
    unfold DatabaseManager.join_instructor. rewrite Hri. by eexists. }
  set (t1 := mkTables (students_t (dbm d)) (instructors_t (dbm d)) (courses_t (dbm d))
                      (enrollments_t (dbm d) ++ [(sid, cid)])).
  set (d1 := mkDb (db_heap d) t1 (_cache d)).
  assert (DatabaseManager.enroll_student sid cid (dbm d) = (Ok true, t1)) as Hrun.
  { unfold DatabaseManager.enroll_student.
    rewrite bool_decide_eq_false_2 by done. rewrite bool_decide_eq_true_2; [done|].
    split; by eexists. }
  assert (DatabaseDataManager.enroll_student sid cid d = (Ok tt, d1)) as Henroll.
  { unfold DatabaseDataManager.enroll_student.
    unfold try_except, bind, in_dbm, zoom, DatabaseManager.get_student,
      DatabaseManager.get_course, gets. cbn beta. rewrite Hrs. cbn [dbm]. rewrite Hrc.
    cbn [mbind option_bind]. rewrite Hjc. cbn beta iota. cbn [dbm db_heap _cache].
    by rewrite Hrun. }
  assert (tables_ok t1) as Hok1.
  { pose proof (enroll_student_tables_ok sid cid (dbm d) Hok) as Hk. by rewrite Hrun in Hk. }
  assert (rows_clean t1) as Hclean1 by done.
  exists d1. split; [done|]. split.
  - destruct (get_student_spec d1 n a e sid Hok1 Hclean1 Hs)
      as (l & d2 & registered & Hget & _ & Hview & Hreg).
    exists l, d2, registered. split_and!; try done. intros k. rewrite Hreg. simpl.
    rewrite elem_of_app, list_elem_of_singleton. split; [|intros [->|?]; auto].
    intros [?|[= ->]]; auto.
  - destruct (get_course_spec d1 cid cname iid Hok1 Hclean1 Hc)
      as (l & d2 & enrolled & Hget & _ & Hview & Henr).
    exists l, d2, enrolled. split_and!; try done. intros k. rewrite Henr. simpl.
    rewrite elem_of_app, list_elem_of_singleton. split; [|intros [->|?]; auto].
    intros [?|[= ->]]; auto.
Qed.

End StoreReads.

(** ** The reads of the persistent manager, at the scenario *)

Lemma store_campus_rows_clean : rows_clean (H:=Fallback.validator) (dbm StoreScenario.campus).
Proof.
  rewrite store_campus_tables. unfold rows_clean. simpl.
  split_and!; (constructor; [|constructor]); vm_compute; by split_and!.
Qed.

Lemma hydration_rebuilds_the_graph_of_the_tables_witness :
  ∃ data d',
    (DatabaseDataManager._clear_cache >>
     DatabaseDataManager._get_hydrated_data (H:=Fallback.validator)) StoreScenario.campus
      = (Ok data, d') ∧
    length (hy_students data) = length (students_t (dbm StoreScenario.campus)).
Proof.
  destruct (hydration_rebuilds_the_graph_of_the_tables (H:=Fallback.validator)
              StoreScenario.campus store_campus_tables_ok store_campus_rows_clean)
    as (data & d' & Hrun & _ & _ & Hlen & _).
  exists data, d'. split; [exact Hrun|exact Hlen].
Defined.

Lemma store_campus_john_row :
  ("John Doe", 20, "john.doe@lau.edu", "202401111") ∈ students_t (dbm StoreScenario.campus).
Proof. rewrite store_campus_tables. apply list_elem_of_here. Qed.

Lemma store_campus_course_row :
  ("EECE230", "Software Engineering", "199801234") ∈ courses_t (dbm StoreScenario.campus).
Proof. rewrite store_campus_tables. apply list_elem_of_here. Qed.

Lemma store_reads_return_the_rows_witness :
  ∃ l d' registered,
    DatabaseDataManager.get_student (H:=Fallback.validator) "202401111" StoreScenario.campus
      = (Ok l, d') ∧
    student_view (db_heap d') l
      = Some (mkPerson "John Doe" 20 "john.doe@lau.edu", registered) ∧
    "EECE230" ∈ registered.
Proof.
  destruct (proj1 (store_reads_return_the_rows (H:=Fallback.validator) StoreScenario.campus
                     store_campus_tables_ok store_campus_rows_clean)
              "John Doe" 20 "john.doe@lau.edu" "202401111" store_campus_john_row)
    as (l & d' & registered & Hget & _ & Hview & Hreg).
  exists l, d', registered. split; [exact Hget|]. split; [exact Hview|].
  apply Hreg. rewrite store_campus_tables. apply list_elem_of_here.
Defined.

Lemma jane_row_clean :
  student_row_clean (H:=Fallback.validator) ("Jane Dane", 21, "jane.dane@lau.edu", "202302222").
Proof. vm_compute. by split_and!. Qed.

Lemma jane_is_new : "202302222" ∉ person_row_id <$> students_t (dbm StoreScenario.campus).
Proof.
  rewrite store_campus_tables. simpl. intros Hin%list_elem_of_singleton. discriminate.
Qed.

Lemma store_add_student_then_get_witness :
  ∃ d1 l d2,
    DatabaseDataManager.add_student (H:=Fallback.validator)
      "Jane Dane" 21 "jane.dane@lau.edu" "202302222" StoreScenario.campus = (Ok tt, d1) ∧
    DatabaseDataManager.get_student (H:=Fallback.validator) "202302222" d1 = (Ok l, d2) ∧
    student_view (db_heap d2) l = Some (mkPerson "Jane Dane" 21 "jane.dane@lau.edu", ∅).
Proof.
  destruct (store_add_student_then_get (H:=Fallback.validator) StoreScenario.campus
              "Jane Dane" 21 "jane.dane@lau.edu" "202302222"
              store_campus_tables_ok store_campus_rows_clean jane_row_clean jane_is_new)
    as (d1 & l & d2 & Hadd & Hget & Hview & _).
  exists d1, l, d2. split; [exact Hadd|]. split; [exact Hget|exact Hview].
Defined.

(** The store of the scenario with a second student, not enrolled. *)
Lemma store_with_jane_tables :
  dbm (StoreScenario.add_jane StoreScenario.campus).2
  = mkTables [("John Doe", 20, "john.doe@lau.edu", "202401111");
              ("Jane Dane", 21, "jane.dane@lau.edu", "202302222")]
             [("Dr. Emily Smith", 45, "e.smith@university.edu", "199801234")]
             [("EECE230", "Software Engineering", "199801234")]
             [("202401111", "EECE230")].
Proof. vm_compute. reflexivity. Qed.

Lemma store_with_jane_ok :
  tables_ok (dbm (StoreScenario.add_jane StoreScenario.campus).2) ∧
  rows_clean (H:=Fallback.validator) (dbm (StoreScenario.add_jane StoreScenario.campus).2).
Proof.
  rewrite store_with_jane_tables. split.
  - unfold tables_ok. simpl. split_and!; try (apply NoDup_singleton).
    + apply NoDup_cons. split; [|apply NoDup_singleton].
      intros Hin%list_elem_of_singleton. discriminate.
    + intros c ->%list_elem_of_singleton. by apply list_elem_of_singleton.
    + intros e ->%list_elem_of_singleton. split; [apply list_elem_of_here|].
      by apply list_elem_of_singleton.
  - unfold rows_clean. simpl.
    split_and!; repeat constructor; vm_compute; by split_and!.
Qed.

Lemma store_enroll_then_read_witness :
  ∃ d1 l d2 registered,
    DatabaseDataManager.enroll_student "202302222" "EECE230"
      (StoreScenario.add_jane StoreScenario.campus).2 = (Ok tt, d1) ∧
    DatabaseDataManager.get_student (H:=Fallback.validator) "202302222" d1 = (Ok l, d2) ∧
    student_view (db_heap d2) l
      = Some (mkPerson "Jane Dane" 21 "jane.dane@lau.edu", registered) ∧
    "EECE230" ∈ registered.
Proof.
  assert (("Jane Dane", 21, "jane.dane@lau.edu", "202302222")
            ∈ students_t (dbm (StoreScenario.add_jane StoreScenario.campus).2)) as Hs.
  { rewrite store_with_jane_tables. apply list_elem_of_further, list_elem_of_here. }
  assert (("EECE230", "Software Engineering", "199801234")
            ∈ courses_t (dbm (StoreScenario.add_jane StoreScenario.campus).2)) as Hc.
  { rewrite store_with_jane_tables. apply list_elem_of_here. }
  assert (("202302222", "EECE230")
            ∉ enrollments_t (dbm (StoreScenario.add_jane StoreScenario.campus).2)) as Hnew.
  { rewrite store_with_jane_tables. simpl. intros Hin%list_elem_of_singleton. discriminate. }
  destruct (store_enroll_then_read (H:=Fallback.validator)
              (StoreScenario.add_jane StoreScenario.campus).2
              "Jane Dane" 21 "jane.dane@lau.edu" "202302222" "EECE230"
              "Software Engineering" "199801234"
              (proj1 store_with_jane_ok) (proj2 store_with_jane_ok) Hs Hc Hnew)
    as (d1 & Henroll & (l & d2 & registered & Hget & Hview & Hreg) & _).
  exists d1, l, d2, registered. split_and!; [exact Henroll|exact Hget|exact Hview|].
  apply Hreg. by left.
Defined.

(** ** Reassigning a course in the relational store *)

Lemma reassigned_rows (cid iid : string) (rows : list course_row) :
  NoDup (course_row_id <$> rows) →
  ∀ k kn ki,
    (k, kn, ki) ∈ (λ r : course_row,
                     if decide (course_row_id r = cid)
                     then (r.1.1, default r.1.2 None, default r.2 (Some iid))
                     else r) <$> rows ↔
    (k ≠ cid ∧ (k, kn, ki) ∈ rows) ∨ (k = cid ∧ ki = iid ∧ ∃ old, (cid, kn, old) ∈ rows).
Proof.
  intros Hnd k kn ki. rewrite list_elem_of_fmap. split.
  - intros ([[k' kn'] ki'] & Heq & Hin). simpl in Heq. case_decide as Hk; simpl in *.
    + injection Heq as -> -> ->. right. split_and!; try done. subst. by exists ki'.
    + injection Heq as -> -> ->. left. by split.
  - intros [[Hne Hin]|(-> & -> & old & Hin)].
    + exists (k, kn, ki). split; [|done]. simpl. by rewrite decide_False.
    + exists (cid, kn, old). split; [|done]. simpl. by rewrite decide_True.
Qed.

Section StoreReassign.
Context `{Validator}.

(** X21.  Reassigning a course through the persistent manager moves it:
    after [edit_course] with a new instructor, [get_course] returns the
    course with that instructor and the students it had, [get_instructor] of
    the new instructor lists the course, and [get_instructor] of the former
    one no longer does. *)
Theorem store_reassign_moves_the_course (d : Db) (cid cname iid : string) (li : nat)
    (i : Instructor) (n : string) (a : Z) (e : string) :
  tables_ok (dbm d) → rows_clean (dbm d) →
  PyStr.truthy cid = true →
  (cid, cname, iid) ∈ courses_t (dbm d) →
  instructor_objs (db_heap d) !! li = Some i →
  (n, a, e, instructor_id i) ∈ instructors_t (dbm d) →
  ∃ d1,
    DatabaseDataManager.edit_course (mkCourseKwargs (Some cid) None (Some li)) d = (Ok tt, d1) ∧
    (∃ l d2 enrolled,
       DatabaseDataManager.get_course cid d1 = (Ok l, d2) ∧
       course_view (db_heap d2) l = Some (cname, instructor_id i, enrolled) ∧
       ∀ sid, sid ∈ enrolled ↔ (sid, cid) ∈ enrollments_t (dbm d)) ∧
    (∃ l d2 assigned,
       DatabaseDataManager.get_instructor (instructor_id i) d1 = (Ok l, d2) ∧
       instructor_view (db_heap d2) l = Some (mkPerson n a e, assigned) ∧
       cid ∈ assigned) ∧
    (∀ n0 a0 e0,
       iid ≠ instructor_id i → (n0, a0, e0, iid) ∈ instructors_t (dbm d) →
       ∃ l d2 assigned,
         DatabaseDataManager.get_instructor iid d1 = (Ok l, d2) ∧
         instructor_view (db_heap d2) l = Some (mkPerson n0 a0 e0, assigned) ∧
         cid ∉ assigned).
Proof.
  intros Hok Hclean Hcid Hc Hi Hrow.
  assert (is_Some (DatabaseManager.find_course cid (courses_t (dbm d)))) as [rc Hrc].
  { apply find_course_is_Some, list_elem_of_fmap. by exists (cid, cname, iid). }
  assert (is_Some (DatabaseManager.join_instructor (dbm d) rc)) as [jc Hjc].
  { apply find_course_Some in Hrc as [Hin _]. destruct rc as [[k kn] ki].
    destruct Hok as (_ & _ & _ & _ & Hfk & _). specialize (Hfk _ Hin). simpl in Hfk.
    apply find_person_is_Some in Hfk as [[[[? ?] ?] ?] Hri].
    unfold DatabaseManager.join_instructor. rewrite Hri. by eexists. }
  assert (is_Some (DatabaseManager.find_person (instructor_id i) (instructors_t (dbm d))))
    as Hfound.
  { apply find_person_is_Some, list_elem_of_fmap. by exists (n, a, e, instructor_id i). }
  set (t1 := mkTables (students_t (dbm d)) (instructors_t (dbm d))
               ((λ r : course_row,
                   if decide (course_row_id r = cid)
                   then (r.1.1, default r.1.2 None, default r.2 (Some (instructor_id i)))
                   else r) <$> courses_t (dbm d))
               (enrollments_t (dbm d))).
  set (d1 := mkDb (db_heap d) t1 (_cache d)).
  assert (DatabaseManager.update_course cid
            (DatabaseManager.mkCourseFields None (Some (instructor_id i))) (dbm d)
          = (Ok true, t1)) as Hupdate.
  { unfold DatabaseManager.update_course. cbn [DatabaseManager.f_course_name
      DatabaseManager.f_instructor_id]. cbn beta iota zeta.
    rewrite !bool_decide_eq_true_2 by (done || by eexists). done. }
  assert (DatabaseDataManager.edit_course (mkCourseKwargs (Some cid) None (Some li)) d
          = (Ok tt, d1)) as Hedit.
  { unfold DatabaseDataManager.edit_course, truthy_str. cbn [kw_course_id]. rewrite Hcid.
    unfold try_except, bind, in_dbm, in_db_heap, zoom, DatabaseManager.get_course, gets, deref.
    cbn beta. rewrite Hrc. cbn [mbind option_bind]. rewrite Hjc.
    cbn [kw_instructor kw_course_name db_heap dbm _cache]. rewrite Hi.
    cbn beta iota. cbn [db_heap dbm _cache ret]. unfold ret. by rewrite Hupdate. }
  assert (tables_ok t1) as Hok1.
  { pose proof (update_course_tables_ok cid
                  (DatabaseManager.mkCourseFields None (Some (instructor_id i)))
                  (dbm d) Hok) as Hk. by rewrite Hupdate in Hk. }
  assert (rows_clean t1) as Hclean1.
  { destruct Hclean as (Hci & Hcs & Hcc). split_and!; try done. simpl.
    apply Forall_fmap. eapply Forall_impl; [exact Hcc|].
    intros [[k kn] ki] Hrowc. simpl. by case_decide. }
  pose proof (reassigned_rows cid (instructor_id i) (courses_t (dbm d))
                (proj1 (proj2 (proj2 Hok)))) as Hrows.
  exists d1. split; [done|]. split_and!.
  - destruct (get_course_spec d1 cid cname (instructor_id i) Hok1 Hclean1)
      as (l & d2 & enrolled & Hget & _ & Hview & Henr).
    { apply Hrows. right. split_and!; try done. by exists iid. }
    by exists l, d2, enrolled.
  - destruct (get_instructor_spec d1 n a e (instructor_id i) Hok1 Hclean1 Hrow)
      as (l & d2 & assigned & Hget & _ & Hview & Hass).
    exists l, d2, assigned. split_and!; try done.
    apply Hass. exists cname. apply Hrows. right. split_and!; try done. by exists iid.
  - intros n0 a0 e0 Hne Hrow0.
    destruct (get_instructor_spec d1 n0 a0 e0 iid Hok1 Hclean1 Hrow0)
      as (l & d2 & assigned & Hget & _ & Hview & Hass).
    exists l, d2, assigned. split_and!; try done.
    rewrite Hass. intros [kn Hin]. apply Hrows in Hin as [[? _]|(_ & ? & _)]; done.
Qed.

End StoreReassign.

(** ** Renaming a course *)

Section RenameCourse.
Context `{Validator}.




End RenameCourse.

(** ** An import establishes the invariants *)

Section ImportInvariants.
Context `{Validator}.

Lemma load_instructors_keep (rows : list person_row) (m : Mem) :
  graph_ok m → graph_nodup m →
  Forall instructor_row_clean rows → NoDup rows.*2 →
  (∀ r, r ∈ rows → instructors (datastore m) !! r.2 = None) →
  ∃ m', for_each rows load_instructor m = (Ok tt, m') ∧ graph_ok m' ∧ graph_nodup m' ∧
        students (datastore m') = students (datastore m) ∧
        courses (datastore m') = courses (datastore m).
Proof.
  revert m. induction rows as [|[[[n a] e] iid] rows IH]; intros m Hok Hnd Hclean Hids Hnew.
  { by exists m. }
  apply Forall_cons in Hclean as [[Hp Hid] Hclean].
  rewrite fmap_cons in Hids. apply NoDup_cons in Hids as [Hiid Hids].
  set (i := mkInstructor (mkPerson n a e) iid []).
  set (m1 := mkMem (set_instructor_objs (λ os, os ++ [i]) (heap m))
                   (mkFileManager (students (datastore m))
                      (<[iid := length (instructor_objs (heap m))]> (instructors (datastore m)))
                      (courses (datastore m)))).
  assert (load_instructor (n, a, e, iid) m = (Ok tt, m1)) as Hrun.
  { unfold load_instructor, bind, lift_result.
    by rewrite (Instructor_init_clean n a e iid Hp Hid). }
  assert (instructors (datastore m) !! iid = None) as Hfresh.
  { apply (Hnew (n, a, e, iid)). apply list_elem_of_here. }
  destruct (IH m1) as (m' & Hrun' & Hok' & Hnd' & Hs' & Hc'); try done.
  - by apply (graph_ok_new_instructor m i).
  - by apply (graph_nodup_new_instructor m i).
  - intros r Hr. simpl. rewrite lookup_insert_ne.
    + apply Hnew. by apply list_elem_of_further.
    + intros ->. apply Hiid. apply list_elem_of_fmap. by exists r.
  - exists m'. split_and!; try done. cbn [for_each]. by rewrite (bind_run _ _ _ _ _ Hrun).
Qed.

Lemma load_students_keep (rows : list person_row) (m : Mem) :
  graph_ok m → graph_nodup m →
  Forall student_row_clean rows → NoDup rows.*2 →
  (∀ r, r ∈ rows → students (datastore m) !! r.2 = None) →
  ∃ m', for_each rows load_student m = (Ok tt, m') ∧ graph_ok m' ∧ graph_nodup m' ∧
        instructors (datastore m') = instructors (datastore m) ∧
        courses (datastore m') = courses (datastore m).
Proof.
  revert m. induction rows as [|[[[n a] e] sid] rows IH]; intros m Hok Hnd Hclean Hids Hnew.
  { by exists m. }
  apply Forall_cons in Hclean as [[Hp Hid] Hclean].
  rewrite fmap_cons in Hids. apply NoDup_cons in Hids as [Hsid Hids].
  set (s := mkStudent (mkPerson n a e) sid []).
  set (m1 := mkMem (set_student_objs (λ os, os ++ [s]) (heap m))
                   (mkFileManager
                      (<[sid := length (student_objs (heap m))]> (students (datastore m)))
                      (instructors (datastore m)) (courses (datastore m)))).
  assert (load_student (n, a, e, sid) m = (Ok tt, m1)) as Hrun.
  { unfold load_student, bind, lift_result.
    by rewrite (Student_init_clean n a e sid Hp Hid). }
  assert (students (datastore m) !! sid = None) as Hfresh.
  { apply (Hnew (n, a, e, sid)). apply list_elem_of_here. }
  destruct (IH m1) as (m' & Hrun' & Hok' & Hnd' & Hs' & Hc'); try done.
  - by apply (graph_ok_new_student m s).
  - by apply (graph_nodup_new_student m s).
  - intros r Hr. simpl. rewrite lookup_insert_ne.
    + apply Hnew. by apply list_elem_of_further.
    + intros ->. apply Hsid. apply list_elem_of_fmap. by exists r.
  - exists m'. split_and!; try done. cbn [for_each]. by rewrite (bind_run _ _ _ _ _ Hrun).
Qed.

Lemma load_course_fresh (m : Mem) (cid cname iid : string) (li : nat) (i : Instructor) :
  graph_ok m → course_id_ok cid → course_name_ok cname →
  instructors (datastore m) !! iid = Some li →
  instructor_objs (heap m) !! li = Some i →
  courses (datastore m) !! cid = None →
  load_course (cid, cname, iid) m =
    (Ok tt,
     mkMem (mkHeap (student_objs (heap m))
                   (<[li := mkInstructor (instructor_person i) (instructor_id i)
                              (assigned_courses i ++ [length (course_objs (heap m))])]>
                      (instructor_objs (heap m)))
                   (course_objs (heap m) ++ [mkCourse cid cname li []]))
           (mkFileManager (students (datastore m)) (instructors (datastore m))
              (<[cid := length (course_objs (heap m))]> (courses (datastore m))))).
Proof.
  intros Hok Hid Hname Hli Hi Hnew. destruct m as [[hs hi hc] [ds di dc]]. simpl in *.
  destruct (ok_instructors _ Hok _ _ Hli) as (i' & Hi' & Hiid & _ & _ & Hlinks).
  simpl in *. rewrite Hi in Hi'. injection Hi' as <-.
  assert (cid ∉ course_ids (mkHeap hs hi (hc ++ [mkCourse cid cname li []]))
                           (assigned_courses i)) as Hfresh.
  { intros Hin. apply course_ids_elem in Hin as (lc0 & c0 & Hlc0 & Hc0 & Hcid0).
    simpl in Hc0. destruct (Hlinks lc0 Hlc0) as (c0' & Hc0' & Hdc & _).
    rewrite (lookup_app_l_Some _ _ _ _ Hc0') in Hc0. injection Hc0 as <-. congruence. }
  pose proof (Course_init_run (mkHeap hs hi hc) cid cname li i Hid Hname Hi) as Hinit.
  simpl in Hinit. rewrite (bool_decide_true _ Hfresh) in Hinit.
  unfold load_course, bind, gets, in_heap, zoom, modify, set_courses.
  cbn [datastore instructors heap]. rewrite Hli. cbn [datastore instructors heap].
  by rewrite Hinit.
Qed.

Lemma load_courses_keep (rows : list course_row) (m : Mem) :
  graph_ok m → graph_nodup m →
  Forall course_row_clean rows → NoDup (course_row_id <$> rows) →
  (∀ r, r ∈ rows → courses (datastore m) !! course_row_id r = None) →
  ∃ m', for_each rows load_course m = (Ok tt, m') ∧ graph_ok m' ∧ graph_nodup m' ∧
        students (datastore m') = students (datastore m) ∧
        instructors (datastore m') = instructors (datastore m).
Proof.
  revert m. induction rows as [|[[cid cname] iid] rows IH]; intros m Hok Hnd Hclean Hids Hnew.
  { by exists m. }
  apply Forall_cons in Hclean as [[Hid Hname] Hclean].
  rewrite fmap_cons in Hids. apply NoDup_cons in Hids as [Hcid Hids].
  assert (courses (datastore m) !! cid = None) as Hfresh.
  { apply (Hnew (cid, cname, iid)). apply list_elem_of_here. }
  destruct (instructors (datastore m) !! iid) as [li|] eqn:Hli.
  - destruct (ok_instructors _ Hok _ _ Hli) as (i & Hi & Hiid & _).
    pose proof (load_course_fresh m cid cname iid li i Hok Hid Hname Hli Hi Hfresh) as Hrun.
    match type of Hrun with _ = (_, ?m1) =>
      destruct (IH m1) as (m' & Hrun' & Hok' & Hnd' & Hs' & Hi') end; try done.
    + apply (graph_ok_new_course m cid cname li i); try done. by rewrite Hiid.
    + apply (graph_nodup_new_course m cid cname li i); try done. by rewrite Hiid.
    + intros r Hr. simpl. rewrite lookup_insert_ne.
      * apply Hnew. by apply list_elem_of_further.
      * intros Heq. apply Hcid. apply list_elem_of_fmap. by exists r.
    + exists m'. split_and!; try done. cbn [for_each]. by rewrite (bind_run _ _ _ _ _ Hrun).
  - assert (load_course (cid, cname, iid) m = (Ok tt, m)) as Hrun.
    { unfold load_course, bind, gets. by rewrite Hli. }
    destruct (IH m) as (m' & Hrun' & Hok' & Hnd' & Hs' & Hi'); try done.
    { intros r Hr. apply Hnew. by apply list_elem_of_further. }
    exists m'. split_and!; try done. cbn [for_each]. by rewrite (bind_run _ _ _ _ _ Hrun).
Qed.

Lemma load_enrollments_keep (rows : list (string * string)) (m : Mem) :
  graph_ok m → graph_nodup m →
  ∃ m', for_each rows load_enrollment m = (Ok tt, m') ∧ graph_ok m' ∧ graph_nodup m'.
Proof.
  revert m. induction rows as [|[sid cid] rows IH]; intros m Hok Hnd.
  { by exists m. }
  assert (∃ m1, load_enrollment (sid, cid) m = (Ok tt, m1) ∧ graph_ok m1 ∧ graph_nodup m1)
    as (m1 & Hrun & Hok1 & Hnd1).
  { destruct (students (datastore m) !! sid) as [ls|] eqn:Hls.
    2:{ exists m. split; [|done]. unfold load_enrollment, bind, gets. by rewrite Hls. }
    destruct (courses (datastore m) !! cid) as [lc|] eqn:Hlc.
    2:{ exists m. split; [|done]. unfold load_enrollment, bind, gets. by rewrite Hls, Hlc. }
    assert (load_enrollment (sid, cid) m = MemoryDataManager.enroll_student sid cid m) as Heq.
    { unfold load_enrollment, MemoryDataManager.enroll_student, bind, gets.
      by rewrite Hls, Hlc. }
    destruct (ok_students _ Hok _ _ Hls) as (s & Hs & _).
    destruct (ok_courses _ Hok _ _ Hlc) as (c & i & Hc & _).
    pose proof (enroll_student_keeps_ok m sid cid Hok) as Hok1.
    pose proof (enroll_student_keeps_nodup m sid cid Hok Hnd) as Hnd1.
    rewrite (enroll_student_run m sid cid ls lc s c Hok Hls Hs Hlc Hc) in Heq, Hok1, Hnd1.
    eexists. split; [exact Heq|]. by split. }
  destruct (IH m1 Hok1 Hnd1) as (m' & Hrun' & Hok' & Hnd').
  exists m'. split_and!; try done. cbn [for_each]. by rewrite (bind_run _ _ _ _ _ Hrun).
Qed.

Lemma graph_ok_cleared (h : Heap) : graph_ok (mkMem h empty_file_manager).
Proof. split; simpl; intros k l Hl; by rewrite lookup_empty in Hl. Qed.

Lemma graph_nodup_cleared (h : Heap) : graph_nodup (mkMem h empty_file_manager).
Proof. split_and!; simpl; intros k l o Hl; by rewrite lookup_empty in Hl. Qed.

(** The four loops, run on clean rows with unique identifiers from an
    emptied datastore, build a graph that satisfies the invariants. *)
Lemma load_rows_invariants (h : Heap) irows srows crows erows :
  Forall instructor_row_clean irows → Forall student_row_clean srows →
  Forall course_row_clean crows →
  NoDup irows.*2 → NoDup srows.*2 → NoDup (course_row_id <$> crows) →
  ∃ m', load_rows irows srows crows erows (mkMem h empty_file_manager) = (Ok tt, m') ∧
        graph_ok m' ∧ graph_nodup m' ∧
        sound m' ∧ view m' = view_of_rows irows srows crows erows.
Proof.
  intros Hi Hs Hc Hni Hns Hnc.
  destruct (load_instructors_keep irows (mkMem h empty_file_manager))
    as (m1 & Hr1 & Hok1 & Hnd1 & Hs1 & Hc1);
    [apply graph_ok_cleared|apply graph_nodup_cleared|done|done|done|].
  destruct (load_students_keep srows m1) as (m2 & Hr2 & Hok2 & Hnd2 & Hi2 & Hc2);
    try done.
  { intros r _. by rewrite Hs1. }
  destruct (load_courses_keep crows m2) as (m3 & Hr3 & Hok3 & Hnd3 & Hs3 & Hi3); try done.
  { intros r _. by rewrite Hc2, Hc1. }
  destruct (load_enrollments_keep erows m3 Hok3 Hnd3) as (m4 & Hr4 & Hok4 & Hnd4).
  destruct (load_rows_spec h irows srows crows erows Hi Hs Hc) as (m' & Hrun & Hsound & Hview).
  assert (load_rows irows srows crows erows (mkMem h empty_file_manager) = (Ok tt, m4))
    as Hrun4.
  { unfold load_rows.
    rewrite (bind_run _ _ _ _ _ Hr1), (bind_run _ _ _ _ _ Hr2), (bind_run _ _ _ _ _ Hr3).
    exact Hr4. }
  rewrite Hrun4 in Hrun. injection Hrun as <-.
  by exists m4.
Qed.

Lemma load_from_csv_invariants (irows srows : list person_row)
    (crows : list course_row) (erows : list (string * string)) (m0 : Mem) :
  Forall instructor_row_clean irows → Forall student_row_clean srows →
  Forall course_row_clean crows →
  NoDup irows.*2 → NoDup srows.*2 → NoDup (course_row_id <$> crows) →
  ∃ m', FileManager.load_from_csv
          (mkCsvDir (Some (person_csv <$> irows)) (Some (person_csv <$> srows))
                    (Some (course_csv <$> crows)) (Some erows)) m0 = (Ok tt, m') ∧
        graph_ok m' ∧ graph_nodup m' ∧
        view m' = view_of_rows irows srows crows erows.
Proof.
  intros Hi Hs Hc Hni Hns Hnc.
  destruct (load_rows_invariants (heap m0) irows srows crows erows Hi Hs Hc Hni Hns Hnc)
    as (m' & Hrun & Hok & Hnd & _ & Hview).
  exists m'. split_and!; try done.
  unfold load_rows in Hrun.
  destruct (for_each irows load_instructor (mkMem (heap m0) empty_file_manager))
    as [[[]|?] m1] eqn:Hr1; [|by rewrite (bind_raise _ _ _ _ _ Hr1) in Hrun].
  rewrite (bind_run _ _ _ _ _ Hr1) in Hrun.
  destruct (for_each srows load_student m1) as [[[]|?] m2] eqn:Hr2;
    [|by rewrite (bind_raise _ _ _ _ _ Hr2) in Hrun].
  rewrite (bind_run _ _ _ _ _ Hr2) in Hrun.
  destruct (for_each crows load_course m2) as [[[]|?] m3] eqn:Hr3;
    [|by rewrite (bind_raise _ _ _ _ _ Hr3) in Hrun].
  rewrite (bind_run _ _ _ _ _ Hr3) in Hrun.
  unfold FileManager.load_from_csv.
  rewrite (bind_run _ _ m0 (mkMem (heap m0) empty_file_manager) tt) by done.
  apply try_except_ok.
  cbn [instructors_csv students_csv courses_csv enrollments_csv].
  rewrite (bind_run _ _ _ m1 tt).
  2: { rewrite (bind_run _ _ _ _ (person_csv <$> irows)) by done.
       rewrite (for_each_fmap_ext person_csv id _ load_instructor).
       - by rewrite list_fmap_id.
       - intros r Hin s. apply instructor_csv_row.
         by apply (proj1 (Forall_forall _ _) Hi). }
  rewrite (bind_run _ _ _ m2 tt).
  2: { rewrite (bind_run _ _ _ _ (person_csv <$> srows)) by done.
       rewrite (for_each_fmap_ext person_csv id _ load_student).
       - by rewrite list_fmap_id.
       - intros r Hin s. apply student_csv_row.
         by apply (proj1 (Forall_forall _ _) Hs). }
  rewrite (bind_run _ _ _ m3 tt).
  2: { rewrite (bind_run _ _ _ _ (course_csv <$> crows)) by done.
       rewrite (for_each_fmap_ext course_csv id _ load_course).
       - by rewrite list_fmap_id.
       - by intros [[cid cname] iid] _ s. }
  by rewrite (bind_run _ _ _ _ erows) by done.
Qed.

(** X23.  Importing four CSV files whose rows are as the constructors leave
    them, with unique identifiers in each of the three entity files, succeeds
    whatever the manager held before, and builds a graph that satisfies the
    invariants of the data model, lists no reference twice, and holds the
    entities and edges that the rows describe: a course whose instructor is
    not in the files is dropped, an enrollment whose student or course is not
    in the graph is skipped. *)
Theorem csv_import_establishes_the_invariants (irows srows : list person_row)
    (crows : list course_row) (erows : list (string * string)) (m0 : Mem) :
  Forall instructor_row_clean irows → Forall student_row_clean srows →
  Forall course_row_clean crows →
  NoDup irows.*2 → NoDup srows.*2 → NoDup (course_row_id <$> crows) →
  ∃ m', MemoryDataManager.data_from_csv
          (mkCsvDir (Some (person_csv <$> irows)) (Some (person_csv <$> srows))
                    (Some (course_csv <$> crows)) (Some erows)) m0 = (Ok tt, m') ∧
        graph_ok m' ∧ graph_nodup m' ∧
        view m' = view_of_rows irows srows crows erows.
Proof. apply load_from_csv_invariants. Qed.

Lemma load_from_json_invariants
    (ientries sentries : list (person_row * list string))
    (centries : list (course_row * list string)) (m0 : Mem) :
  Forall instructor_row_clean ientries.*1 → Forall student_row_clean sentries.*1 →
  Forall course_row_clean centries.*1 →
  NoDup ientries.*1.*2 → NoDup sentries.*1.*2 → NoDup (course_row_id <$> centries.*1) →
  ∃ m', FileManager.load_from_json
          (JsonData (mkJsonDoc (Some (student_json <$> sentries))
                               (Some (instructor_json <$> ientries))
                               (Some (course_json <$> centries)))) m0 = (Ok tt, m') ∧
        graph_ok m' ∧ graph_nodup m' ∧
        view m' = view_of_rows ientries.*1 sentries.*1 centries.*1
                               (sentries ≫= entry_enrollments).
Proof.
  intros Hi Hs Hc Hni Hns Hnc.
  destruct (load_rows_invariants (heap m0) ientries.*1 sentries.*1 centries.*1
              (sentries ≫= entry_enrollments) Hi Hs Hc Hni Hns Hnc)
    as (m' & Hrun & Hok & Hnd & _ & Hview).
  exists m'. split_and!; try done.
  destruct (load_instructors_keep ientries.*1 (mkMem (heap m0) empty_file_manager))
    as (m1 & Hr1 & Hok1 & Hnd1 & Hs1 & Hc1);
    [apply graph_ok_cleared|apply graph_nodup_cleared|done|done|done|].
  destruct (load_students_keep sentries.*1 m1) as (m2 & Hr2 & Hok2 & Hnd2 & Hi2 & Hc2);
    try done.
  { intros r _. by rewrite Hs1. }
  destruct (load_courses_keep centries.*1 m2) as (m3 & Hr3 & _ & _ & Hs3 & _); try done.
  { intros r _. by rewrite Hc2, Hc1. }
  assert (∀ e, e ∈ sentries → is_Some (students (datastore m3) !! e.1.2)) as Hkeys.
  { intros e He. rewrite Hs3.
    pose proof (load_students_run sentries.*1 (heap m1) (datastore m1) Hs) as Hx.
    destruct m1 as [h1 fm1]. cbn [heap datastore] in Hx. rewrite Hr2 in Hx.
    injection Hx as ->. cbn [datastore students].
    apply insert_all_is_Some; [done|by rewrite length_fmap, length_seq|].
    apply list_elem_of_fmap. exists e.1. split; [done|].
    apply list_elem_of_fmap. by exists e. }
  unfold load_rows in Hrun.
  rewrite (bind_run _ _ _ _ _ Hr1), (bind_run _ _ _ _ _ Hr2) in Hrun.
  rewrite (bind_run _ _ _ _ _ Hr3) in Hrun.
  unfold FileManager.load_from_json.
  rewrite (bind_run _ _ m0 (mkMem (heap m0) empty_file_manager) tt) by done.
  cbn beta iota. cbn [doc_instructors doc_students doc_courses].
  rewrite (bind_run _ _ _ m1 tt).
  2: { rewrite (bind_run _ _ _ _ (instructor_json <$> ientries)) by done.
       rewrite (for_each_fmap_ext instructor_json fst _ load_instructor); [done|].
       by intros [[[[name age] email] iid] assigned] _ s. }
  rewrite (bind_run _ _ _ m2 tt).
  2: { rewrite (bind_run _ _ _ _ (student_json <$> sentries)) by done.
       rewrite (for_each_fmap_ext student_json fst _ load_student); [done|].
       by intros [[[[name age] email] sid] registered] _ s. }
  rewrite (bind_run _ _ _ m3 tt).
  2: { rewrite (bind_run _ _ _ _ (course_json <$> centries)) by done.
       rewrite (for_each_fmap_ext course_json fst _ load_course); [done|].
       intros [[[cid cname] iid] enrolled] _ s. simpl.
       unfold load_course, bind, item, gets, ret.
       by destruct (instructors (datastore s) !! iid). }
  rewrite (bind_run _ _ _ _ (student_json <$> sentries)) by done.
  by rewrite json_links_loop.
Qed.

(** X24.  The same for a JSON document: the entries of its three lists
    become the entities, the [registered_courses] of the student entries
    become the edges; the [assigned_courses] and [enrolled_students] that the
    entries carry are not read. *)
Theorem json_import_establishes_the_invariants
    (ientries sentries : list (person_row * list string))
    (centries : list (course_row * list string)) (m0 : Mem) :
  Forall instructor_row_clean ientries.*1 → Forall student_row_clean sentries.*1 →
  Forall course_row_clean centries.*1 →
  NoDup ientries.*1.*2 → NoDup sentries.*1.*2 → NoDup (course_row_id <$> centries.*1) →
  ∃ m', MemoryDataManager.data_from_json
          (JsonData (mkJsonDoc (Some (student_json <$> sentries))
                               (Some (instructor_json <$> ientries))
                               (Some (course_json <$> centries)))) m0 = (Ok tt, m') ∧
        graph_ok m' ∧ graph_nodup m' ∧
        view m' = view_of_rows ientries.*1 sentries.*1 centries.*1
                               (sentries ≫= entry_enrollments).
Proof. apply load_from_json_invariants. Qed.

End ImportInvariants.

(** ** Reassigning, renaming and importing, at the scenario *)

Lemma reassign_store_tables :
  dbm ReassignScenario.store
  = mkTables [("John Doe", 20, "john.doe@lau.edu", "202401111")]
             [("Dr. Emily Smith", 45, "e.smith@university.edu", "199801234");
              ("Dr. Alan Jones", 52, "a.jones@university.edu", "199505678")]
             [("EECE230", "Software Engineering", "199801234")]
             [("202401111", "EECE230")].
Proof. vm_compute. reflexivity. Qed.

Lemma reassign_store_ok :
  tables_ok (dbm ReassignScenario.store) ∧
  rows_clean (H:=Fallback.validator) (dbm ReassignScenario.store).
Proof.
  rewrite reassign_store_tables. split.
  - unfold tables_ok. simpl. split_and!; try (apply NoDup_singleton).
    + apply NoDup_cons. split; [|apply NoDup_singleton].
      intros Hin%list_elem_of_singleton. discriminate.
    + intros c ->%list_elem_of_singleton. apply list_elem_of_here.
    + intros e ->%list_elem_of_singleton. split; by apply list_elem_of_singleton.
  - unfold rows_clean. simpl.
    split_and!; repeat constructor; vm_compute; by split_and!.
Qed.

Lemma reassign_store_course :
  ("EECE230", "Software Engineering", "199801234") ∈ courses_t (dbm ReassignScenario.store).
Proof. rewrite reassign_store_tables. apply list_elem_of_here. Qed.

Lemma reassign_store_jones :
  instructor_objs (db_heap ReassignScenario.store) !! ReassignScenario.jones
    = Some ReassignScenario.jones_obj ∧
  ("Dr. Alan Jones", 52, "a.jones@university.edu", instructor_id ReassignScenario.jones_obj)
    ∈ instructors_t (dbm ReassignScenario.store).
Proof.
  split; [vm_compute; reflexivity|].
  rewrite reassign_store_tables. apply list_elem_of_further, list_elem_of_here.
Qed.

Lemma store_reassign_moves_the_course_witness :
  ∃ d1 l d2 assigned,
    DatabaseDataManager.edit_course
      (mkCourseKwargs (Some "EECE230") None (Some ReassignScenario.jones))
      ReassignScenario.store = (Ok tt, d1) ∧
    DatabaseDataManager.get_instructor (H:=Fallback.validator) "199505678" d1 = (Ok l, d2) ∧
    instructor_view (db_heap d2) l
      = Some (mkPerson "Dr. Alan Jones" 52 "a.jones@university.edu", assigned) ∧
    "EECE230" ∈ assigned.
Proof.
  destruct (store_reassign_moves_the_course (H:=Fallback.validator) ReassignScenario.store
              "EECE230" "Software Engineering" "199801234" ReassignScenario.jones
              ReassignScenario.jones_obj "Dr. Alan Jones" 52 "a.jones@university.edu"
              (proj1 reassign_store_ok) (proj2 reassign_store_ok) eq_refl
              reassign_store_course (proj1 reassign_store_jones) (proj2 reassign_store_jones))
    as (d1 & Hedit & _ & (l & d2 & assigned & Hget & Hview & Hin) & _).
  exists d1, l, d2, assigned. split_and!; [exact Hedit|exact Hget|exact Hview|exact Hin].
Defined.


Lemma scenario_rows_clean :
  Forall (instructor_row_clean (H:=Fallback.validator))
         [("Dr. Emily Smith", 45, "e.smith@university.edu", "199801234")] ∧
  Forall (student_row_clean (H:=Fallback.validator))
         [("John Doe", 20, "john.doe@lau.edu", "202401111")] ∧
  Forall course_row_clean [("EECE230", "Software Engineering", "199801234")].
Proof. split_and!; repeat constructor; vm_compute; by split_and!. Qed.

Lemma csv_import_establishes_the_invariants_witness :
  ∃ m', MemoryDataManager.data_from_csv (H:=Fallback.validator)
          (mkCsvDir
             (Some (person_csv <$> [("Dr. Emily Smith", 45, "e.smith@university.edu",
                                     "199801234")]))
             (Some (person_csv <$> [("John Doe", 20, "john.doe@lau.edu", "202401111")]))
             (Some (course_csv <$> [("EECE230", "Software Engineering", "199801234")]))
             (Some [("202401111", "EECE230")])) Scenario.campus = (Ok tt, m') ∧
        graph_ok (H:=Fallback.validator) m' ∧ graph_nodup m'.
Proof.
  destruct (csv_import_establishes_the_invariants (H:=Fallback.validator)
              [("Dr. Emily Smith", 45, "e.smith@university.edu", "199801234")]
              [("John Doe", 20, "john.doe@lau.edu", "202401111")]
              [("EECE230", "Software Engineering", "199801234")]
              [("202401111", "EECE230")] Scenario.campus
              (proj1 scenario_rows_clean) (proj1 (proj2 scenario_rows_clean))
              (proj2 (proj2 scenario_rows_clean))
              (NoDup_singleton _) (NoDup_singleton _) (NoDup_singleton _))
    as (m' & Hrun & Hok & Hnd & _).
  exists m'. split_and!; [exact Hrun|exact Hok|exact Hnd].
Defined.

Lemma json_import_establishes_the_invariants_witness :
  ∃ m', MemoryDataManager.data_from_json (H:=Fallback.validator)
          (JsonData
             (mkJsonDoc
                (Some (student_json <$> [(("John Doe", 20, "john.doe@lau.edu", "202401111"),
                                          ["EECE230"])]))
                (Some (instructor_json <$>
                         [(("Dr. Emily Smith", 45, "e.smith@university.edu", "199801234"),
                           ["EECE230"])]))
                (Some (course_json <$>
                         [(("EECE230", "Software Engineering", "199801234"),
                           ["202401111"])])))) Scenario.campus = (Ok tt, m') ∧
        graph_ok (H:=Fallback.validator) m' ∧ graph_nodup m'.
Proof.
  destruct (json_import_establishes_the_invariants (H:=Fallback.validator)
              [(("Dr. Emily Smith", 45, "e.smith@university.edu", "199801234"), ["EECE230"])]
              [(("John Doe", 20, "john.doe@lau.edu", "202401111"), ["EECE230"])]
              [(("EECE230", "Software Engineering", "199801234"), ["202401111"])]
              Scenario.campus
              (proj1 scenario_rows_clean) (proj1 (proj2 scenario_rows_clean))
              (proj2 (proj2 scenario_rows_clean))
              (NoDup_singleton _) (NoDup_singleton _) (NoDup_singleton _))
    as (m' & Hrun & Hok & Hnd & _).
  exists m'. split_and!; [exact Hrun|exact Hok|exact Hnd].
Defined.

(** ** Filling the relational store from a graph *)

Lemma NoDup_app_l_inv {A} (xs ys : list A) : NoDup (xs ++ ys) → NoDup xs.
Proof. by intros (? & _ & _)%NoDup_app. Qed.

Lemma NoDup_snoc_shift {A} (xs ys : list A) (y : A) :
  NoDup (xs ++ y :: ys) → y ∉ xs ∧ NoDup ((xs ++ [y]) ++ ys).
Proof.
  intros Hnd. split.
  - apply NoDup_app in Hnd as (_ & Hdisj & _). intros Hin. apply (Hdisj y Hin).
    apply list_elem_of_here.
  - by rewrite <- app_assoc.
Qed.

Section Populate.
Context `{Validator}.

Lemma populate_instructors_run (h : Heap) (c : option Hydrated) (ls : list nat)
    (t : Tables) :
  (∀ l, l ∈ ls → ∃ i, instructor_objs h !! l = Some i ∧
                      sqlite_integer (age (instructor_person i)) = true) →
  NoDup ((person_row_id <$> instructors_t t)
           ++ (person_row_id <$> omap (instructor_row_at h) ls)) →
  for_each ls (λ l,
    let! i := in_db_heap (deref instructor_objs l) in
    in_dbm (DatabaseManager.add_instructor (instructor_id i) (name (instructor_person i))
              (age (instructor_person i)) (_email (instructor_person i))) >> ret tt)
    (mkDb h t c)
  = (Ok tt,
     mkDb h (mkTables (students_t t) (instructors_t t ++ omap (instructor_row_at h) ls)
                      (courses_t t) (enrollments_t t)) c).
Proof.
  revert t. induction ls as [|l ls IH]; intros t Hobjs Hnd.
  { simpl. rewrite app_nil_r. by destruct t. }
  destruct (Hobjs l) as (i & Hi & H64); [apply list_elem_of_here|].
  cbn [omap list_omap] in *. unfold instructor_row_at at 1 in Hnd.
  unfold instructor_row_at at 1. rewrite Hi in *. cbn [mbind option_bind] in *.
  rewrite fmap_cons in Hnd. apply NoDup_snoc_shift in Hnd as [Hnew Hnd].
  change (person_row_id (person_fields _ _)) with (instructor_id i) in Hnew.
  apply find_person_None in Hnew.
  cbn [for_each].
  rewrite (bind_run _ _ _
             (mkDb h (mkTables (students_t t)
                               (instructors_t t
                                  ++ [person_fields (instructor_person i) (instructor_id i)])
                               (courses_t t) (enrollments_t t)) c) tt).
  2:{ unfold bind, in_db_heap, in_dbm, zoom, deref. cbn [db_heap dbm _cache]. rewrite Hi.
      cbn [db_heap dbm _cache]. unfold DatabaseManager.add_instructor.
      rewrite H64. cbn [negb]. by rewrite Hnew. }
  rewrite IH.
  - cbn [students_t instructors_t courses_t enrollments_t]. by rewrite <- app_assoc.
  - intros l' Hl'. apply Hobjs. by apply list_elem_of_further.
  - cbn [instructors_t]. by rewrite fmap_app.
Qed.

Lemma populate_students_run (h : Heap) (c : option Hydrated) (ls : list nat)
    (t : Tables) :
  (∀ l, l ∈ ls → ∃ s, student_objs h !! l = Some s ∧
                      sqlite_integer (age (student_person s)) = true) →
  NoDup ((person_row_id <$> students_t t)
           ++ (person_row_id <$> (omap (student_entry_at h) ls).*1)) →
  for_each ls (λ l,
    let! s := in_db_heap (deref student_objs l) in
    in_dbm (DatabaseManager.add_student (student_id s) (name (student_person s))
              (age (student_person s)) (_email (student_person s))) >> ret tt)
    (mkDb h t c)
  = (Ok tt,
     mkDb h (mkTables (students_t t ++ (omap (student_entry_at h) ls).*1) (instructors_t t)
                      (courses_t t) (enrollments_t t)) c).
Proof.
  revert t. induction ls as [|l ls IH]; intros t Hobjs Hnd.
  { simpl. rewrite app_nil_r. by destruct t. }
  destruct (Hobjs l) as (s & Hs & H64); [apply list_elem_of_here|].
  cbn [omap list_omap] in *. unfold student_entry_at at 1 in Hnd.
  unfold student_entry_at at 1. rewrite Hs in *. cbn [mbind option_bind] in *.
  rewrite !fmap_cons in Hnd. cbn [fst] in Hnd.
  apply NoDup_snoc_shift in Hnd as [Hnew Hnd].
  change (person_row_id (person_fields _ _)) with (student_id s) in Hnew.
  apply find_person_None in Hnew.
  cbn [for_each].
  rewrite (bind_run _ _ _
             (mkDb h (mkTables (students_t t
                                  ++ [person_fields (student_person s) (student_id s)])
                               (instructors_t t) (courses_t t) (enrollments_t t)) c) tt).
  2:{ unfold bind, in_db_heap, in_dbm, zoom, deref. cbn [db_heap dbm _cache]. rewrite Hs.
      cbn [db_heap dbm _cache]. unfold DatabaseManager.add_student.
      rewrite H64. cbn [negb]. by rewrite Hnew. }
  rewrite IH.
  - cbn [students_t instructors_t courses_t enrollments_t]. rewrite fmap_cons.
    by rewrite <- app_assoc.
  - intros l' Hl'. apply Hobjs. by apply list_elem_of_further.
  - cbn [students_t]. by rewrite fmap_app.
Qed.

Lemma populate_courses_run (h : Heap) (c : option Hydrated) (ls : list nat)
    (t : Tables) :
  (∀ l, l ∈ ls →
        ∃ c0 i, course_objs h !! l = Some c0 ∧ instructor_objs h !! instructor c0 = Some i ∧
                instructor_id i ∈ person_row_id <$> instructors_t t) →
  NoDup ((course_row_id <$> courses_t t) ++ (course_row_id <$> omap (course_row_at h) ls)) →
  for_each ls (λ l,
    let! c := in_db_heap (deref course_objs l) in
    let! i := in_db_heap (deref instructor_objs (instructor c)) in
    in_dbm (DatabaseManager.add_course (course_id c) (course_name c) (instructor_id i))
    >> ret tt)
    (mkDb h t c)
  = (Ok tt,
     mkDb h (mkTables (students_t t) (instructors_t t)
                      (courses_t t ++ omap (course_row_at h) ls) (enrollments_t t)) c).
Proof.
  revert t. induction ls as [|l ls IH]; intros t Hobjs Hnd.
  { simpl. rewrite app_nil_r. by destruct t. }
  destruct (Hobjs l) as (c0 & i & Hc & Hi & Hfk); [apply list_elem_of_here|].
  cbn [omap list_omap] in *. unfold course_row_at at 1 in Hnd.
  unfold course_row_at at 1. rewrite Hc in *. cbn [mbind option_bind] in *.
  rewrite Hi in *. cbn [mbind option_bind] in *.
  rewrite fmap_cons in Hnd. apply NoDup_snoc_shift in Hnd as [Hnew Hnd].
  change (course_row_id (_, _, _)) with (course_id c0) in Hnew.
  apply find_course_None in Hnew.
  apply find_person_is_Some in Hfk as [ri Hri].
  cbn [for_each].
  rewrite (bind_run _ _ _
             (mkDb h (mkTables (students_t t) (instructors_t t)
                               (courses_t t ++ [(course_id c0, course_name c0, instructor_id i)])
                               (enrollments_t t)) c) tt).
  2:{ unfold bind, in_db_heap, in_dbm, zoom, deref. cbn [db_heap dbm _cache]. rewrite Hc.
      cbn [db_heap dbm _cache]. rewrite Hi. cbn [db_heap dbm _cache].
      unfold DatabaseManager.add_course.
      rewrite Hnew. by rewrite Hri. }
  rewrite IH.
  - cbn [students_t instructors_t courses_t enrollments_t]. by rewrite <- app_assoc.
  - intros l' Hl'. destruct (Hobjs l') as (c1 & i1 & ? & ? & ?);
      [by apply list_elem_of_further|]. by exists c1, i1.
  - cbn [courses_t]. by rewrite fmap_app.
Qed.

Lemma populate_links_of (h : Heap) (c : option Hydrated) (sid : string) (lcs : list nat)
    (t : Tables) :
  (∀ lc, lc ∈ lcs →
         ∃ c0, course_objs h !! lc = Some c0 ∧
               course_id c0 ∈ course_row_id <$> courses_t t) →
  sid ∈ person_row_id <$> students_t t →
  NoDup (enrollments_t t ++ ((λ cid, (sid, cid)) <$> course_ids h lcs)) →
  for_each lcs (λ lc,
    let! c := in_db_heap (deref course_objs lc) in
    in_dbm (DatabaseManager.enroll_student sid (course_id c)) >> ret tt)
    (mkDb h t c)
  = (Ok tt,
     mkDb h (mkTables (students_t t) (instructors_t t) (courses_t t)
                      (enrollments_t t ++ ((λ cid, (sid, cid)) <$> course_ids h lcs))) c).
Proof.
  revert t. induction lcs as [|lc lcs IH]; intros t Hobjs Hsid Hnd.
  { simpl. rewrite app_nil_r. by destruct t. }
  destruct (Hobjs lc) as (c0 & Hc & Hfk); [apply list_elem_of_here|].
  unfold course_ids in *. cbn [omap list_omap] in *. rewrite Hc in *.
  cbn [fmap option_fmap option_map] in *.
  rewrite fmap_cons in Hnd. apply NoDup_snoc_shift in Hnd as [Hnew Hnd].
  cbn [for_each].
  rewrite (bind_run _ _ _
             (mkDb h (mkTables (students_t t) (instructors_t t) (courses_t t)
                               (enrollments_t t ++ [(sid, course_id c0)])) c) tt).
  2:{ unfold bind, in_db_heap, in_dbm, zoom, deref. cbn [db_heap dbm _cache]. rewrite Hc.
      cbn [db_heap dbm _cache]. unfold DatabaseManager.enroll_student.
      rewrite bool_decide_eq_false_2 by done.
      rewrite bool_decide_eq_true_2; [done|].
      split; [by apply find_person_is_Some|by apply find_course_is_Some]. }
  rewrite IH.
  - cbn [students_t instructors_t courses_t enrollments_t]. rewrite fmap_cons.
    by rewrite <- app_assoc.
  - intros lc' Hlc'. apply Hobjs. by apply list_elem_of_further.
  - done.
  - done.
Qed.

Lemma populate_links_run (h : Heap) (c : option Hydrated) (ls : list nat) (t : Tables) :
  (∀ l, l ∈ ls →
        ∃ s, student_objs h !! l = Some s ∧
             student_id s ∈ person_row_id <$> students_t t ∧
             ∀ lc, lc ∈ registered_courses s →
                   ∃ c0, course_objs h !! lc = Some c0 ∧
                         course_id c0 ∈ course_row_id <$> courses_t t) →
  NoDup (enrollments_t t ++ (omap (student_entry_at h) ls ≫= entry_enrollments)) →
  for_each ls (λ l,
    let! s := in_db_heap (deref student_objs l) in
    for_each (registered_courses s) (λ lc,
      let! c := in_db_heap (deref course_objs lc) in
      in_dbm (DatabaseManager.enroll_student (student_id s) (course_id c)) >> ret tt))
    (mkDb h t c)
  = (Ok tt,
     mkDb h (mkTables (students_t t) (instructors_t t) (courses_t t)
                      (enrollments_t t
                         ++ (omap (student_entry_at h) ls ≫= entry_enrollments))) c).
Proof.
  revert t. induction ls as [|l ls IH]; intros t Hobjs Hnd.
  { simpl. rewrite app_nil_r. by destruct t. }
  destruct (Hobjs l) as (s & Hs & Hsid & Hregs); [apply list_elem_of_here|].
  cbn [omap list_omap] in *. unfold student_entry_at at 1 in Hnd.
  unfold student_entry_at at 1. rewrite Hs in *. cbn [mbind option_bind] in *.
  rewrite bind_cons in Hnd. rewrite bind_cons.
  unfold entry_enrollments at 1 in Hnd. unfold entry_enrollments at 1.
  cbn [fst snd person_fields] in *.
  rewrite app_assoc in Hnd.
  cbn [for_each].
  rewrite (bind_run _ _ _
             (mkDb h (mkTables (students_t t) (instructors_t t) (courses_t t)
                        (enrollments_t t
                           ++ ((λ cid, (student_id s, cid))
                                 <$> course_ids h (registered_courses s)))) c) tt).
  2:{ unfold bind at 1. unfold in_db_heap at 1, zoom at 1, deref at 1.
      cbn [db_heap dbm _cache]. rewrite Hs.
      replace (mkDb (db_heap (mkDb h t c)) (dbm (mkDb h t c)) (_cache (mkDb h t c)))
        with (mkDb h t c) by done.
      apply populate_links_of; [done|done|]. by apply NoDup_app_l_inv in Hnd. }
  rewrite IH.
  - cbn [students_t instructors_t courses_t enrollments_t]. by rewrite <- app_assoc.
  - intros l' Hl'. destruct (Hobjs l') as (s' & ? & ? & ?);
      [by apply list_elem_of_further|]. by exists s'.
  - done.
Qed.


Lemma NoDup_omap_inj {A B} (f : A → option B) (xs : list A) :
  (∀ x y b, x ∈ xs → y ∈ xs → f x = Some b → f y = Some b → x = y) →
  NoDup xs → NoDup (omap f xs).
Proof.
  intros Hinj Hnd. induction Hnd as [|x xs Hx Hnd IH]; [constructor|].
  cbn [omap list_omap]. destruct (f x) as [b|] eqn:Hfx.
  - apply NoDup_cons. split.
    + intros (y & Hy & Hfy)%list_elem_of_omap.
      assert (x = y) as ->; [|done].
      apply (Hinj x y b); [apply list_elem_of_here|by apply list_elem_of_further|done|done].
    + apply IH. intros y z b' Hy Hz. apply Hinj; by apply list_elem_of_further.
  - apply IH. intros y z b' Hy Hz. apply Hinj; by apply list_elem_of_further.
Qed.

Section PopulateGraph.
Variable m : Mem.
Hypothesis Hok : graph_ok m.
Hypothesis Hnd : graph_nodup m.

Lemma registered_ids_NoDup (k : string) (l : loc) (s : Student) :
  students (datastore m) !! k = Some l → student_objs (heap m) !! l = Some s →
  NoDup (course_ids (heap m) (registered_courses s)).
Proof.
  intros Hk Hs. destruct (ok_students m Hok k l Hk) as (s' & Hs' & _ & _ & _ & Hregs).
  rewrite Hs in Hs'. injection Hs' as <-.
  apply NoDup_omap_inj; [|by apply (proj1 Hnd k l s)].
  intros x y cid Hx Hy Hfx Hfy.
  destruct (Hregs x Hx) as (cx & Hcx & Hkx & _). destruct (Hregs y Hy) as (cy & Hcy & Hky & _).
  rewrite Hcx in Hfx. rewrite Hcy in Hfy. simpl in Hfx, Hfy.
  injection Hfx as Hfx. injection Hfy as Hfy. rewrite Hfx in Hkx. rewrite Hfy in Hky.
  congruence.
Qed.

Lemma student_entries_NoDup : NoDup (student_entries m).
Proof.
  apply (NoDup_fmap_1 (λ e : person_row * list string, e.1.2)).
  unfold student_entries, FileManager.student_values. apply omap_values_NoDup.
  intros k l Hk. destruct (ok_students m Hok k l Hk) as (s & Hs & Hid & _).
  eexists. unfold student_entry_at. rewrite Hs. simpl. by split.
Qed.

Lemma enrollment_rows_NoDup : NoDup (enrollment_rows m).
Proof.
  unfold enrollment_rows. apply NoDup_bind; [| |apply student_entries_NoDup].
  - intros [[[[n1 a1] e1] k1] r1] [[[[n2 a2] e2] k2] r2] [sid cid] H1 H2 Hin1 Hin2.
    unfold entry_enrollments in Hin1, Hin2. simpl in Hin1, Hin2.
    apply list_elem_of_fmap in Hin1 as (c1 & Heq1 & _).
    apply list_elem_of_fmap in Hin2 as (c2 & Heq2 & _).
    injection Heq1 as -> _. injection Heq2 as -> _.
    apply student_entries_elem in H1 as (l1 & s1 & Hl1 & Hs1 & Hp1 & ->); [|done].
    apply student_entries_elem in H2 as (l2 & s2 & Hl2 & Hs2 & Hp2 & ->); [|done].
    rewrite Hl1 in Hl2. injection Hl2 as <-. rewrite Hs1 in Hs2. injection Hs2 as <-.
    rewrite Hp1 in Hp2. by injection Hp2 as <- <- <-.
  - intros [[[[n a] e] k] r] Hin. unfold entry_enrollments. simpl.
    apply student_entries_elem in Hin as (l & s & Hl & Hs & _ & ->); [|done].
    apply NoDup_fmap_2; [by intros ?? [=]|]. by apply (registered_ids_NoDup k l s).
Qed.

Lemma populate_run (c : option Hydrated) :
  DatabaseDataManager._populate_db_from_file_manager (datastore m)
    (mkDb (heap m) empty_tables c)
  = (Ok tt, mkDb (heap m) (mkTables (student_rows m) (instructor_rows m) (course_rows m)
                                    (enrollment_rows m)) c).
Proof.
  assert (∀ l, l ∈ FileManager.instructor_values m →
            ∃ i, instructor_objs (heap m) !! l = Some i ∧
                 sqlite_integer (age (instructor_person i)) = true) as Hiobjs.
  { intros l [k Hk]%elem_of_values.
    destruct (ok_instructors m Hok k l Hk) as (i & Hi & _ & Hp & _). exists i.
    split; [done|]. exact (proj1 (Person_init_binds _ _ _ _ Hp)). }
  assert (NoDup (person_row_id <$> instructor_rows m)) as Hind.
  { unfold instructor_rows, FileManager.instructor_values. apply omap_values_NoDup.
    intros k l Hk. destruct (ok_instructors m Hok k l Hk) as (i & Hi & Hid & _).
    eexists. unfold instructor_row_at. rewrite Hi. simpl. by split. }
  assert (∀ l, l ∈ FileManager.student_values m →
            ∃ s, student_objs (heap m) !! l = Some s ∧
                 sqlite_integer (age (student_person s)) = true) as Hsobjs.
  { intros l [k Hk]%elem_of_values.
    destruct (ok_students m Hok k l Hk) as (s & Hs & _ & Hp & _). exists s.
    split; [done|]. exact (proj1 (Person_init_binds _ _ _ _ Hp)). }
  assert (NoDup (person_row_id <$> student_rows m)) as Hsnd.
  { unfold student_rows, student_entries, FileManager.student_values.
    rewrite <- list_fmap_compose.
    apply (omap_values_NoDup _ (person_row_id ∘ fst)).
    intros k l Hk. destruct (ok_students m Hok k l Hk) as (s & Hs & Hid & _).
    eexists. unfold student_entry_at. rewrite Hs. simpl. by split. }
  assert (∀ l, l ∈ FileManager.course_values m →
            ∃ c0 i, course_objs (heap m) !! l = Some c0 ∧
                    instructor_objs (heap m) !! instructor c0 = Some i ∧
                    instructor_id i ∈ person_row_id <$> instructor_rows m) as Hcobjs.
  { intros l [k Hk]%elem_of_values.
    destruct (ok_courses m Hok k l Hk) as (c0 & i & Hc0 & _ & _ & _ & Hi & Hki & _).
    exists c0, i. split_and!; [done|done|].
    apply list_elem_of_fmap.
    exists (person_fields (instructor_person i) (instructor_id i)). split; [done|].
    destruct (instructor_person i) as [n a e] eqn:Hp. unfold person_fields. simpl.
    apply instructor_rows_elem; [done|]. by exists (instructor c0), i. }
  assert (NoDup (course_row_id <$> course_rows m)) as Hcnd.
  { unfold course_rows, FileManager.course_values. apply omap_values_NoDup.
    intros k l Hk. destruct (ok_courses m Hok k l Hk) as (c0 & i & Hc0 & Hid & _ & _ & Hi & _).
    eexists. unfold course_row_at. rewrite Hc0. simpl. rewrite Hi. simpl. by split. }
  assert (∀ l, l ∈ FileManager.student_values m →
            ∃ s, student_objs (heap m) !! l = Some s ∧
                 student_id s ∈ person_row_id <$> student_rows m ∧
                 ∀ lc, lc ∈ registered_courses s →
                       ∃ c0, course_objs (heap m) !! lc = Some c0 ∧
                             course_id c0 ∈ course_row_id <$> course_rows m) as Hlinks.
  { intros l [k Hk]%elem_of_values.
    destruct (ok_students m Hok k l Hk) as (s & Hs & Hid & _ & _ & Hregs).
    exists s. split_and!; [done| |].
    - apply list_elem_of_fmap.
      exists (person_fields (student_person s) (student_id s)). split; [done|].
      destruct (student_person s) as [n a e] eqn:Hp. unfold person_fields. simpl.
      rewrite Hid. apply student_rows_elem; [done|]. by exists l, s.
    - intros lc Hlc. destruct (Hregs lc Hlc) as (c0 & Hc0 & Hkc & _).
      exists c0. split; [done|].
      destruct (ok_courses m Hok _ _ Hkc) as (c1 & i & Hc1 & _ & _ & _ & Hi & _).
      rewrite Hc0 in Hc1. injection Hc1 as <-.
      apply list_elem_of_fmap. exists (course_id c0, course_name c0, instructor_id i).
      split; [done|]. apply course_rows_elem; [done|]. by exists lc, c0, i. }
  pose proof (populate_instructors_run (heap m) c (FileManager.instructor_values m)
                empty_tables Hiobjs Hind) as R1.
  pose proof (populate_students_run (heap m) c (FileManager.student_values m)
                (mkTables [] (instructor_rows m) [] []) Hsobjs Hsnd) as R2.
  pose proof (populate_courses_run (heap m) c (FileManager.course_values m)
                (mkTables (student_rows m) (instructor_rows m) [] []) Hcobjs Hcnd) as R3.
  pose proof (populate_links_run (heap m) c (FileManager.student_values m)
                (mkTables (student_rows m) (instructor_rows m) (course_rows m) [])
                Hlinks enrollment_rows_NoDup) as R4.
  unfold DatabaseDataManager._populate_db_from_file_manager.
  rewrite (bind_run _ _ _ _ _ R1), (bind_run _ _ _ _ _ R2), (bind_run _ _ _ _ _ R3).
  exact R4.
Qed.

End PopulateGraph.


Lemma tables_ok_empty : tables_ok empty_tables.
Proof.
  unfold tables_ok, empty_tables. simpl.
  split_and!; try apply NoDup_nil_2; by intros ? ?%elem_of_nil.
Qed.

(** An import whose loader succeeds with a graph that satisfies the
    invariants. *)
Lemma import_with_spec (load : M Mem unit) (d : Db) (m' : Mem) :
  load (mkMem (db_heap d) empty_file_manager) = (Ok tt, m') →
  graph_ok m' → graph_nodup m' →
  ∃ d', DatabaseDataManager.import_with load d = (Ok tt, d') ∧
        _cache d' = _cache d ∧
        tables_ok (dbm d') ∧ rows_clean (dbm d') ∧
        view_of_rows (instructors_t (dbm d')) (students_t (dbm d')) (courses_t (dbm d'))
                     (enrollments_t (dbm d')) = view m' ∧
        ∃ data d'',
          (DatabaseDataManager._clear_cache >> DatabaseDataManager._get_hydrated_data) d'
            = (Ok data, d'') ∧
          dbm d'' = dbm d' ∧
          view (hydrated_graph d'' data) = view m'.
Proof.
  intros Hload Hok Hnd.
  set (t := mkTables (student_rows m') (instructor_rows m') (course_rows m')
                     (enrollment_rows m')).
  assert (DatabaseDataManager.import_with load d = (Ok tt, mkDb (heap m') t (_cache d)))
    as Hrun.
  { rewrite import_with_run, Hload. by apply populate_run. }
  assert (tables_ok t) as Ht.
  { pose proof (import_with_keeps load (mkDb (db_heap d) empty_tables (_cache d))
                  tables_ok_empty) as Hk.
    rewrite import_with_run in Hk. cbn [db_heap _cache] in Hk. rewrite Hload in Hk.
    by rewrite (populate_run m' Hok Hnd) in Hk. }
  assert (rows_clean t) as Hclean.
  { split_and!; [by apply instructor_rows_clean|by apply student_rows_clean|
                 by apply course_rows_clean]. }
  assert (view_of_rows (instructors_t t) (students_t t) (courses_t t) (enrollments_t t)
          = view m') as Hview by (by apply exported_rows_view).
  exists (mkDb (heap m') t (_cache d)). split_and!; try done.
  destruct (hydration_spec (heap m') t Ht Hclean)
    as (data & h' & Hhyd & _ & _ & _ & _ & _ & _ & _ & Hv).
  exists data, (mkDb h' t (Some data)). split_and!; [done|done|].
  by rewrite Hv.
Qed.

(** X25.  [data_from_csv] of the persistent manager, given four files whose
    rows are as the constructors leave them, with unique identifiers in each
    of the three entity files, replaces whatever the store held: it returns
    normally, leaves the cache as it was, and fills the tables with rows
    that satisfy the constraints of the schema and describe the graph of the
    files; the next read rebuilds that graph. *)
Theorem store_csv_import_fills_the_tables (irows srows : list person_row)
    (crows : list course_row) (erows : list (string * string)) (d : Db) :
  Forall instructor_row_clean irows → Forall student_row_clean srows →
  Forall course_row_clean crows →
  NoDup irows.*2 → NoDup srows.*2 → NoDup (course_row_id <$> crows) →
  ∃ d', DatabaseDataManager.data_from_csv
          (mkCsvDir (Some (person_csv <$> irows)) (Some (person_csv <$> srows))
                    (Some (course_csv <$> crows)) (Some erows)) d = (Imported, d') ∧
        _cache d' = _cache d ∧
        tables_ok (dbm d') ∧ rows_clean (dbm d') ∧
        view_of_rows (instructors_t (dbm d')) (students_t (dbm d')) (courses_t (dbm d'))
                     (enrollments_t (dbm d'))
          = view_of_rows irows srows crows erows ∧
        ∃ data d'',
          (DatabaseDataManager._clear_cache >> DatabaseDataManager._get_hydrated_data) d'
            = (Ok data, d'') ∧
          dbm d'' = dbm d' ∧
          view (hydrated_graph d'' data) = view_of_rows irows srows crows erows.
Proof.
  intros Hi Hs Hc Hni Hns Hnc.
  destruct (load_from_csv_invariants irows srows crows erows
              (mkMem (db_heap d) empty_file_manager) Hi Hs Hc Hni Hns Hnc)
    as (m' & Hload & Hok & Hnd & Hview).
  destruct (import_with_spec _ d m' Hload Hok Hnd)
    as (d' & Hrun & Hcache & Ht & Hclean & Hrows & data & d'' & Hhyd & Hdbm & Hv).
  exists d'. unfold DatabaseDataManager.data_from_csv. rewrite Hrun.
  split_and!; [done|done|done|done|by rewrite Hrows|].
  exists data, d''. split_and!; [done|done|by rewrite Hv].
Qed.

(** X26.  The same for [data_from_json] of the persistent manager and a
    document of clean entries with unique identifiers: the enrollments of
    the store are those that the [registered_courses] of the student entries
    describe. *)
Theorem store_json_import_fills_the_tables
    (ientries sentries : list (person_row * list string))
    (centries : list (course_row * list string)) (d : Db) :
  Forall instructor_row_clean ientries.*1 → Forall student_row_clean sentries.*1 →
  Forall course_row_clean centries.*1 →
  NoDup ientries.*1.*2 → NoDup sentries.*1.*2 → NoDup (course_row_id <$> centries.*1) →
  ∃ d', DatabaseDataManager.data_from_json
          (JsonData (mkJsonDoc (Some (student_json <$> sentries))
                               (Some (instructor_json <$> ientries))
                               (Some (course_json <$> centries)))) d = (Imported, d') ∧
        _cache d' = _cache d ∧
        tables_ok (dbm d') ∧ rows_clean (dbm d') ∧
        view_of_rows (instructors_t (dbm d')) (students_t (dbm d')) (courses_t (dbm d'))
                     (enrollments_t (dbm d'))
          = view_of_rows ientries.*1 sentries.*1 centries.*1
                         (sentries ≫= entry_enrollments) ∧
        ∃ data d'',
          (DatabaseDataManager._clear_cache >> DatabaseDataManager._get_hydrated_data) d'
            = (Ok data, d'') ∧
          dbm d'' = dbm d' ∧
          view (hydrated_graph d'' data)
            = view_of_rows ientries.*1 sentries.*1 centries.*1
                           (sentries ≫= entry_enrollments).
Proof.
  intros Hi Hs Hc Hni Hns Hnc.
  destruct (load_from_json_invariants ientries sentries centries
              (mkMem (db_heap d) empty_file_manager) Hi Hs Hc Hni Hns Hnc)
    as (m' & Hload & Hok & Hnd & Hview).
  destruct (import_with_spec _ d m' Hload Hok Hnd)
    as (d' & Hrun & Hcache & Ht & Hclean & Hrows & data & d'' & Hhyd & Hdbm & Hv).
  exists d'. unfold DatabaseDataManager.data_from_json. rewrite Hrun.
  split_and!; [done|done|done|done|by rewrite Hrows|].
  exists data, d''. split_and!; [done|done|by rewrite Hv].
Qed.

End Populate.

(** ** Importing into the store, at the scenario *)

Lemma store_csv_import_fills_the_tables_witness :
  ∃ d', DatabaseDataManager.data_from_csv (H:=Fallback.validator)
          (mkCsvDir
             (Some (person_csv <$> [("Dr. Emily Smith", 45, "e.smith@university.edu",
                                     "199801234")]))
             (Some (person_csv <$> [("John Doe", 20, "john.doe@lau.edu", "202401111")]))
             (Some (course_csv <$> [("EECE230", "Software Engineering", "199801234")]))
             (Some [("202401111", "EECE230")])) StoreScenario.campus = (Imported, d') ∧
        tables_ok (dbm d') ∧ rows_clean (H:=Fallback.validator) (dbm d').
Proof.
  destruct (store_csv_import_fills_the_tables (H:=Fallback.validator)
              [("Dr. Emily Smith", 45, "e.smith@university.edu", "199801234")]
              [("John Doe", 20, "john.doe@lau.edu", "202401111")]
              [("EECE230", "Software Engineering", "199801234")]
              [("202401111", "EECE230")] StoreScenario.campus
              (proj1 scenario_rows_clean) (proj1 (proj2 scenario_rows_clean))
              (proj2 (proj2 scenario_rows_clean))
              (NoDup_singleton _) (NoDup_singleton _) (NoDup_singleton _))
    as (d' & Hrun & _ & Ht & Hclean & _).
  exists d'. split_and!; [exact Hrun|exact Ht|exact Hclean].
Defined.

Lemma store_json_import_fills_the_tables_witness :
  ∃ d', DatabaseDataManager.data_from_json (H:=Fallback.validator)
          (JsonData
             (mkJsonDoc
                (Some (student_json <$> [(("John Doe", 20, "john.doe@lau.edu", "202401111"),
                                          ["EECE230"])]))
                (Some (instructor_json <$>
                         [(("Dr. Emily Smith", 45, "e.smith@university.edu", "199801234"),
                           ["EECE230"])]))
                (Some (course_json <$>
                         [(("EECE230", "Software Engineering", "199801234"),
                           ["202401111"])])))) StoreScenario.campus = (Imported, d') ∧
        tables_ok (dbm d') ∧ rows_clean (H:=Fallback.validator) (dbm d').
Proof.
  destruct (store_json_import_fills_the_tables (H:=Fallback.validator)
              [(("Dr. Emily Smith", 45, "e.smith@university.edu", "199801234"), ["EECE230"])]
              [(("John Doe", 20, "john.doe@lau.edu", "202401111"), ["EECE230"])]
              [(("EECE230", "Software Engineering", "199801234"), ["202401111"])]
              StoreScenario.campus
              (proj1 scenario_rows_clean) (proj1 (proj2 scenario_rows_clean))
              (proj2 (proj2 scenario_rows_clean))
              (NoDup_singleton _) (NoDup_singleton _) (NoDup_singleton _))
    as (d' & Hrun & _ & Ht & Hclean & _).
  exists d'. split_and!; [exact Hrun|exact Ht|exact Hclean].
Defined.

(** ** From the in-memory manager to the relational store *)

Section Migration.
Context `{Validator}.

Lemma exported_rows_unique (m : Mem) :
  graph_ok m →
  NoDup (instructor_rows m).*2 ∧ NoDup (student_rows m).*2 ∧
  NoDup (course_row_id <$> course_rows m).
Proof.
  intros Hok. split_and!.
  - rewrite (instructor_rows_keys m Hok). apply NoDup_fst_map_to_list.
  - rewrite (student_rows_keys m Hok). apply NoDup_fst_map_to_list.
  - replace (course_row_id <$> course_rows m) with (course_rows m).*1.*1.
    + rewrite (course_rows_keys m Hok). apply NoDup_fst_map_to_list.
    + by rewrite <- list_fmap_compose.
Qed.


End Migration.

(** ** Exporting the relational store *)

Section StoreExport.
Context `{Validator}.

(** The enrollment loop of the hydration keeps the invariants of the data
    model. *)
Lemma hydrate_links_ok (smap imap cmap : gmap string nat) (t : Tables)
    (c : option Hydrated) (erows : list (string * string)) (h h' : Heap) :
  graph_ok (mkMem h (mkFileManager smap imap cmap)) →
  for_each erows (λ '(sid, cid),
    match smap !! sid, cmap !! cid with
    | Some ls, Some lc =>
        in_db_heap (
          let! s := deref student_objs ls in
          store_student ls (mkStudent (student_person s) (student_id s)
                                      (registered_courses s ++ [lc])) >>
          let! c := deref course_objs lc in
          store_course lc (mkCourse (course_id c) (course_name c) (instructor c)
                                    (enrolled_students c ++ [ls])))
    | _, _ => ret tt
    end) (mkDb h t c) = (Ok tt, mkDb h' t c) →
  graph_ok (mkMem h' (mkFileManager smap imap cmap)).
Proof.
  revert h. induction erows as [|[sid cid] erows IH]; intros h Hok Hrun.
  { simpl in Hrun. unfold ret in Hrun. by injection Hrun as <-. }
  cbn [for_each] in Hrun.
  assert (∃ h1, (match smap !! sid, cmap !! cid with
                 | Some ls, Some lc =>
                     in_db_heap (
                       let! s := deref student_objs ls in
                       store_student ls (mkStudent (student_person s) (student_id s)
                                                   (registered_courses s ++ [lc])) >>
                       let! c := deref course_objs lc in
                       store_course lc (mkCourse (course_id c) (course_name c) (instructor c)
                                                 (enrolled_students c ++ [ls])))
                 | _, _ => ret tt
                 end) (mkDb h t c) = (Ok tt, mkDb h1 t c) ∧
                graph_ok (mkMem h1 (mkFileManager smap imap cmap)))
    as (h1 & Hrun1 & Hok1).
  { destruct (smap !! sid) as [ls|] eqn:Hls; [|by exists h].
    destruct (cmap !! cid) as [lc|] eqn:Hlc; [|by exists h].
    destruct (ok_students _ Hok sid ls Hls) as (s & Hs & _).
    destruct (ok_courses _ Hok cid lc Hlc) as (c0 & i0 & Hc & _).
    cbn [heap datastore] in Hs, Hc.
    eexists. split.
    - unfold in_db_heap, zoom, bind, deref, store_student, store_course, modify.
      cbn [db_heap dbm _cache]. rewrite Hs. cbn [set_student_objs course_objs].
      rewrite Hc. reflexivity.
    - exact (graph_ok_enrolled (mkMem h (mkFileManager smap imap cmap)) sid cid ls lc s c0
               Hok Hls Hs Hlc Hc). }
  rewrite (bind_run _ _ _ _ _ Hrun1) in Hrun. by apply (IH h1).
Qed.

(** The graph of a hydration satisfies the invariants of the data model. *)
Lemma hydration_graph_ok (h : Heap) (t : Tables) :
  tables_ok t → rows_clean t →
  ∃ data h',
    DatabaseDataManager._get_hydrated_data (mkDb h t None)
      = (Ok data, mkDb h' t (Some data)) ∧
    graph_ok (mkMem h' (mkFileManager (students_map data) (instructors_map data)
                                      (courses_map data))) ∧
    view (mkMem h' (mkFileManager (students_map data) (instructors_map data)
                                  (courses_map data)))
      = view_of_rows (instructors_t t) (students_t t) (courses_t t) (enrollments_t t).
Proof.
  intros Hok Hclean.
  destruct (hydration_run h t Hok Hclean)
    as (data & h3 & h' & Hentities & Hlinks & Hrun & _ & _ & _ & _ & _ & _ & _ & Hview).
  exists data, h'. split_and!; [done| |done].
  destruct Hok as (Hns & Hni & Hnc & _). destruct Hclean as (Hci & Hcs & Hcc).
  destruct (load_instructors_keep (instructors_t t) (mkMem h empty_file_manager))
    as (m1 & Hr1 & Hok1 & Hnd1 & Hs1 & Hc1);
    [apply graph_ok_cleared|apply graph_nodup_cleared|done|done|done|].
  destruct (load_students_keep (students_t t) m1) as (m2 & Hr2 & Hok2 & Hnd2 & Hi2 & Hc2);
    try done.
  { intros r _. by rewrite Hs1. }
  destruct (load_courses_keep (courses_t t) m2) as (m3 & Hr3 & Hok3 & _); try done.
  { intros r _. by rewrite Hc2, Hc1. }
  rewrite (bind_run _ _ _ _ _ Hr1), (bind_run _ _ _ _ _ Hr2), Hr3 in Hentities.
  injection Hentities as ->.
  by apply (hydrate_links_ok _ _ _ t None (enrollments_t t) h3 h').
Qed.

Lemma data_to_json_run (d : Db) :
  tables_ok (dbm d) → rows_clean (dbm d) →
  ∃ data h',
    let g := mkMem h' (mkFileManager (students_map data) (instructors_map data)
                                     (courses_map data)) in
    DatabaseDataManager.data_to_json d = (Ok (json_of g), mkDb h' (dbm d) (Some data)) ∧
    graph_ok g ∧
    view g = view_of_rows (instructors_t (dbm d)) (students_t (dbm d))
                          (courses_t (dbm d)) (enrollments_t (dbm d)).
Proof.
  intros Hok Hclean. destruct d as [h t c0]. cbn [dbm] in *.
  destruct (hydration_graph_ok h t Hok Hclean) as (data & h' & Hrun & Hg & Hview).
  exists data, h'. cbn zeta. split_and!; [|done|done].
  unfold DatabaseDataManager.data_to_json.
  rewrite (bind_run _ _ _ (mkDb h t None) tt) by done.
  rewrite (bind_run _ _ _ _ _ Hrun).
  unfold bind, on_file_manager, ret. cbn [db_heap dbm _cache].
  by rewrite (save_to_json_run _ Hg).
Qed.

(** X28.  [data_to_json] of the persistent manager, on a store that
    satisfies the constraints of the schema and whose rows are as the
    constructors leave them, succeeds and leaves the tables as they are; the
    document it writes is accepted by the imports of both managers, whatever
    they held: the in-memory manager then holds the graph that the tables
    describe, and a store that imports it holds tables that satisfy the
    constraints and describe the same graph. *)
Theorem store_json_export_round_trip (d : Db) :
  tables_ok (dbm d) → rows_clean (dbm d) →
  ∃ doc d1,
    DatabaseDataManager.data_to_json d = (Ok doc, d1) ∧ dbm d1 = dbm d ∧
    (∀ m0, ∃ m', MemoryDataManager.data_from_json (JsonData doc) m0 = (Ok tt, m') ∧
                 graph_ok m' ∧
                 view m' = view_of_rows (instructors_t (dbm d)) (students_t (dbm d))
                                        (courses_t (dbm d)) (enrollments_t (dbm d))) ∧
    (∀ d2, ∃ d3, DatabaseDataManager.data_from_json (JsonData doc) d2 = (Imported, d3) ∧
                 tables_ok (dbm d3) ∧ rows_clean (dbm d3) ∧
                 view_of_rows (instructors_t (dbm d3)) (students_t (dbm d3))
                              (courses_t (dbm d3)) (enrollments_t (dbm d3))
                   = view_of_rows (instructors_t (dbm d)) (students_t (dbm d))
                                  (courses_t (dbm d)) (enrollments_t (dbm d))).
Proof.
  intros Hok Hclean.
  destruct (data_to_json_run d Hok Hclean) as (data & h' & Hrun & Hg & Hview).
  cbn zeta in *.
  set (g := mkMem h' (mkFileManager (students_map data) (instructors_map data)
                                    (courses_map data))) in *.
  exists (json_of g), (mkDb h' (dbm d) (Some data)). split_and!; [done|done| |].
  - intros m0.
    destruct (exported_rows_unique g Hg) as (Hni & Hns & Hnc).
    pose proof (instructor_rows_clean g Hg) as Hci.
    pose proof (student_rows_clean g Hg) as Hcs.
    pose proof (course_rows_clean g Hg) as Hcc.
    rewrite <- (instructor_entries_rows g) in Hci, Hni.
    rewrite <- (course_entries_rows g) in Hcc, Hnc.
    destruct (load_from_json_invariants (instructor_entries g) (student_entries g)
                (course_entries g) m0 Hci Hcs Hcc Hni Hns Hnc)
      as (m' & Hload & Hok' & _ & Hview').
    exists m'. split_and!; [exact Hload|done|].
    rewrite Hview', instructor_entries_rows, course_entries_rows, <- Hview.
    by apply exported_rows_view.
  - intros d2.
    destruct (exported_rows_unique g Hg) as (Hni & Hns & Hnc).
    pose proof (instructor_rows_clean g Hg) as Hci.
    pose proof (student_rows_clean g Hg) as Hcs.
    pose proof (course_rows_clean g Hg) as Hcc.
    rewrite <- (instructor_entries_rows g) in Hci, Hni.
    rewrite <- (course_entries_rows g) in Hcc, Hnc.
    destruct (load_from_json_invariants (instructor_entries g) (student_entries g)
                (course_entries g) (mkMem (db_heap d2) empty_file_manager)
                Hci Hcs Hcc Hni Hns Hnc) as (m' & Hload & Hok' & Hnd' & Hview').
    destruct (import_with_spec _ d2 m' Hload Hok' Hnd')
      as (d3 & Hrun3 & _ & Ht & Hcl & Hrows & _).
    exists d3. split_and!; try done.
    + unfold DatabaseDataManager.data_from_json, json_of. by rewrite Hrun3.
    + rewrite Hrows, Hview', instructor_entries_rows, course_entries_rows, <- Hview.
      by apply exported_rows_view.
Qed.

End StoreExport.

(** ** Migration and export, at the scenario *)


Lemma store_json_export_round_trip_witness :
  ∃ doc d1, DatabaseDataManager.data_to_json (H:=Fallback.validator) StoreScenario.campus
              = (Ok doc, d1) ∧
            dbm d1 = dbm StoreScenario.campus.
Proof.
  destruct (store_json_export_round_trip (H:=Fallback.validator) StoreScenario.campus
              store_campus_tables_ok store_campus_rows_clean)
    as (doc & d1 & Hrun & Hdbm & _).
  exists doc, d1. split; [exact Hrun|exact Hdbm].
Defined.

(** ** A hydration leaves the earlier objects alone *)










Section HydrationFrame.
Context `{Validator}.




End HydrationFrame.

(** ** Graphs on a larger heap, and rows read off the view *)





Section LargerHeap.
Context `{Validator}.





End LargerHeap.

(** ** Exporting the relational store to CSV files *)

Section StoreCsvExport.
Context `{Validator}.






End StoreCsvExport.

